(** * apitestkit: load generation and metrics core

    A shallow embedding of [apitestkit/performance/metrics_collector.py]
    (class [MetricsCollector]) and [apitestkit/performance/load_generator.py]
    (class [LoadGenerator]), with the properties of the specification proved
    or refuted on it.

    Conventions of the embedding.
    - Python [int] is [Z]; Python [float] is an exact rational [Q] (no
      rounding, no NaN).  The one irrational operation of the source,
      [x ** 0.5], is a parameter of the development.
    - [dict]/[defaultdict] used as a map is a [gmap]; a [list] is a [list].
    - A [str] is the string of the bytes of its UTF-8 encoding; [len] and
      slices count characters, not bytes.
    - A method that mutates [self] is a state transformer; a method that can
      raise returns a [Res].
    - An exception is what the code can observe of it: the name of its class,
      the classes it is an instance of, and its [str()].  Only instances of
      [Exception] are modelled.
    - A user function (task, before, after, callback) is given by what each
      of its invocations does: return or raise, call [stop()] or not, and
      take some time.
    - The clock advances by one tick at each reading, by the time a user
      function takes and by the length of a sleep; a loop of the form
      [while time.time() < deadline ...] gets the iteration budget that
      this leaves it, and is proved never to exhaust it.
    - A thread pool is modelled by the schedule in which a submitted
      callable has run to completion when [submit] returns. *)

From Stdlib Require Import ZArith QArith Qround Qpower List String Ascii Bool Lia Lqa.
From Stdlib Require Import Sorting.Sorted Sorting.Permutation.
From stdpp Require Import gmap strings.

Local Open Scope string_scope.
Local Open Scope list_scope.
Local Open Scope Z_scope.

(** ** Python values shared by both classes *)

(** An instance of [Exception]: [exc_class_name] is
    [e.__class__.__name__], [exc_mro] lists the (qualified) names of the
    classes [e] is an instance of, [exc_str] is [str(e)]. *)
Record PyExc := mkExc {
  exc_class_name : string;
  exc_mro : list string;
  exc_str : string
}.

Definition isinstance (e : PyExc) (cls : string) : bool :=
  existsb (String.eqb cls) (exc_mro e).

(** The outcome of a call: a value, or a raised exception. *)
Inductive Res (A : Type) : Type :=
| Ok (a : A)
| Raise (e : PyExc).
Arguments Ok {A} a.
Arguments Raise {A} e.

#[export] Instance res_ret : MRet Res := fun A a => Ok a.
#[export] Instance res_bind : MBind Res := fun A B k r =>
  match r with
  | Ok a => k a
  | Raise e => Raise e
  end.

Definition ZeroDivisionError : PyExc :=
  mkExc "ZeroDivisionError" ["ZeroDivisionError"; "ArithmeticError"; "Exception"]
        "division by zero".
Definition IndexError : PyExc :=
  mkExc "IndexError" ["IndexError"; "LookupError"; "Exception"]
        "list index out of range".
Definition ValueError (msg : string) : PyExc :=
  mkExc "ValueError" ["ValueError"; "Exception"] msg.
Definition NameError (name : string) : PyExc :=
  mkExc "NameError" ["NameError"; "Exception"]
        ("name '" +:+ name +:+ "' is not defined").
Definition AttributeError (msg : string) : PyExc :=
  mkExc "AttributeError" ["AttributeError"; "Exception"] msg.

(** [a / b] on numbers. *)
Definition pydiv (a b : Q) : Res Q :=
  if Qeq_bool b 0 then Raise ZeroDivisionError else Ok (a / b)%Q.

(** [int(x)] on a float: truncation towards zero. *)
Definition py_int (x : Q) : Z := Z.quot (Qnum x) (Z.pos (Qden x)).

(** [l[i]], negative indices counting from the end. *)
Definition py_getitem {A} (l : list A) (i : Z) : Res A :=
  let n := Z.of_nat (length l) in
  let j := if i <? 0 then n + i else i in
  if (j <? 0) || (n <=? j) then Raise IndexError
  else match nth_error l (Z.to_nat j) with
       | Some x => Ok x
       | None => Raise IndexError
       end.

(** [sorted(l)] / [l.sort()]: the stable sort by [leb]. *)
Section Sort.
Context {A : Type} (leb : A -> A -> bool).

Fixpoint sort_insert (x : A) (l : list A) : list A :=
  match l with
  | [] => [x]
  | y :: l' => if leb x y then x :: l else y :: sort_insert x l'
  end.

Fixpoint py_sorted (l : list A) : list A :=
  match l with
  | [] => []
  | x :: l' => sort_insert x (py_sorted l')
  end.
End Sort.

(** [sum], [min], [max] of a list of floats; [min] and [max] raise on []. *)
Definition py_sum (l : list Q) : Q := fold_left Qplus l 0%Q.

Definition py_min (l : list Q) : Res Q :=
  match l with
  | [] => Raise (ValueError "min() arg is an empty sequence")
  | x :: l' => Ok (fold_left (fun m y => if Qlt_le_dec y m then y else m) l' x)
  end.

Definition py_max (l : list Q) : Res Q :=
  match l with
  | [] => Raise (ValueError "max() arg is an empty sequence")
  | x :: l' => Ok (fold_left (fun m y => if Qlt_le_dec m y then y else m) l' x)
  end.

Definition py_minZ (l : list Z) : Res Z :=
  match l with
  | [] => Raise (ValueError "min() arg is an empty sequence")
  | x :: l' => Ok (fold_left Z.min l' x)
  end.

Definition py_maxZ (l : list Z) : Res Z :=
  match l with
  | [] => Raise (ValueError "max() arg is an empty sequence")
  | x :: l' => Ok (fold_left Z.max l' x)
  end.

Definition py_sumZ (l : list Z) : Z := fold_left Z.add l 0.

Definition len {A} (l : list A) : Z := Z.of_nat (length l).

(** [s.lower()] on ASCII text and [needle in hay] on strings. *)
Definition ascii_lower (c : ascii) : ascii :=
  let n := nat_of_ascii c in
  if (65 <=? n)%nat && (n <=? 90)%nat then ascii_of_nat (n + 32) else c.

Fixpoint lower (s : string) : string :=
  match s with
  | EmptyString => EmptyString
  | String c s' => String (ascii_lower c) (lower s')
  end.

Fixpoint is_prefix (p s : string) : bool :=
  match p, s with
  | EmptyString, _ => true
  | String a p', String b s' => Ascii.eqb a b && is_prefix p' s'
  | String _ _, EmptyString => false
  end.

Fixpoint str_in (needle hay : string) : bool :=
  is_prefix needle hay ||
  match hay with
  | EmptyString => false
  | String _ hay' => str_in needle hay'
  end.

(** [len(s)] and [s[:n]] on a [str]: a character is a byte that starts
    one, followed by the bytes that continue it (those from 128 to 191). *)
Definition is_continuation (c : ascii) : bool :=
  let n := nat_of_ascii c in (128 <=? n)%nat && (n <=? 191)%nat.

Fixpoint str_len (s : string) : nat :=
  match s with
  | EmptyString => O
  | String c s' => if is_continuation c then str_len s' else S (str_len s')
  end.

Fixpoint str_take (n : nat) (s : string) : string :=
  match s with
  | EmptyString => EmptyString
  | String c s' =>
      if is_continuation c then String c (str_take n s')
      else match n with
           | O => EmptyString
           | S n' => String c (str_take n' s')
           end
  end.

(** [d[k] += 1] on a [defaultdict(int)]. *)
Definition incr `{Countable K} (k : K) (d : gmap K Z) : gmap K Z :=
  <[k := default 0 (d !! k) + 1]> d.

(** Truthiness of an optional dict, an optional string, an optional int. *)
Definition dict_truthy `{Countable K} {V} (o : option (gmap K V)) : bool :=
  match o with
  | Some d => negb (bool_decide (d = ∅))
  | None => false
  end.

Definition str_truthy (o : option string) : bool :=
  match o with
  | Some s => negb (String.eqb s "")
  | None => false
  end.

Definition int_truthy (o : option Z) : bool :=
  match o with
  | Some z => negb (z =? 0)
  | None => false
  end.

Definition float_truthy (o : option Q) : bool :=
  match o with
  | Some q => negb (Qeq_bool q 0)
  | None => false
  end.

(** ** metrics_collector.py: class MetricsCollector *)

Module Metrics_collector.


(** The arguments of [record_request]. *)
Record Request := mkRequest {
  start_time : Q;
  end_time : Q;
  response_time : Q;
  status_code : option Z;
  success : bool;
  error : option string;
  additional_data : option (gmap string string);
  latency_breakdown : option (gmap string Q);
  connection_info : option (gmap string string)
}.

(** An entry of [self._requests]; [x or {}] has replaced [None] by [{}]. *)
Record RequestRecord := mkRequestRecord {
  rec_start_time : Q;
  rec_end_time : Q;
  rec_response_time : Q;
  rec_status_code : option Z;
  rec_success : bool;
  rec_error : option string;
  rec_additional_data : gmap string string;
  rec_latency_breakdown : gmap string Q;
  rec_connection_info : gmap string string
}.

(** A value of [self._metrics['transaction_metrics']]. *)
Record TxData := mkTxData {
  tx_total_requests : Z;
  tx_successful_requests : Z;
  tx_failed_requests : Z;
  tx_response_times : list Q
}.

(** An entry of [self._metrics['time_series']]. *)
Record TimeSeriesRecord := mkTimeSeriesRecord {
  ts_timestamp : Z;
  ts_total_requests : Z;
  ts_successful_requests : Z;
  ts_failed_requests : Z;
  ts_response_times : list Q
}.

(** An entry of [self._metrics['throughput_data']]. *)
Record ThroughputPoint := mkThroughputPoint {
  tp_timestamp : Q;
  tp_response_time : Q;
  tp_success : bool
}.

Record ConnectionMetrics := mkConnectionMetrics {
  total_connections : Z;
  failed_connections : Z;
  connection_errors : gmap string Z
}.

(** [self._metrics]. *)
Record Metrics := mkMetrics {
  total_requests : Z;
  successful_requests : Z;
  failed_requests : Z;
  response_times : list Q;
  status_codes : gmap Z Z;
  errors : gmap string Z;
  time_series : list TimeSeriesRecord;
  transaction_metrics : gmap string TxData;
  concurrent_users : Z;
  throughput_data : list ThroughputPoint;
  cpu_usage : list Q;
  memory_usage : list Q;
  latency_breakdown_samples : gmap string (list Q);
  connection_metrics : ConnectionMetrics
}.

(** The object: [_lock] is [true] once the lock has been created; the keys
    of [_last_per_second_data] are [('success', second)] ([true]) and
    [('failed', second)] ([false]). *)
Record MetricsCollector := mkMetricsCollector {
  _start_time : Q;
  _end_time : option Q;
  _requests : list RequestRecord;
  _metrics : Metrics;
  _lock : bool;
  _test_config : option (gmap string string);
  _last_per_second_data : gmap (bool * Z) Z
}.

Definition empty_metrics : Metrics :=
  {| total_requests := 0;
     successful_requests := 0;
     failed_requests := 0;
     response_times := [];
     status_codes := ∅;
     errors := ∅;
     time_series := [];
     transaction_metrics := ∅;
     concurrent_users := 0;
     throughput_data := [];
     cpu_usage := [];
     memory_usage := [];
     latency_breakdown_samples := ∅;
     connection_metrics :=
       {| total_connections := 0; failed_connections := 0;
          connection_errors := ∅ |} |}.

(** [__init__], at clock reading [now]. *)
Definition init (now : Q) : MetricsCollector :=
  {| _start_time := now;
     _end_time := None;
     _requests := [];
     _metrics := empty_metrics;
     _lock := false;
     _test_config := None;
     _last_per_second_data := ∅ |}.

Definition set_metrics (m : Metrics) (self : MetricsCollector) : MetricsCollector :=
  {| _start_time := _start_time self;
     _end_time := _end_time self;
     _requests := _requests self;
     _metrics := m;
     _lock := _lock self;
     _test_config := _test_config self;
     _last_per_second_data := _last_per_second_data self |}.

(** [_simplify_error]. The patterns are matched against the lower-cased
    message, so those written with a capital never match. *)
Definition error_patterns : list (string * string) :=
  [ ("timeout", "请求超时");
    ("Connection refused", "连接被拒绝");
    ("Connection reset", "连接重置");
    ("Name or service not known", "域名解析失败");
    ("no route to host", "无法路由到主机");
    ("ssl", "SSL错误");
    ("certificate", "证书错误");
    ("400", "400错误请求");
    ("401", "401未授权");
    ("403", "403禁止访问");
    ("404", "404未找到");
    ("500", "500服务器错误");
    ("502", "502错误网关");
    ("503", "503服务不可用");
    ("504", "504网关超时") ].

Definition _simplify_error (error : string) : string :=
  let error_lower := lower error in
  match List.find (fun p => str_in (fst p) error_lower) error_patterns with
  | Some (_, simplified) => simplified
  | None =>
      str_take 50 error +:+
      (if (50 <? Z.of_nat (str_len error)) then "..." else "")
  end.

(** [_record_time_series_data]: the last record with this timestamp is
    updated in place; [None] when no record has it. *)
Definition ts_bump (success : bool) (response_time : Q) (r : TimeSeriesRecord)
  : TimeSeriesRecord :=
  {| ts_timestamp := ts_timestamp r;
     ts_total_requests := ts_total_requests r + 1;
     ts_successful_requests :=
       if success then ts_successful_requests r + 1 else ts_successful_requests r;
     ts_failed_requests :=
       if success then ts_failed_requests r else ts_failed_requests r + 1;
     ts_response_times :=
       if success then ts_response_times r ++ [response_time] else ts_response_times r |}.

Fixpoint ts_update_existing (timestamp : Z) (success : bool) (response_time : Q)
    (series : list TimeSeriesRecord) : option (list TimeSeriesRecord) :=
  match series with
  | [] => None
  | r :: rest =>
      match ts_update_existing timestamp success response_time rest with
      | Some rest' => Some (r :: rest')
      | None =>
          if ts_timestamp r =? timestamp
          then Some (ts_bump success response_time r :: rest)
          else None
      end
  end.

Definition _record_time_series_data (timestamp : Z) (success : bool)
    (response_time : Q) (series : list TimeSeriesRecord) : list TimeSeriesRecord :=
  match ts_update_existing timestamp success response_time series with
  | Some series' => series'
  | None =>
      series ++
      [ {| ts_timestamp := timestamp;
           ts_total_requests := 1;
           ts_successful_requests := if success then 1 else 0;
           ts_failed_requests := if success then 0 else 1;
           ts_response_times := if success then [response_time] else [] |} ]
  end.

Definition empty_tx : TxData :=
  {| tx_total_requests := 0; tx_successful_requests := 0;
     tx_failed_requests := 0; tx_response_times := [] |}.

(** The transaction branch of [record_request]. *)
Definition record_transaction (rq : Request) (txs : gmap string TxData)
  : gmap string TxData :=
  match additional_data rq ≫= (.!! "transaction_name") with
  | Some transaction_name =>
      let tx := default empty_tx (txs !! transaction_name) in
      <[transaction_name :=
          {| tx_total_requests := tx_total_requests tx + 1;
             tx_successful_requests :=
               if success rq then tx_successful_requests tx + 1
               else tx_successful_requests tx;
             tx_failed_requests :=
               if success rq then tx_failed_requests tx
               else tx_failed_requests tx + 1;
             tx_response_times :=
               if success rq then tx_response_times tx ++ [response_time rq]
               else tx_response_times tx |}]> txs
  | None => txs
  end.

(** [for k, v in latency_breakdown.items(): samples[k].append(v)]. *)
Definition record_latency (lb : option (gmap string Q))
    (samples : gmap string (list Q)) : gmap string (list Q) :=
  match lb with
  | Some d =>
      merge (fun old new =>
               match new with
               | Some v => Some (default [] old ++ [v])
               | None => old
               end) samples d
  | None => samples
  end.

(** The connection branch of [record_request]. *)
Definition record_connection (rq : Request) (cm : ConnectionMetrics)
  : ConnectionMetrics :=
  if dict_truthy (connection_info rq) then
    match (if success rq then None
           else connection_info rq ≫= (.!! "connection_error")) with
    | Some conn_error =>
        {| total_connections := total_connections cm + 1;
           failed_connections := failed_connections cm + 1;
           connection_errors := incr conn_error (connection_errors cm) |}
    | None =>
        {| total_connections := total_connections cm + 1;
           failed_connections := failed_connections cm;
           connection_errors := connection_errors cm |}
    end
  else cm.

(** [record_request]. *)
Definition record_request (rq : Request) (self : MetricsCollector)
  : MetricsCollector :=
  let m := _metrics self in
  let request_record :=
    {| rec_start_time := start_time rq;
       rec_end_time := end_time rq;
       rec_response_time := response_time rq;
       rec_status_code := status_code rq;
       rec_success := success rq;
       rec_error := error rq;
       rec_additional_data := default ∅ (additional_data rq);
       rec_latency_breakdown := default ∅ (latency_breakdown rq);
       rec_connection_info := default ∅ (connection_info rq) |} in
  let timestamp := py_int (start_time rq) in
  let second_key := py_int (start_time rq) in
  {| _start_time := _start_time self;
     _end_time := _end_time self;
     _requests := _requests self ++ [request_record];
     _metrics :=
       {| total_requests := total_requests m + 1;
          successful_requests :=
            if success rq then successful_requests m + 1 else successful_requests m;
          failed_requests :=
            if success rq then failed_requests m else failed_requests m + 1;
          response_times :=
            if success rq then response_times m ++ [response_time rq]
            else response_times m;
          status_codes :=
            match status_code rq with
            | Some code =>
                if success rq && int_truthy (status_code rq)
                then incr code (status_codes m) else status_codes m
            | None => status_codes m
            end;
          errors :=
            match error rq with
            | Some err =>
                if negb (success rq) && str_truthy (error rq)
                then incr (_simplify_error err) (errors m) else errors m
            | None => errors m
            end;
          time_series :=
            _record_time_series_data timestamp (success rq) (response_time rq)
              (time_series m);
          transaction_metrics := record_transaction rq (transaction_metrics m);
          concurrent_users := concurrent_users m;
          throughput_data :=
            throughput_data m ++
            [ {| tp_timestamp := start_time rq;
                 tp_response_time := response_time rq;
                 tp_success := success rq |} ];
          cpu_usage := cpu_usage m;
          memory_usage := memory_usage m;
          latency_breakdown_samples :=
            if dict_truthy (latency_breakdown rq)
            then record_latency (latency_breakdown rq) (latency_breakdown_samples m)
            else latency_breakdown_samples m;
          connection_metrics := record_connection rq (connection_metrics m) |};
     _lock := true;
     _test_config := _test_config self;
     _last_per_second_data :=
       incr (success rq, second_key) (_last_per_second_data self) |}.

(** [reset], [set_test_config], [update_concurrent_users], [finalize]. *)
Definition reset (now : Q) (self : MetricsCollector) : MetricsCollector :=
  {| _start_time := now;
     _end_time := None;
     _requests := [];
     _metrics := empty_metrics;
     _lock := _lock self;
     _test_config := None;
     _last_per_second_data := ∅ |}.

Definition set_test_config (config : gmap string string) (self : MetricsCollector)
  : MetricsCollector :=
  {| _start_time := _start_time self;
     _end_time := _end_time self;
     _requests := _requests self;
     _metrics := _metrics self;
     _lock := _lock self;
     _test_config := Some config;
     _last_per_second_data := _last_per_second_data self |}.

Definition update_concurrent_users (current_users : Z) (self : MetricsCollector)
  : MetricsCollector :=
  let m := _metrics self in
  {| _start_time := _start_time self;
     _end_time := _end_time self;
     _requests := _requests self;
     _metrics :=
       {| total_requests := total_requests m;
          successful_requests := successful_requests m;
          failed_requests := failed_requests m;
          response_times := response_times m;
          status_codes := status_codes m;
          errors := errors m;
          time_series := time_series m;
          transaction_metrics := transaction_metrics m;
          concurrent_users :=
            if concurrent_users m <? current_users then current_users
            else concurrent_users m;
          throughput_data := throughput_data m;
          cpu_usage := cpu_usage m;
          memory_usage := memory_usage m;
          latency_breakdown_samples := latency_breakdown_samples m;
          connection_metrics := connection_metrics m |};
     _lock := true;
     _test_config := _test_config self;
     _last_per_second_data := _last_per_second_data self |}.

Definition finalize (now : Q) (self : MetricsCollector) : MetricsCollector :=
  {| _start_time := _start_time self;
     _end_time := Some now;
     _requests := _requests self;
     _metrics := _metrics self;
     _lock := _lock self;
     _test_config := _test_config self;
     _last_per_second_data := _last_per_second_data self |}.

(** What [get_summary_metrics] returns under ['latency_stats'][k]. *)
Record LatencyStat := mkLatencyStat {
  lat_avg : Q;
  lat_min : Q;
  lat_max : Q;
  lat_p50 : Q;
  lat_p95 : Q;
  lat_count : Z
}.

(** What [get_summary_metrics] returns under ['connection_metrics']. *)
Record ConnectionSummary := mkConnectionSummary {
  cs_total_connections : Z;
  cs_failed_connections : Z;
  cs_connection_success_rate : Q;
  cs_connection_errors : gmap string Z
}.

(** The dictionary returned by [get_summary_metrics]. *)
Record Summary := mkSummary {
  s_total_requests : Z;
  s_successful_requests : Z;
  s_failed_requests : Z;
  s_success_rate : Q;
  s_test_duration : Q;
  s_rps : Q;
  s_successful_rps : Q;
  s_failed_rps : Q;
  s_max_rps : Z;
  s_min_rps : Z;
  s_avg_second_rps : Q;
  s_p95_rps : Z;
  s_max_success_rps : Z;
  s_avg_success_rps : Q;
  s_max_failed_rps : Z;
  s_avg_failed_rps : Q;
  s_throughput_variation : Q;
  s_avg_response_time : Q;
  s_min_response_time : Q;
  s_max_response_time : Q;
  s_p50_response_time : Q;
  s_p90_response_time : Q;
  s_p95_response_time : Q;
  s_p99_response_time : Q;
  s_p999_response_time : Q;
  s_response_time_std_dev : Q;
  s_max_concurrent_users : Z;
  s_latency_stats : gmap string LatencyStat;
  s_connection_metrics : ConnectionSummary;
  s_status_codes_distribution : gmap Z Z;
  s_errors_distribution : gmap string Z
}.

(** A value of the dictionary returned by [_get_transaction_metrics]. *)
Record TxSummary := mkTxSummary {
  txs_total_requests : Z;
  txs_successful_requests : Z;
  txs_failed_requests : Z;
  txs_success_rate : Q;
  txs_avg_response_time : Q;
  txs_min_response_time : Q;
  txs_max_response_time : Q;
  txs_p50_response_time : Q;
  txs_p90_response_time : Q;
  txs_p95_response_time : Q;
  txs_p99_response_time : Q
}.

(** [_calculate_test_duration]. *)
Definition _calculate_test_duration (self : MetricsCollector) : Res Q :=
  match _requests self with
  | [] => Ok 0%Q
  | _ :: _ =>
      if float_truthy (_end_time self)
      then Ok (default 0%Q (_end_time self) - _start_time self)%Q
      else
        first_request_time ← py_min (map rec_start_time (_requests self));
        last_request_time ← py_max (map rec_end_time (_requests self));
        Ok (last_request_time - first_request_time)%Q
  end.

(** [_calculate_percentile]; [zero] is the [0.0] returned on an empty list. *)
Definition _calculate_percentile {A} (zero : A) (sorted_list : list A)
    (percentile : Q) : Res A :=
  match sorted_list with
  | [] => Ok zero
  | _ :: _ =>
      let index := py_int (inject_Z (len sorted_list) * percentile / 100)%Q in
      let index := if len sorted_list <=? index then len sorted_list - 1 else index in
      py_getitem sorted_list index
  end.

(** [second_data[int(p['timestamp'])] += 1] over the data points kept. *)
Definition per_second (keep : ThroughputPoint -> bool)
    (points : list ThroughputPoint) : gmap Z Z :=
  fold_left (fun d p => if keep p then incr (py_int (tp_timestamp p)) d else d)
            points ∅.

Definition dict_values {V} `{Countable K} (d : gmap K V) : list V :=
  (map_to_list d).*2.

Definition Qleb (x y : Q) : bool := Qle_bool x y.

Definition sq (x : Q) : Q := (x * x)%Q.

Definition sort_response_times (self : MetricsCollector) : MetricsCollector :=
  let m := _metrics self in
  set_metrics
    {| total_requests := total_requests m;
       successful_requests := successful_requests m;
       failed_requests := failed_requests m;
       response_times := py_sorted Qleb (response_times m);
       status_codes := status_codes m;
       errors := errors m;
       time_series := time_series m;
       transaction_metrics := transaction_metrics m;
       concurrent_users := concurrent_users m;
       throughput_data := throughput_data m;
       cpu_usage := cpu_usage m;
       memory_usage := memory_usage m;
       latency_breakdown_samples := latency_breakdown_samples m;
       connection_metrics := connection_metrics m |} self.

Section Snapshot.
(** [x ** 0.5] on floats. *)
Variable pow_half : Q -> Q.

(** [_calculate_throughput_variation]. *)
Definition _calculate_throughput_variation (self : MetricsCollector) : Res Q :=
  let points := throughput_data (_metrics self) in
  if len points <? 2 then Ok 0%Q
  else
    let counts := dict_values (per_second (fun _ => true) points) in
    mean ← pydiv (inject_Z (py_sumZ counts)) (inject_Z (len counts));
    variance ← pydiv (py_sum (map (fun x => sq (inject_Z x - mean)) counts))
                     (inject_Z (len counts));
    Ok (pow_half variance).

(** One entry of [latency_stats]. *)
Definition latency_stat (latencies : list Q) : Res LatencyStat :=
  match latencies with
  | [] =>
      Ok {| lat_avg := 0; lat_min := 0; lat_max := 0; lat_p50 := 0;
            lat_p95 := 0; lat_count := 0 |}
  | _ :: _ =>
      avg ← pydiv (py_sum latencies) (inject_Z (len latencies));
      mn ← py_min latencies;
      mx ← py_max latencies;
      p50 ← _calculate_percentile 0%Q (py_sorted Qleb latencies) 50;
      p95 ← _calculate_percentile 0%Q (py_sorted Qleb latencies) 95;
      Ok {| lat_avg := avg; lat_min := mn; lat_max := mx; lat_p50 := p50;
            lat_p95 := p95; lat_count := len latencies |}
  end.

Definition latency_stats_of (samples : gmap string (list Q))
  : Res (gmap string LatencyStat) :=
  kvs ← mapM (fun kv : string * list Q =>
                st ← latency_stat kv.2; Ok (kv.1, st))
             (map_to_list samples);
  Ok (list_to_map kvs).

(** [get_summary_metrics], block by block.  The average rates: *)
Definition average_rates (test_duration : Q) (m : Metrics) : Res (Q * Q * Q) :=
  if Qlt_le_dec 0 test_duration then
    rps ← pydiv (inject_Z (total_requests m)) test_duration;
    successful_rps ← pydiv (inject_Z (successful_requests m)) test_duration;
    failed_rps ← pydiv (inject_Z (failed_requests m)) test_duration;
    Ok (rps, successful_rps, failed_rps)
  else Ok (0%Q, 0%Q, 0%Q).

(** the response-time statistics [(avg, min, max, (p50, p90, p95, p99,
    p999), std_dev)] of the sorted samples: *)
Definition response_time_stats (response_times : list Q)
  : Res (Q * Q * Q * (Q * Q * Q * Q * Q) * Q) :=
  match response_times with
  | _ :: _ =>
      let count := len response_times in
      avg_response_time ← pydiv (py_sum response_times) (inject_Z count);
      min_response_time ← py_min response_times;
      max_response_time ← py_max response_times;
      p50 ← _calculate_percentile 0%Q response_times 50;
      p90 ← _calculate_percentile 0%Q response_times 90;
      p95 ← _calculate_percentile 0%Q response_times 95;
      p99 ← _calculate_percentile 0%Q response_times 99;
      p999 ← _calculate_percentile 0%Q response_times (999 # 10);
      let mean := avg_response_time in
      variance ← pydiv (py_sum (map (fun x => sq (x - mean)) response_times))
                       (inject_Z count);
      Ok (avg_response_time, min_response_time, max_response_time,
          (p50, p90, p95, p99, p999), pow_half variance)
  | [] => Ok (0%Q, 0%Q, 0%Q, (0%Q, 0%Q, 0%Q, 0%Q, 0%Q), 0%Q)
  end.

(** the success rate: *)
Definition success_rate_of (m : Metrics) : Res Q :=
  if 0 <? total_requests m then
    r ← pydiv (inject_Z (successful_requests m)) (inject_Z (total_requests m));
    Ok (r * 100)%Q
  else Ok 0%Q.

(** [(max_rps, min_rps, avg_second_rps, p95_rps)] of the per-second
    counts: *)
Definition second_stats (second_data : gmap Z Z) : Res (Z * Z * Q * Z) :=
  if bool_decide (second_data = ∅) then Ok (0, 0, 0%Q, 0)
  else
    let rps_values := dict_values second_data in
    max_rps ← py_maxZ rps_values;
    min_rps ← py_minZ rps_values;
    avg_second_rps ← pydiv (inject_Z (py_sumZ rps_values))
                           (inject_Z (len rps_values));
    let rps_values := py_sorted Z.leb rps_values in
    p95_rps ← _calculate_percentile 0 rps_values 95;
    Ok (max_rps, min_rps, avg_second_rps, p95_rps).

(** [(max, avg)] of the per-second counts of the successful, and of the
    failed, requests: *)
Definition second_max_avg (second_data : gmap Z Z) : Res (Z * Q) :=
  if bool_decide (second_data = ∅) then Ok (0, 0%Q)
  else
    let rps_values := dict_values second_data in
    mx ← py_maxZ rps_values;
    avg ← pydiv (inject_Z (py_sumZ rps_values)) (inject_Z (len rps_values));
    Ok (mx, avg).

(** the connection success rate: *)
Definition connection_success_rate_of (cm : ConnectionMetrics) : Res Q :=
  if 0 <? total_connections cm then
    r ← pydiv (inject_Z (failed_connections cm)) (inject_Z (total_connections cm));
    Ok ((1 - r) * 100)%Q
  else Ok 100%Q.

(** and the whole of [get_summary_metrics] after [response_times.sort()];
    [self] is the object with the samples already sorted. *)
Definition summary_of (test_duration : Q) (self : MetricsCollector) : Res Summary :=
  let m := _metrics self in
  let total_requests := total_requests m in
  let successful_requests := successful_requests m in
  let failed_requests := failed_requests m in
  '(rps, successful_rps, failed_rps) ← average_rates test_duration m;
  '(avg_response_time, min_response_time, max_response_time,
    (p50, p90, p95, p99, p999), std_dev) ← response_time_stats (response_times m);
  success_rate ← success_rate_of m;
  throughput_variation ← _calculate_throughput_variation self;
  let second_data := per_second (fun _ => true) (throughput_data m) in
  let success_second_data := per_second tp_success (throughput_data m) in
  let failed_second_data :=
    per_second (fun p => negb (tp_success p)) (throughput_data m) in
  '(max_rps, min_rps, avg_second_rps, p95_rps) ← second_stats second_data;
  '(max_success_rps, avg_success_rps) ← second_max_avg success_second_data;
  '(max_failed_rps, avg_failed_rps) ← second_max_avg failed_second_data;
  let max_concurrent_users := concurrent_users m in
  latency_stats ← latency_stats_of (latency_breakdown_samples m);
  let cm := connection_metrics m in
  connection_success_rate ← connection_success_rate_of cm;
  Ok {| s_total_requests := total_requests;
        s_successful_requests := successful_requests;
        s_failed_requests := failed_requests;
        s_success_rate := success_rate;
        s_test_duration := test_duration;
        s_rps := rps;
        s_successful_rps := successful_rps;
        s_failed_rps := failed_rps;
        s_max_rps := max_rps;
        s_min_rps := min_rps;
        s_avg_second_rps := avg_second_rps;
        s_p95_rps := p95_rps;
        s_max_success_rps := max_success_rps;
        s_avg_success_rps := avg_success_rps;
        s_max_failed_rps := max_failed_rps;
        s_avg_failed_rps := avg_failed_rps;
        s_throughput_variation := throughput_variation;
        s_avg_response_time := avg_response_time;
        s_min_response_time := min_response_time;
        s_max_response_time := max_response_time;
        s_p50_response_time := p50;
        s_p90_response_time := p90;
        s_p95_response_time := p95;
        s_p99_response_time := p99;
        s_p999_response_time := p999;
        s_response_time_std_dev := std_dev;
        s_max_concurrent_users := max_concurrent_users;
        s_latency_stats := latency_stats;
        s_connection_metrics :=
          {| cs_total_connections := total_connections cm;
             cs_failed_connections := failed_connections cm;
             cs_connection_success_rate := connection_success_rate;
             cs_connection_errors := connection_errors cm |};
        s_status_codes_distribution := status_codes m;
        s_errors_distribution := errors m |}.

(** [get_summary_metrics]: the returned dictionary (or the exception) and
    the object afterwards. *)
Definition get_summary_metrics (self : MetricsCollector)
  : Res Summary * MetricsCollector :=
  match _calculate_test_duration self with
  | Raise e => (Raise e, self)
  | Ok test_duration =>
      let self := sort_response_times self in
      (summary_of test_duration self, self)
  end.
End Snapshot.

(** [_get_transaction_metrics]: one entry, from a transaction whose samples
    have been sorted in place when there are any. *)
Definition tx_sort (tx : TxData) : TxData :=
  {| tx_total_requests := tx_total_requests tx;
     tx_successful_requests := tx_successful_requests tx;
     tx_failed_requests := tx_failed_requests tx;
     tx_response_times := py_sorted Qleb (tx_response_times tx) |}.

Definition tx_summary (tx_data : TxData) : Res TxSummary :=
  let response_times := tx_response_times tx_data in
  match response_times with
  | _ :: _ =>
      let count := len response_times in
      success_rate ←
        (if 0 <? tx_total_requests tx_data then
           r ← pydiv (inject_Z (tx_successful_requests tx_data))
                     (inject_Z (tx_total_requests tx_data));
           Ok (r * 100)%Q
         else Ok 0%Q);
      avg ← pydiv (py_sum response_times) (inject_Z count);
      mn ← py_min response_times;
      mx ← py_max response_times;
      p50 ← _calculate_percentile 0%Q response_times 50;
      p90 ← _calculate_percentile 0%Q response_times 90;
      p95 ← _calculate_percentile 0%Q response_times 95;
      p99 ← _calculate_percentile 0%Q response_times 99;
      Ok {| txs_total_requests := tx_total_requests tx_data;
            txs_successful_requests := tx_successful_requests tx_data;
            txs_failed_requests := tx_failed_requests tx_data;
            txs_success_rate := success_rate;
            txs_avg_response_time := avg;
            txs_min_response_time := mn;
            txs_max_response_time := mx;
            txs_p50_response_time := p50;
            txs_p90_response_time := p90;
            txs_p95_response_time := p95;
            txs_p99_response_time := p99 |}
  | [] =>
      Ok {| txs_total_requests := tx_total_requests tx_data;
            txs_successful_requests := tx_successful_requests tx_data;
            txs_failed_requests := tx_failed_requests tx_data;
            txs_success_rate := 0;
            txs_avg_response_time := 0;
            txs_min_response_time := 0;
            txs_max_response_time := 0;
            txs_p50_response_time := 0;
            txs_p90_response_time := 0;
            txs_p95_response_time := 0;
            txs_p99_response_time := 0 |}
  end.

Definition sort_transactions (self : MetricsCollector) : MetricsCollector :=
  let m := _metrics self in
  set_metrics
    {| total_requests := total_requests m;
       successful_requests := successful_requests m;
       failed_requests := failed_requests m;
       response_times := response_times m;
       status_codes := status_codes m;
       errors := errors m;
       time_series := time_series m;
       transaction_metrics := tx_sort <$> transaction_metrics m;
       concurrent_users := concurrent_users m;
       throughput_data := throughput_data m;
       cpu_usage := cpu_usage m;
       memory_usage := memory_usage m;
       latency_breakdown_samples := latency_breakdown_samples m;
       connection_metrics := connection_metrics m |} self.

(** [_get_transaction_metrics]: every transaction's samples are sorted in
    place, then summarised. *)
Definition _get_transaction_metrics (self : MetricsCollector)
  : Res (gmap string TxSummary) * MetricsCollector :=
  let self := sort_transactions self in
  (kvs ← mapM (fun kv : string * TxData => s ← tx_summary kv.2; Ok (kv.1, s))
              (map_to_list (transaction_metrics (_metrics self)));
   Ok (list_to_map kvs),
   self).

(** The calls a client makes on a collector, and a run of them. *)
Inductive Call :=
| CallRecordRequest (rq : Request)
| CallUpdateConcurrentUsers (current_users : Z)
| CallSetTestConfig (config : gmap string string)
| CallFinalize (now : Q)
| CallReset (now : Q)
| CallGetSummaryMetrics
| CallGetTransactionMetrics.

Definition is_record (c : Call) : bool :=
  match c with CallRecordRequest _ => true | _ => false end.

Section Calls.
Variable pow_half : Q -> Q.

Definition call (c : Call) (self : MetricsCollector) : MetricsCollector :=
  match c with
  | CallRecordRequest rq => record_request rq self
  | CallUpdateConcurrentUsers n => update_concurrent_users n self
  | CallSetTestConfig config => set_test_config config self
  | CallFinalize now => finalize now self
  | CallReset now => reset now self
  | CallGetSummaryMetrics => (get_summary_metrics pow_half self).2
  | CallGetTransactionMetrics => (_get_transaction_metrics self).2
  end.

Definition calls (cs : list Call) (self : MetricsCollector) : MetricsCollector :=
  fold_left (fun s c => call c s) cs self.
End Calls.

(** *** The read-only views of the collector *)

(** An entry of the list returned by [get_time_series_metrics]. *)
Record TimeSeriesMetric := mkTimeSeriesMetric {
  tsm_timestamp : Z;
  tsm_datetime : string;
  tsm_total_requests : Z;
  tsm_successful_requests : Z;
  tsm_failed_requests : Z;
  tsm_success_rate : Q;
  tsm_rps : Q;
  tsm_tps : Q;
  tsm_qps : Q;
  tsm_successful_rps : Q;
  tsm_failed_rps : Q;
  tsm_avg_response_time : Q;
  tsm_min_response_time : Q;
  tsm_max_response_time : Q
}.

(** The dictionary returned by [get_requests_summary]. *)
Record RequestsSummary := mkRequestsSummary {
  rs_total_requests : Z;
  rs_successful_requests : Z;
  rs_failed_requests : Z;
  rs_success_rate : Q
}.

(** The dictionary returned by [get_response_time_distribution]. *)
Record Distribution := mkDistribution {
  dist_buckets : list string;
  dist_counts : list Z
}.

Definition Qlt_bool (x y : Q) : bool := negb (Qle_bool y x).

(** [get_requests_summary]. *)
Definition get_requests_summary (self : MetricsCollector) : Res RequestsSummary :=
  let m := _metrics self in
  success_rate ←
    (if 0 <? total_requests m then
       r ← pydiv (inject_Z (successful_requests m)) (inject_Z (total_requests m));
       Ok (r * 100)%Q
     else Ok 0%Q);
  Ok {| rs_total_requests := total_requests m;
        rs_successful_requests := successful_requests m;
        rs_failed_requests := failed_requests m;
        rs_success_rate := success_rate |}.

(** [get_status_code_distribution] and [get_error_distribution]. *)
Definition get_status_code_distribution (self : MetricsCollector) : gmap Z Z :=
  status_codes (_metrics self).

Definition get_error_distribution (self : MetricsCollector) : gmap string Z :=
  errors (_metrics self).

Section Views.
(** [x ** 0.5]; [time.strftime('%Y-%m-%d %H:%M:%S', time.localtime(t))],
    which depends on the time zone and raises on a time stamp the platform
    cannot represent; [f"{x}"] and [f"{x:.2f}"] on a float. *)
Variable pow_half : Q -> Q.
Variable local_datetime : Z -> Res string.
Variable str_float : Q -> string.
Variable format_2f : Q -> string.

(** [get_time_series_metrics]: the entry made of one record. *)
Definition time_series_entry (interval : Q) (record : TimeSeriesRecord)
  : Res TimeSeriesMetric :=
  datetime ← local_datetime (ts_timestamp record);
  success_rate ←
    (if 0 <? ts_total_requests record then
       r ← pydiv (inject_Z (ts_successful_requests record))
                 (inject_Z (ts_total_requests record));
       Ok (r * 100)%Q
     else Ok 0%Q);
  rps ← pydiv (inject_Z (ts_total_requests record)) interval;
  tps ← pydiv (inject_Z (ts_total_requests record)) interval;
  qps ← pydiv (inject_Z (ts_total_requests record)) interval;
  successful_rps ←
    (if 0 <? ts_total_requests record
     then pydiv (inject_Z (ts_successful_requests record)) interval
     else Ok 0%Q);
  failed_rps ←
    (if 0 <? ts_total_requests record
     then pydiv (inject_Z (ts_failed_requests record)) interval
     else Ok 0%Q);
  '(avg_response_time, min_response_time, max_response_time) ←
    (match ts_response_times record with
     | _ :: _ =>
         avg ← pydiv (py_sum (ts_response_times record))
                     (inject_Z (len (ts_response_times record)));
         mn ← py_min (ts_response_times record);
         mx ← py_max (ts_response_times record);
         Ok (avg, mn, mx)
     | [] => Ok (0%Q, 0%Q, 0%Q)
     end);
  Ok {| tsm_timestamp := ts_timestamp record;
        tsm_datetime := datetime;
        tsm_total_requests := ts_total_requests record;
        tsm_successful_requests := ts_successful_requests record;
        tsm_failed_requests := ts_failed_requests record;
        tsm_success_rate := success_rate;
        tsm_rps := rps;
        tsm_tps := tps;
        tsm_qps := qps;
        tsm_successful_rps := successful_rps;
        tsm_failed_rps := failed_rps;
        tsm_avg_response_time := avg_response_time;
        tsm_min_response_time := min_response_time;
        tsm_max_response_time := max_response_time |}.

(** [sorted(..., key=lambda x: x['timestamp'])]. *)
Definition by_timestamp (a b : TimeSeriesRecord) : bool :=
  ts_timestamp a <=? ts_timestamp b.

(** [get_time_series_metrics]. *)
Definition get_time_series_metrics (interval : Q) (self : MetricsCollector)
  : Res (list TimeSeriesMetric) :=
  match time_series (_metrics self) with
  | [] => Ok []
  | _ :: _ =>
      let sorted_time_series := py_sorted by_timestamp (time_series (_metrics self)) in
      mapM (time_series_entry interval) sorted_time_series
  end.

(** [get_response_time_distribution]: the bucket a sample is counted in,
    the first one, from the bucket numbered [i] on, whose range takes it. *)
Fixpoint find_bucket (buckets : Z) (rt : Q) (i : Z) (bucket_ranges : list (Q * Q))
  : option Z :=
  match bucket_ranges with
  | [] => None
  | (start, end_) :: rest =>
      if (Qle_bool start rt && Qlt_bool rt end_)
         || ((i =? buckets - 1) && Qle_bool rt end_)
      then Some i
      else find_bucket buckets rt (i + 1) rest
  end.

Definition count_in_bucket (buckets : Z) (bucket_ranges : list (Q * Q))
    (bucket_counts : list Z) (rt : Q) : list Z :=
  match find_bucket buckets rt 0 bucket_ranges with
  | Some i => alter (fun c => c + 1) (Z.to_nat i) bucket_counts
  | None => bucket_counts
  end.

(** [get_response_time_distribution]. *)
Definition get_response_time_distribution (buckets : Z) (self : MetricsCollector)
  : Res Distribution :=
  let response_times := response_times (_metrics self) in
  match response_times with
  | [] => Ok {| dist_buckets := []; dist_counts := [] |}
  | _ :: _ =>
      min_rt ← py_min response_times;
      max_rt ← py_max response_times;
      let range_rt := (max_rt - min_rt)%Q in
      if Qeq_bool range_rt 0 then
        Ok {| dist_buckets := [str_float min_rt];
              dist_counts := [len response_times] |}
      else
        bucket_size ← pydiv range_rt (inject_Z buckets);
        let bucket_ranges :=
          map (fun i => ((min_rt + inject_Z i * bucket_size)%Q,
                         (min_rt + inject_Z (i + 1) * bucket_size)%Q))
              (seqZ 0 buckets) in
        let bucket_counts := replicate (Z.to_nat buckets) 0 in
        let bucket_counts :=
          fold_left (count_in_bucket buckets bucket_ranges) response_times
                    bucket_counts in
        let bucket_labels :=
          map (fun r : Q * Q => format_2f r.1 +:+ "-" +:+ format_2f r.2)
              bucket_ranges in
        Ok {| dist_buckets := bucket_labels; dist_counts := bucket_counts |}
  end.

(** The dictionary returned by [get_all_metrics]. *)
Record AllMetrics := mkAllMetrics {
  am_summary : Summary;
  am_requests_info : RequestsSummary;
  am_time_series : list TimeSeriesMetric;
  am_response_time_distribution : Distribution;
  am_status_code_distribution : gmap Z Z;
  am_error_distribution : gmap string Z;
  am_test_duration : Q;
  am_transaction_metrics : gmap string TxSummary
}.

(** [get_all_metrics]: the entries are computed in the order of the
    dictionary display; the first and the last computation sort samples in
    place. *)
Definition get_all_metrics (self : MetricsCollector)
  : Res AllMetrics * MetricsCollector :=
  let '(summary, self) := get_summary_metrics pow_half self in
  match
    summary ← summary;
    requests_info ← get_requests_summary self;
    time_series ← get_time_series_metrics 1 self;
    response_time_distribution ← get_response_time_distribution 10 self;
    let status_code_distribution := get_status_code_distribution self in
    let error_distribution := get_error_distribution self in
    test_duration ← _calculate_test_duration self;
    Ok (summary, requests_info, time_series, response_time_distribution,
        status_code_distribution, error_distribution, test_duration)
  with
  | Raise e => (Raise e, self)
  | Ok (summary, requests_info, time_series, response_time_distribution,
        status_code_distribution, error_distribution, test_duration) =>
      let '(transaction_metrics, self) := _get_transaction_metrics self in
      (transaction_metrics ← transaction_metrics;
       Ok {| am_summary := summary;
             am_requests_info := requests_info;
             am_time_series := time_series;
             am_response_time_distribution := response_time_distribution;
             am_status_code_distribution := status_code_distribution;
             am_error_distribution := error_distribution;
             am_test_duration := test_duration;
             am_transaction_metrics := transaction_metrics |},
       self)
  end.

(** [get_metrics], the alias of [get_all_metrics]. *)
Definition get_metrics (self : MetricsCollector) : Res AllMetrics * MetricsCollector :=
  get_all_metrics self.
End Views.

End Metrics_collector.

(** ** load_generator.py: class LoadGenerator *)

Module Load_generator.

(** What a task returns: [None], a dict (of which the code reads the keys
    ['success'] (by truth value), ['error_type'], ['error'], ['duration'] and
    writes ['result']), an object with a [status_code] attribute, or any
    other object. *)
#[warnings="-register-all"]
Inductive PyVal :=
| VNone
| VDict (success : option bool) (error_type error : option string)
        (duration : option Q) (result : option PyVal)
| VResponse (status_code : Z)
| VObject (repr : string).

(** [{'success': True}], [{'success': True, 'result': r}] and the
    [error_result] dictionaries of the source. *)
Definition success_dict : PyVal := VDict (Some true) None None None None.
Definition success_with (r : PyVal) : PyVal := VDict (Some true) None None None (Some r).
Definition error_result (error : string) (error_type : option string) : PyVal :=
  VDict (Some false) error_type (Some error) None None.

Definition no_get (ty : string) : PyExc :=
  AttributeError ("'" +:+ ty +:+ "' object has no attribute 'get'").

(** [v.get('success', True)] by truth value, [v.get('error_type', 'unknown')],
    [v.get('error', 'Unknown error')], [v.get('duration', 0)]. *)
Definition get_success (v : PyVal) : Res bool :=
  match v with
  | VDict s _ _ _ _ => Ok (default true s)
  | VNone => Raise (no_get "NoneType")
  | VResponse _ => Raise (no_get "Response")
  | VObject _ => Raise (no_get "object")
  end.

Definition get_error_type (v : PyVal) : Res string :=
  match v with
  | VDict _ t _ _ _ => Ok (default "unknown" t)
  | VNone => Raise (no_get "NoneType")
  | VResponse _ => Raise (no_get "Response")
  | VObject _ => Raise (no_get "object")
  end.

Definition get_error (v : PyVal) : Res string :=
  match v with
  | VDict _ _ e _ _ => Ok (default "Unknown error" e)
  | VNone => Raise (no_get "NoneType")
  | VResponse _ => Raise (no_get "Response")
  | VObject _ => Raise (no_get "object")
  end.

Definition get_duration (v : PyVal) : Res Q :=
  match v with
  | VDict _ _ _ d _ => Ok (default 0%Q d)
  | VNone => Raise (no_get "NoneType")
  | VResponse _ => Raise (no_get "Response")
  | VObject _ => Raise (no_get "object")
  end.

(** One invocation of a user function: what it returns or raises, whether
    [generator.stop()] is called while it runs (by the function itself or by
    another thread), and how many clock ticks it takes. *)
Record Effect := mkEffect {
  returns : Res PyVal;
  calls_stop : bool;
  takes : N
}.

(** A user function is given by the effect of its n-th invocation; a result
    callback also sees its argument. *)
Definition UserFn := nat -> Effect.
Definition Callback := nat -> PyVal -> Effect.

(** A completed [concurrent.futures.Future]: the outcome of the callable
    and the time it took. *)
Record Future := mkFuture {
  fut_outcome : Res PyVal;
  fut_elapsed : Q
}.

(** [self._error_statistics]: the integer entries, and the dictionary under
    the key ['error_details']. *)
Record ErrorStatistics := mkErrorStatistics {
  counts : gmap string Z;
  error_details : gmap string Z
}.

(** An entry of [step_results]; [sr_step = None] is the ['stable'] entry. *)
Record StepResult := mkStepResult {
  sr_step : option Z;
  sr_users : Z;
  sr_duration : Q;
  sr_completed_tasks : Z;
  sr_error_count : Z;
  sr_results : list PyVal;
  sr_error_rate : Q
}.

(** What [_analyze_stability_interval] returns. *)
Record IntervalResult := mkIntervalResult {
  ir_error_rate : Q;
  ir_p50 : Q;
  ir_p95 : Q;
  ir_p99 : Q;
  ir_avg_duration : Q;
  ir_total_count : Z
}.

(** [self._test_config.stability_threshold], a dict read with [.get]. *)
Record StabilityThreshold := mkStabilityThreshold {
  st_error_rate : option Q;
  st_response_time_p95 : option Q;
  st_response_time_p99 : option Q
}.

(** [self._test_config]: a dict or an object; a field is [None] when the key
    or attribute is absent.  [error_threshold], [error_rate_threshold] and
    [consecutive_error_threshold] are read with default [None], so for them
    absent and [None] coincide; [target_tps] and [target_qps] may be present
    with value [None]. *)
Record TestConfig := mkTestConfig {
  is_dict : bool;
  test_type : option string;
  duration : option Q;
  concurrent_users : option Z;
  stop_on_error : option bool;
  max_thread_pool_size : option Z;
  before_concurrent : option Z;
  after_concurrent : option Z;
  max_retries : option Z;
  retry_delay : option Q;
  retryable_errors : option (list string);
  error_threshold : option Z;
  error_rate_threshold : option Q;
  consecutive_error_threshold : option Z;
  error_type_thresholds : option (gmap string Z);
  target_tps : option (option Z);
  target_qps : option (option Z);
  timeout : option Q;
  ramp_up_steps : option Z;
  ramp_up_time : option Q;
  stability_duration : option Q;
  stability_check_interval : option Q;
  stability_threshold : option StabilityThreshold
}.

(** What the five load functions return. *)
Inductive ProfileResult :=
| ConcurrentResult (concurrent_users : Z) (target_duration actual_duration : Q)
    (completed_tasks : Z) (results : list PyVal)
| TpsResult (target_tps : Z) (actual_tps duration : Q) (completed_tasks : Z)
    (results : list PyVal)
| QpsResult (target_qps : Z) (actual_qps total_time : Q) (total_requests : Z)
    (error_count : Z) (error_statistics : ErrorStatistics) (test_duration : Q)
| RampUpResult (max_users ramp_up_steps : Z) (ramp_up_time stable_duration : Q)
    (completed_tasks error_count : Z) (error_rate : Q)
    (error_statistics : ErrorStatistics) (step_results : list StepResult)
    (results : list PyVal)
| StabilityResult (target_duration actual_duration : Q)
    (completed_tasks error_count : Z) (error_rate : Q)
    (error_statistics : ErrorStatistics) (interval_results : list IntervalResult)
    (results : list PyVal).

(** What [generate_load] returns: [{'status': 'stopped', 'reason':
    'before_task_failed'}], or the dictionary of the load function extended
    with the four before/after entries. *)
Inductive RunResult :=
| Stopped
| Completed (test_result : ProfileResult)
    (before_tasks_completed after_tasks_completed : bool)
    (before_results after_results : list PyVal).

(** The store: the attributes of the generator that change during a run,
    the environment (the clock and the number of invocations of each user
    function so far) and the local variables of the running load function
    (kept in the store so that what a [try] block has done before raising
    is still there in its handler). *)
#[projections(primitive)]
Record World := mkWorld {
  _running : bool;
  _stop_event : bool;
  _current_users : Z;
  _completed_tasks : Z;
  _before_tasks_completed : bool;
  _after_tasks_completed : bool;
  _before_results : list PyVal;
  _after_results : list PyVal;
  _error_count : Z;
  _error_statistics : ErrorStatistics;
  _total_errors : Z;
  _consecutive_errors : Z;
  _consecutive_error_count : Z;
  now : Q;
  before_calls : nat;
  task_calls : nat;
  after_calls : nat;
  callback_calls : nat;
  results : list PyVal;
  futures : list Future;
  step_results : list StepResult;
  step_step_results : list PyVal;
  step_completed_tasks : Z;
  step_error_count : Z;
  stable_results : list PyVal;
  stable_completed_tasks : Z;
  stable_error_count : Z;
  interval_results : list IntervalResult;
  next_check_time : Q
}.

Definition set_running (v : bool) (w : World) : World :=
  let 'mkWorld x0 x1 x2 x3 x4 x5 x6 x7 x8 x9 x10 x11 x12 x13 x14 x15 x16 x17 x18 x19 x20 x21 x22 x23 x24 x25 x26 x27 x28 := w in
  mkWorld v x1 x2 x3 x4 x5 x6 x7 x8 x9 x10 x11 x12 x13 x14 x15 x16 x17 x18 x19 x20 x21 x22 x23 x24 x25 x26 x27 x28.

Definition set_stop_event (v : bool) (w : World) : World :=
  let 'mkWorld x0 x1 x2 x3 x4 x5 x6 x7 x8 x9 x10 x11 x12 x13 x14 x15 x16 x17 x18 x19 x20 x21 x22 x23 x24 x25 x26 x27 x28 := w in
  mkWorld x0 v x2 x3 x4 x5 x6 x7 x8 x9 x10 x11 x12 x13 x14 x15 x16 x17 x18 x19 x20 x21 x22 x23 x24 x25 x26 x27 x28.

Definition set_current_users (v : Z) (w : World) : World :=
  let 'mkWorld x0 x1 x2 x3 x4 x5 x6 x7 x8 x9 x10 x11 x12 x13 x14 x15 x16 x17 x18 x19 x20 x21 x22 x23 x24 x25 x26 x27 x28 := w in
  mkWorld x0 x1 v x3 x4 x5 x6 x7 x8 x9 x10 x11 x12 x13 x14 x15 x16 x17 x18 x19 x20 x21 x22 x23 x24 x25 x26 x27 x28.

Definition set_completed_tasks (v : Z) (w : World) : World :=
  let 'mkWorld x0 x1 x2 x3 x4 x5 x6 x7 x8 x9 x10 x11 x12 x13 x14 x15 x16 x17 x18 x19 x20 x21 x22 x23 x24 x25 x26 x27 x28 := w in
  mkWorld x0 x1 x2 v x4 x5 x6 x7 x8 x9 x10 x11 x12 x13 x14 x15 x16 x17 x18 x19 x20 x21 x22 x23 x24 x25 x26 x27 x28.

Definition set_before_tasks_completed (v : bool) (w : World) : World :=
  let 'mkWorld x0 x1 x2 x3 x4 x5 x6 x7 x8 x9 x10 x11 x12 x13 x14 x15 x16 x17 x18 x19 x20 x21 x22 x23 x24 x25 x26 x27 x28 := w in
  mkWorld x0 x1 x2 x3 v x5 x6 x7 x8 x9 x10 x11 x12 x13 x14 x15 x16 x17 x18 x19 x20 x21 x22 x23 x24 x25 x26 x27 x28.

Definition set_after_tasks_completed (v : bool) (w : World) : World :=
  let 'mkWorld x0 x1 x2 x3 x4 x5 x6 x7 x8 x9 x10 x11 x12 x13 x14 x15 x16 x17 x18 x19 x20 x21 x22 x23 x24 x25 x26 x27 x28 := w in
  mkWorld x0 x1 x2 x3 x4 v x6 x7 x8 x9 x10 x11 x12 x13 x14 x15 x16 x17 x18 x19 x20 x21 x22 x23 x24 x25 x26 x27 x28.

Definition set_before_results (v : list PyVal) (w : World) : World :=
  let 'mkWorld x0 x1 x2 x3 x4 x5 x6 x7 x8 x9 x10 x11 x12 x13 x14 x15 x16 x17 x18 x19 x20 x21 x22 x23 x24 x25 x26 x27 x28 := w in
  mkWorld x0 x1 x2 x3 x4 x5 v x7 x8 x9 x10 x11 x12 x13 x14 x15 x16 x17 x18 x19 x20 x21 x22 x23 x24 x25 x26 x27 x28.

Definition set_after_results (v : list PyVal) (w : World) : World :=
  let 'mkWorld x0 x1 x2 x3 x4 x5 x6 x7 x8 x9 x10 x11 x12 x13 x14 x15 x16 x17 x18 x19 x20 x21 x22 x23 x24 x25 x26 x27 x28 := w in
  mkWorld x0 x1 x2 x3 x4 x5 x6 v x8 x9 x10 x11 x12 x13 x14 x15 x16 x17 x18 x19 x20 x21 x22 x23 x24 x25 x26 x27 x28.

Definition set_error_count (v : Z) (w : World) : World :=
  let 'mkWorld x0 x1 x2 x3 x4 x5 x6 x7 x8 x9 x10 x11 x12 x13 x14 x15 x16 x17 x18 x19 x20 x21 x22 x23 x24 x25 x26 x27 x28 := w in
  mkWorld x0 x1 x2 x3 x4 x5 x6 x7 v x9 x10 x11 x12 x13 x14 x15 x16 x17 x18 x19 x20 x21 x22 x23 x24 x25 x26 x27 x28.

Definition set_error_statistics (v : ErrorStatistics) (w : World) : World :=
  let 'mkWorld x0 x1 x2 x3 x4 x5 x6 x7 x8 x9 x10 x11 x12 x13 x14 x15 x16 x17 x18 x19 x20 x21 x22 x23 x24 x25 x26 x27 x28 := w in
  mkWorld x0 x1 x2 x3 x4 x5 x6 x7 x8 v x10 x11 x12 x13 x14 x15 x16 x17 x18 x19 x20 x21 x22 x23 x24 x25 x26 x27 x28.

Definition set_total_errors (v : Z) (w : World) : World :=
  let 'mkWorld x0 x1 x2 x3 x4 x5 x6 x7 x8 x9 x10 x11 x12 x13 x14 x15 x16 x17 x18 x19 x20 x21 x22 x23 x24 x25 x26 x27 x28 := w in
  mkWorld x0 x1 x2 x3 x4 x5 x6 x7 x8 x9 v x11 x12 x13 x14 x15 x16 x17 x18 x19 x20 x21 x22 x23 x24 x25 x26 x27 x28.

Definition set_consecutive_errors (v : Z) (w : World) : World :=
  let 'mkWorld x0 x1 x2 x3 x4 x5 x6 x7 x8 x9 x10 x11 x12 x13 x14 x15 x16 x17 x18 x19 x20 x21 x22 x23 x24 x25 x26 x27 x28 := w in
  mkWorld x0 x1 x2 x3 x4 x5 x6 x7 x8 x9 x10 v x12 x13 x14 x15 x16 x17 x18 x19 x20 x21 x22 x23 x24 x25 x26 x27 x28.

Definition set_consecutive_error_count (v : Z) (w : World) : World :=
  let 'mkWorld x0 x1 x2 x3 x4 x5 x6 x7 x8 x9 x10 x11 x12 x13 x14 x15 x16 x17 x18 x19 x20 x21 x22 x23 x24 x25 x26 x27 x28 := w in
  mkWorld x0 x1 x2 x3 x4 x5 x6 x7 x8 x9 x10 x11 v x13 x14 x15 x16 x17 x18 x19 x20 x21 x22 x23 x24 x25 x26 x27 x28.

Definition set_now (v : Q) (w : World) : World :=
  let 'mkWorld x0 x1 x2 x3 x4 x5 x6 x7 x8 x9 x10 x11 x12 x13 x14 x15 x16 x17 x18 x19 x20 x21 x22 x23 x24 x25 x26 x27 x28 := w in
  mkWorld x0 x1 x2 x3 x4 x5 x6 x7 x8 x9 x10 x11 x12 v x14 x15 x16 x17 x18 x19 x20 x21 x22 x23 x24 x25 x26 x27 x28.

Definition set_before_calls (v : nat) (w : World) : World :=
  let 'mkWorld x0 x1 x2 x3 x4 x5 x6 x7 x8 x9 x10 x11 x12 x13 x14 x15 x16 x17 x18 x19 x20 x21 x22 x23 x24 x25 x26 x27 x28 := w in
  mkWorld x0 x1 x2 x3 x4 x5 x6 x7 x8 x9 x10 x11 x12 x13 v x15 x16 x17 x18 x19 x20 x21 x22 x23 x24 x25 x26 x27 x28.

Definition set_task_calls (v : nat) (w : World) : World :=
  let 'mkWorld x0 x1 x2 x3 x4 x5 x6 x7 x8 x9 x10 x11 x12 x13 x14 x15 x16 x17 x18 x19 x20 x21 x22 x23 x24 x25 x26 x27 x28 := w in
  mkWorld x0 x1 x2 x3 x4 x5 x6 x7 x8 x9 x10 x11 x12 x13 x14 v x16 x17 x18 x19 x20 x21 x22 x23 x24 x25 x26 x27 x28.

Definition set_after_calls (v : nat) (w : World) : World :=
  let 'mkWorld x0 x1 x2 x3 x4 x5 x6 x7 x8 x9 x10 x11 x12 x13 x14 x15 x16 x17 x18 x19 x20 x21 x22 x23 x24 x25 x26 x27 x28 := w in
  mkWorld x0 x1 x2 x3 x4 x5 x6 x7 x8 x9 x10 x11 x12 x13 x14 x15 v x17 x18 x19 x20 x21 x22 x23 x24 x25 x26 x27 x28.

Definition set_callback_calls (v : nat) (w : World) : World :=
  let 'mkWorld x0 x1 x2 x3 x4 x5 x6 x7 x8 x9 x10 x11 x12 x13 x14 x15 x16 x17 x18 x19 x20 x21 x22 x23 x24 x25 x26 x27 x28 := w in
  mkWorld x0 x1 x2 x3 x4 x5 x6 x7 x8 x9 x10 x11 x12 x13 x14 x15 x16 v x18 x19 x20 x21 x22 x23 x24 x25 x26 x27 x28.

Definition set_results (v : list PyVal) (w : World) : World :=
  let 'mkWorld x0 x1 x2 x3 x4 x5 x6 x7 x8 x9 x10 x11 x12 x13 x14 x15 x16 x17 x18 x19 x20 x21 x22 x23 x24 x25 x26 x27 x28 := w in
  mkWorld x0 x1 x2 x3 x4 x5 x6 x7 x8 x9 x10 x11 x12 x13 x14 x15 x16 x17 v x19 x20 x21 x22 x23 x24 x25 x26 x27 x28.

Definition set_futures (v : list Future) (w : World) : World :=
  let 'mkWorld x0 x1 x2 x3 x4 x5 x6 x7 x8 x9 x10 x11 x12 x13 x14 x15 x16 x17 x18 x19 x20 x21 x22 x23 x24 x25 x26 x27 x28 := w in
  mkWorld x0 x1 x2 x3 x4 x5 x6 x7 x8 x9 x10 x11 x12 x13 x14 x15 x16 x17 x18 v x20 x21 x22 x23 x24 x25 x26 x27 x28.

Definition set_step_results (v : list StepResult) (w : World) : World :=
  let 'mkWorld x0 x1 x2 x3 x4 x5 x6 x7 x8 x9 x10 x11 x12 x13 x14 x15 x16 x17 x18 x19 x20 x21 x22 x23 x24 x25 x26 x27 x28 := w in
  mkWorld x0 x1 x2 x3 x4 x5 x6 x7 x8 x9 x10 x11 x12 x13 x14 x15 x16 x17 x18 x19 v x21 x22 x23 x24 x25 x26 x27 x28.

Definition set_step_step_results (v : list PyVal) (w : World) : World :=
  let 'mkWorld x0 x1 x2 x3 x4 x5 x6 x7 x8 x9 x10 x11 x12 x13 x14 x15 x16 x17 x18 x19 x20 x21 x22 x23 x24 x25 x26 x27 x28 := w in
  mkWorld x0 x1 x2 x3 x4 x5 x6 x7 x8 x9 x10 x11 x12 x13 x14 x15 x16 x17 x18 x19 x20 v x22 x23 x24 x25 x26 x27 x28.

Definition set_step_completed_tasks (v : Z) (w : World) : World :=
  let 'mkWorld x0 x1 x2 x3 x4 x5 x6 x7 x8 x9 x10 x11 x12 x13 x14 x15 x16 x17 x18 x19 x20 x21 x22 x23 x24 x25 x26 x27 x28 := w in
  mkWorld x0 x1 x2 x3 x4 x5 x6 x7 x8 x9 x10 x11 x12 x13 x14 x15 x16 x17 x18 x19 x20 x21 v x23 x24 x25 x26 x27 x28.

Definition set_step_error_count (v : Z) (w : World) : World :=
  let 'mkWorld x0 x1 x2 x3 x4 x5 x6 x7 x8 x9 x10 x11 x12 x13 x14 x15 x16 x17 x18 x19 x20 x21 x22 x23 x24 x25 x26 x27 x28 := w in
  mkWorld x0 x1 x2 x3 x4 x5 x6 x7 x8 x9 x10 x11 x12 x13 x14 x15 x16 x17 x18 x19 x20 x21 x22 v x24 x25 x26 x27 x28.

Definition set_stable_results (v : list PyVal) (w : World) : World :=
  let 'mkWorld x0 x1 x2 x3 x4 x5 x6 x7 x8 x9 x10 x11 x12 x13 x14 x15 x16 x17 x18 x19 x20 x21 x22 x23 x24 x25 x26 x27 x28 := w in
  mkWorld x0 x1 x2 x3 x4 x5 x6 x7 x8 x9 x10 x11 x12 x13 x14 x15 x16 x17 x18 x19 x20 x21 x22 x23 v x25 x26 x27 x28.

Definition set_stable_completed_tasks (v : Z) (w : World) : World :=
  let 'mkWorld x0 x1 x2 x3 x4 x5 x6 x7 x8 x9 x10 x11 x12 x13 x14 x15 x16 x17 x18 x19 x20 x21 x22 x23 x24 x25 x26 x27 x28 := w in
  mkWorld x0 x1 x2 x3 x4 x5 x6 x7 x8 x9 x10 x11 x12 x13 x14 x15 x16 x17 x18 x19 x20 x21 x22 x23 x24 v x26 x27 x28.

Definition set_stable_error_count (v : Z) (w : World) : World :=
  let 'mkWorld x0 x1 x2 x3 x4 x5 x6 x7 x8 x9 x10 x11 x12 x13 x14 x15 x16 x17 x18 x19 x20 x21 x22 x23 x24 x25 x26 x27 x28 := w in
  mkWorld x0 x1 x2 x3 x4 x5 x6 x7 x8 x9 x10 x11 x12 x13 x14 x15 x16 x17 x18 x19 x20 x21 x22 x23 x24 x25 v x27 x28.

Definition set_interval_results (v : list IntervalResult) (w : World) : World :=
  let 'mkWorld x0 x1 x2 x3 x4 x5 x6 x7 x8 x9 x10 x11 x12 x13 x14 x15 x16 x17 x18 x19 x20 x21 x22 x23 x24 x25 x26 x27 x28 := w in
  mkWorld x0 x1 x2 x3 x4 x5 x6 x7 x8 x9 x10 x11 x12 x13 x14 x15 x16 x17 x18 x19 x20 x21 x22 x23 x24 x25 x26 v x28.

Definition set_next_check_time (v : Q) (w : World) : World :=
  let 'mkWorld x0 x1 x2 x3 x4 x5 x6 x7 x8 x9 x10 x11 x12 x13 x14 x15 x16 x17 x18 x19 x20 x21 x22 x23 x24 x25 x26 x27 x28 := w in
  mkWorld x0 x1 x2 x3 x4 x5 x6 x7 x8 x9 x10 x11 x12 x13 x14 x15 x16 x17 x18 x19 x20 x21 x22 x23 x24 x25 x26 x27 v.

(** A computation on the store ends with a value or an exception, or has
    not ended when its loops have used up their iteration budget. *)
Inductive Outcome (A : Type) : Type :=
| Done (r : Res A) (w : World)
| OutOfFuel.
Arguments Done {A} r w.
Arguments OutOfFuel {A}.

Definition M (A : Type) : Type := World -> Outcome A.

#[export] Instance M_ret : MRet M := fun A a w => Done (Ok a) w.
#[export] Instance M_bind : MBind M := fun A B k m w =>
  match m w with
  | Done (Ok a) w' => k a w'
  | Done (Raise e) w' => Done (Raise e) w'
  | OutOfFuel => OutOfFuel
  end.

Definition raise {A} (e : PyExc) : M A := fun w => Done (Raise e) w.

Definition lift {A} (r : Res A) : M A := fun w => Done r w.

Definition gets {A} (f : World -> A) : M A := fun w => Done (Ok (f w)) w.

Definition modify (f : World -> World) : M unit := fun w => Done (Ok tt) (f w).

(** [try: m except Exception as e: h e]. *)
Definition try_except {A} (m : M A) (h : PyExc -> M A) : M A := fun w =>
  match m w with
  | Done (Ok a) w' => Done (Ok a) w'
  | Done (Raise e) w' => h e w'
  | OutOfFuel => OutOfFuel
  end.

(** [try: m finally: fin]. *)
Definition try_finally {A} (m : M A) (fin : M unit) : M A := fun w =>
  match m w with
  | Done r w' =>
      match fin w' with
      | Done (Ok _) w'' => Done r w''
      | Done (Raise e) w'' => Done (Raise e) w''
      | OutOfFuel => OutOfFuel
      end
  | OutOfFuel => OutOfFuel
  end.

(** How a loop body ends: falls through or [continue], [break], or
    [return r] from the enclosing function. *)
Inductive Flow (R : Type) : Type :=
| Next
| Break
| Return (r : R).
Arguments Next {R}.
Arguments Break {R}.
Arguments Return {R} r.

(** [for x in l: body x]; [Some r] when the body returned [r]. *)
Fixpoint for_each {A R} (l : list A) (body : A -> M (Flow R)) : M (option R) :=
  match l with
  | [] => mret None
  | x :: l' =>
      f ← body x;
      match f with
      | Next => for_each l' body
      | Break => mret None
      | Return r => mret (Some r)
      end
  end.

Definition out_of_fuel {A} : M A := fun _ => OutOfFuel.

(** [while cond: body], for at most [fuel] evaluations of [cond]. *)
Fixpoint while_fuel {R} (fuel : nat) (cond : M bool) (body : M (Flow R))
  : M (option R) :=
  match fuel with
  | O => out_of_fuel
  | S fuel' =>
      c ← cond;
      match c with
      | true =>
          f ← body;
          match f with
          | Next => while_fuel fuel' cond body
          | Break => mret None
          | Return r => mret (Some r)
          end
      | false => mret None
      end
  end.

(** [range(n)]. *)
Definition range (n : Z) : list Z := seqZ 0 n.

Definition Qltb (x y : Q) : bool := negb (Qle_bool y x).
Definition TypeError (msg : string) : PyExc :=
  mkExc "TypeError" ["TypeError"; "Exception"] msg.
Definition FutureTimeoutError : PyExc :=
  mkExc "TimeoutError" ["concurrent.futures.TimeoutError"; "Exception"] "".

(** [_classify_error_type]. *)
Definition _classify_error_type (exception : PyExc) : string :=
  let exception_str := lower (exc_str exception) in
  if isinstance exception "AssertionError" then "assertion_error"
  else if isinstance exception "socket.timeout" then "timeout"
  else if isinstance exception "requests.exceptions.Timeout"
          || str_in "timeout" exception_str then "timeout"
  else if isinstance exception "requests.exceptions.ConnectionError"
          || existsb (fun keyword => str_in keyword exception_str)
                     ["connection"; "network"; "connect"] then "connection_error"
  else if str_in "HTTPError" (exc_class_name exception) then "http_error"
  else if isinstance exception "requests.exceptions.HTTPError" then "http_error"
  else if isinstance exception "requests.exceptions.RequestException" then "request_error"
  else "other_error".

(** The two dictionaries bound to [self._error_statistics]: by
    [_init_error_handling_config], and by each load function. *)
Definition initial_error_statistics : ErrorStatistics :=
  {| counts := list_to_map
       [("total_errors", 0); ("timeout", 0); ("connection_error", 0);
        ("business_error", 0); ("system_error", 0); ("unexpected_error", 0);
        ("other_error", 0)];
     error_details := ∅ |}.

Definition load_error_statistics : ErrorStatistics :=
  {| counts := list_to_map
       [("timeout", 0); ("connection_error", 0); ("business_error", 0);
        ("other_error", 0); ("total_errors", 0)];
     error_details := ∅ |}.

(** [k in self._error_statistics] and [self._error_statistics[k] += 1].
    Both dictionaries above have the keys ['total_errors'] and
    ['other_error'], the only ones incremented without a membership test. *)
Definition in_statistics (k : string) (s : ErrorStatistics) : bool :=
  String.eqb k "error_details" || bool_decide (is_Some (counts s !! k)).

Definition bump (k : string) (s : ErrorStatistics) : ErrorStatistics :=
  {| counts := incr k (counts s); error_details := error_details s |}.

Definition error_type_mapping : list (string * string) :=
  [ ("timeout", "timeout");
    ("connection_error", "connection_error");
    ("http_error", "business_error");
    ("assertion_error", "business_error");
    ("validation_error", "business_error");
    ("business_error", "business_error");
    ("system_error", "system_error");
    ("unexpected_error", "unexpected_error") ].

Definition str_mem (s : string) (l : list string) : bool :=
  existsb (String.eqb s) l.

Definition assoc_get (k : string) (l : list (string * string)) (d : string) : string :=
  match List.find (fun p => String.eqb k (fst p)) l with
  | Some (_, v) => v
  | None => d
  end.

(** [__init__] at clock reading [t]. *)
Definition __init__ (t : Q) : World :=
  {| _running := false;
     _stop_event := false;
     _current_users := 0;
     _completed_tasks := 0;
     _before_tasks_completed := false;
     _after_tasks_completed := false;
     _before_results := [];
     _after_results := [];
     _error_count := 0;
     _error_statistics := initial_error_statistics;
     _total_errors := 0;
     _consecutive_errors := 0;
     _consecutive_error_count := 0;
     now := t;
     before_calls := 0;
     task_calls := 0;
     after_calls := 0;
     callback_calls := 0;
     results := [];
     futures := [];
     step_results := [];
     step_step_results := [];
     step_completed_tasks := 0;
     step_error_count := 0;
     stable_results := [];
     stable_completed_tasks := 0;
     stable_error_count := 0;
     interval_results := [];
     next_check_time := 0 |}.

Section LoadGenerator.
(** The clock: a reading takes [1/tick] seconds. *)
Variable tick : positive.
(** [self._test_config]. *)
Variable test_config : TestConfig.

Definition tick_len : Q := 1 # tick.

(** [time.time()] and [time.sleep(d)]. *)
Definition time_time : M Q := fun w =>
  Done (Ok (now w)) (set_now (now w + tick_len)%Q w).

Definition time_sleep (d : Q) : M unit :=
  if Qltb d 0 then raise (ValueError "sleep length must be non-negative")
  else modify (fun w => set_now (now w + d)%Q w).

(** [stop]. *)
Definition stop : M unit :=
  modify (fun w => set_running false (set_stop_event true w)).

(** The n-th invocation of a user function. *)
Definition apply_effect (eff : Effect) (w : World) : World :=
  let w := set_now (now w + inject_Z (Z.of_N (takes eff)) * tick_len)%Q w in
  if calls_stop eff then set_running false (set_stop_event true w) else w.

Definition call_before (before_func : UserFn) : M PyVal := fun w =>
  let eff := before_func (before_calls w) in
  Done (returns eff) (apply_effect eff (set_before_calls (S (before_calls w)) w)).

Definition call_task (task_func : UserFn) : M PyVal := fun w =>
  let eff := task_func (task_calls w) in
  Done (returns eff) (apply_effect eff (set_task_calls (S (task_calls w)) w)).

Definition call_after (after_func : UserFn) : M PyVal := fun w =>
  let eff := after_func (after_calls w) in
  Done (returns eff) (apply_effect eff (set_after_calls (S (after_calls w)) w)).

(** [if result_callback: result_callback(result)]. *)
Definition run_callback (result_callback : option Callback) (result : PyVal)
  : M unit :=
  match result_callback with
  | None => mret tt
  | Some cb => fun w =>
      let eff := cb (callback_calls w) result in
      Done (match returns eff with Ok _ => Ok tt | Raise e => Raise e end)
           (apply_effect eff (set_callback_calls (S (callback_calls w)) w))
  end.

(** Reading the configuration: [cfg.get(k, d) if isinstance(cfg, dict)
    else getattr(cfg, k, d)]; [getattr(cfg, k, d)] alone, which finds
    nothing on a dict; and [cfg.k]. *)
Definition lookup {T} (field : option T) (d : T) : T := default d field.

Definition getattr_or {T} (field : option T) (d : T) : T :=
  if is_dict test_config then d else default d field.

Definition attr {T} (name : string) (field : option T) : M T :=
  if is_dict test_config
  then raise (AttributeError ("'dict' object has no attribute '" +:+ name +:+ "'"))
  else match field with
       | Some v => mret v
       | None => raise (AttributeError ("object has no attribute '" +:+ name +:+ "'"))
       end.

(** What [_init_error_handling_config] computes from the configuration. *)
Definition _max_retries : Z := lookup (max_retries test_config) 0.
Definition _error_threshold : option Z := error_threshold test_config.
Definition _error_rate_threshold : option Q := error_rate_threshold test_config.
Definition _consecutive_error_threshold : option Z :=
  consecutive_error_threshold test_config.
Definition _stop_on_error : bool := lookup (stop_on_error test_config) true.
Definition retry_max_retries : Z := lookup (max_retries test_config) 0.
Definition retry_retry_delay : Q := lookup (retry_delay test_config) (1 # 10).
Definition retry_retryable_errors : list string :=
  lookup (retryable_errors test_config) ["timeout"; "connection_error"].

(** [_record_error]. *)
Definition _record_error (error_type error_message : string) : M unit :=
  modify (fun w => set_error_count (_error_count w + 1) w);;
  modify (fun w => set_error_statistics (bump "total_errors" (_error_statistics w)) w);;
  modify (fun w =>
    set_total_errors (default 0 (counts (_error_statistics w) !! "total_errors")) w);;
  modify (fun w => set_consecutive_errors (_consecutive_errors w + 1) w);;
  modify (fun w => set_consecutive_error_count (_consecutive_errors w) w);;
  let normalized_error_type := assoc_get error_type error_type_mapping "other_error" in
  modify (fun w =>
    let s := _error_statistics w in
    set_error_statistics
      (if in_statistics normalized_error_type s then bump normalized_error_type s
       else bump "other_error" s) w);;
  (if negb (str_mem error_type
              ["timeout"; "connection_error"; "business_error"; "system_error";
               "unexpected_error"; "other_error"])
   then
     if String.eqb error_type "error_details"
     then raise (TypeError "unsupported operand type(s) for +=: 'dict' and 'int'")
     else
       modify (fun w =>
         let s := _error_statistics w in
         let s := if in_statistics error_type s then s
                  else {| counts := <[error_type := 0]> (counts s);
                          error_details := error_details s |} in
         set_error_statistics (bump error_type s) w)
   else mret tt);;
  modify (fun w =>
    let s := _error_statistics w in
    set_error_statistics
      {| counts := counts s;
         error_details := incr error_message (error_details s) |} w);;
  if str_mem normalized_error_type ["system_error"]
  then modify (set_stop_event true)
  else mret tt.

(** [_check_error_threshold]. *)
Definition type_threshold_met (w : World) : bool :=
  let error_type_thresholds := getattr_or (error_type_thresholds test_config) ∅ in
  existsb (fun error_type =>
             match error_type_thresholds !! error_type,
                   counts (_error_statistics w) !! error_type with
             | Some type_threshold, Some type_count => type_threshold <=? type_count
             | _, _ => false
             end)
          ["timeout"; "connection_error"; "business_error"; "system_error"].

Definition no_ge : PyExc :=
  TypeError "'>=' not supported between instances of 'int' and 'NoneType'".

Definition _check_error_threshold : M bool :=
  stopped ← gets _stop_event;
  if (stopped : bool) then mret true else
  met ← gets type_threshold_met;
  if (met : bool) then modify (set_stop_event true);; mret true else
  error_count ← gets _total_errors;
  if match _error_threshold with
     | Some threshold => threshold <=? error_count
     | None => false
     end
  then modify (set_stop_event true);; mret true else
  completed_tasks ← gets _completed_tasks;
  if match _error_rate_threshold with
     | Some threshold =>
         (0 <? completed_tasks) &&
         Qle_bool threshold (inject_Z error_count / inject_Z completed_tasks)
     | None => false
     end
  then modify (set_stop_event true);; mret true else
  consecutive_errors ← gets _consecutive_errors;
  match _consecutive_error_threshold with
  | None => raise no_ge
  | Some threshold =>
      if threshold <=? consecutive_errors
      then modify (set_stop_event true);; mret true else
      consecutive_error_count ← gets _consecutive_error_count;
      if threshold <=? consecutive_error_count
      then modify (set_stop_event true);; mret true
      else mret false
  end.

(** [_execute_with_retry]: what becomes of the value a task returned. *)
Definition wrap_result (result : PyVal) : PyVal :=
  match result with
  | VDict s _ _ _ _ => if default true s then result else success_with result
  | VResponse _ => success_with result
  | VObject _ => success_with result
  | VNone => success_dict
  end.

(** [_execute_with_retry]: the [except Exception as e] handler of the
    attempt numbered [attempt]. *)
Definition retry_handler (attempt : Z) (e : PyExc) : M (Flow PyVal) :=
  let error_type := _classify_error_type e in
  let error_info := exc_str e in
  _record_error error_type error_info;;
  modify (fun w => set_consecutive_error_count (_consecutive_error_count w + 1) w);;
  modify (fun w => set_consecutive_errors (_consecutive_error_count w) w);;
  let should_retry :=
    str_mem error_type retry_retryable_errors
    || String.eqb error_type "timeout"
    || isinstance e "socket.timeout" in
  if should_retry && (attempt <? retry_max_retries)
  then
    let retry_delay := (retry_retry_delay * 2 ^ attempt)%Q in
    time_sleep retry_delay;; mret Next
  else mret (Return VNone).

(** [_execute_with_retry]: the attempts [attempt, attempt+1, ...], [n] of
    them, of [for attempt in range(max_retries + 1)]; [task_func] is the
    call of the task function on its arguments. *)
Fixpoint retry_attempts (task_func : M PyVal) (n : nat) (attempt : Z) : M PyVal :=
  match n with
  | O => mret VNone
  | S n' =>
      f ← try_except
            (result ← task_func;
             modify (set_consecutive_error_count 0);;
             modify (set_consecutive_errors 0);;
             mret (Return (wrap_result result)))
            (retry_handler attempt);
      match f with
      | Next => retry_attempts task_func n' (attempt + 1)
      | Break => mret VNone
      | Return r => mret r
      end
  end.

Definition _execute_with_retry (task_func : M PyVal) : M PyVal :=
  modify (set_consecutive_error_count 0);;
  modify (set_consecutive_errors 0);;
  retry_attempts task_func (Z.to_nat (retry_max_retries + 1)) 0.

(** [concurrent.futures]: [ThreadPoolExecutor(max_workers)],
    [executor.submit], [future.result()].  The pool is modelled by the
    schedule in which a submitted callable has run to completion when
    [submit] returns, and [as_completed] yields the futures in the order
    of submission. *)
Definition ThreadPoolExecutor (max_workers : Z) : M unit :=
  if max_workers <=? 0
  then raise (ValueError "max_workers must be greater than 0")
  else mret tt.

Definition submit (callable : M PyVal) : M Future := fun w =>
  match callable w with
  | Done r w' => Done (Ok (mkFuture r (now w' - now w)%Q)) w'
  | OutOfFuel => OutOfFuel
  end.

Definition future_result (future : Future) : M PyVal := lift (fut_outcome future).

Definition future_result_timeout (future : Future) (timeout : Q) : M PyVal :=
  if Qltb timeout (fut_elapsed future) then raise FutureTimeoutError
  else lift (fut_outcome future).

Definition pool_size (wanted max_thread_pool_size : Z) : Z :=
  if 0 <? max_thread_pool_size then Z.min wanted max_thread_pool_size else wanted.

(** [_execute_before_tasks]. *)
Definition _execute_before_tasks (before_func : UserFn) : M unit :=
  let before_concurrent := lookup (before_concurrent test_config) 1 in
  let stop_on_error := lookup (stop_on_error test_config) false in
  let max_thread_pool_size := lookup (max_thread_pool_size test_config) 0 in
  let max_workers := pool_size before_concurrent max_thread_pool_size in
  ThreadPoolExecutor max_workers;;
  future ← submit (call_before before_func);
  r ← for_each [future] (fun future =>
        result ← _execute_with_retry (call_before before_func);
        modify (fun w => set_before_results (_before_results w ++ [result]) w);;
        ok ← lift (get_success result);
        if negb ok then
          error_type ← lift (get_error_type result);
          error ← lift (get_error result);
          _record_error error_type error;;
          if stop_on_error then stop;; mret (Return tt) else mret Next
        else mret Next);
  match r with
  | Some _ => mret tt
  | None => modify (set_before_tasks_completed true)
  end.

(** [_execute_after_tasks]. *)
Definition _execute_after_tasks (after_func : UserFn) : M unit :=
  let after_concurrent := lookup (after_concurrent test_config) 1 in
  let max_thread_pool_size := lookup (max_thread_pool_size test_config) 0 in
  let max_workers := pool_size after_concurrent max_thread_pool_size in
  ThreadPoolExecutor max_workers;;
  future ← submit (call_after after_func);
  for_each (R := unit) [future] (fun future =>
    try_except
      (result ← future_result future;
       modify (fun w => set_after_results (_after_results w ++ [result]) w);;
       mret Next)
      (fun e =>
         let error_result := error_result (exc_str e) None in
         modify (fun w => set_after_results (_after_results w ++ [error_result]) w);;
         mret Next));;
  modify (set_after_tasks_completed true).

(** The number of clock readings that fit before [deadline], plus one:
    the iteration budget of a loop [while time.time() < deadline ...]. *)
Definition fuel_until (deadline : Q) (w : World) : nat :=
  S (Z.to_nat (Qceiling ((deadline - now w) * inject_Z (Z.pos tick)))).

Definition while_until {R} (deadline : Q) (cond : M bool) (body : M (Flow R))
  : M (option R) :=
  fun w => while_fuel (fuel_until deadline w) cond body w.

(** [time.time() < end_time and not self._stop_event.is_set()]. *)
Definition before_deadline (end_time : Q) : M bool :=
  t ← time_time;
  if Qltb t end_time then stopped ← gets _stop_event; mret (negb stopped)
  else mret false.

(** [stop_on_error or self._check_error_threshold()]. *)
Definition must_stop (stop_on_error : bool) : M bool :=
  if stop_on_error then mret true else _check_error_threshold.

Definition reset_errors : M unit :=
  modify (set_error_count 0);;
  modify (set_error_statistics load_error_statistics).

Definition count_completed : M unit :=
  modify (fun w => set_completed_tasks (_completed_tasks w + 1) w).

(** [_generate_concurrent_load]. *)
Definition _generate_concurrent_load (task_func : UserFn)
    (result_callback : option Callback) : M ProfileResult :=
  let concurrent_users := lookup (concurrent_users test_config) 1 in
  let stop_on_error := lookup (stop_on_error test_config) false in
  let duration := lookup (duration test_config) 60%Q in
  let max_thread_pool_size := lookup (max_thread_pool_size test_config) 0 in
  let max_workers := pool_size concurrent_users max_thread_pool_size in
  modify (set_results []);;
  modify (set_current_users concurrent_users);;
  reset_errors;;
  start_time ← time_time;
  let end_time := (start_time + duration)%Q in
  while_until (R := unit) end_time (before_deadline end_time)
    (t ← time_time;
     let remaining_time := (end_time - t)%Q in
     if Qle_bool remaining_time 0 then mret Break else
     ThreadPoolExecutor max_workers;;
     modify (set_futures []);;
     for_each (R := unit) (range concurrent_users) (fun i =>
       stopped ← gets _stop_event;
       if (stopped : bool) then mret Break else
       future ← submit (_execute_with_retry (call_task task_func));
       modify (fun w => set_futures (futures w ++ [future]) w);;
       mret Next);;
     fs ← gets futures;
     for_each (R := unit) fs (fun future =>
       stopped ← gets _stop_event;
       if (stopped : bool) then mret Break else
       try_except
         (result ← future_result future;
          modify (fun w => set_results (results w ++ [result]) w);;
          count_completed;;
          run_callback result_callback result;;
          ok ← lift (get_success result);
          if negb ok then
            error_type ← lift (get_error_type result);
            error_message ← lift (get_error result);
            _record_error error_type error_message;;
            b ← must_stop stop_on_error;
            if (b : bool) then stop;; mret Break else mret Next
          else mret Next)
         (fun e =>
            let error_result := error_result (exc_str e) (Some "unexpected_error") in
            modify (fun w => set_results (results w ++ [error_result]) w);;
            count_completed;;
            _record_error "unexpected_error" (exc_str e);;
            run_callback result_callback error_result;;
            b ← must_stop stop_on_error;
            if (b : bool) then stop;; mret Break else mret Next));;
     stopped ← gets _stop_event;
     if (stopped : bool) then mret Break else mret Next);;
  modify (set_current_users 0);;
  t ← time_time;
  let actual_duration := (t - start_time)%Q in
  completed_tasks ← gets _completed_tasks;
  results ← gets results;
  mret (ConcurrentResult concurrent_users duration actual_duration
          completed_tasks results).

(** [x or 10] on an optional integer. *)
Definition or_10 (x : option Z) : Z :=
  match x with
  | Some v => if v =? 0 then 10 else v
  | None => 10
  end.

(** The end of an iteration of the TPS and QPS loops. *)
Definition pace (loop_start_time interval : Q) : M (Flow unit) :=
  t ← time_time;
  let elapsed := (t - loop_start_time)%Q in
  if Qltb elapsed interval then time_sleep (interval - elapsed)%Q;; mret Next
  else mret Next.

(** [_generate_tps_load]. *)
Definition _generate_tps_load (task_func : UserFn)
    (result_callback : option Callback) : M ProfileResult :=
  tps ← attr "target_tps" (target_tps test_config);
  let target_tps := or_10 tps in
  let interval := if 0 <? target_tps then (1 / inject_Z target_tps)%Q else 0%Q in
  let stop_on_error := getattr_or (stop_on_error test_config) false in
  let max_thread_pool_size := getattr_or (max_thread_pool_size test_config) 0 in
  modify (set_results []);;
  start_time ← time_time;
  duration ← attr "duration" (duration test_config);
  let end_time := (start_time + duration)%Q in
  reset_errors;;
  let max_workers := pool_size (Z.min target_tps 1000) max_thread_pool_size in
  ThreadPoolExecutor max_workers;;
  while_until (R := unit) end_time (before_deadline end_time)
    (loop_start_time ← time_time;
     future ← submit (_execute_with_retry (call_task task_func));
     f ← try_except
           (timeout ← attr "timeout" (timeout test_config);
            result ← future_result_timeout future timeout;
            modify (fun w => set_results (results w ++ [result]) w);;
            count_completed;;
            run_callback result_callback result;;
            ok ← lift (get_success result);
            if negb ok then
              error_type ← lift (get_error_type result);
              error_message ← lift (get_error result);
              _record_error error_type error_message;;
              b ← must_stop stop_on_error;
              if (b : bool) then stop;; mret Break else mret Next
            else mret Next)
           (fun e =>
              if isinstance e "concurrent.futures.TimeoutError" then
                let error_result := error_result "Task timeout" (Some "timeout") in
                modify (fun w => set_results (results w ++ [error_result]) w);;
                count_completed;;
                _record_error "timeout" "Task timeout";;
                run_callback result_callback error_result;;
                b ← must_stop stop_on_error;
                if (b : bool) then stop;; mret Break else mret Next
              else
                let error_result :=
                  error_result (exc_str e) (Some "unexpected_error") in
                modify (fun w => set_results (results w ++ [error_result]) w);;
                count_completed;;
                _record_error "unexpected_error" (exc_str e);;
                run_callback result_callback error_result;;
                b ← must_stop stop_on_error;
                if (b : bool) then stop;; mret Break else mret Next);
     match f with
     | Next => pace loop_start_time interval
     | Break => mret Break
     | Return r => mret (Return r)
     end);;
  t1 ← time_time;
  actual_tps ←
    (if Qltb 0 (t1 - start_time) then
       completed_tasks ← gets _completed_tasks;
       t2 ← time_time;
       lift (pydiv (inject_Z completed_tasks) (t2 - start_time))
     else mret 0%Q);
  t3 ← time_time;
  completed_tasks ← gets _completed_tasks;
  results ← gets results;
  mret (TpsResult target_tps actual_tps (t3 - start_time)%Q completed_tasks results).

(** [_generate_qps_load]. *)
Definition _generate_qps_load (task_func : UserFn)
    (result_callback : option Callback) : M ProfileResult :=
  qps ← attr "target_qps" (target_qps test_config);
  let target_qps := or_10 qps in
  let interval := if 0 <? target_qps then (1 / inject_Z target_qps)%Q else 0%Q in
  let stop_on_error := getattr_or (stop_on_error test_config) false in
  let max_thread_pool_size := getattr_or (max_thread_pool_size test_config) 0 in
  let max_workers := pool_size (Z.min target_qps 1000) max_thread_pool_size in
  modify (set_results []);;
  start_time ← time_time;
  duration ← attr "duration" (duration test_config);
  let end_time := (start_time + duration)%Q in
  reset_errors;;
  ThreadPoolExecutor max_workers;;
  while_until (R := unit) end_time (before_deadline end_time)
    (loop_start_time ← time_time;
     future ← submit (_execute_with_retry (call_task task_func));
     f ← try_except
           (timeout ← attr "timeout" (timeout test_config);
            result ← future_result_timeout future timeout;
            modify (fun w => set_results (results w ++ [result]) w);;
            run_callback result_callback result;;
            b ← _check_error_threshold;
            if (b : bool) then modify (set_stop_event true);; mret Break
            else mret Next)
           (fun e =>
              let key := if isinstance e "concurrent.futures.TimeoutError"
                         then "timeout" else "other_error" in
              modify (fun w => set_error_count (_error_count w + 1) w);;
              modify (fun w =>
                set_error_statistics (bump key (_error_statistics w)) w);;
              modify (fun w =>
                set_error_statistics (bump "total_errors" (_error_statistics w)) w);;
              if stop_on_error then modify (set_stop_event true);; mret Break
              else mret Next);
     match f with
     | Next => pace loop_start_time interval
     | Break => mret Break
     | Return r => mret (Return r)
     end);;
  t ← time_time;
  let total_time := (t - start_time)%Q in
  results ← gets results;
  actual_qps ←
    (if Qltb 0 total_time then lift (pydiv (inject_Z (len results)) total_time)
     else mret 0%Q);
  error_count ← gets _error_count;
  error_statistics ← gets _error_statistics;
  mret (QpsResult target_qps actual_qps total_time (len results) error_count
          error_statistics total_time).

(** A name that is bound neither in the function nor in the module. *)
Definition unbound_name {A} (name : string) : M A := raise (NameError name).

(** [errors / completed if completed > 0 else 0]. *)
Definition rate (errors completed : Z) : M Q :=
  if 0 <? completed then lift (pydiv (inject_Z errors) (inject_Z completed))
  else mret 0%Q.

(** [_generate_ramp_up_load]. *)
Definition _generate_ramp_up_load (task_func : UserFn)
    (result_callback : option Callback) : M ProfileResult :=
  let stop_on_error := getattr_or (stop_on_error test_config) false in
  concurrent_users ← attr "concurrent_users" (concurrent_users test_config);
  ramp_up_steps ← attr "ramp_up_steps" (ramp_up_steps test_config);
  modify (set_results []);;
  modify (set_step_results []);;
  reset_errors;;
  let step_users :=
    if 0 <? ramp_up_steps then concurrent_users `div` ramp_up_steps
    else concurrent_users in
  ramp_up_time ← attr "ramp_up_time" (ramp_up_time test_config);
  let step_time :=
    if 0 <? ramp_up_steps then (ramp_up_time / inject_Z ramp_up_steps)%Q
    else ramp_up_time in
  for_each (R := unit) (range (ramp_up_steps + 1)) (fun step =>
    stopped ← gets _stop_event;
    if (stopped : bool) then mret Break else
    let current_users := Z.min (step * step_users) concurrent_users in
    if current_users <=? 0 then mret Next else
    modify (set_current_users current_users);;
    step_start_time ← time_time;
    modify (set_step_completed_tasks 0);;
    modify (set_step_step_results []);;
    modify (set_step_error_count 0);;
    max_thread_pool_size ← unbound_name "max_thread_pool_size";
    let max_workers := pool_size current_users max_thread_pool_size in
    ThreadPoolExecutor max_workers;;
    modify (set_futures []);;
    for_each (R := unit) (range current_users) (fun i =>
      stopped ← gets _stop_event;
      if (stopped : bool) then mret Break else
      future ← submit (_execute_with_retry (call_task task_func));
      modify (fun w => set_futures (futures w ++ [future]) w);;
      mret Next);;
    fs ← gets futures;
    for_each (R := unit) fs (fun future =>
      stopped ← gets _stop_event;
      if (stopped : bool) then mret Break else
      try_except
        (result ← future_result future;
         modify (fun w => set_results (results w ++ [result]) w);;
         modify (fun w => set_step_step_results (step_step_results w ++ [result]) w);;
         modify (fun w => set_step_completed_tasks (step_completed_tasks w + 1) w);;
         count_completed;;
         run_callback result_callback result;;
         ok ← lift (get_success result);
         if negb ok then
           error_type ← lift (get_error_type result);
           error_message ← lift (get_error result);
           _record_error error_type error_message;;
           modify (fun w => set_step_error_count (step_error_count w + 1) w);;
           b ← must_stop stop_on_error;
           if (b : bool) then stop;; mret Break else mret Next
         else mret Next)
        (fun e =>
           let error_result := error_result (exc_str e) (Some "unexpected_error") in
           modify (fun w => set_results (results w ++ [error_result]) w);;
           modify (fun w =>
             set_step_step_results (step_step_results w ++ [error_result]) w);;
           modify (fun w => set_step_completed_tasks (step_completed_tasks w + 1) w);;
           count_completed;;
           _record_error "unexpected_error" (exc_str e);;
           modify (fun w => set_step_error_count (step_error_count w + 1) w);;
           run_callback result_callback error_result;;
           b ← must_stop stop_on_error;
           if (b : bool) then stop;; mret Break else mret Next));;
    t ← time_time;
    let step_duration := (t - step_start_time)%Q in
    completed ← gets step_completed_tasks;
    errors ← gets step_error_count;
    step_results_of_step ← gets step_step_results;
    error_rate ← rate errors completed;
    modify (fun w =>
      set_step_results
        (step_results w ++
         [ {| sr_step := Some (step + 1);
              sr_users := current_users;
              sr_duration := step_duration;
              sr_completed_tasks := completed;
              sr_error_count := errors;
              sr_results := step_results_of_step;
              sr_error_rate := error_rate |} ]) w);;
    stopped ← gets _stop_event;
    if (step <? ramp_up_steps) && Qltb 0 step_time && negb stopped then
      wait_start ← time_time;
      while_until (R := unit) (wait_start + step_time)%Q
        (t ← time_time;
         if Qltb (t - wait_start) step_time
         then stopped ← gets _stop_event; mret (negb stopped)
         else mret false)
        (time_sleep (1 # 10);; mret Next);;
      mret Next
    else mret Next);;
  stopped ← gets _stop_event;
  (if (stopped : bool) then mret tt else
     stable_start_time ← time_time;
     duration ← attr "duration" (duration test_config);
     let stable_end_time := (stable_start_time + duration)%Q in
     modify (set_stable_completed_tasks 0);;
     modify (set_stable_results []);;
     modify (set_stable_error_count 0);;
     ThreadPoolExecutor concurrent_users;;
     while_until (R := unit) stable_end_time (before_deadline stable_end_time)
       (modify (set_futures []);;
        for_each (R := unit) (range concurrent_users) (fun i =>
          t ← time_time;
          stopped ← (if Qle_bool stable_end_time t then mret true
                     else gets _stop_event);
          if (stopped : bool) then mret Break else
          future ← submit (_execute_with_retry (call_task task_func));
          modify (fun w => set_futures (futures w ++ [future]) w);;
          mret Next);;
        fs ← gets futures;
        for_each (R := unit) fs (fun future =>
          try_except
            (result ← future_result future;
             modify (fun w => set_results (results w ++ [result]) w);;
             modify (fun w => set_stable_results (stable_results w ++ [result]) w);;
             modify (fun w =>
               set_stable_completed_tasks (stable_completed_tasks w + 1) w);;
             count_completed;;
             run_callback result_callback result;;
             ok ← lift (get_success result);
             if negb ok then
               error_type ← lift (get_error_type result);
               error_message ← lift (get_error result);
               _record_error error_type error_message;;
               modify (fun w => set_stable_error_count (stable_error_count w + 1) w);;
               b ← must_stop stop_on_error;
               if (b : bool) then stop;; mret Break else mret Next
             else mret Next)
            (fun e =>
               let error_result :=
                 error_result (exc_str e) (Some "unexpected_error") in
               modify (fun w => set_results (results w ++ [error_result]) w);;
               modify (fun w =>
                 set_stable_results (stable_results w ++ [error_result]) w);;
               modify (fun w =>
                 set_stable_completed_tasks (stable_completed_tasks w + 1) w);;
               count_completed;;
               _record_error "unexpected_error" (exc_str e);;
               modify (fun w => set_stable_error_count (stable_error_count w + 1) w);;
               run_callback result_callback error_result;;
               b ← must_stop stop_on_error;
               if (b : bool) then stop;; mret Break else mret Next));;
        mret Next);;
     t ← time_time;
     let stable_duration := (t - stable_start_time)%Q in
     completed ← gets stable_completed_tasks;
     errors ← gets stable_error_count;
     stable ← gets stable_results;
     error_rate ← rate errors completed;
     modify (fun w =>
       set_step_results
         (step_results w ++
          [ {| sr_step := None;
               sr_users := concurrent_users;
               sr_duration := stable_duration;
               sr_completed_tasks := completed;
               sr_error_count := errors;
               sr_results := stable;
               sr_error_rate := error_rate |} ]) w));;
  modify (set_current_users 0);;
  duration ← attr "duration" (duration test_config);
  completed_tasks ← gets _completed_tasks;
  error_count ← gets _error_count;
  error_rate ← rate error_count completed_tasks;
  error_statistics ← gets _error_statistics;
  step_results ← gets step_results;
  results ← gets results;
  mret (RampUpResult concurrent_users ramp_up_steps ramp_up_time duration
          completed_tasks error_count error_rate error_statistics step_results
          results).

(** [_analyze_stability_interval]. *)
Definition _analyze_stability_interval (interval_results : list PyVal)
  : Res IntervalResult :=
  match interval_results with
  | [] =>
      Ok {| ir_error_rate := 0; ir_p50 := 0; ir_p95 := 0; ir_p99 := 0;
            ir_avg_duration := 0; ir_total_count := 0 |}
  | _ :: _ =>
      oks ← mapM get_success interval_results;
      let error_count := len (List.filter negb oks) in
      error_rate ← pydiv (inject_Z error_count) (inject_Z (len interval_results));
      oks' ← mapM get_success interval_results;
      durations ← mapM get_duration
        (map fst (List.filter snd (combine interval_results oks')));
      '(avg_duration, p50, p95, p99) ←
        (match durations with
         | _ :: _ =>
             let durations := py_sorted Metrics_collector.Qleb durations in
             let total_duration := py_sum durations in
             avg_duration ← pydiv total_duration (inject_Z (len durations));
             p50 ← py_getitem durations (py_int (inject_Z (len durations) * (1 # 2)));
             p95 ← py_getitem durations (py_int (inject_Z (len durations) * (95 # 100)));
             p99 ← py_getitem durations (py_int (inject_Z (len durations) * (99 # 100)));
             Ok (avg_duration, p50, p95, p99)
         | [] => Ok (0%Q, 0%Q, 0%Q, 0%Q)
         end);
      Ok {| ir_error_rate := error_rate; ir_p50 := p50; ir_p95 := p95;
            ir_p99 := p99; ir_avg_duration := avg_duration;
            ir_total_count := len interval_results |}
  end.

(** [_check_stability_threshold]. *)
Definition _check_stability_threshold (interval_result : IntervalResult) : M bool :=
  threshold ← attr "stability_threshold" (stability_threshold test_config);
  if Qltb (default (5 # 100) (st_error_rate threshold)) (ir_error_rate interval_result)
  then mret false
  else if Qltb (default 1%Q (st_response_time_p95 threshold)) (ir_p95 interval_result)
  then mret false
  else if Qltb (default 2%Q (st_response_time_p99 threshold)) (ir_p99 interval_result)
  then mret false
  else mret true.

(** [results[-1000:] if len(results) > 1000 else results]. *)
Definition last_1000 (results : list PyVal) : list PyVal :=
  if 1000 <? len results then drop (length results - 1000) results else results.

(** [_generate_stability_load]. *)
Definition _generate_stability_load (task_func : UserFn)
    (result_callback : option Callback) : M ProfileResult :=
  stability_duration ← attr "stability_duration" (stability_duration test_config);
  stability_check_interval ←
    attr "stability_check_interval" (stability_check_interval test_config);
  _ ← attr "stability_threshold" (stability_threshold test_config);
  modify (set_results []);;
  modify (set_interval_results []);;
  reset_errors;;
  start_time ← time_time;
  let end_time := (start_time + stability_duration)%Q in
  modify (set_next_check_time (start_time + stability_check_interval)%Q);;
  let max_thread_pool_size := getattr_or (max_thread_pool_size test_config) 0 in
  concurrent_users ← attr "concurrent_users" (concurrent_users test_config);
  let max_workers := pool_size concurrent_users max_thread_pool_size in
  ThreadPoolExecutor max_workers;;
  while_until (R := unit) end_time (before_deadline end_time)
    (current_time ← time_time;
     check_time ← gets next_check_time;
     f ← (if Qle_bool check_time current_time then
            results ← gets results;
            interval_result ← lift (_analyze_stability_interval (last_1000 results));
            modify (fun w => set_interval_results (interval_results w ++ [interval_result]) w);;
            ok ← _check_stability_threshold interval_result;
            if negb ok then stop;; mret Break else
            modify (set_next_check_time (current_time + stability_check_interval)%Q);;
            mret Next
          else mret Next);
     match f with
     | Break => mret Break
     | Return r => mret (Return r)
     | Next =>
         modify (set_futures []);;
         for_each (R := unit) (range (Z.min max_workers 100)) (fun i =>
           t ← time_time;
           stopped ← (if Qle_bool end_time t then mret true else gets _stop_event);
           if (stopped : bool) then mret Break else
           future ← submit (_execute_with_retry (call_task task_func));
           modify (fun w => set_futures (futures w ++ [future]) w);;
           mret Next);;
         fs ← gets futures;
         for_each (R := unit) fs (fun future =>
           stopped ← gets _stop_event;
           if (stopped : bool) then mret Break else
           try_except
             (result ← future_result future;
              modify (fun w => set_results (results w ++ [result]) w);;
              count_completed;;
              run_callback result_callback result;;
              ok ← lift (get_success result);
              if negb ok then
                error_type ← lift (get_error_type result);
                error_message ← lift (get_error result);
                _record_error error_type error_message;;
                mret Next
              else mret Next)
             (fun e =>
                let error_result :=
                  error_result (exc_str e) (Some "unexpected_error") in
                modify (fun w => set_results (results w ++ [error_result]) w);;
                count_completed;;
                _record_error "unexpected_error" (exc_str e);;
                run_callback result_callback error_result;;
                mret Next));;
         mret Next
     end);;
  all_results ← gets results;
  match all_results with
  | _ :: _ =>
      final_result ← lift (_analyze_stability_interval all_results);
      modify (fun w => set_interval_results (interval_results w ++ [final_result]) w)
  | [] => mret tt
  end;;
  t ← time_time;
  let actual_duration := (t - start_time)%Q in
  completed_tasks ← gets _completed_tasks;
  error_count ← gets _error_count;
  error_rate ← rate error_count completed_tasks;
  error_statistics ← gets _error_statistics;
  interval_results ← gets interval_results;
  results ← gets results;
  mret (StabilityResult stability_duration actual_duration completed_tasks
          error_count error_rate error_statistics interval_results results).

Definition unsupported_test_type (test_type : string) : PyExc :=
  ValueError ("不支持的测试类型: " +:+ test_type).

(** [generate_load]: the chain [if test_type == 'concurrent': ... else:
    raise ValueError(...)]. *)
Definition run_test_type (task_func : UserFn) (result_callback : option Callback)
  : M ProfileResult :=
  let test_type := lookup (test_type test_config) "" in
  if String.eqb test_type "concurrent"
  then _generate_concurrent_load task_func result_callback
  else if String.eqb test_type "tps"
  then _generate_tps_load task_func result_callback
  else if String.eqb test_type "qps"
  then _generate_qps_load task_func result_callback
  else if String.eqb test_type "ramp_up"
  then _generate_ramp_up_load task_func result_callback
  else if String.eqb test_type "stability"
  then _generate_stability_load task_func result_callback
  else raise (unsupported_test_type test_type).

(** [generate_load]: the [try] block. *)
Definition generate_load_try (task_func : UserFn) (result_callback : option Callback)
    (before_func after_func : option UserFn) : M RunResult :=
  stopped ←
    match before_func with
    | Some before_func =>
        _execute_before_tasks before_func;;
        gets _stop_event
    | None => mret false
    end;
  if (stopped : bool) then mret Stopped else
  test_result ← run_test_type task_func result_callback;
  match after_func with
  | Some after_func => _execute_after_tasks after_func
  | None => mret tt
  end;;
  before_tasks_completed ← gets _before_tasks_completed;
  after_tasks_completed ← gets _after_tasks_completed;
  before_results ← gets _before_results;
  after_results ← gets _after_results;
  mret (Completed test_result before_tasks_completed after_tasks_completed
          before_results after_results).

(** [generate_load]: the [finally] block. *)
Definition generate_load_finally (after_func : option UserFn) : M unit :=
  after_tasks_completed ← gets _after_tasks_completed;
  stopped ← gets _stop_event;
  match after_func with
  | Some after_func =>
      if negb after_tasks_completed && negb stopped
      then try_except (_execute_after_tasks after_func) (fun e => mret tt)
      else mret tt
  | None => mret tt
  end;;
  modify (set_running false).

(** What [generate_load] does before the [try]. *)
Definition start_run (w : World) : World :=
  set_after_results []
    (set_before_results []
       (set_after_tasks_completed false
          (set_before_tasks_completed false
             (set_completed_tasks 0 (set_stop_event false (set_running true w)))))).

(** [generate_load]. *)
Definition generate_load (task_func : UserFn) (result_callback : option Callback)
    (before_func after_func : option UserFn) : M RunResult :=
  modify start_run;;
  try_finally
    (generate_load_try task_func result_callback before_func after_func)
    (generate_load_finally after_func).

(** [is_running], [get_current_users], [get_completed_tasks]. *)
Definition is_running : M bool := gets _running.
Definition get_current_users : M Z := gets _current_users.
Definition get_completed_tasks : M Z := gets _completed_tasks.
End LoadGenerator.

(** [generate_concurrent_load]: the configuration after the three
    assignments, the task function it defines ([time.sleep(0.01)], then
    [{"success": True}]; [stops n] tells whether [stop()] is called from
    elsewhere during its n-th invocation), and the call of [generate_load].
    The clock makes [100 * centi] readings per second, so that the sleep
    takes [centi] of them. *)
Definition with_concurrent (concurrent_users : Z) (duration : Q) (cfg : TestConfig)
  : TestConfig :=
  {| is_dict := is_dict cfg;
     test_type := Some "concurrent";
     duration := Some duration;
     concurrent_users := Some concurrent_users;
     stop_on_error := stop_on_error cfg;
     max_thread_pool_size := max_thread_pool_size cfg;
     before_concurrent := before_concurrent cfg;
     after_concurrent := after_concurrent cfg;
     max_retries := max_retries cfg;
     retry_delay := retry_delay cfg;
     retryable_errors := retryable_errors cfg;
     error_threshold := error_threshold cfg;
     error_rate_threshold := error_rate_threshold cfg;
     consecutive_error_threshold := consecutive_error_threshold cfg;
     error_type_thresholds := error_type_thresholds cfg;
     target_tps := target_tps cfg;
     target_qps := target_qps cfg;
     timeout := timeout cfg;
     ramp_up_steps := ramp_up_steps cfg;
     ramp_up_time := ramp_up_time cfg;
     stability_duration := stability_duration cfg;
     stability_check_interval := stability_check_interval cfg;
     stability_threshold := stability_threshold cfg |}.

Definition simulated_task (centi : positive) (stops : nat -> bool) : UserFn :=
  fun n => {| returns := Ok success_dict; calls_stop := stops n; takes := Npos centi |}.

Definition generate_concurrent_load (centi : positive) (stops : nat -> bool)
    (test_config : TestConfig) (concurrent_users : Z) (duration : Q)
    (before_func after_func : option UserFn) : M RunResult :=
  generate_load (100 * centi) (with_concurrent concurrent_users duration test_config)
    (simulated_task centi stops) None before_func after_func.

End Load_generator.

(** ** performance_runner.py: the configuration a runner builds *)

Module Performance_runner.

(** The dataclass [TestConfig]. *)
Record TestConfig := mkTestConfig {
  c_test_type : string;
  c_duration : Q;
  c_concurrent_users : Z;
  c_ramp_up_time : Q;
  c_ramp_up_steps : Z;
  c_target_tps : option Z;
  c_target_qps : option Z;
  c_timeout : Q;
  c_think_time : Q;
  c_stop_on_error : bool;
  c_collect_metrics : bool;
  c_before_concurrent : Z;
  c_test_concurrent : option Z;
  c_after_concurrent : Z;
  c_max_thread_pool_size : Z;
  c_max_retries : Z;
  c_error_threshold : option Z;
  c_error_rate_threshold : option Q;
  c_stability_duration : Q;
  c_stability_check_interval : Q;
  c_stability_threshold : gmap string Q
}.

(** [TestConfig()], the configuration of a new [PerformanceRunner]. *)
Definition default_config : TestConfig :=
  {| c_test_type := "tps";
     c_duration := 60;
     c_concurrent_users := 10;
     c_ramp_up_time := 0;
     c_ramp_up_steps := 0;
     c_target_tps := None;
     c_target_qps := None;
     c_timeout := 30;
     c_think_time := 0;
     c_stop_on_error := false;
     c_collect_metrics := true;
     c_before_concurrent := 1;
     c_test_concurrent := None;
     c_after_concurrent := 1;
     c_max_thread_pool_size := 1000;
     c_max_retries := 0;
     c_error_threshold := None;
     c_error_rate_threshold := None;
     c_stability_duration := 3600;
     c_stability_check_interval := 600;
     c_stability_threshold :=
       list_to_map [("error_rate", 5 # 100); ("response_time_p95", 1%Q);
                    ("response_time_p99", 2%Q)] |}.

(** The configuration as [LoadGenerator] reads it: an object that has the
    attributes of the dataclass and no other. *)
Definition as_load_config (c : TestConfig) : Load_generator.TestConfig :=
  {| Load_generator.is_dict := false;
     Load_generator.test_type := Some (c_test_type c);
     Load_generator.duration := Some (c_duration c);
     Load_generator.concurrent_users := Some (c_concurrent_users c);
     Load_generator.stop_on_error := Some (c_stop_on_error c);
     Load_generator.max_thread_pool_size := Some (c_max_thread_pool_size c);
     Load_generator.before_concurrent := Some (c_before_concurrent c);
     Load_generator.after_concurrent := Some (c_after_concurrent c);
     Load_generator.max_retries := Some (c_max_retries c);
     Load_generator.retry_delay := None;
     Load_generator.retryable_errors := None;
     Load_generator.error_threshold := c_error_threshold c;
     Load_generator.error_rate_threshold := c_error_rate_threshold c;
     Load_generator.consecutive_error_threshold := None;
     Load_generator.error_type_thresholds := None;
     Load_generator.target_tps := Some (c_target_tps c);
     Load_generator.target_qps := Some (c_target_qps c);
     Load_generator.timeout := Some (c_timeout c);
     Load_generator.ramp_up_steps := Some (c_ramp_up_steps c);
     Load_generator.ramp_up_time := Some (c_ramp_up_time c);
     Load_generator.stability_duration := Some (c_stability_duration c);
     Load_generator.stability_check_interval := Some (c_stability_check_interval c);
     Load_generator.stability_threshold :=
       Some {| Load_generator.st_error_rate := c_stability_threshold c !! "error_rate";
               Load_generator.st_response_time_p95 :=
                 c_stability_threshold c !! "response_time_p95";
               Load_generator.st_response_time_p99 :=
                 c_stability_threshold c !! "response_time_p99" |} |}.

(** A method of the runner that configures the test: the exception it
    raises, if any, and the configuration it leaves. *)
Definition Setter : Type := TestConfig -> Res unit * TestConfig.

Definition reject (msg : string) : Setter := fun c => (Raise (ValueError msg), c).
Definition accept : Setter := fun c => (Ok tt, c).
Definition assign (f : TestConfig -> TestConfig) (k : Setter) : Setter :=
  fun c => k (f c).

Definition set_test_type (v : string) (c : TestConfig) : TestConfig :=
  let 'mkTestConfig _ x1 x2 x3 x4 x5 x6 x7 x8 x9 x10 x11 x12 x13 x14 x15 x16 x17 x18 x19 x20 := c in
  mkTestConfig v x1 x2 x3 x4 x5 x6 x7 x8 x9 x10 x11 x12 x13 x14 x15 x16 x17 x18 x19 x20.
Definition set_duration (v : Q) (c : TestConfig) : TestConfig :=
  let 'mkTestConfig x0 _ x2 x3 x4 x5 x6 x7 x8 x9 x10 x11 x12 x13 x14 x15 x16 x17 x18 x19 x20 := c in
  mkTestConfig x0 v x2 x3 x4 x5 x6 x7 x8 x9 x10 x11 x12 x13 x14 x15 x16 x17 x18 x19 x20.
Definition set_concurrent_users (v : Z) (c : TestConfig) : TestConfig :=
  let 'mkTestConfig x0 x1 _ x3 x4 x5 x6 x7 x8 x9 x10 x11 x12 x13 x14 x15 x16 x17 x18 x19 x20 := c in
  mkTestConfig x0 x1 v x3 x4 x5 x6 x7 x8 x9 x10 x11 x12 x13 x14 x15 x16 x17 x18 x19 x20.
Definition set_ramp_up_time (v : Q) (c : TestConfig) : TestConfig :=
  let 'mkTestConfig x0 x1 x2 _ x4 x5 x6 x7 x8 x9 x10 x11 x12 x13 x14 x15 x16 x17 x18 x19 x20 := c in
  mkTestConfig x0 x1 x2 v x4 x5 x6 x7 x8 x9 x10 x11 x12 x13 x14 x15 x16 x17 x18 x19 x20.
Definition set_ramp_up_steps (v : Z) (c : TestConfig) : TestConfig :=
  let 'mkTestConfig x0 x1 x2 x3 _ x5 x6 x7 x8 x9 x10 x11 x12 x13 x14 x15 x16 x17 x18 x19 x20 := c in
  mkTestConfig x0 x1 x2 x3 v x5 x6 x7 x8 x9 x10 x11 x12 x13 x14 x15 x16 x17 x18 x19 x20.
Definition set_target_tps (v : option Z) (c : TestConfig) : TestConfig :=
  let 'mkTestConfig x0 x1 x2 x3 x4 _ x6 x7 x8 x9 x10 x11 x12 x13 x14 x15 x16 x17 x18 x19 x20 := c in
  mkTestConfig x0 x1 x2 x3 x4 v x6 x7 x8 x9 x10 x11 x12 x13 x14 x15 x16 x17 x18 x19 x20.
Definition set_target_qps (v : option Z) (c : TestConfig) : TestConfig :=
  let 'mkTestConfig x0 x1 x2 x3 x4 x5 _ x7 x8 x9 x10 x11 x12 x13 x14 x15 x16 x17 x18 x19 x20 := c in
  mkTestConfig x0 x1 x2 x3 x4 x5 v x7 x8 x9 x10 x11 x12 x13 x14 x15 x16 x17 x18 x19 x20.
Definition set_timeout (v : Q) (c : TestConfig) : TestConfig :=
  let 'mkTestConfig x0 x1 x2 x3 x4 x5 x6 _ x8 x9 x10 x11 x12 x13 x14 x15 x16 x17 x18 x19 x20 := c in
  mkTestConfig x0 x1 x2 x3 x4 x5 x6 v x8 x9 x10 x11 x12 x13 x14 x15 x16 x17 x18 x19 x20.
Definition set_think_time (v : Q) (c : TestConfig) : TestConfig :=
  let 'mkTestConfig x0 x1 x2 x3 x4 x5 x6 x7 _ x9 x10 x11 x12 x13 x14 x15 x16 x17 x18 x19 x20 := c in
  mkTestConfig x0 x1 x2 x3 x4 x5 x6 x7 v x9 x10 x11 x12 x13 x14 x15 x16 x17 x18 x19 x20.
Definition set_stop_on_error (v : bool) (c : TestConfig) : TestConfig :=
  let 'mkTestConfig x0 x1 x2 x3 x4 x5 x6 x7 x8 _ x10 x11 x12 x13 x14 x15 x16 x17 x18 x19 x20 := c in
  mkTestConfig x0 x1 x2 x3 x4 x5 x6 x7 x8 v x10 x11 x12 x13 x14 x15 x16 x17 x18 x19 x20.
Definition set_collect_metrics (v : bool) (c : TestConfig) : TestConfig :=
  let 'mkTestConfig x0 x1 x2 x3 x4 x5 x6 x7 x8 x9 _ x11 x12 x13 x14 x15 x16 x17 x18 x19 x20 := c in
  mkTestConfig x0 x1 x2 x3 x4 x5 x6 x7 x8 x9 v x11 x12 x13 x14 x15 x16 x17 x18 x19 x20.
Definition set_before_concurrent_field (v : Z) (c : TestConfig) : TestConfig :=
  let 'mkTestConfig x0 x1 x2 x3 x4 x5 x6 x7 x8 x9 x10 _ x12 x13 x14 x15 x16 x17 x18 x19 x20 := c in
  mkTestConfig x0 x1 x2 x3 x4 x5 x6 x7 x8 x9 x10 v x12 x13 x14 x15 x16 x17 x18 x19 x20.
Definition set_after_concurrent_field (v : Z) (c : TestConfig) : TestConfig :=
  let 'mkTestConfig x0 x1 x2 x3 x4 x5 x6 x7 x8 x9 x10 x11 x12 _ x14 x15 x16 x17 x18 x19 x20 := c in
  mkTestConfig x0 x1 x2 x3 x4 x5 x6 x7 x8 x9 x10 x11 x12 v x14 x15 x16 x17 x18 x19 x20.
Definition set_max_thread_pool_size_field (v : Z) (c : TestConfig) : TestConfig :=
  let 'mkTestConfig x0 x1 x2 x3 x4 x5 x6 x7 x8 x9 x10 x11 x12 x13 _ x15 x16 x17 x18 x19 x20 := c in
  mkTestConfig x0 x1 x2 x3 x4 x5 x6 x7 x8 x9 x10 x11 x12 x13 v x15 x16 x17 x18 x19 x20.
Definition set_stability_duration (v : Q) (c : TestConfig) : TestConfig :=
  let 'mkTestConfig x0 x1 x2 x3 x4 x5 x6 x7 x8 x9 x10 x11 x12 x13 x14 x15 x16 x17 _ x19 x20 := c in
  mkTestConfig x0 x1 x2 x3 x4 x5 x6 x7 x8 x9 x10 x11 x12 x13 x14 x15 x16 x17 v x19 x20.
Definition set_stability_check_interval (v : Q) (c : TestConfig) : TestConfig :=
  let 'mkTestConfig x0 x1 x2 x3 x4 x5 x6 x7 x8 x9 x10 x11 x12 x13 x14 x15 x16 x17 x18 _ x20 := c in
  mkTestConfig x0 x1 x2 x3 x4 x5 x6 x7 x8 x9 x10 x11 x12 x13 x14 x15 x16 x17 x18 v x20.
Definition set_stability_threshold (v : gmap string Q) (c : TestConfig) : TestConfig :=
  let 'mkTestConfig x0 x1 x2 x3 x4 x5 x6 x7 x8 x9 x10 x11 x12 x13 x14 x15 x16 x17 x18 x19 _ := c in
  mkTestConfig x0 x1 x2 x3 x4 x5 x6 x7 x8 x9 x10 x11 x12 x13 x14 x15 x16 x17 x18 x19 v.

Definition Qlt_bool (x y : Q) : bool := negb (Qle_bool y x).

(** The methods of [PerformanceRunner] that write the configuration. *)
Definition test_type (test_type : string) : Setter :=
  if negb (existsb (String.eqb test_type)
             ["tps"; "qps"; "concurrent"; "ramp_up"; "stability"])
  then reject ("不支持的测试类型: " +:+ test_type)
  else assign (set_test_type test_type) accept.

Definition duration (seconds : Q) : Setter :=
  assign (set_duration seconds) accept.

Definition concurrent (concurrent_users : Z) (duration ramp_up_time : Q) : Setter :=
  if concurrent_users <=? 0 then reject "并发用户数必须大于0"
  else if Qle_bool duration 0 then reject "测试持续时间必须大于0"
  else if Qlt_bool ramp_up_time 0 then reject "爬升时间不能为负数"
  else
    assign (set_test_type "concurrent")
      (assign (set_concurrent_users concurrent_users)
         (assign (set_duration duration)
            (assign (set_ramp_up_time ramp_up_time) accept))).

Definition concurrent_users (users : Z) : Setter :=
  assign (set_concurrent_users users) accept.

Definition ramp_up (time_seconds : Q) (steps : Z) : Setter :=
  assign (set_ramp_up_time time_seconds)
    (assign (set_ramp_up_steps steps)
       (assign (set_test_type "ramp_up") accept)).

Definition target_tps (tps : Z) : Setter :=
  assign (set_target_tps (Some tps)) (assign (set_test_type "tps") accept).

Definition tps (target_tps : Z) (duration ramp_up_time : Q) (ramp_up_steps : Z)
  : Setter :=
  if target_tps <? 0 then reject "TPS值不能为负数"
  else if Qle_bool duration 0 then reject "测试持续时间必须大于0"
  else if Qlt_bool ramp_up_time 0 then reject "爬升时间不能为负数"
  else if ramp_up_steps <? 1 then reject "爬升到步数必须大于等于1"
  else
    assign (set_test_type "tps")
      (assign (set_target_tps (Some target_tps))
         (assign (set_duration duration)
            (assign (set_ramp_up_time ramp_up_time)
               (assign (set_ramp_up_steps ramp_up_steps) accept)))).

Definition target_qps (qps : Z) : Setter :=
  assign (set_target_qps (Some qps)) (assign (set_test_type "qps") accept).

Definition qps (target_qps : Z) (duration ramp_up_time : Q) (ramp_up_steps : Z)
  : Setter :=
  if target_qps <? 0 then reject "QPS值不能为负数"
  else if Qle_bool duration 0 then reject "测试持续时间必须大于0"
  else if Qlt_bool ramp_up_time 0 then reject "爬升时间不能为负数"
  else if ramp_up_steps <? 1 then reject "爬升到步数必须大于等于1"
  else
    assign (set_test_type "qps")
      (assign (set_target_qps (Some target_qps))
         (assign (set_duration duration)
            (assign (set_ramp_up_time ramp_up_time)
               (assign (set_ramp_up_steps ramp_up_steps) accept)))).

(** [stability]: the basic parameters are assigned before the thresholds
    are checked. *)
Definition stability (duration : Q) (concurrent_users : Z) (check_interval : Q)
    (thresholds : gmap string Q) : Setter :=
  if Qle_bool duration 0 then reject "测试持续时间必须大于0"
  else if concurrent_users <=? 0 then reject "并发用户数必须大于0"
  else if Qle_bool check_interval 0 then reject "检查间隔必须大于0"
  else
    assign (set_test_type "stability")
      (assign (set_stability_duration duration)
         (assign (set_concurrent_users concurrent_users)
            (assign (set_stability_check_interval check_interval)
               (fun c =>
                  let threshold_config := thresholds ∪ c_stability_threshold c in
                  let bad (key : string) (test : Q -> bool) : bool :=
                    match threshold_config !! key with
                    | Some v => test v
                    | None => false
                    end in
                  if bad "error_rate" (fun v => Qlt_bool v 0 || Qlt_bool 1 v)
                  then reject "错误率阈值必须在0到1之间" c
                  else if bad "response_time_p95" (fun v => Qlt_bool v 0)
                  then reject "P95响应时间阈值不能为负数" c
                  else if bad "response_time_p99" (fun v => Qlt_bool v 0)
                  then reject "P99响应时间阈值不能为负数" c
                  else assign (set_stability_threshold threshold_config) accept c)))).

Definition timeout (seconds : Q) : Setter := assign (set_timeout seconds) accept.

Definition think_time (seconds : Q) : Setter := assign (set_think_time seconds) accept.

Definition stop_on_error (stop : bool) : Setter :=
  assign (set_stop_on_error stop) accept.

Definition ramp_up_steps (steps : Z) : Setter :=
  if steps <? 1 then reject "爬坡步数必须大于等于1"
  else assign (set_ramp_up_steps steps) accept.

Definition ramp_up_time (seconds : Q) : Setter :=
  if Qlt_bool seconds 0 then reject "爬坡时间不能为负数"
  else assign (set_ramp_up_time seconds) accept.

Definition collect_metrics (collect : bool) : Setter :=
  assign (set_collect_metrics collect) accept.

Definition set_before_concurrent (concurrent : Z) : Setter :=
  if concurrent <=? 0 then reject "并发数必须大于0"
  else assign (set_before_concurrent_field concurrent) accept.

Definition set_after_concurrent (concurrent : Z) : Setter :=
  if concurrent <=? 0 then reject "并发数必须大于0"
  else assign (set_after_concurrent_field concurrent) accept.

Definition set_max_thread_pool_size (size : Z) : Setter :=
  if size <=? 0 then reject "线程池大小必须大于0"
  else assign (set_max_thread_pool_size_field size) accept.

(** A call of one of these methods, with its arguments. *)
Inductive Configure :=
| CallTestType (test_type : string)
| CallDuration (seconds : Q)
| CallConcurrent (concurrent_users : Z) (duration ramp_up_time : Q)
| CallConcurrentUsers (users : Z)
| CallRampUp (time_seconds : Q) (steps : Z)
| CallTargetTps (tps : Z)
| CallTps (target_tps : Z) (duration ramp_up_time : Q) (ramp_up_steps : Z)
| CallTargetQps (qps : Z)
| CallQps (target_qps : Z) (duration ramp_up_time : Q) (ramp_up_steps : Z)
| CallStability (duration : Q) (concurrent_users : Z) (check_interval : Q)
    (thresholds : gmap string Q)
| CallTimeout (seconds : Q)
| CallThinkTime (seconds : Q)
| CallStopOnError (stop : bool)
| CallRampUpSteps (steps : Z)
| CallRampUpTime (seconds : Q)
| CallCollectMetrics (collect : bool)
| CallSetBeforeConcurrent (concurrent : Z)
| CallSetAfterConcurrent (concurrent : Z)
| CallSetMaxThreadPoolSize (size : Z).

Definition configure (call : Configure) : Setter :=
  match call with
  | CallTestType t => test_type t
  | CallDuration s => duration s
  | CallConcurrent u d r => concurrent u d r
  | CallConcurrentUsers u => concurrent_users u
  | CallRampUp t s => ramp_up t s
  | CallTargetTps t => target_tps t
  | CallTps t d r s => tps t d r s
  | CallTargetQps q => target_qps q
  | CallQps q d r s => qps q d r s
  | CallStability d u i th => stability d u i th
  | CallTimeout s => timeout s
  | CallThinkTime s => think_time s
  | CallStopOnError b => stop_on_error b
  | CallRampUpSteps s => ramp_up_steps s
  | CallRampUpTime s => ramp_up_time s
  | CallCollectMetrics b => collect_metrics b
  | CallSetBeforeConcurrent n => set_before_concurrent n
  | CallSetAfterConcurrent n => set_after_concurrent n
  | CallSetMaxThreadPoolSize n => set_max_thread_pool_size n
  end.

(** A chain of configuring calls [runner.m1(...).m2(...)...]: it goes on
    while the calls return, and stops at the first that raises. *)
Fixpoint chain (calls : list Configure) (c : TestConfig) : Res unit * TestConfig :=
  match calls with
  | [] => (Ok tt, c)
  | call :: rest =>
      match configure call c with
      | (Ok _, c') => chain rest c'
      | (Raise e, c') => (Raise e, c')
      end
  end.

(** *** [run] *)

(** [self._test_case] on a runner that has no such attribute. *)
Definition no_test_case : PyExc :=
  AttributeError "'PerformanceRunner' object has no attribute '_test_case'".

(** A call [callee(k1=..., k2=...)] by keywords of a method whose
    parameters, [self] apart, are [params], those of [required] having no
    default: it raises [TypeError] when a keyword is not a parameter, or
    when a required parameter gets no argument. *)
Definition bind_call (callee : string) (params required keywords : list string)
  : Res unit :=
  match List.find (fun k => negb (Load_generator.str_mem k params)) keywords with
  | Some k =>
      Raise (Load_generator.TypeError
               (callee +:+ "() got an unexpected keyword argument '" +:+ k +:+ "'"))
  | None =>
      match List.find (fun p => negb (Load_generator.str_mem p keywords)) required with
      | Some p =>
          Raise (Load_generator.TypeError
                   (callee +:+ "() missing 1 required positional argument: '"
                    +:+ p +:+ "'"))
      | None => Ok tt
      end
  end.

(** The parameters of [LoadGenerator.generate_load] and of
    [LoadGenerator.generate_concurrent_load]. *)
Definition generate_load_params : list string :=
  ["task_func"; "result_callback"; "before_func"; "after_func"].
Definition generate_load_required : list string := ["task_func"].
Definition generate_concurrent_load_params : list string :=
  ["concurrent_users"; "duration"; "before_func"; "after_func"].
Definition generate_concurrent_load_required : list string :=
  ["concurrent_users"; "duration"].

Section Run.
(** What the runner returns, and its report generator. *)
Variable Results : Type.
Variable Report : Type.

(** What [run] reads and writes of the runner.  [r_api_adapter] and
    [r_test_func] tell whether [_api_adapter] and [_test_func] hold an
    object (both are [None] in a new runner).  [_test_case] is an attribute
    that [__init__] does not create: [None] stands for the missing
    attribute, [Some b] for a value of truth value [b].
    [_metrics_collector], [_load_generator], [_report_generator] and
    [_results] are [None] in a new runner; the generator is given by its
    own attributes, its configuration being the runner's configuration
    object itself. *)
Record Runner := mkRunner {
  r_test_config : TestConfig;
  r_api_adapter : bool;
  r_test_func : bool;
  r_test_case : option bool;
  r_metrics_collector : option Metrics_collector.MetricsCollector;
  r_load_generator : option Load_generator.World;
  r_report_generator : option Report;
  r_results : option Results;
  r_running : bool
}.

(** [__init__]. *)
Definition new_runner : Runner :=
  {| r_test_config := default_config; r_api_adapter := false;
     r_test_func := false; r_test_case := None;
     r_metrics_collector := None; r_load_generator := None;
     r_report_generator := None; r_results := None; r_running := false |}.

(** [api_call(adapter)], [test_function(func)] and [test_case(test_case)]
    on an adapter, a function and a [TestCase]. *)
Definition api_call (r : Runner) : Runner :=
  {| r_test_config := r_test_config r; r_api_adapter := true;
     r_test_func := r_test_func r; r_test_case := r_test_case r;
     r_metrics_collector := r_metrics_collector r;
     r_load_generator := r_load_generator r;
     r_report_generator := r_report_generator r; r_results := r_results r;
     r_running := r_running r |}.

Definition test_function (r : Runner) : Runner :=
  {| r_test_config := r_test_config r; r_api_adapter := r_api_adapter r;
     r_test_func := true; r_test_case := Some false;
     r_metrics_collector := r_metrics_collector r;
     r_load_generator := r_load_generator r;
     r_report_generator := r_report_generator r; r_results := r_results r;
     r_running := r_running r |}.

Definition test_case (r : Runner) : Runner :=
  {| r_test_config := r_test_config r; r_api_adapter := r_api_adapter r;
     r_test_func := false; r_test_case := Some true;
     r_metrics_collector := r_metrics_collector r;
     r_load_generator := r_load_generator r;
     r_report_generator := r_report_generator r; r_results := r_results r;
     r_running := r_running r |}.

(** [self._test_case]. *)
Definition get_test_case (r : Runner) : Res bool :=
  match r_test_case r with
  | Some b => Ok b
  | None => Raise no_test_case
  end.

(** Assignments to the attributes [run] writes. *)
Definition with_metrics_collector
    (collector : option Metrics_collector.MetricsCollector) (r : Runner) : Runner :=
  {| r_test_config := r_test_config r; r_api_adapter := r_api_adapter r;
     r_test_func := r_test_func r; r_test_case := r_test_case r;
     r_metrics_collector := collector;
     r_load_generator := r_load_generator r;
     r_report_generator := r_report_generator r; r_results := r_results r;
     r_running := r_running r |}.

Definition with_load_generator (generator : option Load_generator.World)
    (r : Runner) : Runner :=
  {| r_test_config := r_test_config r; r_api_adapter := r_api_adapter r;
     r_test_func := r_test_func r; r_test_case := r_test_case r;
     r_metrics_collector := r_metrics_collector r;
     r_load_generator := generator;
     r_report_generator := r_report_generator r; r_results := r_results r;
     r_running := r_running r |}.

Definition with_report_generator (report : option Report) (r : Runner) : Runner :=
  {| r_test_config := r_test_config r; r_api_adapter := r_api_adapter r;
     r_test_func := r_test_func r; r_test_case := r_test_case r;
     r_metrics_collector := r_metrics_collector r;
     r_load_generator := r_load_generator r;
     r_report_generator := report; r_results := r_results r;
     r_running := r_running r |}.

Definition with_results (results : option Results) (r : Runner) : Runner :=
  {| r_test_config := r_test_config r; r_api_adapter := r_api_adapter r;
     r_test_func := r_test_func r; r_test_case := r_test_case r;
     r_metrics_collector := r_metrics_collector r;
     r_load_generator := r_load_generator r;
     r_report_generator := r_report_generator r; r_results := results;
     r_running := r_running r |}.

Definition with_running (b : bool) (r : Runner) : Runner :=
  {| r_test_config := r_test_config r; r_api_adapter := r_api_adapter r;
     r_test_func := r_test_func r; r_test_case := r_test_case r;
     r_metrics_collector := r_metrics_collector r;
     r_load_generator := r_load_generator r;
     r_report_generator := r_report_generator r; r_results := r_results r;
     r_running := b |}.

(** What a [_run_..._test] method does once its call of the load generator
    is bound: the run of the load generator and [_calculate_results], which
    read and change the collector and the generator of the runner. *)
Variable load_and_calculate : Runner -> Res Results * Runner.
(** [PerformanceReportGenerator(results, metrics, config)] on the result of
    [get_all_metrics()], which changes the collector. *)
Variable make_report : Results -> Runner -> Res Report * Runner.

(** A method of the runner whose first statement is a call by keywords. *)
Definition bound (binding : Res unit) (r : Runner) : Res Results * Runner :=
  match binding with
  | Ok _ => load_and_calculate r
  | Raise e => (Raise e, r)
  end.

Definition _run_concurrent_test (r : Runner) : Res Results * Runner :=
  bound (bind_call "generate_concurrent_load" generate_concurrent_load_params
           generate_concurrent_load_required
           ["test_func"; "duration"; "concurrent_users"; "before_func"; "after_func";
            "stop_on_error"])
        r.

Definition _run_tps_test (r : Runner) : Res Results * Runner :=
  bound (bind_call "generate_load" generate_load_params generate_load_required
           ["test_type"; "test_func"; "duration"; "target_tps"; "ramp_up_time";
            "ramp_up_steps"; "before_func"; "after_func"; "stop_on_error"])
        r.

Definition _run_qps_test (r : Runner) : Res Results * Runner :=
  bound (bind_call "generate_load" generate_load_params generate_load_required
           ["test_type"; "test_func"; "duration"; "target_tps"; "ramp_up_time";
            "ramp_up_steps"; "before_func"; "after_func"; "stop_on_error"])
        r.

Definition _run_ramp_up_test (r : Runner) : Res Results * Runner :=
  bound (bind_call "generate_load" generate_load_params generate_load_required
           ["test_type"; "test_func"; "duration"; "concurrent_users"; "ramp_up_time";
            "ramp_up_steps"; "before_func"; "after_func"; "stop_on_error"])
        r.

Definition _run_stability_test (r : Runner) : Res Results * Runner :=
  bound (bind_call "generate_load" generate_load_params generate_load_required
           ["test_type"; "test_func"; "duration"; "concurrent_users"; "check_interval";
            "before_func"; "after_func"; "stop_on_error"; "stability_threshold"])
        r.

(** [run]: the body of the [try] block, from [self._running = True] on. *)
Definition run_test (r : Runner) : Res Results * Runner :=
  let r := with_running true r in
  let c := r_test_config r in
  match
    (if String.eqb (c_test_type c) "ramp_up" then _run_ramp_up_test r
     else if String.eqb (c_test_type c) "tps" then _run_tps_test r
     else if String.eqb (c_test_type c) "qps" then _run_qps_test r
     else if String.eqb (c_test_type c) "stability" then _run_stability_test r
     else _run_concurrent_test r)
  with
  | (Raise e, r) => (Raise e, r)
  | (Ok results, r) =>
      let r := with_results (Some results) r in
      match make_report results r with
      | (Raise e, r) => (Raise e, r)
      | (Ok report, r) => (Ok results, with_report_generator (Some report) r)
      end
  end.

(** [run], at clock reading [now]: the check; the new collector and the
    new generator; then the [try] block, whose exceptions are raised again
    by the handler, and the [finally] block. *)
Definition run (now : Q) (r : Runner) : Res Results * Runner :=
  match
    (if r_api_adapter r then Ok false
     else if r_test_func r then Ok false
     else test_case ← get_test_case r; Ok (negb test_case))
  with
  | Raise e => (Raise e, r)
  | Ok true => (Raise (ValueError "必须设置api_call、test_function或test_case"), r)
  | Ok false =>
      let r := with_metrics_collector (Some (Metrics_collector.init now)) r in
      let r := with_load_generator (Some (Load_generator.__init__ now)) r in
      let '(result, r) :=
        match get_test_case r with
        | Raise e => (Raise e, r)
        | Ok _ => run_test r
        end in
      (result, with_running false r)
  end.
End Run.

Arguments mkRunner {Results Report}.
Arguments r_test_config {Results Report} r.
Arguments r_api_adapter {Results Report} r.
Arguments r_test_func {Results Report} r.
Arguments r_test_case {Results Report} r.
Arguments r_metrics_collector {Results Report} r.
Arguments r_load_generator {Results Report} r.
Arguments r_report_generator {Results Report} r.
Arguments r_results {Results Report} r.
Arguments r_running {Results Report} r.
Arguments new_runner {Results Report}.
Arguments api_call {Results Report} r.
Arguments test_function {Results Report} r.
Arguments test_case {Results Report} r.
Arguments get_test_case {Results Report} r.
Arguments with_metrics_collector {Results Report} collector r.
Arguments with_load_generator {Results Report} generator r.
Arguments with_report_generator {Results Report} report r.
Arguments with_results {Results Report} results r.
Arguments with_running {Results Report} b r.
Arguments bound {Results Report} load_and_calculate binding r.
Arguments _run_concurrent_test {Results Report} load_and_calculate r.
Arguments _run_tps_test {Results Report} load_and_calculate r.
Arguments _run_qps_test {Results Report} load_and_calculate r.
Arguments _run_ramp_up_test {Results Report} load_and_calculate r.
Arguments _run_stability_test {Results Report} load_and_calculate r.
Arguments run_test {Results Report} load_and_calculate make_report r.
Arguments run {Results Report} load_and_calculate make_report now r.

End Performance_runner.

(** ** What the properties of the metrics collector are stated with *)

Module Metrics_statements.
Import Metrics_collector.

(** The counters of a collector add up. *)
Definition counters_add_up (self : MetricsCollector) : Prop :=
  total_requests (_metrics self)
  = successful_requests (_metrics self) + failed_requests (_metrics self).

(** The state in which the samples 2 and 1 have been recorded, in this
    order. *)
Definition sample (rt : Q) : Request :=
  {| start_time := 0; end_time := rt; response_time := rt; status_code := Some 200;
     success := true; error := None; additional_data := None;
     latency_breakdown := None; connection_info := None |}.

Definition two_samples : MetricsCollector :=
  record_request (sample 1) (record_request (sample 2) (init 0)).

(** The index [_calculate_percentile] reads. *)
Definition percentile_index {A} (l : list A) (percentile : Q) : Z :=
  let index := py_int (inject_Z (len l) * percentile / 100)%Q in
  if len l <=? index then len l - 1 else index.

(** The percentiles of a summary grow with the percentage, up to the
    maximum. *)
Definition percentiles_monotone (s : Summary) : Prop :=
  (s_p50_response_time s <= s_p90_response_time s)%Q
  /\ (s_p90_response_time s <= s_p95_response_time s)%Q
  /\ (s_p95_response_time s <= s_p99_response_time s)%Q
  /\ (s_p99_response_time s <= s_p999_response_time s)%Q
  /\ (s_p999_response_time s <= s_max_response_time s)%Q.

(** A collector on which no request was recorded. *)
Definition nothing_recorded (self : MetricsCollector) : Prop :=
  _requests self = []
  /\ total_requests (_metrics self) = 0
  /\ successful_requests (_metrics self) = 0
  /\ failed_requests (_metrics self) = 0
  /\ response_times (_metrics self) = []
  /\ throughput_data (_metrics self) = []
  /\ total_connections (connection_metrics (_metrics self)) = 0.

End Metrics_statements.

(** ** What the properties of the load generator are stated with *)

Module Load_statements.
Import Load_generator.

(** Following the specification: the closed set of error kinds
    Timeout, ConnectionError, HttpError, AssertionError, ValidationError,
    SystemError, Other, under the names the code gives them (the keys of
    [error_type_mapping], and ['other_error']). *)
Definition closed_error_kinds : list string :=
  ["timeout"; "connection_error"; "http_error"; "assertion_error";
   "validation_error"; "system_error"; "other_error"].

(** The tags [_classify_error_type] can return. *)
Definition classifier_tags : list string :=
  ["assertion_error"; "timeout"; "connection_error"; "http_error";
   "request_error"; "other_error"].

(** [requests.exceptions.TooManyRedirects("Exceeded 30 redirects.")]. *)
Definition too_many_redirects : PyExc :=
  mkExc "TooManyRedirects"
        ["requests.exceptions.TooManyRedirects";
         "requests.exceptions.RequestException"; "OSError"; "Exception"]
        "Exceeded 30 redirects.".

(** A task function that raises [ValueError("boom")] at every call, and
    the configuration of the test suite with no retry. *)
Definition always_fails : UserFn :=
  fun _ => mkEffect (Raise (ValueError "boom")) false 1.

Definition no_retry_config : TestConfig :=
  {| is_dict := true; test_type := Some "concurrent"; duration := Some 1%Q;
     concurrent_users := Some 1; stop_on_error := Some false;
     max_thread_pool_size := None; before_concurrent := None;
     after_concurrent := None; max_retries := Some 0; retry_delay := None;
     retryable_errors := None; error_threshold := Some 10;
     error_rate_threshold := None; consecutive_error_threshold := Some 5;
     error_type_thresholds := None; target_tps := None; target_qps := None;
     timeout := Some 30%Q; ramp_up_steps := None; ramp_up_time := None;
     stability_duration := None; stability_check_interval := None;
     stability_threshold := None |}.

(** A task function whose first call raises [ValueError("boom")], an
    error that is not retried, and whose later calls would return
    [{'success': True}]. *)
Definition fails_at_first : UserFn :=
  fun n => if Nat.eqb n 0 then mkEffect (Raise (ValueError "boom")) false 1
           else mkEffect (Ok success_dict) false 1.

(** Following the specification: the unsuccessful TaskOutcome carrying the
    classified kind and the message of the error [e]. *)
Definition failed_outcome (e : PyExc) : PyVal :=
  VDict (Some false) (Some (_classify_error_type e)) (Some (exc_str e)) None None.

(** What a computation returned or raised, and the store it left, [w]
    standing for the store of a computation that has not ended. *)
Definition result_of {A} (o : Outcome A) : option (Res A) :=
  match o with
  | Done r _ => Some r
  | OutOfFuel => None
  end.

Definition store_of {A} (w : World) (o : Outcome A) : World :=
  match o with
  | Done _ w' => w'
  | OutOfFuel => w
  end.

(** Following the specification: the number of failures since the most
    recent success, for outcomes given in the order they were recorded
    ([true] is a success). *)
Definition failures_since_success (outcomes : list bool) : Z :=
  fold_left (fun c ok => if ok : bool then 0 else c + 1) outcomes 0.

(** The store after [k] executions of the task, one after the other. *)
Fixpoint executions (cfg : TestConfig) (task : M PyVal) (k : nat) (w : World) : World :=
  match k with
  | O => w
  | S k' => store_of w (_execute_with_retry cfg task (executions cfg task k' w))
  end.

(** A task function that returns [{'success': True}] at every call. *)
Definition always_succeeds : UserFn :=
  fun _ => mkEffect (Ok success_dict) false 1.

(** A before function that raises [ConnectionError("Connection refused")]
    at every call, and a configuration with one retry. *)
Definition connection_refused : PyExc :=
  mkExc "ConnectionError" ["ConnectionError"; "OSError"; "Exception"]
        "Connection refused".

Definition refused : UserFn := fun _ => mkEffect (Raise connection_refused) false 1.

Definition one_retry_config : TestConfig :=
  {| is_dict := true; test_type := Some "concurrent"; duration := Some 1%Q;
     concurrent_users := Some 1; stop_on_error := Some false;
     max_thread_pool_size := None; before_concurrent := Some 1;
     after_concurrent := None; max_retries := Some 1; retry_delay := None;
     retryable_errors := None; error_threshold := None;
     error_rate_threshold := None; consecutive_error_threshold := None;
     error_type_thresholds := None; target_tps := None; target_qps := None;
     timeout := None; ramp_up_steps := None; ramp_up_time := None;
     stability_duration := None; stability_check_interval := None;
     stability_threshold := None |}.

(** A before function whose first call returns the object ['first'] and
    whose later calls return ['second']: the latter is kept. *)
Definition first_then_second : UserFn :=
  fun n => mkEffect (Ok (VObject (if Nat.eqb n 0 then "first" else "second"))) false 1.

(** A before function that returns normally while [generator.stop()] is
    called (by itself or from another thread), and the configuration of a
    short concurrent run, given as a dict. *)
Definition cancelling : UserFn := fun _ => mkEffect (Ok VNone) true 1.

Definition concurrent_config : TestConfig :=
  {| is_dict := true; test_type := Some "concurrent"; duration := Some 1%Q;
     concurrent_users := Some 2; stop_on_error := Some false;
     max_thread_pool_size := None; before_concurrent := Some 1;
     after_concurrent := Some 1; max_retries := Some 0; retry_delay := None;
     retryable_errors := None; error_threshold := None;
     error_rate_threshold := None; consecutive_error_threshold := Some 5;
     error_type_thresholds := None; target_tps := None; target_qps := None;
     timeout := Some 30%Q; ramp_up_steps := None; ramp_up_time := None;
     stability_duration := None; stability_check_interval := None;
     stability_threshold := None |}.

(** The configuration object of a ramp-up run: 10 users in 5 steps over 5
    seconds, then 5 seconds at full load; the other attributes have the
    defaults of the [TestConfig] dataclass of the runner. *)
Definition ramp_up_config : TestConfig :=
  {| is_dict := false; test_type := Some "ramp_up"; duration := Some 5%Q;
     concurrent_users := Some 10; stop_on_error := Some false;
     max_thread_pool_size := Some 1000; before_concurrent := Some 1;
     after_concurrent := Some 1; max_retries := Some 0; retry_delay := None;
     retryable_errors := None; error_threshold := None;
     error_rate_threshold := None; consecutive_error_threshold := None;
     error_type_thresholds := None; target_tps := Some None;
     target_qps := Some None; timeout := Some 30%Q; ramp_up_steps := Some 5;
     ramp_up_time := Some 5%Q; stability_duration := Some 3600%Q;
     stability_check_interval := Some 600%Q;
     stability_threshold :=
       Some {| st_error_rate := Some (5 # 100);
               st_response_time_p95 := Some 1%Q;
               st_response_time_p99 := Some 2%Q |} |}.

(** [steady w w']: from [w] to [w'] the after phase was not touched and
    the clock did not go back. *)
Definition steady (w w' : World) : Prop :=
  _after_tasks_completed w' = _after_tasks_completed w
  /\ after_calls w' = after_calls w
  /\ (now w <= now w')%Q.

(** [safe m]: [m] ends, within the iteration budget of its loops, in a
    store that is steady with respect to the one it started in. *)
Definition safe {A} (m : M A) : Prop :=
  forall w, exists r w', m w = Done r w' /\ steady w w'.

Section Retry.
Variable cfg : TestConfig.

(** The store after [_record_error]. *)
Definition recorded (error_type error_message : string) (w : World) : World :=
  match _record_error error_type error_message w with
  | Done _ w' => w'
  | OutOfFuel => w
  end.

(** The store after the handler has recorded the error and counted it. *)
Definition handled (e : PyExc) (w : World) : World :=
  let w1 := recorded (_classify_error_type e) (exc_str e) w in
  set_consecutive_errors (_consecutive_error_count w1 + 1)
    (set_consecutive_error_count (_consecutive_error_count w1 + 1) w1).

(** [should_retry and attempt < max_retries], and the delay slept then. *)
Definition retried (attempt : Z) (e : PyExc) : bool :=
  (str_mem (_classify_error_type e) (retry_retryable_errors cfg)
   || String.eqb (_classify_error_type e) "timeout"
   || isinstance e "socket.timeout")
  && (attempt <? retry_max_retries cfg).

Definition retry_delay_of (attempt : Z) : Q :=
  (retry_retry_delay cfg * 2 ^ attempt)%Q.
End Retry.

Section Clock.
Variable tick : positive.

(** What is left of the time before [deadline], in clock readings. *)
Definition readings_left (deadline : Q) (w : World) : Q :=
  ((deadline - now w) * inject_Z (Z.pos tick))%Q.

(** A loop condition that reads the clock and is false once the deadline
    is reached. *)
Definition guards (deadline : Q) (cond : M bool) : Prop :=
  forall w, exists b w',
    cond w = Done (Ok b) w' /\ steady w w'
    /\ (now w + tick_len tick <= now w')%Q
    /\ (b = true -> (now w < deadline)%Q).
End Clock.

End Load_statements.

(** ** What further properties of the metrics collector are stated with *)

Module Metrics_properties.
Import Metrics_collector.

(** The sum of the counts of a [defaultdict(int)]. *)
Definition sum_values `{Countable K} (d : gmap K Z) : Z := py_sumZ (dict_values d).

(** A record of the time series is consistent: its counters add up, its
    samples are those of its successful requests, and it stands for at
    least one request. *)
Definition ts_ok (r : TimeSeriesRecord) : Prop :=
  ts_total_requests r = ts_successful_requests r + ts_failed_requests r
  /\ ts_successful_requests r = len (ts_response_times r)
  /\ 0 <= ts_failed_requests r
  /\ 1 <= ts_total_requests r.

(** The time series of a collector is consistent: one record for each
    second, each consistent, and together they count every request. *)
Definition series_ok (self : MetricsCollector) : Prop :=
  NoDup (map ts_timestamp (time_series (_metrics self)))
  /\ Forall ts_ok (time_series (_metrics self))
  /\ py_sumZ (map ts_total_requests (time_series (_metrics self)))
     = total_requests (_metrics self).

(** The counters of a collector count what its lists hold. *)
Definition counts_ok (self : MetricsCollector) : Prop :=
  let m := _metrics self in
  total_requests m = successful_requests m + failed_requests m
  /\ successful_requests m = len (response_times m)
  /\ 0 <= failed_requests m
  /\ total_requests m = len (_requests self)
  /\ total_requests m = len (throughput_data m)
  /\ 0 <= failed_connections (connection_metrics m)
  /\ failed_connections (connection_metrics m)
     <= total_connections (connection_metrics m)
  /\ total_connections (connection_metrics m) <= total_requests m.

(** The two distributions of a collector are consistent with its
    counters. *)
Definition distributions_ok (self : MetricsCollector) : Prop :=
  let m := _metrics self in
  map_Forall (fun code n => code <> 0 /\ 1 <= n) (status_codes m)
  /\ sum_values (status_codes m) <= successful_requests m
  /\ map_Forall (fun key n => 1 <= n /\ exists error, key = _simplify_error error)
                (errors m)
  /\ sum_values (errors m) <= failed_requests m
  /\ 0 <= failed_requests m
  /\ 0 <= successful_requests m.

(** The data of a transaction is consistent. *)
Definition tx_ok (tx : TxData) : Prop :=
  tx_total_requests tx = tx_successful_requests tx + tx_failed_requests tx
  /\ tx_successful_requests tx = len (tx_response_times tx)
  /\ 0 <= tx_failed_requests tx
  /\ 1 <= tx_total_requests tx.

(** [_simplify_error] on a list of patterns. *)
Definition simplify_with (patterns : list (string * string)) (error : string)
  : string :=
  let error_lower := lower error in
  match List.find (fun p => str_in (fst p) error_lower) patterns with
  | Some (_, simplified) => simplified
  | None =>
      str_take 50 error +:+
      (if (50 <? Z.of_nat (str_len error)) then "..." else "")
  end.

(** The patterns of [_simplify_error] written in lower case. *)
Definition lower_case_patterns : list (string * string) :=
  List.filter (fun p => String.eqb (lower (fst p)) (fst p)) error_patterns.

(** The time stamps of the time series can be displayed as local time. *)
Definition datable (local_datetime : Z -> Res string) (self : MetricsCollector)
  : Prop :=
  forall r, In r (time_series (_metrics self)) ->
    exists s, local_datetime (ts_timestamp r) = Ok s.

(** An entry of the time-series view is consistent. *)
Definition entry_ok (e : TimeSeriesMetric) : Prop :=
  tsm_total_requests e = tsm_successful_requests e + tsm_failed_requests e
  /\ 1 <= tsm_total_requests e
  /\ (0 <= tsm_success_rate e)%Q /\ (tsm_success_rate e <= 100)%Q.

(** The samples of a collector are spread: two of them differ. *)
Definition spread (self : MetricsCollector) : Prop :=
  exists a b, In a (response_times (_metrics self))
              /\ In b (response_times (_metrics self)) /\ (a < b)%Q.

(** The summary of a transaction is consistent. *)
Definition tx_summary_ok (s : TxSummary) : Prop :=
  txs_total_requests s = txs_successful_requests s + txs_failed_requests s
  /\ 1 <= txs_total_requests s
  /\ (0 <= txs_success_rate s)%Q /\ (txs_success_rate s <= 100)%Q
  /\ (txs_min_response_time s <= txs_p50_response_time s)%Q
  /\ (txs_p50_response_time s <= txs_p90_response_time s)%Q
  /\ (txs_p90_response_time s <= txs_p95_response_time s)%Q
  /\ (txs_p95_response_time s <= txs_p99_response_time s)%Q
  /\ (txs_p99_response_time s <= txs_max_response_time s)%Q.

Definition is_reset (c : Call) : bool :=
  match c with CallReset _ => true | _ => false end.

(** Strictly increasing. *)
Definition increasing (l : list Z) : Prop := StronglySorted Z.lt l.

End Metrics_properties.

(** ** What further properties of the load generator are stated with *)

Module Load_properties.
Import Load_generator.

(** [should_retry] in the handler of [_execute_with_retry]. *)
Definition retryable (cfg : TestConfig) (e : PyExc) : bool :=
  str_mem (_classify_error_type e) (retry_retryable_errors cfg)
  || String.eqb (_classify_error_type e) "timeout"
  || isinstance e "socket.timeout".

(** What [_execute_with_retry] sleeps in all before [retries] retries, the
    first of them after the attempt numbered [attempt]. *)
Fixpoint slept (cfg : TestConfig) (attempt : Z) (retries : nat) : Q :=
  match retries with
  | O => 0
  | S retries' =>
      (retry_retry_delay cfg * 2 ^ attempt + slept cfg (attempt + 1) retries')%Q
  end.

(** A configuration with one retry and a negative retry delay. *)
Definition negative_delay_config : TestConfig :=
  {| is_dict := true; test_type := Some "concurrent"; duration := Some 1%Q;
     concurrent_users := Some 1; stop_on_error := Some false;
     max_thread_pool_size := None; before_concurrent := Some 1;
     after_concurrent := None; max_retries := Some 1;
     retry_delay := Some (- (1 # 10))%Q;
     retryable_errors := None; error_threshold := None;
     error_rate_threshold := None; consecutive_error_threshold := None;
     error_type_thresholds := None; target_tps := None; target_qps := None;
     timeout := None; ramp_up_steps := None; ramp_up_time := None;
     stability_duration := None; stability_check_interval := None;
     stability_threshold := None |}.

(** What [_check_error_threshold] tests before the consecutive errors: the
    threshold of a type of error, of the number of errors or of the rate
    of errors is reached. *)
Definition other_threshold_reached (cfg : TestConfig) (w : World) : bool :=
  type_threshold_met cfg w
  || match error_threshold cfg with
     | Some threshold => threshold <=? _total_errors w
     | None => false
     end
  || match error_rate_threshold cfg with
     | Some threshold =>
         (0 <? _completed_tasks w)
         && Qle_bool threshold
              (inject_Z (_total_errors w) / inject_Z (_completed_tasks w))
     | None => false
     end.

(** The two tests of [_check_error_threshold] on the consecutive errors,
    for a configured [threshold]. *)
Definition consecutive_reached (threshold : Z) (w : World) : bool :=
  (threshold <=? _consecutive_errors w)
  || (threshold <=? _consecutive_error_count w).

(** A result that is a dict. *)
Definition is_dict_value (v : PyVal) : bool :=
  match v with VDict _ _ _ _ _ => true | _ => false end.

(** A user function that raises at every invocation. *)
Definition always_raises (f : UserFn) : Prop :=
  forall n, exists e, returns (f n) = Raise e.

(** [ends m]: [m] returns or raises, within the iteration budget of its
    loops. *)
Definition ends {A} (m : M A) : Prop :=
  forall w, exists r w', m w = Done r w'.

(** [keeps R m]: when [m] ends, the store it ends in is related by [R] to
    the one it started in. *)
Definition keeps (R : World -> World -> Prop) {A} (m : M A) : Prop :=
  forall w r w', m w = Done r w' -> R w w'.

(** [hoare P m Q]: when [m], started in a store that satisfies [P], ends,
    what it returns or raises and the store it ends in satisfy [Q]. *)
Definition hoare {A} (P : World -> Prop) (m : M A) (Q : Res A -> World -> Prop)
  : Prop :=
  forall w r w', P w -> m w = Done r w' -> Q r w'.

(** [inv I m]: [m] keeps the invariant [I], however it ends. *)
Definition inv (I : World -> Prop) {A} (m : M A) : Prop :=
  hoare I m (fun _ => I).

(** [quiet w w']: from [w] to [w'] no task was counted as completed, no
    result was added, no recorded error was taken back and the futures at
    hand are the same. *)
Definition quiet (w w' : World) : Prop :=
  _completed_tasks w' = _completed_tasks w
  /\ results w' = results w
  /\ _error_count w <= _error_count w'
  /\ futures w' = futures w.

(** An invariant that only depends on what [quiet] speaks of. *)
Definition counting (I : World -> Prop) : Prop :=
  forall w w', quiet w w' -> I w -> I w'.

(** The postcondition of a loop body: [I] when the loop goes on, [J] when
    it is left. *)
Definition flow_post {R} (I J : World -> Prop) (r : Res (Flow R)) (w : World)
  : Prop :=
  match r with
  | Ok Next => I w
  | _ => J w
  end.

(** Invariants of the load functions. *)
Definition completed_is (c : Z) (w : World) : Prop := _completed_tasks w = c.

Definition completed_are_results (w : World) : Prop :=
  _completed_tasks w = len (results w).

Definition results_are_errors (slack : Z) (w : World) : Prop :=
  len (results w) <= _error_count w + slack.

(** In the dictionary a load function returns, ['completed_tasks'] is the
    number of ['results'] (the dictionary of a QPS run has neither). *)
Definition counts_match (test_result : ProfileResult) : Prop :=
  match test_result with
  | ConcurrentResult _ _ _ completed_tasks results => completed_tasks = len results
  | TpsResult _ _ _ completed_tasks results => completed_tasks = len results
  | QpsResult _ _ _ _ _ _ _ => True
  | RampUpResult _ _ _ _ completed_tasks _ _ _ _ results =>
      completed_tasks = len results
  | StabilityResult _ _ completed_tasks _ _ _ _ results =>
      completed_tasks = len results
  end.

(** What is known of the dictionary a load function, and a run, returns
    when it returns one. *)
Definition profile_post (C : ProfileResult -> Prop) (r : Res ProfileResult)
    (w : World) : Prop :=
  match r with
  | Ok test_result => C test_result
  | Raise _ => True
  end.

Definition run_post (C : ProfileResult -> Prop) (r : Res RunResult) (w : World)
  : Prop :=
  match r with
  | Ok (Completed test_result _ _ _ _) => C test_result
  | _ => True
  end.

(** The configuration object of a QPS run of one second at 2 requests per
    second; the other attributes have the defaults of the [TestConfig]
    dataclass of the runner, which has no [consecutive_error_threshold]. *)
Definition qps_config : TestConfig :=
  {| is_dict := false; test_type := Some "qps"; duration := Some 1%Q;
     concurrent_users := Some 1; stop_on_error := Some false;
     max_thread_pool_size := Some 1000; before_concurrent := Some 1;
     after_concurrent := Some 1; max_retries := None; retry_delay := None;
     retryable_errors := None; error_threshold := None;
     error_rate_threshold := None; consecutive_error_threshold := None;
     error_type_thresholds := None; target_tps := Some None;
     target_qps := Some (Some 2); timeout := Some 30%Q; ramp_up_steps := Some 1;
     ramp_up_time := Some 0%Q; stability_duration := Some 3600%Q;
     stability_check_interval := Some 600%Q;
     stability_threshold :=
       Some {| st_error_rate := Some (5 # 100);
               st_response_time_p95 := Some 1%Q;
               st_response_time_p99 := Some 2%Q |} |}.

(** The dictionary of a QPS run in which all requests but one at most
    are counted as errors. *)
Definition errors_cover_requests (test_result : ProfileResult) : Prop :=
  match test_result with
  | QpsResult _ _ _ total_requests error_count _ _ =>
      total_requests <= error_count + 1
  | _ => False
  end.




(** Every result, and the outcome of every future at hand, is
    [{"success": True}]. *)
Definition all_succeeded (results : list PyVal) : Prop :=
  Forall (fun v => v = success_dict) results.

Definition futures_succeeded (futures : list Future) : Prop :=
  Forall (fun f => fut_outcome f = Ok success_dict) futures.

Definition results_succeeded (w : World) : Prop := all_succeeded (results w).

Definition run_succeeded (w : World) : Prop :=
  all_succeeded (results w) /\ futures_succeeded (futures w).

(** The dictionary of a concurrent run of [concurrent_users] users for
    [duration] seconds in which every task succeeded. *)
Definition simulated_run (concurrent_users : Z) (duration : Q)
    (test_result : ProfileResult) : Prop :=
  match test_result with
  | ConcurrentResult users target_duration _ _ results =>
      users = concurrent_users /\ target_duration = duration
      /\ all_succeeded results
  | _ => False
  end.

End Load_properties.

(** ** What properties of the runner are stated with *)

Module Runner_properties.
Import Performance_runner.

(** The thresholds [stability] accepts. *)
Definition thresholds_ok (thresholds : gmap string Q) : Prop :=
  (forall v, thresholds !! "error_rate" = Some v -> (0 <= v)%Q /\ (v <= 1)%Q)
  /\ (forall v, thresholds !! "response_time_p95" = Some v -> (0 <= v)%Q)
  /\ (forall v, thresholds !! "response_time_p99" = Some v -> (0 <= v)%Q).

(** What holds of every configuration built by the methods of a runner. *)
Definition built (c : TestConfig) : Prop :=
  In (c_test_type c) ["tps"; "qps"; "concurrent"; "ramp_up"; "stability"]
  /\ 1 <= c_before_concurrent c
  /\ 1 <= c_after_concurrent c
  /\ 1 <= c_max_thread_pool_size c
  /\ (0 < c_stability_duration c)%Q
  /\ (0 < c_stability_check_interval c)%Q
  /\ thresholds_ok (c_stability_threshold c)
  /\ c_max_retries c = 0
  /\ c_error_threshold c = None
  /\ c_error_rate_threshold c = None.

(** The configuration [stability] leaves when it rejects a threshold. *)
Definition half_stability (duration : Q) (concurrent_users : Z) (check_interval : Q)
    (c : TestConfig) : TestConfig :=
  set_stability_check_interval check_interval
    (set_concurrent_users concurrent_users
       (set_stability_duration duration (set_test_type "stability" c))).

(** A call of [stability] with an error rate threshold of 2. *)
Definition bad_stability : Configure :=
  CallStability 10 5 1 {["error_rate" := 2%Q]}.

(** Whether [run] gets past its first check: there is an adapter, a test
    function or a test case. *)
Definition has_subject {Results Report} (r : Runner Results Report) : bool :=
  r_api_adapter r || r_test_func r || default false (r_test_case r).

(** A runner that holds a collector and a generator made at clock reading
    [now], and is not running. *)
Definition equipped {Results Report} (now : Q) (r : Runner Results Report)
  : Runner Results Report :=
  {| r_test_config := r_test_config r; r_api_adapter := r_api_adapter r;
     r_test_func := r_test_func r; r_test_case := r_test_case r;
     r_metrics_collector := Some (Metrics_collector.init now);
     r_load_generator := Some (Load_generator.__init__ now);
     r_report_generator := r_report_generator r; r_results := r_results r;
     r_running := false |}.

End Runner_properties.

(** * Properties *)

(** ** Sorting and indexing *)

Section SortFacts.
Context {A : Type} (leb : A -> A -> bool).
Hypothesis leb_total : forall x y, leb x y = true \/ leb y x = true.
Hypothesis leb_trans : forall x y z, leb x y = true -> leb y z = true -> leb x z = true.

Let R (x y : A) : Prop := leb x y = true.

Lemma sort_insert_perm x l : Permutation (sort_insert leb x l) (x :: l).
Proof.
  induction l as [|y l IH]; simpl; [reflexivity|].
  destruct (leb x y); [reflexivity|].
  rewrite IH. apply perm_swap.
Qed.

Lemma py_sorted_perm l : Permutation (py_sorted leb l) l.
Proof.
  induction l as [|x l IH]; simpl; [reflexivity|].
  rewrite sort_insert_perm. now constructor.
Qed.

Lemma sort_insert_sorted x l :
  StronglySorted R l -> StronglySorted R (sort_insert leb x l).
Proof.
  induction 1 as [|y l Hs IH Hy]; simpl.
  - repeat constructor.
  - destruct (leb x y) eqn:E.
    + constructor; [now constructor|].
      constructor; [exact E|].
      eapply List.Forall_impl; [|exact Hy]. intros z Hz. eapply leb_trans; eauto.
    + constructor; [exact IH|].
      eapply Permutation_Forall; [symmetry; apply sort_insert_perm|].
      constructor; [|exact Hy].
      destruct (leb_total x y) as [H|H]; [congruence|exact H].
Qed.

Lemma py_sorted_sorted l : StronglySorted R (py_sorted leb l).
Proof.
  induction l; simpl; [constructor|]. now apply sort_insert_sorted.
Qed.

Lemma py_sorted_fixed l : StronglySorted R l -> py_sorted leb l = l.
Proof.
  induction 1 as [|x l Hs IH Hx]; simpl; [reflexivity|].
  rewrite IH. destruct l as [|y l]; [reflexivity|]. simpl.
  inversion Hx as [|? ? Hxy _]; subst. unfold R in Hxy. now rewrite Hxy.
Qed.

Lemma py_sorted_idem l : py_sorted leb (py_sorted leb l) = py_sorted leb l.
Proof. apply py_sorted_fixed, py_sorted_sorted. Qed.

Lemma sorted_nth_le l d i j :
  StronglySorted R l -> (i <= j)%nat -> (j < length l)%nat ->
  leb (nth i l d) (nth j l d) = true.
Proof.
  intros Hs. revert i j. induction Hs as [|x l Hs IH Hx]; intros i j Hij Hj.
  - simpl in Hj. lia.
  - destruct i as [|i], j as [|j]; simpl in *.
    + destruct (leb_total x x); assumption.
    + rewrite List.Forall_forall in Hx. apply Hx, nth_In. lia.
    + lia.
    + apply IH; lia.
Qed.
End SortFacts.

Lemma Qleb_total x y : Qle_bool x y = true \/ Qle_bool y x = true.
Proof.
  rewrite !Qle_bool_iff. destruct (Qlt_le_dec x y) as [H|H]; [left|right]; trivial.
  now apply Qlt_le_weak.
Qed.

Lemma Qleb_trans x y z :
  Qle_bool x y = true -> Qle_bool y z = true -> Qle_bool x z = true.
Proof. rewrite !Qle_bool_iff. apply Qle_trans. Qed.

Lemma len_nonneg {A} (l : list A) : 0 <= len l.
Proof. unfold len. lia. Qed.

Lemma len_cons_pos {A} (x : A) l : 0 < len (x :: l).
Proof. unfold len. simpl. lia. Qed.

Lemma py_getitem_in_range {A} (l : list A) (i : Z) (d : A) :
  0 <= i < len l -> py_getitem l i = Ok (nth (Z.to_nat i) l d).
Proof.
  intros [H0 H1]. unfold py_getitem, len in *.
  destruct (i <? 0) eqn:E1; [lia|].
  destruct (i <? 0) eqn:E2; [lia|].
  destruct (Z.of_nat (length l) <=? i) eqn:E3; [lia|]. simpl.
  destruct (nth_error l (Z.to_nat i)) eqn:E.
  - f_equal. symmetry. now apply nth_error_nth.
  - apply nth_error_None in E. lia.
Qed.

(** [int(x)] on a non-negative float is the floor, hence monotone. *)
Lemma py_int_floor x : (0 <= x)%Q -> py_int x = Qfloor x.
Proof.
  destruct x as [n d]. unfold Qle, py_int. simpl. intros H.
  apply Z.quot_div_nonneg; lia.
Qed.

Lemma py_int_nonneg x : (0 <= x)%Q -> 0 <= py_int x.
Proof.
  intros H. rewrite py_int_floor by exact H.
  change 0 with (Qfloor 0). now apply Qfloor_resp_le.
Qed.

Lemma py_int_mono x y : (0 <= x)%Q -> (x <= y)%Q -> py_int x <= py_int y.
Proof.
  intros Hx Hxy. rewrite !py_int_floor; [now apply Qfloor_resp_le| |exact Hx].
  eapply Qle_trans; eauto.
Qed.

(** ** The metrics collector *)

Module Metrics_facts.
Import Metrics_collector Metrics_statements.

Lemma counters_add_up_init t : counters_add_up (init t).
Proof. reflexivity. Qed.

Lemma counters_add_up_record rq self :
  counters_add_up self -> counters_add_up (record_request rq self).
Proof.
  unfold counters_add_up. simpl. intros H. destruct (success rq); lia.
Qed.

Section CallFacts.
Variable pow_half : Q -> Q.

Lemma test_duration_unsorted self :
  _calculate_test_duration (sort_response_times self) = _calculate_test_duration self.
Proof. reflexivity. Qed.

Lemma _calculate_test_duration_ok self :
  exists d, _calculate_test_duration self = Ok d.
Proof.
  unfold _calculate_test_duration.
  destruct (_requests self) as [|r rs]; [eauto|].
  destruct (float_truthy (_end_time self)); eauto.
Qed.

(** [get_summary_metrics] leaves the object with its samples sorted. *)
Lemma get_summary_metrics_state self :
  (get_summary_metrics pow_half self).2 = sort_response_times self.
Proof.
  unfold get_summary_metrics.
  destruct (_calculate_test_duration_ok self) as [d ->]. reflexivity.
Qed.

Lemma counters_add_up_call c self :
  counters_add_up self -> counters_add_up (call pow_half c self).
Proof.
  destruct c; simpl; try (intros H; exact H).
  - apply counters_add_up_record.
  - intros _. reflexivity.
  - rewrite get_summary_metrics_state. intros H; exact H.
Qed.

Lemma counters_add_up_calls cs self :
  counters_add_up self -> counters_add_up (calls pow_half cs self).
Proof.
  revert self. induction cs as [|c cs IH]; intros self H; simpl; [exact H|].
  apply IH, counters_add_up_call, H.
Qed.
End CallFacts.

(** C4. Whatever has been called on a collector since it was created, after
    a further [record_request] (and after any other call, so at the end of
    the run too) [total_requests = successful_requests + failed_requests]. *)
Theorem C4_total_is_success_plus_failure :
  forall (pow_half : Q -> Q) (t : Q) (before : list Call) (rq : Request)
         (after : list Call),
    let recorded := record_request rq (calls pow_half before (init t)) in
    let at_end := calls pow_half after recorded in
    total_requests (_metrics recorded)
    = successful_requests (_metrics recorded) + failed_requests (_metrics recorded)
    /\ total_requests (_metrics at_end)
       = successful_requests (_metrics at_end) + failed_requests (_metrics at_end).
Proof.
  intros pow_half t before rq after recorded at_end.
  assert (H : counters_add_up recorded).
  { apply counters_add_up_record, counters_add_up_calls, counters_add_up_init. }
  split; [exact H|]. now apply counters_add_up_calls.
Qed.

Lemma Qleb_sorted_idem l : py_sorted Qleb (py_sorted Qleb l) = py_sorted Qleb l.
Proof. apply py_sorted_idem; [apply Qleb_total | apply Qleb_trans]. Qed.

Lemma sort_response_times_idem self :
  sort_response_times (sort_response_times self) = sort_response_times self.
Proof.
  unfold sort_response_times, set_metrics. simpl. now rewrite Qleb_sorted_idem.
Qed.

Lemma tx_sort_idem tx : tx_sort (tx_sort tx) = tx_sort tx.
Proof. unfold tx_sort. simpl. now rewrite Qleb_sorted_idem. Qed.

Lemma sort_transactions_idem self :
  sort_transactions (sort_transactions self) = sort_transactions self.
Proof.
  unfold sort_transactions, set_metrics. simpl. do 2 f_equal.
  rewrite <- map_fmap_compose. apply map_fmap_ext. intros k tx _. apply tx_sort_idem.
Qed.

(** C6, as stated, fails: after the samples 2 and 1 have been recorded,
    [get_summary_metrics] leaves the collector in another state (the list
    of samples is [1; 2] and no longer [2; 1]). *)
Lemma C6_snapshot_changes_state :
  ~ (forall (pow_half : Q -> Q) (self : MetricsCollector),
       (get_summary_metrics pow_half self).2 = self).
Proof.
  intros H. specialize (H (fun x => x) two_samples).
  apply (f_equal (fun s => response_times (_metrics s))) in H.
  vm_compute in H. discriminate H.
Qed.

(** C6, amended. [get_summary_metrics] changes the collector in one way
    only: it sorts the stored response-time samples in place, which
    permutes them ([_get_transaction_metrics] does the same to the samples
    of every transaction).  A second call with no call in between returns
    the same result and leaves the state as the first call left it. *)
Theorem C6_snapshot_sorts_in_place :
  forall (pow_half : Q -> Q) (self : MetricsCollector),
    let after := (get_summary_metrics pow_half self).2 in
    after = sort_response_times self
    /\ Permutation (response_times (_metrics after)) (response_times (_metrics self))
    /\ get_summary_metrics pow_half after = get_summary_metrics pow_half self
    /\ (_get_transaction_metrics self).2 = sort_transactions self
    /\ _get_transaction_metrics (_get_transaction_metrics self).2
       = _get_transaction_metrics self.
Proof.
  intros pow_half self after. subst after.
  rewrite get_summary_metrics_state. repeat split.
  - simpl. apply py_sorted_perm.
  - unfold get_summary_metrics. rewrite test_duration_unsorted.
    destruct (_calculate_test_duration_ok self) as [d ->].
    now rewrite sort_response_times_idem.
  - change ((_get_transaction_metrics self).2) with (sort_transactions self).
    unfold _get_transaction_metrics. cbv zeta. now rewrite sort_transactions_idem.
Qed.

(** *** Every computation of the summary succeeds *)

Lemma pydiv_ok a b : Qeq_bool b 0 = false -> pydiv a b = Ok (a / b)%Q.
Proof. unfold pydiv. now intros ->. Qed.

Lemma Qeq_bool_pos b : (0 < b)%Q -> Qeq_bool b 0 = false.
Proof.
  intros H. destruct (Qeq_bool b 0) eqn:E; [|reflexivity].
  apply Qeq_bool_eq in E. rewrite E in H. now apply Qlt_irrefl in H.
Qed.

Lemma Qeq_bool_inject_pos n : 0 < n -> Qeq_bool (inject_Z n) 0 = false.
Proof.
  intros H. apply Qeq_bool_pos. change 0%Q with (inject_Z 0).
  rewrite <- Zlt_Qlt. exact H.
Qed.

Lemma pydiv_len {A} a (x : A) l :
  pydiv a (inject_Z (len (x :: l))) = Ok (a / inject_Z (len (x :: l)))%Q.
Proof. apply pydiv_ok, Qeq_bool_inject_pos, len_cons_pos. Qed.

Lemma scaled_nonneg n p : 0 <= n -> (0 <= p)%Q -> (0 <= inject_Z n * p / 100)%Q.
Proof.
  intros Hn Hp. apply Qle_shift_div_l; [reflexivity|].
  rewrite Qmult_0_l. apply Qmult_le_0_compat; [|exact Hp].
  change 0%Q with (inject_Z 0). now rewrite <- Zle_Qle.
Qed.

Lemma scaled_mono n p q :
  0 <= n -> (p <= q)%Q -> (inject_Z n * p / 100 <= inject_Z n * q / 100)%Q.
Proof.
  intros Hn Hpq. unfold Qdiv. apply Qmult_le_compat_r; [|discriminate].
  rewrite !(Qmult_comm (inject_Z n)). apply Qmult_le_compat_r; [exact Hpq|].
  change 0%Q with (inject_Z 0). now rewrite <- Zle_Qle.
Qed.

Lemma percentile_index_range {A} (x : A) l p :
  (0 <= p)%Q -> 0 <= percentile_index (x :: l) p < len (x :: l).
Proof.
  intros Hp. unfold percentile_index.
  pose proof (len_cons_pos x l) as Hl.
  pose proof (py_int_nonneg _ (scaled_nonneg (len (x :: l)) p (Z.lt_le_incl _ _ Hl) Hp)).
  destruct (len (x :: l) <=? _) eqn:E; lia.
Qed.

Lemma percentile_index_mono {A} (l : list A) p q :
  (0 <= p)%Q -> (p <= q)%Q -> percentile_index l p <= percentile_index l q.
Proof.
  intros Hp Hpq. unfold percentile_index.
  pose proof (len_nonneg l) as Hl.
  pose proof (py_int_mono _ _ (scaled_nonneg (len l) p Hl Hp) (scaled_mono (len l) p q Hl Hpq)).
  destruct (len l <=? py_int (inject_Z (len l) * p / 100)) eqn:E1;
    destruct (len l <=? py_int (inject_Z (len l) * q / 100)) eqn:E2; lia.
Qed.

Lemma _calculate_percentile_nth {A} (zero x : A) l p :
  (0 <= p)%Q ->
  _calculate_percentile zero (x :: l) p
  = Ok (nth (Z.to_nat (percentile_index (x :: l) p)) (x :: l) zero).
Proof.
  intros Hp. unfold _calculate_percentile.
  apply (py_getitem_in_range (x :: l) (percentile_index (x :: l) p)).
  now apply percentile_index_range.
Qed.

(** On a sorted list the percentiles are monotone in the percentage. *)
Lemma percentile_mono (x : Q) l p q vp vq :
  StronglySorted (fun a b => Qleb a b = true) (x :: l) ->
  (0 <= p)%Q -> (p <= q)%Q ->
  _calculate_percentile 0%Q (x :: l) p = Ok vp ->
  _calculate_percentile 0%Q (x :: l) q = Ok vq ->
  (vp <= vq)%Q.
Proof.
  intros Hs Hp Hpq. assert (Hq : (0 <= q)%Q) by (eapply Qle_trans; eauto).
  rewrite !_calculate_percentile_nth by assumption.
  intros Ep Eq.
  assert (Hle : Qleb (nth (Z.to_nat (percentile_index (x :: l) p)) (x :: l) 0%Q)
                     (nth (Z.to_nat (percentile_index (x :: l) q)) (x :: l) 0%Q) = true);
    [|unfold Qleb in Hle; apply Qle_bool_iff; congruence].
  apply (sorted_nth_le Qleb Qleb_total); [exact Hs| |].
  - apply Z2Nat.inj_le; [apply (percentile_index_range x l p Hp)
                         |apply (percentile_index_range x l q Hq)
                         |now apply percentile_index_mono].
  - pose proof (percentile_index_range x l q Hq) as H. unfold len in H. lia.
Qed.

(** [max(l)] bounds every element of [l]. *)
Lemma fold_max_ge l m : (m <= fold_left (fun m y => if Qlt_le_dec m y then y else m) l m)%Q
  /\ Forall (fun y => (y <= fold_left (fun m y => if Qlt_le_dec m y then y else m) l m)%Q) l.
Proof.
  revert m. induction l as [|y l IH]; intros m; simpl.
  - split; [apply Qle_refl|constructor].
  - destruct (Qlt_le_dec m y) as [H|H].
    + destruct (IH y) as [H1 H2]. split.
      * eapply Qle_trans; [apply Qlt_le_weak, H|exact H1].
      * constructor; assumption.
    + destruct (IH m) as [H1 H2]. split; [exact H1|].
      constructor; [|exact H2]. eapply Qle_trans; eauto.
Qed.

Lemma py_max_ge x l m y : py_max (x :: l) = Ok m -> In y (x :: l) -> (y <= m)%Q.
Proof.
  simpl. intros [= <-] Hy.
  destruct (fold_max_ge l x) as [H1 H2]. destruct Hy as [<-|Hy]; [exact H1|].
  rewrite List.Forall_forall in H2. now apply H2.
Qed.

(** The per-second counts of a non-empty list of data points. *)
Lemma per_second_fold_nonempty (keep : ThroughputPoint -> bool)
    (points : list ThroughputPoint) (d : gmap Z Z) :
  d <> (∅ : gmap Z Z) ->
  fold_left (fun (d : gmap Z Z) (p : ThroughputPoint) =>
               if keep p then incr (py_int (tp_timestamp p)) d else d) points d
  <> (∅ : gmap Z Z).
Proof.
  revert d. induction points as [|p ps IH]; intros d Hd; simpl; [exact Hd|].
  apply IH. destruct (keep p); [|exact Hd]. unfold incr. apply insert_non_empty.
Qed.

Lemma per_second_all_nonempty p ps : per_second (fun _ => true) (p :: ps) <> ∅.
Proof.
  unfold per_second. cbn [fold_left].
  apply (per_second_fold_nonempty (fun _ => true)).
  unfold incr. apply insert_non_empty.
Qed.

Lemma dict_values_nonempty (d : gmap Z Z) :
  d <> ∅ -> exists v vs, dict_values d = v :: vs.
Proof.
  intros Hd. unfold dict_values.
  destruct (map_to_list d) as [|[k v] kvs] eqn:E.
  - apply map_to_list_empty_iff in E. contradiction.
  - simpl. eauto.
Qed.

Lemma mapM_ok {A B} (f : A -> Res B) (l : list A) :
  (forall x, exists y, f x = Ok y) -> exists ys, mapM f l = Ok ys.
Proof.
  intros Hf. induction l as [|x l [ys IH]]; simpl; [now eexists|].
  destruct (Hf x) as [y Hy]. rewrite Hy. simpl. rewrite IH. simpl. now eexists.
Qed.

Lemma percentile_ok {A} (zero : A) l p :
  (0 <= p)%Q -> exists v, _calculate_percentile zero l p = Ok v.
Proof.
  intros Hp. destruct l as [|x l]; [now eexists|].
  rewrite _calculate_percentile_nth by exact Hp. now eexists.
Qed.

Section SummaryFacts.
Variable pow_half : Q -> Q.

Lemma average_rates_ok d m : exists r, average_rates d m = Ok r.
Proof.
  unfold average_rates. destruct (Qlt_le_dec 0 d) as [Hd|Hd]; [|now eexists].
  rewrite !pydiv_ok by (apply Qeq_bool_pos; exact Hd). now eexists.
Qed.

Lemma success_rate_of_ok m : exists r, success_rate_of m = Ok r.
Proof.
  unfold success_rate_of. destruct (0 <? total_requests m) eqn:E; [|now eexists].
  rewrite pydiv_ok by (apply Qeq_bool_inject_pos; lia). now eexists.
Qed.

Lemma connection_success_rate_of_ok cm :
  exists r, connection_success_rate_of cm = Ok r.
Proof.
  unfold connection_success_rate_of.
  destruct (0 <? total_connections cm) eqn:E; [|now eexists].
  rewrite pydiv_ok by (apply Qeq_bool_inject_pos; lia). now eexists.
Qed.

Lemma second_max_avg_ok d : exists r, second_max_avg d = Ok r.
Proof.
  unfold second_max_avg. case_bool_decide as Hd; [now eexists|].
  destruct (dict_values_nonempty d Hd) as (v & vs & ->).
  rewrite pydiv_len. now eexists.
Qed.

Lemma second_stats_ok d : exists r, second_stats d = Ok r.
Proof.
  unfold second_stats. case_bool_decide as Hd; [now eexists|].
  destruct (dict_values_nonempty d Hd) as (v & vs & ->).
  rewrite pydiv_len. cbn [py_maxZ py_minZ mbind res_bind].
  destruct (percentile_ok 0 (py_sorted Z.leb (v :: vs)) 95) as [p ->]; [discriminate|].
  now eexists.
Qed.

Lemma _calculate_throughput_variation_ok self :
  exists r, _calculate_throughput_variation pow_half self = Ok r.
Proof.
  unfold _calculate_throughput_variation.
  destruct (throughput_data (_metrics self)) as [|p ps] eqn:E; [now eexists|].
  destruct (len (p :: ps) <? 2); [now eexists|].
  destruct (dict_values_nonempty _ (per_second_all_nonempty p ps)) as (v & vs & ->).
  rewrite pydiv_len. cbn [mbind res_bind]. rewrite pydiv_len. now eexists.
Qed.

Lemma latency_stat_ok latencies : exists r, latency_stat latencies = Ok r.
Proof.
  unfold latency_stat. destruct latencies as [|x l]; [now eexists|].
  rewrite pydiv_len. cbn [py_min py_max mbind res_bind].
  destruct (percentile_ok 0%Q (py_sorted Qleb (x :: l)) 50) as [p50 ->]; [discriminate|].
  destruct (percentile_ok 0%Q (py_sorted Qleb (x :: l)) 95) as [p95 ->]; [discriminate|].
  now eexists.
Qed.

Lemma latency_stats_of_ok samples : exists r, latency_stats_of samples = Ok r.
Proof.
  unfold latency_stats_of.
  edestruct (mapM_ok (fun kv : string * list Q =>
                        st ← latency_stat kv.2; Ok (kv.1, st))
                     (map_to_list samples)) as [kvs ->].
  - intros [k l]. simpl. destruct (latency_stat_ok l) as [st ->]. now eexists.
  - now eexists.
Qed.

(** The statistics of a sorted, non-empty list of samples. *)
Lemma response_time_stats_sorted l :
  StronglySorted (fun a b => Qleb a b = true) l ->
  exists avg mn mx p50 p90 p95 p99 p999 sd,
    response_time_stats pow_half l = Ok (avg, mn, mx, (p50, p90, p95, p99, p999), sd)
    /\ (p50 <= p90)%Q /\ (p90 <= p95)%Q /\ (p95 <= p99)%Q /\ (p99 <= p999)%Q
    /\ (p999 <= mx)%Q.
Proof.
  intros Hs. unfold response_time_stats. destruct l as [|x l].
  - do 9 eexists. split; [reflexivity|]. repeat split; apply Qle_refl.
  - rewrite pydiv_len.
    destruct (percentile_ok 0%Q (x :: l) 50) as [p50 E50]; [discriminate|].
    destruct (percentile_ok 0%Q (x :: l) 90) as [p90 E90]; [discriminate|].
    destruct (percentile_ok 0%Q (x :: l) 95) as [p95 E95]; [discriminate|].
    destruct (percentile_ok 0%Q (x :: l) 99) as [p99 E99]; [discriminate|].
    destruct (percentile_ok 0%Q (x :: l) (999 # 10)) as [p999 E999]; [discriminate|].
    rewrite E50, E90, E95, E99, E999.
    cbn [py_min py_max mbind res_bind]. rewrite pydiv_len.
    do 9 eexists. split; [reflexivity|].
    split; [eapply (percentile_mono x l 50 90); eauto; discriminate|].
    split; [eapply (percentile_mono x l 90 95); eauto; discriminate|].
    split; [eapply (percentile_mono x l 95 99); eauto; discriminate|].
    split; [eapply (percentile_mono x l 99 (999 # 10)); eauto; discriminate|].
    eapply (py_max_ge x l); [reflexivity|].
    assert (Hin : In (nth (Z.to_nat (percentile_index (x :: l) (999 # 10)))
                          (x :: l) 0%Q) (x :: l)).
    { apply nth_In.
      assert (H9 : (0 <= 999 # 10)%Q) by discriminate.
      pose proof (percentile_index_range x l (999 # 10) H9) as H. unfold len in H.
      lia. }
    rewrite _calculate_percentile_nth in E999 by discriminate.
    congruence.
Qed.

Lemma summary_of_monotone d self :
  StronglySorted (fun a b => Qleb a b = true) (response_times (_metrics self)) ->
  exists s, summary_of pow_half d self = Ok s /\ percentiles_monotone s.
Proof.
  intros Hs. unfold summary_of.
  destruct (average_rates_ok d (_metrics self)) as [[[rps srps] frps] ->].
  destruct (response_time_stats_sorted _ Hs)
    as (avg & mn & mx & p50 & p90 & p95 & p99 & p999 & sd & -> & Hp).
  destruct (success_rate_of_ok (_metrics self)) as [sr ->].
  destruct (_calculate_throughput_variation_ok self) as [tv ->].
  destruct (second_stats_ok (per_second (fun _ => true) (throughput_data (_metrics self))))
    as [[[[a1 a2] a3] a4] ->].
  destruct (second_max_avg_ok (per_second tp_success (throughput_data (_metrics self))))
    as [[b1 b2] ->].
  destruct (second_max_avg_ok
              (per_second (fun p => negb (tp_success p)) (throughput_data (_metrics self))))
    as [[c1 c2] ->].
  destruct (latency_stats_of_ok (latency_breakdown_samples (_metrics self))) as [ls ->].
  destruct (connection_success_rate_of_ok (connection_metrics (_metrics self))) as [cr ->].
  eexists. split; [reflexivity|]. exact Hp.
Qed.
End SummaryFacts.

(** C8. For every collector, whatever samples it holds, [get_summary_metrics]
    returns a summary, and in it
    p50 <= p90 <= p95 <= p99 <= p99.9 <= max_response_time. *)
Theorem C8_percentiles_monotone :
  forall (pow_half : Q -> Q) (self : MetricsCollector),
  exists s : Summary,
    (get_summary_metrics pow_half self).1 = Ok s
    /\ (s_p50_response_time s <= s_p90_response_time s)%Q
    /\ (s_p90_response_time s <= s_p95_response_time s)%Q
    /\ (s_p95_response_time s <= s_p99_response_time s)%Q
    /\ (s_p99_response_time s <= s_p999_response_time s)%Q
    /\ (s_p999_response_time s <= s_max_response_time s)%Q.
Proof.
  intros pow_half self. unfold get_summary_metrics.
  destruct (_calculate_test_duration_ok self) as [d ->]. cbn [fst].
  apply summary_of_monotone. simpl.
  apply (py_sorted_sorted Qleb Qleb_total Qleb_trans).
Qed.

(** *** A collector on which nothing was recorded *)

Section ZeroRequests.
Variable pow_half : Q -> Q.

Lemma nothing_recorded_init t : nothing_recorded (init t).
Proof. repeat split. Qed.

Lemma nothing_recorded_call c self :
  is_record c = false -> nothing_recorded self ->
  nothing_recorded (call pow_half c self).
Proof.
  intros Hc (H1 & H2 & H3 & H4 & H5 & H6 & H7).
  destruct c; try discriminate Hc; simpl.
  - repeat split; assumption.
  - repeat split; assumption.
  - repeat split; assumption.
  - repeat split.
  - rewrite get_summary_metrics_state. unfold sort_response_times. simpl.
    rewrite H5. repeat split; assumption.
  - repeat split; assumption.
Qed.

Lemma nothing_recorded_calls cs self :
  forallb (fun c => negb (is_record c)) cs = true ->
  nothing_recorded self -> nothing_recorded (calls pow_half cs self).
Proof.
  revert self. induction cs as [|c cs IH]; intros self Hcs H; simpl; [exact H|].
  simpl in Hcs. apply andb_prop in Hcs as [Hc Hcs].
  apply IH; [exact Hcs|]. apply nothing_recorded_call; [|exact H].
  now destruct (is_record c).
Qed.

(** What the summary of such a collector is. *)
Lemma summary_of_nothing self :
  nothing_recorded self ->
  exists latency_stats,
  get_summary_metrics pow_half self =
  (Ok {| s_total_requests := 0;
         s_successful_requests := 0;
         s_failed_requests := 0;
         s_success_rate := 0;
         s_test_duration := 0;
         s_rps := 0;
         s_successful_rps := 0;
         s_failed_rps := 0;
         s_max_rps := 0;
         s_min_rps := 0;
         s_avg_second_rps := 0;
         s_p95_rps := 0;
         s_max_success_rps := 0;
         s_avg_success_rps := 0;
         s_max_failed_rps := 0;
         s_avg_failed_rps := 0;
         s_throughput_variation := 0;
         s_avg_response_time := 0;
         s_min_response_time := 0;
         s_max_response_time := 0;
         s_p50_response_time := 0;
         s_p90_response_time := 0;
         s_p95_response_time := 0;
         s_p99_response_time := 0;
         s_p999_response_time := 0;
         s_response_time_std_dev := 0;
         s_max_concurrent_users := concurrent_users (_metrics self);
         s_latency_stats := latency_stats;
         s_connection_metrics :=
           {| cs_total_connections := 0;
              cs_failed_connections :=
                failed_connections (connection_metrics (_metrics self));
              cs_connection_success_rate := 100;
              cs_connection_errors :=
                connection_errors (connection_metrics (_metrics self)) |};
         s_status_codes_distribution := status_codes (_metrics self);
         s_errors_distribution := errors (_metrics self) |},
   self).
Proof.
  intros (H1 & H2 & H3 & H4 & H5 & H6 & H7).
  destruct (latency_stats_of_ok (latency_breakdown_samples (_metrics self)))
    as [ls Hls].
  exists ls.
  destruct self as [st en rq m lk tc ps]; simpl in *. subst rq.
  destruct m as [tot suc fai rts scs ers tss txs cu tpd cpu mem lbs cm]; simpl in *.
  destruct cm as [tcn fcn cer]; simpl in *. subst.
  unfold get_summary_metrics, sort_response_times, set_metrics; simpl.
  unfold summary_of; simpl.
  unfold average_rates. destruct (Qlt_le_dec 0 0) as [H|_]; [now apply Qlt_irrefl in H|].
  cbn [mbind res_bind]. rewrite Hls. reflexivity.
Qed.
End ZeroRequests.

(** C9. When no request was recorded since the collector was created
    (whatever else was called on it), [get_summary_metrics] returns a
    summary (no division by zero, nor any other exception, is raised), in
    which [total_requests] is 0, every RPS value, the success rate and the
    throughput variation are 0, and so are every percentile and the average,
    minimum, maximum and standard deviation of the response time.  (The
    success rate of connections, of which there was none either, is 100.) *)
Theorem C9_zero_request_summary :
  forall (pow_half : Q -> Q) (t : Q) (cs : list Call),
    forallb (fun c => negb (is_record c)) cs = true ->
    exists s : Summary,
      (get_summary_metrics pow_half (calls pow_half cs (init t))).1 = Ok s
      /\ s_total_requests s = 0
      /\ s_successful_requests s = 0 /\ s_failed_requests s = 0
      /\ s_success_rate s = 0%Q /\ s_test_duration s = 0%Q
      /\ s_rps s = 0%Q /\ s_successful_rps s = 0%Q /\ s_failed_rps s = 0%Q
      /\ s_max_rps s = 0 /\ s_min_rps s = 0 /\ s_avg_second_rps s = 0%Q
      /\ s_p95_rps s = 0
      /\ s_max_success_rps s = 0 /\ s_avg_success_rps s = 0%Q
      /\ s_max_failed_rps s = 0 /\ s_avg_failed_rps s = 0%Q
      /\ s_throughput_variation s = 0%Q
      /\ s_avg_response_time s = 0%Q /\ s_min_response_time s = 0%Q
      /\ s_max_response_time s = 0%Q
      /\ s_p50_response_time s = 0%Q /\ s_p90_response_time s = 0%Q
      /\ s_p95_response_time s = 0%Q /\ s_p99_response_time s = 0%Q
      /\ s_p999_response_time s = 0%Q
      /\ s_response_time_std_dev s = 0%Q
      /\ cs_connection_success_rate (s_connection_metrics s) = 100%Q.
Proof.
  intros pow_half t cs Hcs.
  destruct (summary_of_nothing pow_half (calls pow_half cs (init t))) as [ls ->].
  - apply nothing_recorded_calls; [exact Hcs|apply nothing_recorded_init].
  - eexists. split; [reflexivity|]. cbn. repeat split.
Qed.

(** A run without requests: the concurrency is reported and the
    collector finalized, then the summary is taken. *)
Lemma C9_zero_request_summary_witness :
  exists s : Summary,
    (get_summary_metrics (fun x => x)
       (calls (fun x => x) [CallUpdateConcurrentUsers 4; CallFinalize 5] (init 1))).1
    = Ok s
    /\ s_total_requests s = 0 /\ s_rps s = 0%Q /\ s_p99_response_time s = 0%Q.
Proof.
  destruct (C9_zero_request_summary (fun x => x) 1
              [CallUpdateConcurrentUsers 4; CallFinalize 5]) as (s & Hs & H).
  - reflexivity.
  - exists s. split; [exact Hs|]. tauto.
Defined.

End Metrics_facts.

(** ** The load generator *)

Module Load_facts.
Import Load_generator Load_statements.

(** *** The error classifier *)

(** C5, as stated, fails: an exception of the requests library that is
    neither a timeout, a connection error nor an HTTP error is classified
    as ['request_error'], which is none of the seven kinds. *)
Lemma C5_request_error_outside_closed_set :
  _classify_error_type too_many_redirects = "request_error"
  /\ ~ In (_classify_error_type too_many_redirects) closed_error_kinds.
Proof.
  split; [reflexivity|]. vm_compute. intuition discriminate.
Qed.

Lemma classifier_tags_cover e : In (_classify_error_type e) classifier_tags.
Proof.
  unfold _classify_error_type, classifier_tags.
  repeat match goal with
         | |- context [if ?b then _ else _] => destruct b
         end; simpl; tauto.
Qed.

(** C5, amended. The classifier is total and returns, for every exception,
    exactly one of the six tags assertion_error, timeout, connection_error,
    http_error, request_error, other_error.  It returns request_error only
    for an instance of [requests.exceptions.RequestException], and never
    validation_error or system_error. *)
Theorem C5_classifier_total_six_tags :
  forall e : PyExc,
    In (_classify_error_type e) classifier_tags
    /\ (_classify_error_type e = "request_error" ->
        isinstance e "requests.exceptions.RequestException" = true)
    /\ _classify_error_type e <> "validation_error"
    /\ _classify_error_type e <> "system_error".
Proof.
  intros e. unfold _classify_error_type, classifier_tags.
  repeat match goal with
         | |- context [if ?b then _ else _] => destruct b eqn:?
         end; simpl; repeat split; try discriminate; try tauto; try congruence.
Qed.

Lemma classified_not_error_details e :
  String.eqb (_classify_error_type e) "error_details" = false.
Proof.
  pose proof (classifier_tags_cover e) as H. unfold classifier_tags in H.
  simpl in H. intuition (subst; match goal with H : _ = _classify_error_type e |- _ =>
    rewrite <- H end; reflexivity).
Qed.

(** *** Computations on the store *)

Lemma bind_inv {A B} (m : M A) (k : A -> M B) w r w' :
  (m ≫= k) w = Done r w' ->
  (exists a w1, m w = Done (Ok a) w1 /\ k a w1 = Done r w')
  \/ (exists e, m w = Done (Raise e) w' /\ r = Raise e).
Proof.
  unfold mbind, M_bind. destruct (m w) as [[a|e] w1|]; intros H.
  - left. eauto.
  - right. injection H as <- <-. eauto.
  - discriminate.
Qed.

Lemma bind_ok {A B} (m : M A) (k : A -> M B) w a w1 :
  m w = Done (Ok a) w1 -> (m ≫= k) w = k a w1.
Proof. unfold mbind, M_bind. now intros ->. Qed.

Section RetryFacts.
Variable tick : positive.
Variable cfg : TestConfig.

Lemma _record_error_done error_type error_message w :
  String.eqb error_type "error_details" = false ->
  _record_error error_type error_message w
  = Done (Ok tt) (recorded error_type error_message w).
Proof.
  intros H. unfold recorded, _record_error. rewrite H.
  destruct (negb (str_mem error_type _));
    destruct (str_mem (assoc_get error_type error_type_mapping "other_error") _);
    reflexivity.
Qed.

Lemma recorded_consecutive_errors ty msg w :
  _consecutive_errors (recorded ty msg w) = _consecutive_errors w + 1
  /\ _consecutive_error_count (recorded ty msg w) = _consecutive_errors w + 1.
Proof.
  unfold recorded, _record_error.
  destruct (negb (str_mem ty _)); [destruct (String.eqb ty "error_details")|];
    destruct (str_mem (assoc_get ty error_type_mapping "other_error") _);
    split; reflexivity.
Qed.

Lemma recorded_frame ty msg w :
  task_calls (recorded ty msg w) = task_calls w
  /\ before_calls (recorded ty msg w) = before_calls w
  /\ _before_results (recorded ty msg w) = _before_results w
  /\ _before_tasks_completed (recorded ty msg w) = _before_tasks_completed w
  /\ _error_count (recorded ty msg w) = _error_count w + 1.
Proof.
  unfold recorded, _record_error.
  destruct (negb (str_mem ty _)); [destruct (String.eqb ty "error_details")|];
    destruct (str_mem (assoc_get ty error_type_mapping "other_error") _);
    repeat split; reflexivity.
Qed.

Lemma recorded_error_details ty msg w :
  String.eqb ty "error_details" = false ->
  is_Some (error_details (_error_statistics (recorded ty msg w)) !! msg).
Proof.
  intros H. unfold recorded, _record_error. rewrite H.
  destruct (negb (str_mem ty _));
    destruct (str_mem (assoc_get ty error_type_mapping "other_error") _);
    simpl; unfold incr; rewrite lookup_insert_eq; eauto.
Qed.

(** Each failed attempt adds 2 to the counter: once in [_record_error],
    once more in the handler. *)
Lemma handled_consecutive_errors e w :
  _consecutive_errors (handled e w) = _consecutive_errors w + 2.
Proof.
  unfold handled. cbn.
  destruct (recorded_consecutive_errors (_classify_error_type e) (exc_str e) w)
    as [_ ->]. lia.
Qed.

Lemma retry_handler_cases attempt e w :
  retry_handler cfg attempt e w =
  if retried cfg attempt e then
    if Qltb (retry_delay_of cfg attempt) 0
    then Done (Raise (ValueError "sleep length must be non-negative")) (handled e w)
    else Done (Ok Next)
              (set_now (now (handled e w) + retry_delay_of cfg attempt)%Q (handled e w))
  else Done (Ok (Return VNone)) (handled e w).
Proof.
  unfold retry_handler.
  erewrite bind_ok by (apply _record_error_done, classified_not_error_details).
  unfold retried, retry_delay_of, handled.
  destruct (_ && _); [|reflexivity].
  unfold time_sleep. destruct (Qltb _ 0); reflexivity.
Qed.

Lemma retry_delay_nonneg attempt :
  (0 <= retry_retry_delay cfg)%Q -> Qltb (retry_delay_of cfg attempt) 0 = false.
Proof.
  intros H. unfold Qltb, retry_delay_of. apply negb_false_iff, Qle_bool_iff.
  apply Qmult_le_0_compat; [exact H|]. apply Qpower_0_le. discriminate.
Qed.

Lemma wrap_result_success r : get_success (wrap_result r) = Ok true.
Proof.
  destruct r as [|s t e d r| |]; simpl; try reflexivity.
  destruct s as [[|]|]; reflexivity.
Qed.

Lemma wrap_result_not_None r : wrap_result r <> VNone.
Proof.
  destruct r as [|s t e d r| |]; simpl; try discriminate.
  destruct (default true s); discriminate.
Qed.

(** One attempt: the task returns, or raises and the handler runs. *)
Lemma retry_attempts_step (m : M PyVal) n attempt w :
  retry_attempts cfg m (S n) attempt w =
  match m w with
  | Done (Ok r) w1 =>
      Done (Ok (wrap_result r))
           (set_consecutive_errors 0 (set_consecutive_error_count 0 w1))
  | Done (Raise e) w1 =>
      match retry_handler cfg attempt e w1 with
      | Done (Ok Next) w2 => retry_attempts cfg m n (attempt + 1) w2
      | Done (Ok Break) w2 => Done (Ok VNone) w2
      | Done (Ok (Return r)) w2 => Done (Ok r) w2
      | Done (Raise e') w2 => Done (Raise e') w2
      | OutOfFuel => OutOfFuel
      end
  | OutOfFuel => OutOfFuel
  end.
Proof.
  cbn [retry_attempts]. unfold mbind at 1, M_bind at 1, try_except.
  unfold mbind at 1, M_bind at 1.
  destruct (m w) as [[r|e] w1|]; [reflexivity| |reflexivity].
  destruct (retry_handler cfg attempt e w1) as [[[| |r]|e'] w2|]; reflexivity.
Qed.

(** What an execution returns is [None] or a successful result, and the
    counters are zero after a successful one. *)
Lemma retry_attempts_result (m : M PyVal) n attempt w v w' :
  retry_attempts cfg m n attempt w = Done (Ok v) w' ->
  v = VNone
  \/ (get_success v = Ok true
      /\ _consecutive_errors w' = 0 /\ _consecutive_error_count w' = 0).
Proof.
  revert attempt w. induction n as [|n IH]; intros attempt w.
  - cbn. intros [= <- <-]. now left.
  - rewrite retry_attempts_step.
    destruct (m w) as [[r|e] w1|]; [| |discriminate].
    + intros [= <- <-]. right. split; [apply wrap_result_success|]. split; reflexivity.
    + rewrite retry_handler_cases.
      destruct (retried cfg attempt e); [destruct (Qltb _ 0)|].
      * discriminate.
      * apply IH.
      * intros [= <- <-]. now left.
Qed.
End RetryFacts.

Section FailingTask.
Variable tick : positive.
Variable cfg : TestConfig.

Lemma call_task_raises task w e :
  returns (task (task_calls w)) = Raise e ->
  exists w0, call_task tick task w = Done (Raise e) w0
    /\ task_calls w0 = S (task_calls w).
Proof.
  intros H. unfold call_task. rewrite H. eexists. split; [reflexivity|].
  unfold apply_effect. destruct (calls_stop _); reflexivity.
Qed.

Lemma handled_task_calls e w : task_calls (handled e w) = task_calls w.
Proof. unfold handled. cbn. apply recorded_frame. Qed.

Lemma handled_error_details e w :
  is_Some (error_details (_error_statistics (handled e w)) !! exc_str e).
Proof.
  unfold handled. cbn. apply recorded_error_details, classified_not_error_details.
Qed.

Lemma handled_task_calls_now e d w :
  task_calls (set_now d (handled e w)) = task_calls w.
Proof. change (task_calls (handled e w) = task_calls w). apply handled_task_calls. Qed.

(** The attempts of an execution, up to the last one made: when that one
    raised, the execution returns [None], the error was not to be retried
    or the attempts are used up, and the message of the error has an
    entry in the error statistics. *)
Lemma retry_attempts_last task n attempt w :
  (0 <= retry_retry_delay cfg)%Q ->
  exists v w' k,
    retry_attempts cfg (call_task tick task) n attempt w = Done (Ok v) w'
    /\ task_calls w' = (task_calls w + k)%nat
    /\ (k <= n)%nat
    /\ (k = 0%nat -> n = 0%nat)
    /\ forall e, (0 < k)%nat ->
         returns (task (task_calls w' - 1)%nat) = Raise e ->
         v = VNone
         /\ (retried cfg (attempt + Z.of_nat k - 1) e = false \/ k = n)
         /\ is_Some (error_details (_error_statistics w') !! exc_str e).
Proof.
  intros Hd. revert attempt w. induction n as [|n IH]; intros attempt w.
  - exists VNone, w, 0%nat. split; [reflexivity|]. split; [lia|]. split; [lia|].
    split; [reflexivity|]. intros e Hk. lia.
  - rewrite retry_attempts_step.
    unfold call_task at 1.
    set (w0 := apply_effect tick (task (task_calls w)) (set_task_calls (S (task_calls w)) w)).
    assert (Hw0 : task_calls w0 = S (task_calls w)).
    { subst w0. unfold apply_effect. destruct (calls_stop _); reflexivity. }
    destruct (returns (task (task_calls w))) as [r|e] eqn:Er.
    + eexists (wrap_result r), _, 1%nat. split; [reflexivity|].
      split; [change (task_calls w0 = (task_calls w + 1)%nat); lia|].
      split; [lia|]. split; [discriminate|]. intros e _ He.
      change (returns (task (task_calls w0 - 1)%nat) = Raise e) in He.
      rewrite Hw0 in He. replace (S (task_calls w) - 1)%nat with (task_calls w) in He by lia.
      congruence.
    + rewrite retry_handler_cases.
      assert (Hh : task_calls (handled e w0) = S (task_calls w))
        by (rewrite handled_task_calls; exact Hw0).
      destruct (retried cfg attempt e) eqn:Eretry.
      * rewrite (retry_delay_nonneg cfg attempt Hd).
        set (w2 := set_now _ (handled e w0)).
        assert (Hw2 : task_calls w2 = S (task_calls w)).
        { subst w2. rewrite handled_task_calls_now. exact Hw0. }
        destruct (IH (attempt + 1) w2) as (v & w' & k & Hrun & Hk & Hle & Hz & Hlast).
        exists v, w', (S k). split; [exact Hrun|]. split; [lia|]. split; [lia|].
        split; [discriminate|]. intros e' _ He'.
        destruct k as [|k].
        -- specialize (Hz eq_refl). subst n. cbn in Hrun. injection Hrun as <- <-.
           rewrite Hw2 in He'.
           replace (S (task_calls w) - 1)%nat with (task_calls w) in He' by lia.
           assert (e' = e) by congruence. subst e'.
           split; [reflexivity|]. split; [now right|].
           subst w2. exact (handled_error_details e w0).
        -- destruct (Hlast e') as (Hv & Hr & Hs); [lia|exact He'|].
           split; [exact Hv|]. split; [|exact Hs].
           destruct Hr as [Hr|Hr]; [left|right; lia].
           replace (attempt + Z.of_nat (S (S k)) - 1)
             with (attempt + 1 + Z.of_nat (S k) - 1) by lia. exact Hr.
      * exists VNone, (handled e w0), 1%nat. split; [reflexivity|].
        split; [lia|]. split; [lia|]. split; [discriminate|]. intros e' _ He'.
        rewrite Hh in He'.
        replace (S (task_calls w) - 1)%nat with (task_calls w) in He' by lia.
        assert (e' = e) by congruence. subst e'.
        split; [reflexivity|]. split; [|apply handled_error_details].
        left. replace (attempt + Z.of_nat 1 - 1) with attempt by lia. exact Eretry.
Qed.
End FailingTask.

(** C2, as stated, fails: the execution of a task whose only attempt
    raises [ValueError("boom")] returns [None], not an unsuccessful outcome
    carrying the kind ['other_error'] and the message ['boom']. *)
Lemma C2_final_failure_is_not_an_outcome :
  result_of (_execute_with_retry no_retry_config (call_task 1000 always_fails)
               (__init__ 0))
  = Some (Ok VNone)
  /\ VNone <> failed_outcome (ValueError "boom").
Proof. split; [reflexivity|discriminate]. Qed.

(** C2, amended. Whatever the task does, an execution (the retry delay
    being a valid sleep length) returns, after [k] invocations of the task.
    When the last invocation made raised, which is the final failure of the
    execution (the error is not retryable, or no retry is left),
    [_execute_with_retry] returns [None]: no outcome record is returned
    and neither the kind nor the message of the last error is.  The
    message of that error has an entry in the error statistics of the
    generator. *)
Theorem C2_final_failure_returns_None :
  forall (tick : positive) (cfg : TestConfig) (task : UserFn) (w : World),
    (0 <= retry_retry_delay cfg)%Q ->
    exists v w' k,
      _execute_with_retry cfg (call_task tick task) w = Done (Ok v) w'
      /\ task_calls w' = (task_calls w + k)%nat
      /\ (0 <= retry_max_retries cfg -> (0 < k)%nat)
      /\ forall e, (0 < k)%nat ->
           returns (task (task_calls w' - 1)%nat) = Raise e ->
           v = VNone
           /\ v <> failed_outcome e
           /\ retried cfg (Z.of_nat k - 1) e = false
           /\ is_Some (error_details (_error_statistics w') !! exc_str e).
Proof.
  intros tick cfg task w Hd. unfold _execute_with_retry.
  destruct (retry_attempts_last tick cfg task
              (Z.to_nat (retry_max_retries cfg + 1)) 0
              (set_consecutive_errors 0 (set_consecutive_error_count 0 w)) Hd)
    as (v & w' & k & Hrun & Hk & Hle & Hz & Hlast).
  exists v, w', k. split; [exact Hrun|]. split; [exact Hk|].
  split; [intros Hm; destruct k; [specialize (Hz eq_refl)|]; lia|].
  intros e Hpos He. destruct (Hlast e Hpos He) as (Hv & Hr & Hs).
  split; [exact Hv|]. split; [rewrite Hv; discriminate|]. split; [|exact Hs].
  destruct Hr as [Hr|Hr]; [exact Hr|].
  unfold retried. apply andb_false_iff. right. apply Z.ltb_ge. lia.
Qed.

Lemma C2_final_failure_returns_None_witness :
  exists v w' k,
    _execute_with_retry one_retry_config (call_task 1000 fails_at_first) (__init__ 0)
    = Done (Ok v) w'
    /\ task_calls w' = (task_calls (__init__ 0) + k)%nat
    /\ (0 <= retry_max_retries one_retry_config -> (0 < k)%nat)
    /\ forall e, (0 < k)%nat ->
         returns (fails_at_first (task_calls w' - 1)%nat) = Raise e ->
         v = VNone
         /\ v <> failed_outcome e
         /\ retried one_retry_config (Z.of_nat k - 1) e = false
         /\ is_Some (error_details (_error_statistics w') !! exc_str e).
Proof.
  apply (C2_final_failure_returns_None 1000 one_retry_config fails_at_first (__init__ 0)).
  discriminate.
Defined.

(** *** The consecutive-error counter *)

(** C7, as stated, fails: with no retry, after one failed execution the
    counter is 2 and not 1, and after three failed executions in a row it
    is 2 again and not 3. *)
Lemma C7_counter_is_not_failures_since_success :
  _consecutive_errors
    (executions no_retry_config (call_task 1000 always_fails) 1 (__init__ 0)) = 2
  /\ failures_since_success [false] = 1
  /\ _consecutive_errors
       (executions no_retry_config (call_task 1000 always_fails) 3 (__init__ 0)) = 2
  /\ failures_since_success [false; false; false] = 3.
Proof. repeat split; reflexivity. Qed.

(** C7, amended. The counter is reset to zero at the start of every
    execution of a task and again by a successful attempt.  So what it is
    after an execution does not depend on what it was before (failures of
    earlier tasks are not counted), and it is zero after every execution
    that returns a result. *)
Theorem C7_counter_reset_by_every_execution :
  forall (tick : positive) (cfg : TestConfig) (task : UserFn) (w : World),
    (forall c1 c2 : Z,
        _execute_with_retry cfg (call_task tick task)
          (set_consecutive_errors c1 (set_consecutive_error_count c2 w))
        = _execute_with_retry cfg (call_task tick task) w)
    /\ (forall v w',
           _execute_with_retry cfg (call_task tick task) w = Done (Ok v) w' ->
           v <> VNone ->
           get_success v = Ok true
           /\ _consecutive_errors w' = 0 /\ _consecutive_error_count w' = 0).
Proof.
  intros tick cfg task w. split.
  - intros c1 c2. reflexivity.
  - intros v w' H Hv. unfold _execute_with_retry in H.
    apply (retry_attempts_result cfg) in H. destruct H as [H|H]; [contradiction|exact H].
Qed.

Lemma C7_counter_reset_by_every_execution_witness :
  let w := set_consecutive_errors 7 (set_consecutive_error_count 7 (__init__ 0)) in
  exists v w',
    _execute_with_retry no_retry_config (call_task 1000 always_succeeds) w
    = Done (Ok v) w'
    /\ v <> VNone
    /\ get_success v = Ok true
    /\ _consecutive_errors w' = 0 /\ _consecutive_error_count w' = 0.
Proof.
  intros w.
  destruct (_execute_with_retry no_retry_config (call_task 1000 always_succeeds) w)
    as [[v|e] w'|] eqn:E; try (vm_compute in E; discriminate E).
  assert (Hv : v <> VNone) by (vm_compute in E; injection E as <- _; discriminate).
  exists v, w'. split; [reflexivity|]. split; [exact Hv|].
  exact (proj2 (C7_counter_reset_by_every_execution 1000 no_retry_config
                  always_succeeds w) v w' E Hv).
Defined.

(** *** The before phase *)

Section BeforeTasks.
Variable tick : positive.
Variable cfg : TestConfig.

Lemma call_before_frame f w :
  exists w0,
    call_before tick f w = Done (returns (f (before_calls w))) w0
    /\ before_calls w0 = S (before_calls w)
    /\ _before_results w0 = _before_results w
    /\ _before_tasks_completed w0 = _before_tasks_completed w.
Proof.
  unfold call_before. eexists. split; [reflexivity|].
  unfold apply_effect. destruct (calls_stop _); repeat split.
Qed.

Lemma handled_before_frame e w :
  before_calls (handled e w) = before_calls w
  /\ _before_results (handled e w) = _before_results w
  /\ _before_tasks_completed (handled e w) = _before_tasks_completed w.
Proof.
  unfold handled. cbn.
  destruct (recorded_frame (_classify_error_type e) (exc_str e) w)
    as (_ & H1 & H2 & H3 & _).
  repeat split; assumption.
Qed.

(** The retry executor on the before function: it invokes the function
    at least once and at most once per attempt, and touches neither
    [_before_results] nor [_before_tasks_completed]. *)
Lemma retry_attempts_before f n attempt w :
  exists r w',
    retry_attempts cfg (call_before tick f) n attempt w = Done r w'
    /\ (before_calls w + Nat.min 1 n <= before_calls w' <= before_calls w + n)%nat
    /\ _before_results w' = _before_results w
    /\ _before_tasks_completed w' = _before_tasks_completed w
    /\ (forall x, (0 < n)%nat -> returns (f (before_calls w)) = Ok x ->
          r = Ok (wrap_result x) /\ before_calls w' = S (before_calls w)).
Proof.
  revert attempt w. induction n as [|n IH]; intros attempt w.
  - do 2 eexists. split; [reflexivity|]. repeat split; try lia.
  - rewrite retry_attempts_step.
    destruct (call_before_frame f w) as (w0 & -> & Hc & Hr & Hb).
    destruct (returns (f (before_calls w))) as [x|e].
    + do 2 eexists. split; [reflexivity|].
      change (before_calls (set_consecutive_errors 0 (set_consecutive_error_count 0 w0)))
        with (before_calls w0).
      change (_before_results (set_consecutive_errors 0 (set_consecutive_error_count 0 w0)))
        with (_before_results w0).
      change (_before_tasks_completed
                (set_consecutive_errors 0 (set_consecutive_error_count 0 w0)))
        with (_before_tasks_completed w0).
      split; [simpl; lia|]. split; [exact Hr|]. split; [exact Hb|].
      intros y _ [= <-]. split; [reflexivity|exact Hc].
    + rewrite retry_handler_cases.
      destruct (handled_before_frame e w0) as (H1 & H2 & H3).
      destruct (retried cfg attempt e); [destruct (Qltb _ 0)|].
      * do 2 eexists. split; [reflexivity|].
        repeat split; try discriminate; try lia; congruence.
      * set (w2 := set_now _ (handled e w0)).
        destruct (IH (attempt + 1) w2) as (r & w' & -> & Hn & Hr' & Hb' & _).
        change (before_calls w2) with (before_calls (handled e w0)) in Hn.
        change (_before_results w2) with (_before_results (handled e w0)) in Hr'.
        change (_before_tasks_completed w2)
          with (_before_tasks_completed (handled e w0)) in Hb'.
        do 2 eexists. split; [reflexivity|].
        repeat split; try discriminate; try lia; congruence.
      * do 2 eexists. split; [reflexivity|].
        repeat split; try discriminate; try lia; congruence.
Qed.

(** C10, amended. Whatever the before concurrency is, provided it gives a
    pool of at least one thread, [_execute_before_tasks] invokes the before
    function once as a pool submission, whose outcome is discarded, and
    then runs the retry executor on it (with at least one attempt
    configured), which invokes it once more per attempt: twice in all when
    the second invocation returns, and at most [max_retries + 2] times.
    Nothing but the result of the retry executor is appended to
    [_before_results]: the wrapped value of the second invocation when it
    returns, in which case the phase completes. *)
Theorem C10_before_function_invoked_by_pool_and_retry_executor f w :
  1 <= pool_size (lookup (before_concurrent cfg) 1)
                 (lookup (max_thread_pool_size cfg) 0) ->
  0 <= retry_max_retries cfg ->
  exists r w',
    _execute_before_tasks tick cfg f w = Done r w'
    /\ (before_calls w + 2 <= before_calls w'
         <= before_calls w + 2 + Z.to_nat (retry_max_retries cfg))%nat
    /\ (forall x, returns (f (S (before_calls w))) = Ok x ->
          r = Ok tt
          /\ before_calls w' = (before_calls w + 2)%nat
          /\ _before_results w' = _before_results w ++ [wrap_result x]
          /\ _before_tasks_completed w' = true)
    /\ (_before_results w' = _before_results w
        \/ exists v, _before_results w' = _before_results w ++ [v]
                     /\ (v = VNone \/ get_success v = Ok true)).
Proof.
  intros Hpool Hretry. unfold _execute_before_tasks, ThreadPoolExecutor.
  destruct (pool_size _ _ <=? 0) eqn:E; [lia|clear E].
  unfold mbind at 1, M_bind at 1, mret at 1, M_ret at 1.
  unfold mbind at 1, M_bind at 1, submit.
  destruct (call_before_frame f w) as (w0 & -> & Hc0 & Hr0 & Hb0).
  unfold mbind at 1, M_bind at 1. cbn [for_each].
  unfold mbind at 1, M_bind at 1.
  unfold mbind at 1, M_bind at 1, _execute_with_retry.
  set (w1 := set_consecutive_errors 0 (set_consecutive_error_count 0 w0)).
  set (n := Z.to_nat (retry_max_retries cfg + 1)).
  change ((modify (set_consecutive_error_count 0)
           ≫= λ _ : (), modify (set_consecutive_errors 0)
           ≫= λ _ : (), retry_attempts cfg (call_before tick f) n 0) w0)
    with (retry_attempts cfg (call_before tick f) n 0 w1).
  assert (Hn : (0 < n)%nat) by (subst n; lia).
  destruct (retry_attempts_before f n 0 w1) as (r1 & w2 & Hrun & Hcalls & Hres & Hdone & Hok).
  change (before_calls w1) with (before_calls w0) in Hcalls, Hok.
  change (_before_results w1) with (_before_results w0) in Hres.
  change (_before_tasks_completed w1) with (_before_tasks_completed w0) in Hdone.
  rewrite Hc0 in Hcalls, Hok.
  assert (Hmin : Nat.min 1 n = 1%nat) by lia. rewrite Hmin in Hcalls.
  assert (Hmax : (n <= S (Z.to_nat (retry_max_retries cfg)))%nat) by (subst n; lia).
  clearbody n.
  rewrite Hrun. destruct r1 as [v|e].
  - destruct (retry_attempts_result cfg _ _ _ _ _ _ Hrun) as [->|(Hv & _ & _)].
    + (* the executor returned None: [None.get] raises *)
      exists (Raise (no_get "NoneType")),
             (set_before_results (_before_results w2 ++ [VNone]) w2).
      split; [reflexivity|].
      change (before_calls (set_before_results (_before_results w2 ++ [VNone]) w2))
        with (before_calls w2).
      change (_before_results (set_before_results (_before_results w2 ++ [VNone]) w2))
        with (_before_results w2 ++ [VNone]).
      split; [lia|]. split.
      * intros x Hx. destruct (Hok x Hn Hx) as [Hv _].
        injection Hv as Hv. symmetry in Hv. now apply wrap_result_not_None in Hv.
      * right. exists VNone. split; [congruence|now left].
    + set (w3 := set_before_results (_before_results w2 ++ [v]) w2).
      exists (Ok tt), (set_before_tasks_completed true w3).
      split.
      { unfold mbind, M_bind, modify, lift. rewrite Hv. reflexivity. }
      change (before_calls (set_before_tasks_completed true w3)) with (before_calls w2).
      change (_before_results (set_before_tasks_completed true w3))
        with (_before_results w2 ++ [v]).
      change (_before_tasks_completed (set_before_tasks_completed true w3)) with true.
      split; [lia|]. split.
      * intros x Hx. destruct (Hok x Hn Hx) as [Hvx Hcx].
        injection Hvx as ->. repeat split; [lia|congruence].
      * right. exists v. split; [congruence|now right].
  - exists (Raise e), w2. split; [reflexivity|].
    split; [lia|]. split.
    + intros x Hx. destruct (Hok x Hn Hx) as [Hv _]. discriminate Hv.
    + left. congruence.
Qed.
End BeforeTasks.

(** C10, as stated, fails: a before function that raises a retryable
    error is invoked three times when one retry is configured (once by the
    pool, twice by the retry executor), and not at all when the before
    concurrency is 0, which [ThreadPoolExecutor] rejects. *)
Lemma C10_before_function_not_always_invoked_twice :
  before_calls
    (store_of (__init__ 0) (_execute_before_tasks 1000 one_retry_config refused (__init__ 0)))
  = 3%nat
  /\ before_calls
       (store_of (__init__ 0)
          (_execute_before_tasks 1000
             {| is_dict := true; test_type := None; duration := None;
                concurrent_users := None; stop_on_error := None;
                max_thread_pool_size := None; before_concurrent := Some 0;
                after_concurrent := None; max_retries := None; retry_delay := None;
                retryable_errors := None; error_threshold := None;
                error_rate_threshold := None; consecutive_error_threshold := None;
                error_type_thresholds := None; target_tps := None;
                target_qps := None; timeout := None; ramp_up_steps := None;
                ramp_up_time := None; stability_duration := None;
                stability_check_interval := None; stability_threshold := None |}
             always_succeeds (__init__ 0)))
     = 0%nat.
Proof. split; reflexivity. Qed.


Lemma C10_before_function_invoked_by_pool_and_retry_executor_witness :
  exists r w',
    _execute_before_tasks 1000 one_retry_config first_then_second (__init__ 0)
    = Done r w'
    /\ r = Ok tt
    /\ before_calls w' = 2%nat
    /\ _before_results w' = [success_with (VObject "second")]
    /\ _before_tasks_completed w' = true.
Proof.
  destruct (C10_before_function_invoked_by_pool_and_retry_executor
              1000 one_retry_config first_then_second (__init__ 0))
    as (r & w' & Hrun & _ & H & _).
  - vm_compute. discriminate.
  - vm_compute. discriminate.
  - exists r, w'. split; [exact Hrun|]. exact (H (VObject "second") eq_refl).
Defined.

(** *** Computations that end and leave the after phase alone *)

Lemma steady_refl w : steady w w.
Proof. repeat split. apply Qle_refl. Qed.

Lemma steady_trans w1 w2 w3 : steady w1 w2 -> steady w2 w3 -> steady w1 w3.
Proof.
  intros (A1 & B1 & C1) (A2 & B2 & C2). repeat split; try congruence.
  eapply Qle_trans; eauto.
Qed.

Lemma safe_ret {A} (a : A) : safe (mret a).
Proof. intros w. do 2 eexists. split; [reflexivity|apply steady_refl]. Qed.

Lemma safe_raise {A} e : safe (@raise A e).
Proof. intros w. do 2 eexists. split; [reflexivity|apply steady_refl]. Qed.

Lemma safe_lift {A} (r : Res A) : safe (lift r).
Proof. intros w. do 2 eexists. split; [reflexivity|apply steady_refl]. Qed.

Lemma safe_gets {A} (f : World -> A) : safe (gets f).
Proof. intros w. do 2 eexists. split; [reflexivity|apply steady_refl]. Qed.

Lemma safe_modify (f : World -> World) : (forall w, steady w (f w)) -> safe (modify f).
Proof. intros H w. do 2 eexists. split; [reflexivity|apply H]. Qed.

Lemma safe_bind {A B} (m : M A) (k : A -> M B) :
  safe m -> (forall a, safe (k a)) -> safe (m ≫= k).
Proof.
  intros Hm Hk w. destruct (Hm w) as (r & w1 & E & S1).
  unfold mbind, M_bind. rewrite E. destruct r as [a|e].
  - destruct (Hk a w1) as (r2 & w2 & E2 & S2). rewrite E2.
    do 2 eexists. split; [reflexivity|]. eapply steady_trans; eauto.
  - do 2 eexists. split; [reflexivity|exact S1].
Qed.

Lemma safe_try_except {A} (m : M A) (h : PyExc -> M A) :
  safe m -> (forall e, safe (h e)) -> safe (try_except m h).
Proof.
  intros Hm Hh w. destruct (Hm w) as (r & w1 & E & S1).
  unfold try_except. rewrite E. destruct r as [a|e].
  - do 2 eexists. split; [reflexivity|exact S1].
  - destruct (Hh e w1) as (r2 & w2 & E2 & S2). rewrite E2.
    do 2 eexists. split; [reflexivity|]. eapply steady_trans; eauto.
Qed.

Lemma safe_for_each {A R} (l : list A) (body : A -> M (Flow R)) :
  (forall x, safe (body x)) -> safe (for_each l body).
Proof.
  intros Hb. induction l as [|x l IH]; cbn [for_each]; [apply safe_ret|].
  apply safe_bind; [apply Hb|]. intros [| |r]; [exact IH|apply safe_ret..].
Qed.

Lemma safe_submit (m : M PyVal) : safe m -> safe (submit m).
Proof.
  intros Hm w. destruct (Hm w) as (r & w1 & E & S1). unfold submit. rewrite E.
  do 2 eexists. split; [reflexivity|exact S1].
Qed.

Section Loops.
Variable tick : positive.

Lemma readings_left_step deadline w w' :
  (now w + tick_len tick <= now w')%Q ->
  (readings_left tick deadline w' <= readings_left tick deadline w - 1)%Q.
Proof.
  unfold readings_left, tick_len. intros H.
  assert (HT : (0 < inject_Z (Z.pos tick))%Q) by reflexivity.
  assert (H1 : ((1 # tick) * inject_Z (Z.pos tick) == 1)%Q).
  { unfold Qeq. simpl. lia. }
  set (T := inject_Z (Z.pos tick)) in *. set (t := (1 # tick)) in *.
  nra.
Qed.

Lemma readings_left_mono deadline w w' :
  steady w w' -> (readings_left tick deadline w' <= readings_left tick deadline w)%Q.
Proof.
  intros (_ & _ & H). unfold readings_left.
  assert (HT : (0 < inject_Z (Z.pos tick))%Q) by reflexivity.
  set (T := inject_Z (Z.pos tick)) in *. nra.
Qed.

Lemma readings_left_pos deadline w :
  (now w < deadline)%Q -> (0 < readings_left tick deadline w)%Q.
Proof.
  intros H. unfold readings_left.
  assert (HT : (0 < inject_Z (Z.pos tick))%Q) by reflexivity.
  set (T := inject_Z (Z.pos tick)) in *. nra.
Qed.

Lemma safe_while_fuel {R} deadline (cond : M bool) (body : M (Flow R)) :
  guards tick deadline cond -> safe body ->
  forall fuel w,
    (1 <= fuel)%nat ->
    (readings_left tick deadline w <= inject_Z (Z.of_nat fuel) - 1)%Q ->
    exists r w', while_fuel fuel cond body w = Done r w' /\ steady w w'.
Proof.
  intros Hc Hb. induction fuel as [|fuel IH]; intros w Hf Hl; [lia|].
  cbn [while_fuel]. unfold mbind at 1, M_bind at 1.
  destruct (Hc w) as (b & w1 & -> & S1 & Ht & Hlt). destruct b.
  - unfold mbind at 1, M_bind at 1.
    destruct (Hb w1) as (r & w2 & -> & S2).
    assert (S12 : steady w w2) by (eapply steady_trans; eauto).
    destruct r as [[| |r]|e]; try (do 2 eexists; split; [reflexivity|exact S12]).
    pose proof (readings_left_pos deadline w (Hlt eq_refl)) as Hpos.
    pose proof (readings_left_step deadline w w1 Ht) as Hstep.
    pose proof (readings_left_mono deadline w1 w2 S2) as Hmono.
    assert (Hfuel : (1 <= fuel)%nat).
    { destruct fuel as [|fuel]; [|lia]. exfalso.
      change (inject_Z (Z.of_nat 1) - 1)%Q with (1 - 1)%Q in Hl. lra. }
    destruct (IH w2 Hfuel) as (r & w3 & E & S3).
    + rewrite Nat2Z.inj_succ, <- Z.add_1_r, inject_Z_plus in Hl.
      change (inject_Z 1) with 1%Q in Hl. lra.
    + rewrite E. do 2 eexists. split; [reflexivity|]. eapply steady_trans; eauto.
  - do 2 eexists. split; [reflexivity|exact S1].
Qed.

Lemma safe_while_until {R} deadline (cond : M bool) (body : M (Flow R)) :
  guards tick deadline cond -> safe body -> safe (while_until tick deadline cond body).
Proof.
  intros Hc Hb w. unfold while_until, fuel_until.
  apply (safe_while_fuel deadline cond body Hc Hb); [lia|].
  fold (readings_left tick deadline w). set (x := readings_left tick deadline w).
  rewrite Nat2Z.inj_succ, <- Z.add_1_r, inject_Z_plus.
  change (inject_Z 1) with 1%Q.
  assert (H1 : (x <= inject_Z (Qceiling x))%Q) by apply Qle_ceiling.
  assert (H2 : (inject_Z (Qceiling x) <= inject_Z (Z.of_nat (Z.to_nat (Qceiling x))))%Q).
  { rewrite <- Zle_Qle. lia. }
  lra.
Qed.
End Loops.

Create HintDb safe discriminated.

Ltac steady_now :=
  intros; repeat split; try reflexivity; try apply Qle_refl.

Ltac safe_step :=
  lazymatch goal with
  | |- safe (mbind _ _) => apply safe_bind; [|intros ?]
  | |- safe (mret _) => apply safe_ret
  | |- safe (raise _) => apply safe_raise
  | |- safe (lift _) => apply safe_lift
  | |- safe (gets _) => apply safe_gets
  | |- safe (modify _) => apply safe_modify; steady_now
  | |- safe (try_except _ _) => apply safe_try_except; [|intros ?]
  | |- safe (for_each _ _) => apply safe_for_each; intros ?
  | |- safe (submit _) => apply safe_submit
  | |- safe (while_until _ _ _ _) => apply safe_while_until
  | |- safe (if ?b then _ else _) => destruct b
  | |- safe (match ?x with _ => _ end) => destruct x
  | |- _ => solve [auto with safe]
  end.

Ltac safe_tac := cbv zeta; repeat (safe_step; cbv beta zeta).

Section SafeParts.
Variable tick : positive.
Variable cfg : TestConfig.

Lemma tick_len_nonneg : (0 <= tick_len tick)%Q.
Proof. discriminate. Qed.

Lemma safe_time_time : safe (time_time tick).
Proof.
  intros w. do 2 eexists. split; [reflexivity|]. repeat split.
  change (now w <= now w + tick_len tick)%Q. pose proof tick_len_nonneg. lra.
Qed.

Lemma safe_time_sleep d : safe (time_sleep d).
Proof.
  unfold time_sleep. destruct (Qltb d 0) eqn:E; [apply safe_raise|].
  apply safe_modify. intros w. repeat split.
  change (now w <= now w + d)%Q.
  unfold Qltb in E. apply negb_false_iff, Qle_bool_iff in E. lra.
Qed.

Lemma safe_stop : safe stop.
Proof. unfold stop. safe_tac. Qed.

Lemma steady_apply_effect eff w : steady w (apply_effect tick eff w).
Proof.
  assert (H : (now w <= now w + inject_Z (Z.of_N (takes eff)) * tick_len tick)%Q).
  { assert (0 <= inject_Z (Z.of_N (takes eff)))%Q.
    { change 0%Q with (inject_Z 0). rewrite <- Zle_Qle. lia. }
    pose proof tick_len_nonneg. nra. }
  unfold apply_effect. destruct (calls_stop eff); repeat split; exact H.
Qed.

Lemma safe_call_before f : safe (call_before tick f).
Proof.
  intros w. do 2 eexists. split; [reflexivity|].
  eapply steady_trans; [|apply steady_apply_effect]. steady_now.
Qed.

Lemma safe_call_task f : safe (call_task tick f).
Proof.
  intros w. do 2 eexists. split; [reflexivity|].
  eapply steady_trans; [|apply steady_apply_effect]. steady_now.
Qed.

Lemma safe_run_callback cb v : safe (run_callback tick cb v).
Proof.
  destruct cb as [cb|]; [|apply safe_ret].
  intros w. do 2 eexists. split; [reflexivity|].
  eapply steady_trans; [|apply steady_apply_effect]. steady_now.
Qed.

Lemma safe_attr {T} name (field : option T) : safe (attr cfg name field).
Proof. unfold attr. safe_tac. Qed.

Lemma safe_unbound_name {A} name : safe (@unbound_name A name).
Proof. apply safe_raise. Qed.

Lemma safe_ThreadPoolExecutor n : safe (ThreadPoolExecutor n).
Proof. unfold ThreadPoolExecutor. safe_tac. Qed.

Lemma safe_future_result fut : safe (future_result fut).
Proof. apply safe_lift. Qed.

Lemma safe_future_result_timeout fut t : safe (future_result_timeout fut t).
Proof. unfold future_result_timeout. safe_tac. Qed.

Lemma safe__record_error ty msg : safe (_record_error ty msg).
Proof. unfold _record_error. safe_tac. Qed.

Lemma safe__check_error_threshold : safe (_check_error_threshold cfg).
Proof. unfold _check_error_threshold. safe_tac. Qed.
End SafeParts.

#[export] Hint Resolve safe_time_time safe_time_sleep safe_stop safe_call_before
  safe_call_task safe_run_callback safe_attr safe_unbound_name
  safe_ThreadPoolExecutor safe_future_result safe_future_result_timeout
  safe__record_error safe__check_error_threshold : safe.

Section SafeLoads.
Variable tick : positive.
Variable cfg : TestConfig.

Lemma safe_must_stop b : safe (must_stop cfg b).
Proof. unfold must_stop. safe_tac. Qed.

Lemma safe_reset_errors : safe reset_errors.
Proof. unfold reset_errors. safe_tac. Qed.

Lemma safe_count_completed : safe count_completed.
Proof. unfold count_completed. safe_tac. Qed.

Lemma safe_rate a b : safe (rate a b).
Proof. unfold rate. safe_tac. Qed.

Lemma safe_pace a b : safe (pace tick a b).
Proof. unfold pace. safe_tac. Qed.

Lemma safe__check_stability_threshold r : safe (_check_stability_threshold cfg r).
Proof. unfold _check_stability_threshold. safe_tac. Qed.

Lemma safe_retry_handler attempt e : safe (retry_handler cfg attempt e).
Proof. unfold retry_handler. safe_tac. Qed.

Lemma safe_retry_attempts (m : M PyVal) n attempt :
  safe m -> safe (retry_attempts cfg m n attempt).
Proof.
  intros Hm. revert attempt. induction n as [|n IH]; intros attempt;
    cbn [retry_attempts]; [apply safe_ret|].
  apply safe_bind.
  - apply safe_try_except; [|intros e; apply safe_retry_handler]. safe_tac.
  - intros [| |r]; [apply IH|apply safe_ret..].
Qed.

Lemma safe__execute_with_retry (m : M PyVal) :
  safe m -> safe (_execute_with_retry cfg m).
Proof.
  intros Hm. unfold _execute_with_retry.
  apply safe_bind; [safe_tac|intros _].
  apply safe_bind; [safe_tac|intros _].
  now apply safe_retry_attempts.
Qed.

Lemma guards_before_deadline end_time :
  guards tick end_time (before_deadline tick end_time).
Proof.
  intros w. unfold before_deadline, mbind, M_bind, time_time.
  destruct (Qltb (now w) end_time) eqn:E.
  - do 2 eexists. split; [reflexivity|]. split; [|split].
    + repeat split. change (now w <= now w + tick_len tick)%Q.
      pose proof (tick_len_nonneg tick). lra.
    + apply Qle_refl.
    + intros _. unfold Qltb in E. apply negb_true_iff in E.
      destruct (Qlt_le_dec (now w) end_time) as [H|H]; [exact H|].
      apply Qle_bool_iff in H. congruence.
  - do 2 eexists. split; [reflexivity|]. split; [|split].
    + repeat split. change (now w <= now w + tick_len tick)%Q.
      pose proof (tick_len_nonneg tick). lra.
    + apply Qle_refl.
    + discriminate.
Qed.

Lemma guards_wait wait_start step_time :
  guards tick (wait_start + step_time)%Q
    (t ← time_time tick;
     if Qltb (t - wait_start) step_time
     then stopped ← gets _stop_event; mret (negb stopped)
     else mret false).
Proof.
  intros w. unfold mbind, M_bind, time_time.
  destruct (Qltb (now w - wait_start) step_time) eqn:E.
  - do 2 eexists. split; [reflexivity|]. split; [|split].
    + repeat split. change (now w <= now w + tick_len tick)%Q.
      pose proof (tick_len_nonneg tick). lra.
    + apply Qle_refl.
    + intros _. unfold Qltb in E. apply negb_true_iff in E.
      destruct (Qlt_le_dec (now w) (wait_start + step_time)) as [H|H]; [exact H|].
      assert (H' : (step_time <= now w - wait_start)%Q) by lra.
      apply Qle_bool_iff in H'. congruence.
  - do 2 eexists. split; [reflexivity|]. split; [|split].
    + repeat split. change (now w <= now w + tick_len tick)%Q.
      pose proof (tick_len_nonneg tick). lra.
    + apply Qle_refl.
    + discriminate.
Qed.
End SafeLoads.

#[export] Hint Resolve safe_must_stop safe_reset_errors safe_count_completed
  safe_rate safe_pace safe__check_stability_threshold safe_retry_handler
  safe__execute_with_retry guards_before_deadline guards_wait : safe.

Section SafePhases.
Variable tick : positive.
Variable cfg : TestConfig.

Lemma safe__generate_concurrent_load task cb :
  safe (_generate_concurrent_load tick cfg task cb).
Proof. unfold _generate_concurrent_load. safe_tac. Qed.

Lemma safe__generate_tps_load task cb : safe (_generate_tps_load tick cfg task cb).
Proof. unfold _generate_tps_load. safe_tac. Qed.

Lemma safe__generate_qps_load task cb : safe (_generate_qps_load tick cfg task cb).
Proof. unfold _generate_qps_load. safe_tac. Qed.

Lemma safe__generate_ramp_up_load task cb :
  safe (_generate_ramp_up_load tick cfg task cb).
Proof. unfold _generate_ramp_up_load. safe_tac. Qed.

Lemma safe__generate_stability_load task cb :
  safe (_generate_stability_load tick cfg task cb).
Proof. unfold _generate_stability_load. safe_tac. Qed.

Lemma safe__execute_before_tasks f : safe (_execute_before_tasks tick cfg f).
Proof. unfold _execute_before_tasks. safe_tac. Qed.
End SafePhases.

#[export] Hint Resolve safe__generate_concurrent_load safe__generate_tps_load
  safe__generate_qps_load safe__generate_ramp_up_load
  safe__generate_stability_load safe__execute_before_tasks : safe.

(** *** The run: before, load, after *)

Section Run.
Variable tick : positive.
Variable cfg : TestConfig.

Lemma safe_run_test_type task cb : safe (run_test_type tick cfg task cb).
Proof. unfold run_test_type. safe_tac. Qed.

(** The after phase, with a pool of at least one thread: the after function
    is invoked once, whatever it does, and the phase completes. *)
Lemma _execute_after_tasks_runs f w :
  1 <= pool_size (lookup (after_concurrent cfg) 1)
                 (lookup (max_thread_pool_size cfg) 0) ->
  exists w',
    _execute_after_tasks tick cfg f w = Done (Ok tt) w'
    /\ _after_tasks_completed w' = true
    /\ after_calls w' = S (after_calls w).
Proof.
  intros Hpool. unfold _execute_after_tasks, ThreadPoolExecutor.
  destruct (pool_size _ _ <=? 0) eqn:E; [lia|clear E].
  unfold mbind, M_bind, mret, M_ret, submit, call_after, try_except, future_result,
    lift, modify. cbn [for_each fut_outcome].
  unfold mbind, M_bind, mret, M_ret, try_except, lift, modify.
  destruct (returns (f (after_calls w))) as [v|e]; cbn;
    (eexists; split; [reflexivity|]);
    unfold apply_effect; destruct (calls_stop _); split; reflexivity.
Qed.

(** The stop event as the [try] block reads it after the before phase. *)
Lemma before_phase_stopped (before : option UserFn) w w1 :
  match before with
  | Some before_func => _execute_before_tasks tick cfg before_func;; gets _stop_event
  | None => mret false
  end w = Done (Ok true) w1 ->
  _stop_event w1 = true.
Proof.
  destruct before as [b|]; [|discriminate].
  intros H. apply bind_inv in H as [(a & w2 & _ & H)|(e & _ & H)]; [|discriminate].
  unfold gets in H. injection H as H1 H2. now subst.
Qed.

(** How the [try] block of [generate_load] ends. *)
Lemma generate_load_try_ends task cb before f w :
  1 <= pool_size (lookup (after_concurrent cfg) 1)
                 (lookup (max_thread_pool_size cfg) 0) ->
  exists r w',
    generate_load_try tick cfg task cb before (Some f) w = Done r w'
    /\ ((_after_tasks_completed w' = true /\ after_calls w' = S (after_calls w))
        \/ (_after_tasks_completed w' = _after_tasks_completed w
            /\ after_calls w' = after_calls w
            /\ ((r = Ok Stopped /\ _stop_event w' = true) \/ exists e, r = Raise e))).
Proof.
  intros Hpool. unfold generate_load_try.
  set (m1 := match before with
             | Some before_func =>
                 _execute_before_tasks tick cfg before_func;; gets _stop_event
             | None => mret false
             end).
  assert (Hm1 : safe m1) by (subst m1; safe_tac).
  destruct (Hm1 w) as (r1 & w1 & E1 & (A1 & B1 & _)).
  unfold mbind at 1, M_bind at 1. rewrite E1. destruct r1 as [stopped|e].
  - destruct stopped.
    + exists (Ok Stopped), w1. split; [reflexivity|]. right.
      repeat split; try assumption. left. split; [reflexivity|].
      exact (before_phase_stopped before w w1 E1).
    + destruct (safe_run_test_type task cb w1) as (r2 & w2 & E2 & (A2 & B2 & _)).
      unfold mbind at 1, M_bind at 1. rewrite E2. destruct r2 as [test_result|e].
      * destruct (_execute_after_tasks_runs f w2 Hpool) as (w3 & E3 & A3 & B3).
        unfold mbind at 1, M_bind at 1. rewrite E3.
        do 2 eexists. split; [reflexivity|]. left. split; [exact A3|]. congruence.
      * exists (Raise e), w2. split; [reflexivity|]. right.
        repeat split; try congruence. right. now exists e.
  - exists (Raise e), w1. split; [reflexivity|]. right.
    repeat split; try assumption. right. now exists e.
Qed.

(** The [finally] block of [generate_load]. *)
Lemma generate_load_finally_cases f w :
  generate_load_finally tick cfg (Some f) w =
  if negb (_after_tasks_completed w) && negb (_stop_event w)
  then match _execute_after_tasks tick cfg f w with
       | Done _ w' => Done (Ok tt) (set_running false w')
       | OutOfFuel => OutOfFuel
       end
  else Done (Ok tt) (set_running false w).
Proof.
  unfold generate_load_finally, mbind, M_bind, gets, modify, try_except, mret, M_ret.
  destruct (negb _ && negb _); [|reflexivity].
  destruct (_execute_after_tasks tick cfg f w) as [[[]|e] w'|]; reflexivity.
Qed.

(** C3, amended. With an after function supplied (and an after concurrency
    that gives a pool of at least one thread) [generate_load] ends, and when
    it does the after function has been invoked exactly once and the after
    phase is complete, on every path but these: the stop event is set and
    the run returns [{'status': 'stopped'}] after the before phase, or the
    stop event is set and an exception escapes the [try] block.  On those
    the [finally] block skips the after phase and the after function is not
    invoked.  In particular the after phase runs when the load phase was
    stopped through the stop event and returned. *)
Theorem C3_after_phase_runs_unless_stopped task cb before after_func w :
  1 <= pool_size (lookup (after_concurrent cfg) 1)
                 (lookup (max_thread_pool_size cfg) 0) ->
  exists r w',
    generate_load tick cfg task cb before (Some after_func) w = Done r w'
    /\ ((_after_tasks_completed w' = true /\ after_calls w' = S (after_calls w))
        \/ (after_calls w' = after_calls w
            /\ _stop_event w' = true
            /\ (r = Ok Stopped \/ exists e, r = Raise e))).
Proof.
  intros Hpool. unfold generate_load.
  unfold mbind at 1, M_bind at 1, modify, try_finally.
  destruct (generate_load_try_ends task cb before after_func (start_run w) Hpool)
    as (r & wb & -> & J).
  change (after_calls (start_run w)) with (after_calls w) in J.
  change (_after_tasks_completed (start_run w)) with false in J.
  cbv beta iota. rewrite generate_load_finally_cases.
  destruct J as [[A B]|(A & B & C)].
  - rewrite A. cbn [negb andb].
    exists r, (set_running false wb). split; [reflexivity|]. left. now split.
  - rewrite A. cbn [negb andb]. destruct (_stop_event wb) eqn:S; cbn [negb].
    + exists r, (set_running false wb). split; [reflexivity|]. right.
      repeat split; try assumption. destruct C as [[-> _]|C]; [now left|now right].
    + destruct (_execute_after_tasks_runs after_func wb Hpool) as (w3 & -> & A3 & B3).
      exists r, (set_running false w3). split; [reflexivity|]. left.
      split; [exact A3|]. change (after_calls (set_running false w3)) with (after_calls w3).
      congruence.
Qed.
End Run.

Section RampUp.
Variable tick : positive.
Variable cfg : TestConfig.

(** Every ramp-up run that has a step with users ends in the [NameError],
    before any task is submitted. *)
Lemma _generate_ramp_up_load_raises task cb w users steps ramp_time :
  is_dict cfg = false ->
  concurrent_users cfg = Some users ->
  ramp_up_steps cfg = Some steps ->
  ramp_up_time cfg = Some ramp_time ->
  1 <= steps <= users ->
  _stop_event w = false ->
  exists w',
    _generate_ramp_up_load tick cfg task cb w
    = Done (Raise (NameError "max_thread_pool_size")) w'
    /\ task_calls w' = task_calls w.
Proof.
  intros Hobj Hu Hs Ht Hsteps Hstop.
  unfold _generate_ramp_up_load, attr. rewrite Hobj, Hu, Hs, Ht.
  assert (Hrange : range (steps + 1) = 0 :: 1 :: seqZ 2 (steps - 1)).
  { unfold range. rewrite seqZ_cons by lia. rewrite seqZ_cons by lia.
    do 3 f_equal. lia. }
  assert (Hpos : (0 <? steps) = true) by lia.
  assert (H0 : (Z.min (0 * (users `div` steps)) users <=? 0) = true) by lia.
  assert (H1 : (Z.min (1 * (users `div` steps)) users <=? 0) = false).
  { assert (1 <= users `div` steps) by (apply Z.div_le_lower_bound; lia). lia. }
  cbv beta iota delta [mbind M_bind mret M_ret modify gets reset_errors unbound_name
    raise time_time].
  rewrite Hrange, Hpos.
  cbn [for_each].
  cbv beta iota delta [mbind M_bind mret M_ret modify gets reset_errors unbound_name
    raise time_time].
  set (w0 := set_error_statistics _ _).
  change (_stop_event w0) with (_stop_event w). rewrite Hstop, H0.
  cbv beta iota.
  change (_stop_event w0) with (_stop_event w). rewrite Hstop, H1.
  eexists. split; reflexivity.
Qed.
End RampUp.

(** C3, as stated, fails: when the stop event is set during the before
    phase, [generate_load] returns [{'status': 'stopped', ...}] and the
    after function has not been invoked. *)
Lemma C3_after_phase_skipped_when_before_stops :
  result_of (generate_load 1000 concurrent_config always_succeeds None
               (Some cancelling) (Some always_succeeds) (__init__ 0))
  = Some (Ok Stopped)
  /\ after_calls
       (store_of (__init__ 0)
          (generate_load 1000 concurrent_config always_succeeds None
             (Some cancelling) (Some always_succeeds) (__init__ 0)))
     = 0%nat
  /\ _after_tasks_completed
       (store_of (__init__ 0)
          (generate_load 1000 concurrent_config always_succeeds None
             (Some cancelling) (Some always_succeeds) (__init__ 0)))
     = false.
Proof. repeat split; vm_compute; reflexivity. Qed.

(** A run whose load phase is stopped through the stop event by its first
    task: the run returns and the after function has been invoked. *)
Lemma C3_after_phase_runs_unless_stopped_witness :
  exists r w',
    generate_load 1000 concurrent_config cancelling None None (Some always_succeeds)
      (__init__ 0) = Done r w'
    /\ ((_after_tasks_completed w' = true /\ after_calls w' = 1%nat)
        \/ (after_calls w' = 0%nat
            /\ _stop_event w' = true
            /\ (r = Ok Stopped \/ exists e, r = Raise e))).
Proof.
  apply (C3_after_phase_runs_unless_stopped 1000 concurrent_config cancelling None None
           always_succeeds (__init__ 0)).
  vm_compute. discriminate.
Defined.

(** *** Exceptions that escape [generate_load] *)

(** C1: what the code does where the claim fails.  A ramp-up run of at
    least one step and at least as many users as steps, without before and
    after functions, does not return a result, whatever the task does: the
    name [max_thread_pool_size], which [_generate_ramp_up_load] reads
    without ever binding it, raises [NameError] in the first step that has
    users, before any task is submitted, and the exception leaves
    [generate_load]. *)
Theorem C1_ramp_up_run_raises_NameError tick cfg task cb w users steps ramp_time :
  is_dict cfg = false ->
  test_type cfg = Some "ramp_up" ->
  concurrent_users cfg = Some users ->
  ramp_up_steps cfg = Some steps ->
  ramp_up_time cfg = Some ramp_time ->
  1 <= steps <= users ->
  exists w',
    generate_load tick cfg task cb None None w
    = Done (Raise (NameError "max_thread_pool_size")) w'
    /\ task_calls w' = task_calls w.
Proof.
  intros Hobj Htype Hu Hs Ht Hsteps.
  destruct (_generate_ramp_up_load_raises tick cfg task cb (start_run w)
              users steps ramp_time) as (w1 & Hrun & Hcalls); auto.
  exists (set_running false w1). split; [|exact Hcalls].
  assert (Hdispatch : run_test_type tick cfg task cb
                      = _generate_ramp_up_load tick cfg task cb).
  { unfold run_test_type, lookup. rewrite Htype. reflexivity. }
  unfold generate_load, generate_load_try, generate_load_finally, try_finally.
  rewrite Hdispatch.
  cbv beta iota delta [mbind M_bind mret M_ret modify gets].
  rewrite Hrun. reflexivity.
Qed.

(** The run of the unit tests' shape: ten users in five steps. *)
Lemma C1_ramp_up_run_raises_NameError_witness :
  exists w',
    generate_load 1000 ramp_up_config always_succeeds None None None (__init__ 0)
    = Done (Raise (NameError "max_thread_pool_size")) w'
    /\ task_calls w' = task_calls (__init__ 0).
Proof.
  apply (C1_ramp_up_run_raises_NameError 1000 ramp_up_config always_succeeds None
           (__init__ 0) 10 5 5%Q); try reflexivity.
  lia.
Defined.


End Load_facts.

(** * Further properties *)

(** ** The metrics collector: what its views return *)

Module Metrics_extras.
Import Metrics_collector Metrics_statements Metrics_properties Metrics_facts.

(** *** Sums *)

Lemma py_sumZ_acc l a : fold_left Z.add l a = a + py_sumZ l.
Proof.
  unfold py_sumZ. revert a. induction l as [|x l IH]; intros a; simpl; [lia|].
  rewrite (IH (a + x)), (IH (0 + x)). lia.
Qed.

Lemma py_sumZ_cons x l : py_sumZ (x :: l) = x + py_sumZ l.
Proof. unfold py_sumZ at 1. simpl. apply py_sumZ_acc. Qed.

Lemma py_sumZ_app l1 l2 : py_sumZ (l1 ++ l2) = py_sumZ l1 + py_sumZ l2.
Proof.
  induction l1 as [|x l1 IH]; simpl; [reflexivity|].
  rewrite !py_sumZ_cons, IH. lia.
Qed.

Lemma py_sumZ_perm l1 l2 : Permutation l1 l2 -> py_sumZ l1 = py_sumZ l2.
Proof.
  induction 1; rewrite ?py_sumZ_cons; lia.
Qed.

Lemma sum_values_empty `{Countable K} : sum_values (∅ : gmap K Z) = 0.
Proof. unfold sum_values, dict_values. now rewrite map_to_list_empty. Qed.

Lemma sum_values_insert_new `{Countable K} (k : K) v (d : gmap K Z) :
  d !! k = None -> sum_values (<[k := v]> d) = v + sum_values d.
Proof.
  intros Hk. unfold sum_values, dict_values.
  rewrite (py_sumZ_perm _ ((k, v) :: map_to_list d).*2).
  - simpl. apply py_sumZ_cons.
  - apply fmap_Permutation, map_to_list_insert, Hk.
Qed.

Lemma sum_values_insert `{Countable K} (k : K) v (d : gmap K Z) :
  sum_values (<[k := v]> d) = v + sum_values d - default 0 (d !! k).
Proof.
  destruct (d !! k) as [v0|] eqn:E; simpl.
  - rewrite <- (insert_delete_eq d).
    rewrite sum_values_insert_new by apply lookup_delete_eq.
    rewrite <- (insert_delete_id d k v0 E) at 2.
    rewrite sum_values_insert_new by apply lookup_delete_eq. lia.
  - rewrite sum_values_insert_new by exact E. lia.
Qed.

Lemma sum_values_incr `{Countable K} (k : K) (d : gmap K Z) :
  sum_values (incr k d) = sum_values d + 1.
Proof. unfold incr. rewrite sum_values_insert. lia. Qed.

Lemma py_sorted_length {A} (leb : A -> A -> bool) l :
  length (py_sorted leb l) = length l.
Proof. apply Permutation_length, py_sorted_perm. Qed.

Lemma len_app_one {A} (l : list A) x : len (l ++ [x]) = len l + 1.
Proof. unfold len. rewrite length_app. simpl. lia. Qed.

Lemma len_py_sorted {A} (leb : A -> A -> bool) l : len (py_sorted leb l) = len l.
Proof. unfold len. now rewrite py_sorted_length. Qed.

(** *** What every call keeps *)

Section Invariants.
Variable pow_half : Q -> Q.

Lemma calls_keep (I : MetricsCollector -> Prop) :
  (forall c self, I self -> I (call pow_half c self)) ->
  forall cs self, I self -> I (calls pow_half cs self).
Proof.
  intros Hc cs. induction cs as [|c cs IH]; intros self H; simpl; [exact H|].
  apply IH, Hc, H.
Qed.

Lemma call_summary_state self :
  call pow_half CallGetSummaryMetrics self = sort_response_times self.
Proof. simpl. apply get_summary_metrics_state. Qed.

Lemma call_transactions_state self :
  call pow_half CallGetTransactionMetrics self = sort_transactions self.
Proof. reflexivity. Qed.

Lemma record_connection_ok rq cm n :
  0 <= failed_connections cm ->
  failed_connections cm <= total_connections cm ->
  total_connections cm <= n ->
  0 <= failed_connections (record_connection rq cm)
  /\ failed_connections (record_connection rq cm)
     <= total_connections (record_connection rq cm)
  /\ total_connections (record_connection rq cm) <= n + 1.
Proof.
  intros H1 H2 H3. unfold record_connection.
  destruct (dict_truthy (connection_info rq)); [|lia].
  destruct (if success rq then None else _); simpl; lia.
Qed.

Lemma counts_ok_call c self : counts_ok self -> counts_ok (call pow_half c self).
Proof.
  intros H. destruct c as [rq|n|config|now|now| |];
    try rewrite call_summary_state; try rewrite call_transactions_state.
  - destruct H as (H1 & H2 & H3 & H4 & H5 & H6 & H7 & H8).
    destruct (record_connection_ok rq (connection_metrics (_metrics self))
                (total_requests (_metrics self)) H6 H7 H8) as (C1 & C2 & C3).
    unfold counts_ok. simpl.
    rewrite !len_app_one.
    destruct (success rq); rewrite ?len_app_one; repeat split; lia.
  - exact H.
  - exact H.
  - exact H.
  - unfold counts_ok. simpl. unfold len. simpl. lia.
  - unfold counts_ok in *. simpl. rewrite len_py_sorted. exact H.
  - exact H.
Qed.

Lemma ts_update_existing_None timestamp success rt series :
  ts_update_existing timestamp success rt series = None
  <-> ~ In timestamp (map ts_timestamp series).
Proof.
  induction series as [|r rest IH]; simpl; [tauto|].
  destruct (ts_update_existing timestamp success rt rest) as [rest'|].
  - split; [discriminate|]. intros Hn. exfalso. apply Hn. right.
    destruct (in_dec Z.eq_dec timestamp (map ts_timestamp rest)) as [Hi|Hi];
      [exact Hi|]. apply IH in Hi. discriminate.
  - destruct (ts_timestamp r =? timestamp) eqn:E.
    + split; [discriminate|]. intros Hn. exfalso. apply Hn. left. lia.
    + split; [|reflexivity]. intros _ [Hr|Hr]; [lia|].
      apply (proj1 IH eq_refl), Hr.
Qed.

Lemma ts_bump_ok success rt r : ts_ok r -> ts_ok (ts_bump success rt r).
Proof.
  intros (H1 & H2 & H3 & H4). unfold ts_ok, ts_bump. simpl.
  destruct success; rewrite ?len_app_one; lia.
Qed.

Lemma ts_update_existing_Some timestamp success rt series series' :
  ts_update_existing timestamp success rt series = Some series' ->
  map ts_timestamp series' = map ts_timestamp series
  /\ (Forall ts_ok series -> Forall ts_ok series')
  /\ py_sumZ (map ts_total_requests series')
     = py_sumZ (map ts_total_requests series) + 1.
Proof.
  revert series'. induction series as [|r rest IH]; simpl; intros series' H;
    [discriminate|].
  destruct (ts_update_existing timestamp success rt rest) as [rest'|].
  - injection H as <-. destruct (IH rest' eq_refl) as (I1 & I2 & I3).
    simpl. rewrite I1, !py_sumZ_cons, I3. repeat split; [|lia].
    intros Hf. inversion Hf; subst. constructor; auto.
  - destruct (ts_timestamp r =? timestamp); [|discriminate].
    injection H as <-. simpl. rewrite !py_sumZ_cons. repeat split; [|lia].
    intros Hf. inversion Hf; subst. constructor; [now apply ts_bump_ok|assumption].
Qed.

Lemma _record_time_series_data_ok timestamp success rt series n :
  NoDup (map ts_timestamp series) ->
  Forall ts_ok series ->
  py_sumZ (map ts_total_requests series) = n ->
  let series' := _record_time_series_data timestamp success rt series in
  NoDup (map ts_timestamp series')
  /\ Forall ts_ok series'
  /\ py_sumZ (map ts_total_requests series') = n + 1.
Proof.
  intros Hd Hf Hs. unfold _record_time_series_data.
  destruct (ts_update_existing timestamp success rt series) as [series'|] eqn:E.
  - destruct (ts_update_existing_Some _ _ _ _ _ E) as (I1 & I2 & I3).
    cbv zeta. rewrite I1, I3. repeat split; [assumption|auto|lia].
  - apply ts_update_existing_None in E. cbv zeta.
    rewrite !List.map_app, py_sumZ_app. simpl. repeat split.
    + apply NoDup_app. split; [exact Hd|]. split; [|apply NoDup_singleton].
      intros x Hx Hx'. apply list_elem_of_singleton in Hx'. subst x.
      apply E, list_elem_of_In, Hx.
    + apply Forall_app. split; [exact Hf|]. constructor; [|constructor].
      unfold ts_ok. simpl. destruct success; unfold len; simpl; lia.
    + unfold py_sumZ at 2. simpl. lia.
Qed.

Lemma series_ok_call c self : series_ok self -> series_ok (call pow_half c self).
Proof.
  intros H. destruct c as [rq|n|config|now|now| |];
    try rewrite call_summary_state; try rewrite call_transactions_state;
    try exact H.
  - destruct H as (H1 & H2 & H3).
    apply (_record_time_series_data_ok (py_int (start_time rq)) (success rq)
             (response_time rq) _ _ H1 H2 H3).
  - unfold series_ok. simpl. repeat split; constructor.
Qed.

Lemma incr_positive `{Countable K} (P : K -> Prop) (k : K) (d : gmap K Z) :
  P k ->
  map_Forall (fun key n => P key /\ 1 <= n) d ->
  map_Forall (fun key n => P key /\ 1 <= n) (incr k d).
Proof.
  intros Hk Hd. unfold incr. apply map_Forall_insert_2; [|exact Hd].
  split; [exact Hk|]. destruct (d !! k) as [v|] eqn:E; simpl; [|lia].
  destruct (Hd k v E). lia.
Qed.

Lemma distributions_ok_record rq self :
  distributions_ok self -> distributions_ok (record_request rq self).
Proof.
  intros (H1 & H2 & H3 & H4 & H5 & H6). unfold distributions_ok. simpl.
  assert (S1 : map_Forall (fun code n => code <> 0 /\ 1 <= n)
                 match status_code rq with
                 | Some code =>
                     if success rq && int_truthy (status_code rq)
                     then incr code (status_codes (_metrics self))
                     else status_codes (_metrics self)
                 | None => status_codes (_metrics self)
                 end).
  { destruct (status_code rq) as [code|]; [|exact H1].
    destruct (success rq); simpl; [|exact H1].
    destruct (code =? 0) eqn:E; simpl; [exact H1|].
    apply (incr_positive (fun code => code <> 0)); [lia|exact H1]. }
  assert (S2 : map_Forall
                 (fun key n => 1 <= n /\ exists error, key = _simplify_error error)
                 match error rq with
                 | Some err =>
                     if negb (success rq) && str_truthy (error rq)
                     then incr (_simplify_error err) (errors (_metrics self))
                     else errors (_metrics self)
                 | None => errors (_metrics self)
                 end).
  { destruct (error rq) as [err|]; [|exact H3].
    destruct (negb (success rq) && str_truthy (Some err)); [|exact H3].
    assert (H3' : map_Forall
                    (fun key n => (exists error, key = _simplify_error error) /\ 1 <= n)
                    (errors (_metrics self))).
    { intros k v Hkv. destruct (H3 k v Hkv). split; assumption. }
    pose proof (incr_positive (fun key => exists error, key = _simplify_error error)
                  (_simplify_error err) _ (ex_intro _ err eq_refl) H3') as Hi.
    intros k v Hkv. destruct (Hi k v Hkv). split; assumption. }
  split; [exact S1|]. split; [|split; [exact S2|]].
  - destruct (status_code rq) as [code|]; destruct (success rq); cbn [andb negb];
      try destruct (int_truthy (Some code)); rewrite ?sum_values_incr; lia.
  - destruct (error rq) as [err|]; destruct (success rq); cbn [andb negb];
      try destruct (str_truthy (Some err)); rewrite ?sum_values_incr;
      repeat split; lia.
Qed.

Lemma distributions_ok_call c self :
  distributions_ok self -> distributions_ok (call pow_half c self).
Proof.
  intros H. destruct c as [rq|n|config|now|now| |];
    try rewrite call_summary_state; try rewrite call_transactions_state;
    try exact H.
  - now apply distributions_ok_record.
  - unfold distributions_ok. simpl.
    split; [apply map_Forall_empty|]. split; [now rewrite sum_values_empty|].
    split; [apply map_Forall_empty|]. split; [now rewrite sum_values_empty|].
    split; reflexivity.
Qed.

Lemma tx_sort_ok tx : tx_ok tx -> tx_ok (tx_sort tx).
Proof. unfold tx_ok, tx_sort. simpl. now rewrite len_py_sorted. Qed.

Lemma record_transaction_ok rq txs :
  map_Forall (fun _ tx => tx_ok tx) txs ->
  map_Forall (fun _ tx => tx_ok tx) (record_transaction rq txs).
Proof.
  intros H. unfold record_transaction.
  destruct (additional_data rq ≫= _) as [name|]; [|exact H].
  apply map_Forall_insert_2; [|exact H].
  assert (Hd : let tx := default empty_tx (txs !! name) in
               tx_total_requests tx = tx_successful_requests tx + tx_failed_requests tx
               /\ tx_successful_requests tx = len (tx_response_times tx)
               /\ 0 <= tx_failed_requests tx /\ 0 <= tx_total_requests tx).
  { destruct (txs !! name) as [tx|] eqn:E; simpl.
    - destruct (H name tx E) as (A1 & A2 & A3 & A4). lia.
    - unfold len. simpl. lia. }
  cbv zeta in Hd. destruct Hd as (A1 & A2 & A3 & A4).
  unfold tx_ok. simpl. destruct (success rq); rewrite ?len_app_one; lia.
Qed.

Lemma transactions_ok_call c self :
  map_Forall (fun _ tx => tx_ok tx) (transaction_metrics (_metrics self)) ->
  map_Forall (fun _ tx => tx_ok tx)
    (transaction_metrics (_metrics (call pow_half c self))).
Proof.
  intros H. destruct c as [rq|n|config|now|now| |];
    try rewrite call_summary_state; try rewrite call_transactions_state;
    try exact H.
  - now apply record_transaction_ok.
  - apply map_Forall_empty.
  - simpl. apply map_Forall_fmap. intros k tx Hk. apply tx_sort_ok, (H k tx Hk).
Qed.

End Invariants.

(** *** The time series *)

Lemma mapM_Forall2 {A B} (f : A -> Res B) l ys :
  mapM f l = Ok ys -> Forall2 (fun x y => f x = Ok y) l ys.
Proof.
  revert ys. induction l as [|x l IH]; simpl; intros ys H.
  - injection H as <-. constructor.
  - destruct (f x) as [y|e] eqn:E; simpl in H; [|discriminate].
    destruct (mapM f l) as [ys'|e] eqn:E'; simpl in H; [|discriminate].
    injection H as <-. constructor; [exact E|]. now apply IH.
Qed.

Lemma mapM_cons_raise {A B} (f : A -> Res B) x l e :
  f x = Raise e -> mapM f (x :: l) = Raise e.
Proof. intros H. simpl. now rewrite H. Qed.

Lemma mapM_ok_in {A B} (f : A -> Res B) (l : list A) :
  (forall x, In x l -> exists y, f x = Ok y) -> exists ys, mapM f l = Ok ys.
Proof.
  induction l as [|x l IH]; intros Hf; simpl; [now eexists|].
  destruct (Hf x) as [y Hy]; [now left|]. rewrite Hy. simpl.
  destruct IH as [ys IH]; [intros z Hz; apply Hf; now right|].
  rewrite IH. simpl. now eexists.
Qed.

Lemma percent_bounds a b :
  0 <= a <= b -> 0 < b ->
  (0 <= inject_Z a / inject_Z b * 100)%Q /\ (inject_Z a / inject_Z b * 100 <= 100)%Q.
Proof.
  intros [Ha Hab] Hb.
  assert (Hb' : (0 < inject_Z b)%Q).
  { change 0%Q with (inject_Z 0). now rewrite <- Zlt_Qlt. }
  assert (Ha' : (0 <= inject_Z a)%Q).
  { change 0%Q with (inject_Z 0). now rewrite <- Zle_Qle. }
  assert (Hab' : (inject_Z a <= inject_Z b)%Q) by now rewrite <- Zle_Qle.
  assert (H0 : (0 <= inject_Z a / inject_Z b)%Q).
  { apply Qle_shift_div_l; [exact Hb'|]. now rewrite Qmult_0_l. }
  assert (H1 : (inject_Z a / inject_Z b <= 1)%Q).
  { apply Qle_shift_div_r; [exact Hb'|]. now rewrite Qmult_1_l. }
  split; lra.
Qed.

Section TimeSeries.
Variable local_datetime : Z -> Res string.

Lemma time_series_entry_ok interval r s :
  Qeq_bool interval 0 = false ->
  local_datetime (ts_timestamp r) = Ok s ->
  exists e,
    time_series_entry local_datetime interval r = Ok e
    /\ tsm_timestamp e = ts_timestamp r
    /\ tsm_total_requests e = ts_total_requests r
    /\ tsm_successful_requests e = ts_successful_requests r
    /\ tsm_failed_requests e = ts_failed_requests r
    /\ (if 0 <? ts_total_requests r
        then tsm_success_rate e
             = (inject_Z (ts_successful_requests r) / inject_Z (ts_total_requests r)
                * 100)%Q
        else tsm_success_rate e = 0%Q).
Proof.
  intros Hi Hd. unfold time_series_entry. rewrite Hd. cbn [mbind res_bind].
  rewrite !(pydiv_ok _ interval Hi).
  destruct (0 <? ts_total_requests r) eqn:E.
  - rewrite (pydiv_ok (inject_Z (ts_successful_requests r))
               (inject_Z (ts_total_requests r)))
      by (apply Qeq_bool_inject_pos; lia).
    cbn [mbind res_bind].
    destruct (ts_response_times r) as [|x l] eqn:El.
    + cbn [mbind res_bind]. eexists. split; [reflexivity|]. simpl. tauto.
    + rewrite pydiv_len. cbn [py_min py_max mbind res_bind].
      eexists. split; [reflexivity|]. simpl. tauto.
  - cbn [mbind res_bind].
    destruct (ts_response_times r) as [|x l] eqn:El.
    + cbn [mbind res_bind]. eexists. split; [reflexivity|]. simpl. tauto.
    + rewrite pydiv_len. cbn [py_min py_max mbind res_bind].
      eexists. split; [reflexivity|]. simpl. tauto.
Qed.

Lemma by_timestamp_total a b : by_timestamp a b = true \/ by_timestamp b a = true.
Proof. unfold by_timestamp. lia. Qed.

Lemma by_timestamp_trans a b c :
  by_timestamp a b = true -> by_timestamp b c = true -> by_timestamp a c = true.
Proof. unfold by_timestamp. lia. Qed.

Lemma sorted_distinct_increasing (l : list TimeSeriesRecord) :
  StronglySorted (fun a b => by_timestamp a b = true) l ->
  NoDup (map ts_timestamp l) ->
  increasing (map ts_timestamp l).
Proof.
  induction 1 as [|r l Hs IH Hr]; simpl; intros Hd; [constructor|].
  apply NoDup_cons in Hd. destruct Hd as [Hn Hd].
  constructor; [now apply IH|].
  rewrite List.Forall_forall in *. intros t Ht.
  apply in_map_iff in Ht. destruct Ht as (r' & <- & Hr').
  specialize (Hr r' Hr'). unfold by_timestamp in Hr.
  assert (ts_timestamp r <> ts_timestamp r').
  { intros E. apply Hn. rewrite E. apply list_elem_of_In, in_map, Hr'. }
  lia.
Qed.

Lemma entries_of l entries interval :
  Qeq_bool interval 0 = false ->
  Forall ts_ok l ->
  mapM (time_series_entry local_datetime interval) l = Ok entries ->
  map tsm_timestamp entries = map ts_timestamp l
  /\ map tsm_total_requests entries = map ts_total_requests l
  /\ Forall entry_ok entries.
Proof.
  intros Hi Hl H. apply mapM_Forall2 in H.
  induction H as [|r e l entries Hre H IH]; [repeat split; constructor|].
  inversion Hl as [|? ? Hr Hl']; subst.
  destruct (IH Hl') as (I1 & I2 & I3).
  destruct (local_datetime (ts_timestamp r)) as [s|x] eqn:Ed.
  - destruct (time_series_entry_ok interval r s Hi Ed)
      as (e' & He' & E1 & E2 & E3 & E4 & E5).
    assert (e' = e) by congruence. subst e'.
    simpl. rewrite I1, I2, E1, E2. repeat split. constructor; [|exact I3].
    destruct Hr as (R1 & R2 & R3 & R4).
    assert (Hpos : (0 <? ts_total_requests r) = true) by lia.
    rewrite Hpos in E5. unfold entry_ok. rewrite E2, E3, E4, E5.
    destruct (percent_bounds (ts_successful_requests r) (ts_total_requests r))
      as [B1 B2]; [unfold len in *; lia|lia|].
    repeat split; assumption.
  - unfold time_series_entry in Hre. rewrite Ed in Hre. discriminate.
Qed.

End TimeSeries.

(** X1. Whatever has been called on a collector since it was created, the
    time series it returns (for an interval other than 0, the time stamps
    being displayable) has strictly increasing time stamps (one entry for
    each second in which a request started), its entries count every
    request exactly once, and in each entry the counters add up and the
    success rate lies between 0 and 100. *)
Theorem X1_time_series_counts_every_request_once :
  forall (pow_half : Q -> Q) (local_datetime : Z -> Res string) (t : Q)
         (cs : list Call) (interval : Q),
    let self := calls pow_half cs (init t) in
    Qeq_bool interval 0 = false ->
    datable local_datetime self ->
    exists entries,
      get_time_series_metrics local_datetime interval self = Ok entries
      /\ increasing (map tsm_timestamp entries)
      /\ py_sumZ (map tsm_total_requests entries) = total_requests (_metrics self)
      /\ Forall entry_ok entries.
Proof.
  intros pow_half local_datetime t cs interval self Hi Hd.
  assert (Hs : series_ok self).
  { apply calls_keep; [apply series_ok_call|].
    unfold series_ok. simpl. repeat split; constructor. }
  destruct Hs as (S1 & S2 & S3).
  unfold get_time_series_metrics.
  destruct (time_series (_metrics self)) as [|r0 l0] eqn:E.
  - exists []. rewrite <- S3. repeat split; constructor.
  - set (l := r0 :: l0) in *.
    assert (Hp : Permutation (py_sorted by_timestamp l) l) by apply py_sorted_perm.
    destruct (mapM_ok_in (time_series_entry local_datetime interval)
                (py_sorted by_timestamp l)) as [entries He].
    { intros r Hr. destruct (Hd r) as [s Hs].
      - rewrite E. fold l. eapply Permutation_in; [exact Hp|exact Hr].
      - destruct (time_series_entry_ok local_datetime interval r s Hi Hs)
          as (e & He & _). eauto. }
    exists entries. split; [exact He|].
    destruct (entries_of local_datetime _ _ interval Hi
                (Permutation_Forall (Permutation_sym Hp) S2) He) as (E1 & E2 & E3).
    rewrite E1, E2. split; [|split; [|exact E3]].
    + apply sorted_distinct_increasing.
      * apply py_sorted_sorted; [apply by_timestamp_total|apply by_timestamp_trans].
      * assert (Hpm : map ts_timestamp (py_sorted by_timestamp l)
                      ≡ₚ map ts_timestamp l) by apply Permutation_map, Hp.
        rewrite Hpm. exact S1.
    + rewrite <- S3. apply py_sumZ_perm, Permutation_map, Hp.
Qed.

(** Two requests in one second and one in the next. *)
Lemma X1_time_series_counts_every_request_once_witness :
  exists entries,
    get_time_series_metrics (fun _ => Ok "") 1
      (calls (fun x => x)
         [CallRecordRequest (sample 1); CallRecordRequest (sample 2);
          CallRecordRequest
            {| start_time := 3 # 2; end_time := 2; response_time := 1 # 2;
               status_code := None; success := false; error := Some "boom";
               additional_data := None; latency_breakdown := None;
               connection_info := None |}]
         (init 0))
    = Ok entries
    /\ map tsm_timestamp entries = [0; 1]
    /\ map tsm_total_requests entries = [2; 1].
Proof.
  destruct (X1_time_series_counts_every_request_once (fun x => x) (fun _ => Ok "") 0
              [CallRecordRequest (sample 1); CallRecordRequest (sample 2);
               CallRecordRequest
                 {| start_time := 3 # 2; end_time := 2; response_time := 1 # 2;
                    status_code := None; success := false; error := Some "boom";
                    additional_data := None; latency_breakdown := None;
                    connection_info := None |}] 1)
    as (entries & He & _).
  - reflexivity.
  - intros r _. now eexists.
  - exists entries. split; [exact He|].
    vm_compute in He. injection He as <-. split; reflexivity.
Defined.

(** X2. With [interval = 0], [get_time_series_metrics] raises
    [ZeroDivisionError] as soon as the time series has a record (whose time
    stamp is displayable), whatever the records hold; with an empty time
    series it returns the empty list for every interval, 0 included. *)
Theorem X2_time_series_zero_interval :
  forall (local_datetime : Z -> Res string) (self : MetricsCollector),
    time_series (_metrics self) <> [] ->
    datable local_datetime self ->
    get_time_series_metrics local_datetime 0 self = Raise ZeroDivisionError
    /\ forall (interval : Q) (empty : MetricsCollector),
         time_series (_metrics empty) = [] ->
         get_time_series_metrics local_datetime interval empty = Ok [].
Proof.
  intros local_datetime self Hne Hd. split.
  - unfold get_time_series_metrics.
    destruct (time_series (_metrics self)) as [|r0 l0] eqn:E; [contradiction|].
    set (l := r0 :: l0) in *.
    assert (Hp : Permutation (py_sorted by_timestamp l) l) by apply py_sorted_perm.
    destruct (py_sorted by_timestamp l) as [|r rest] eqn:Es.
    + apply Permutation_nil in Hp. discriminate.
    + destruct (Hd r) as [s Hs].
      { rewrite E. fold l. eapply Permutation_in; [exact Hp|now left]. }
      apply mapM_cons_raise.
      unfold time_series_entry. rewrite Hs. cbn [mbind res_bind].
      destruct (0 <? ts_total_requests r) eqn:Et.
      * rewrite (pydiv_ok (inject_Z (ts_successful_requests r))
                   (inject_Z (ts_total_requests r)))
          by (apply Qeq_bool_inject_pos; lia).
        reflexivity.
      * reflexivity.
  - intros interval empty He. unfold get_time_series_metrics. now rewrite He.
Qed.

Lemma X2_time_series_zero_interval_witness :
  get_time_series_metrics (fun _ => Ok "") 0
    (record_request (sample 1) (init 0))
  = Raise ZeroDivisionError.
Proof.
  apply (X2_time_series_zero_interval (fun _ => Ok "")
           (record_request (sample 1) (init 0))).
  - discriminate.
  - intros r _. now eexists.
Defined.

(** *** The distribution of the response times *)

Lemma fold_min_spec l m :
  let r := fold_left (fun m y => if Qlt_le_dec y m then y else m) l m in
  (r <= m)%Q /\ (forall y, In y l -> (r <= y)%Q) /\ (r = m \/ In r l).
Proof.
  revert m. induction l as [|x l IH]; intros m; simpl.
  - split; [apply Qle_refl|]. split; [tauto|now left].
  - destruct (Qlt_le_dec x m) as [H|H].
    + destruct (IH x) as (I1 & I2 & I3). split; [lra|]. split.
      * intros y [<-|Hy]; [exact I1|now apply I2].
      * right. destruct I3 as [->|I3]; [now left|now right].
    + destruct (IH m) as (I1 & I2 & I3). split; [exact I1|]. split.
      * intros y [<-|Hy]; [lra|now apply I2].
      * destruct I3 as [I3|I3]; [now left|right; now right].
Qed.

Lemma fold_max_spec l m :
  let r := fold_left (fun m y => if Qlt_le_dec m y then y else m) l m in
  (m <= r)%Q /\ (forall y, In y l -> (y <= r)%Q) /\ (r = m \/ In r l).
Proof.
  revert m. induction l as [|x l IH]; intros m; simpl.
  - split; [apply Qle_refl|]. split; [tauto|now left].
  - destruct (Qlt_le_dec m x) as [H|H].
    + destruct (IH x) as (I1 & I2 & I3). split; [lra|]. split.
      * intros y [<-|Hy]; [exact I1|now apply I2].
      * right. destruct I3 as [->|I3]; [now left|now right].
    + destruct (IH m) as (I1 & I2 & I3). split; [exact I1|]. split.
      * intros y [<-|Hy]; [lra|now apply I2].
      * destruct I3 as [I3|I3]; [now left|right; now right].
Qed.

Lemma py_min_spec x l :
  exists m, py_min (x :: l) = Ok m /\ In m (x :: l)
            /\ forall y, In y (x :: l) -> (m <= y)%Q.
Proof.
  destruct (fold_min_spec l x) as (I1 & I2 & I3).
  eexists. split; [reflexivity|]. split.
  - destruct I3 as [->|I3]; [now left|now right].
  - intros y [<-|Hy]; [exact I1|now apply I2].
Qed.

Lemma py_max_spec x l :
  exists m, py_max (x :: l) = Ok m /\ In m (x :: l)
            /\ forall y, In y (x :: l) -> (y <= m)%Q.
Proof.
  destruct (fold_max_spec l x) as (I1 & I2 & I3).
  eexists. split; [reflexivity|]. split.
  - destruct I3 as [->|I3]; [now left|now right].
  - intros y [<-|Hy]; [exact I1|now apply I2].
Qed.

Lemma alter_succ_spec (l : list Z) (i : nat) :
  py_sumZ (alter (fun c => c + 1) i l) <= py_sumZ l + 1
  /\ (Forall (fun c => 0 <= c) l -> Forall (fun c => 0 <= c) (alter (fun c => c + 1) i l)).
Proof.
  revert i. induction l as [|x l IH]; intros i.
  - split; [unfold py_sumZ; simpl; lia|intros _; constructor].
  - destruct i as [|i].
    + change (alter (fun c => c + 1) 0%nat (x :: l)) with ((x + 1) :: l).
      rewrite !py_sumZ_cons. split; [lia|].
      intros Hf. inversion Hf; subst. constructor; [lia|assumption].
    + change (alter (fun c => c + 1) (S i) (x :: l))
        with (x :: alter (fun c => c + 1) i l).
      destruct (IH i) as [I1 I2]. rewrite !py_sumZ_cons. split; [lia|].
      intros Hf. inversion Hf; subst. constructor; [assumption|now apply I2].
Qed.

Lemma count_in_bucket_spec buckets ranges rts counts :
  Forall (fun c => 0 <= c) counts ->
  let counts' := fold_left (count_in_bucket buckets ranges) rts counts in
  length counts' = length counts
  /\ Forall (fun c => 0 <= c) counts'
  /\ py_sumZ counts' <= py_sumZ counts + len rts.
Proof.
  revert counts. induction rts as [|rt rts IH]; intros counts Hc; simpl.
  - repeat split; [exact Hc|unfold len; simpl; lia].
  - assert (H1 : length (count_in_bucket buckets ranges counts rt) = length counts
                 /\ Forall (fun c => 0 <= c) (count_in_bucket buckets ranges counts rt)
                 /\ py_sumZ (count_in_bucket buckets ranges counts rt)
                    <= py_sumZ counts + 1).
    { unfold count_in_bucket. destruct (find_bucket buckets rt 0 ranges) as [i|].
      - destruct (alter_succ_spec counts (Z.to_nat i)) as [A1 A2].
        rewrite length_alter. auto.
      - repeat split; [exact Hc|lia]. }
    destruct H1 as (L1 & F1 & S1).
    destruct (IH _ F1) as (L2 & F2 & S2).
    rewrite L2, L1. repeat split; [exact F2|].
    change (len (rt :: rts)) with (Z.of_nat (S (length rts))).
    unfold len in S2. lia.
Qed.

Lemma count_without_buckets buckets rts :
  fold_left (count_in_bucket buckets []) rts [] = [].
Proof. induction rts as [|rt rts IH]; [reflexivity|exact IH]. Qed.

Lemma py_sumZ_replicate n : py_sumZ (replicate n 0) = 0.
Proof.
  induction n as [|n IH]; [reflexivity|].
  change (replicate (S n) 0) with (0 :: replicate n 0).
  rewrite py_sumZ_cons. lia.
Qed.

Lemma spread_range self mn mx :
  spread self ->
  (forall y, In y (response_times (_metrics self)) -> (mn <= y)%Q) ->
  (forall y, In y (response_times (_metrics self)) -> (y <= mx)%Q) ->
  Qeq_bool (mx - mn) 0 = false.
Proof.
  intros (a & b & Ha & Hb & Hab) Hmn Hmx. apply Qeq_bool_pos.
  specialize (Hmn a Ha). specialize (Hmx b Hb). lra.
Qed.

Section Distribution.
Variable str_float : Q -> string.
Variable format_2f : Q -> string.

(** X3. [get_response_time_distribution] on samples that are not all equal:
    with [buckets = 0] it raises [ZeroDivisionError]; with a negative number
    of buckets it returns no bucket and no count at all, and says nothing
    of the samples. *)
Theorem X3_distribution_without_buckets :
  forall (self : MetricsCollector) (buckets : Z),
    spread self ->
    buckets <= 0 ->
    get_response_time_distribution str_float format_2f buckets self
    = if buckets =? 0 then Raise ZeroDivisionError
      else Ok {| dist_buckets := []; dist_counts := [] |}.
Proof.
  intros self buckets Hs Hb. unfold get_response_time_distribution.
  destruct (response_times (_metrics self)) as [|x l] eqn:E.
  { destruct Hs as (a & _ & Ha & _). rewrite E in Ha. destruct Ha. }
  destruct (py_min_spec x l) as (mn & -> & _ & Hmn).
  destruct (py_max_spec x l) as (mx & -> & _ & Hmx).
  cbn [mbind res_bind].
  rewrite <- E in Hmn, Hmx. rewrite (spread_range self mn mx Hs Hmn Hmx).
  destruct (buckets =? 0) eqn:E0.
  - assert (buckets = 0) by lia. subst buckets. reflexivity.
  - rewrite pydiv_ok.
    + cbn [mbind res_bind]. rewrite seqZ_nil by exact Hb.
      replace (Z.to_nat buckets) with 0%nat by lia.
      cbn [replicate map]. now rewrite count_without_buckets.
    + destruct (Qeq_bool (inject_Z buckets) 0) eqn:Eq; [|reflexivity].
      apply Qeq_bool_eq in Eq. unfold Qeq in Eq. simpl in Eq. lia.
Qed.

(** X4. With at least one bucket, [get_response_time_distribution] returns
    as many labels as counts; no count is negative and together they do not
    exceed the number of samples (no sample is counted twice).  When the
    samples are not all equal there are exactly [buckets] counts; when they
    are all equal there is one bucket, which holds them all. *)
Theorem X4_distribution_counts :
  forall (self : MetricsCollector) (buckets : Z),
    1 <= buckets ->
    exists d,
      get_response_time_distribution str_float format_2f buckets self = Ok d
      /\ length (dist_buckets d) = length (dist_counts d)
      /\ Forall (fun c => 0 <= c) (dist_counts d)
      /\ py_sumZ (dist_counts d) <= len (response_times (_metrics self))
      /\ (spread self -> len (dist_counts d) = buckets)
      /\ (~ spread self -> response_times (_metrics self) <> [] ->
          dist_counts d = [len (response_times (_metrics self))]).
Proof.
  intros self buckets Hb. unfold get_response_time_distribution.
  destruct (response_times (_metrics self)) as [|x l] eqn:E.
  { eexists. split; [reflexivity|]. cbn [dist_buckets dist_counts].
    split; [reflexivity|]. split; [constructor|]. split; [reflexivity|]. split.
    - intros (a & _ & Ha & _). rewrite E in Ha. destruct Ha.
    - intros _ H. now contradiction H. }
  destruct (py_min_spec x l) as (mn & -> & Imn & Hmn).
  destruct (py_max_spec x l) as (mx & -> & Imx & Hmx).
  cbn [mbind res_bind]. rewrite <- E in Hmn, Hmx, Imn, Imx.
  destruct (Qeq_bool (mx - mn) 0) eqn:Er.
  - eexists. split; [reflexivity|]. cbn [dist_buckets dist_counts].
    split; [reflexivity|]. split; [repeat constructor; apply len_nonneg|].
    split; [rewrite py_sumZ_cons; unfold py_sumZ; simpl; lia|]. split.
    + intros Hs. rewrite (spread_range self mn mx Hs Hmn Hmx) in Er. discriminate.
    + reflexivity.
  - rewrite pydiv_ok.
    2:{ apply Qeq_bool_inject_pos. lia. }
    cbn [mbind res_bind]. eexists. split; [reflexivity|].
    cbn [dist_buckets dist_counts].
    match goal with
    | |- context [fold_left (count_in_bucket buckets ?r) ?rts ?c] =>
        destruct (count_in_bucket_spec buckets r rts c) as (L & F & S)
    end.
    { apply Forall_replicate. lia. }
    rewrite L, !length_map, length_seqZ, length_replicate.
    split; [reflexivity|]. split; [exact F|]. split.
    + rewrite py_sumZ_replicate in S. lia.
    + split.
      * intros _. unfold len. rewrite L, length_replicate. lia.
      * intros Hn _. exfalso. apply Hn. exists mn, mx. repeat split; try assumption.
        specialize (Hmn mx Imx).
        destruct (Qlt_le_dec mn mx) as [Hlt|Hle]; [exact Hlt|].
        assert (Heq : (mx - mn == 0)%Q) by lra.
        apply Qeq_bool_iff in Heq. congruence.
Qed.

End Distribution.

Lemma X3_distribution_without_buckets_witness :
  get_response_time_distribution (fun _ => "") (fun _ => "") 0 two_samples
  = Raise ZeroDivisionError
  /\ get_response_time_distribution (fun _ => "") (fun _ => "") (-3) two_samples
     = Ok {| dist_buckets := []; dist_counts := [] |}.
Proof.
  assert (Hs : spread two_samples).
  { exists 1%Q, 2%Q. vm_compute. tauto. }
  split.
  - apply (X3_distribution_without_buckets (fun _ => "") (fun _ => "")
             two_samples 0 Hs). lia.
  - apply (X3_distribution_without_buckets (fun _ => "") (fun _ => "")
             two_samples (-3) Hs). lia.
Defined.

Lemma X4_distribution_counts_witness :
  exists d,
    get_response_time_distribution (fun _ => "") (fun _ => "") 10 two_samples = Ok d
    /\ dist_counts d = [1; 0; 0; 0; 0; 0; 0; 0; 0; 1].
Proof.
  destruct (X4_distribution_counts (fun _ => "") (fun _ => "") two_samples 10)
    as (d & Hd & _); [lia|].
  exists d. split; [exact Hd|]. vm_compute in Hd. injection Hd as <-. reflexivity.
Defined.

(** *** The summary *)

Section Summary.
Variable pow_half : Q -> Q.

Lemma response_time_stats_parts l :
  exists avg mn mx p50 p90 p95 p99 p999 sd,
    response_time_stats pow_half l = Ok (avg, mn, mx, (p50, p90, p95, p99, p999), sd)
    /\ (mn <= p50)%Q
    /\ (l <> [] -> In mn l /\ In mx l /\ In p50 l)
    /\ (forall y, In y l -> (mn <= y)%Q /\ (y <= mx)%Q).
Proof.
  unfold response_time_stats. destruct l as [|x l].
  - do 9 eexists. split; [reflexivity|]. split; [apply Qle_refl|].
    split; [congruence|]. intros y [].
  - rewrite pydiv_len.
    destruct (py_min_spec x l) as (mn & Emn & Imn & Hmn).
    destruct (py_max_spec x l) as (mx & Emx & Imx & Hmx).
    rewrite !_calculate_percentile_nth by discriminate.
    cbn [mbind res_bind]. rewrite Emn, Emx. cbn [mbind res_bind]. rewrite pydiv_len.
    do 9 eexists. split; [reflexivity|].
    assert (H50 : In (nth (Z.to_nat (percentile_index (x :: l) 50)) (x :: l) 0%Q)
                     (x :: l)).
    { apply nth_In.
      assert (H5 : (0 <= 50)%Q) by discriminate.
      pose proof (percentile_index_range x l 50 H5) as H. unfold len in H. lia. }
    split; [now apply Hmn|]. split; [intros _; now repeat split|].
    intros y Hy. split; [now apply Hmn|now apply Hmx].
Qed.

Lemma success_rate_of_bounds m :
  0 <= successful_requests m <= total_requests m ->
  exists r, success_rate_of m = Ok r /\ (0 <= r)%Q /\ (r <= 100)%Q.
Proof.
  intros H. unfold success_rate_of.
  destruct (0 <? total_requests m) eqn:E.
  - rewrite pydiv_ok by (apply Qeq_bool_inject_pos; lia). cbn [mbind res_bind].
    eexists. split; [reflexivity|]. apply percent_bounds; lia.
  - eexists. split; [reflexivity|]. split; discriminate.
Qed.

Lemma connection_success_rate_of_bounds cm :
  0 <= failed_connections cm <= total_connections cm ->
  exists r, connection_success_rate_of cm = Ok r /\ (0 <= r)%Q /\ (r <= 100)%Q.
Proof.
  intros H. unfold connection_success_rate_of.
  destruct (0 <? total_connections cm) eqn:E.
  - rewrite pydiv_ok by (apply Qeq_bool_inject_pos; lia). cbn [mbind res_bind].
    eexists. split; [reflexivity|].
    destruct (percent_bounds (failed_connections cm) (total_connections cm))
      as [B1 B2]; [lia|lia|].
    set (r := (inject_Z (failed_connections cm) / inject_Z (total_connections cm))%Q)
      in *.
    split; lra.
  - eexists. split; [reflexivity|]. split; discriminate.
Qed.

(** The summary, with the blocks it is made of. *)
Lemma summary_of_parts d self :
  exists s sr cr avg mn mx p50 p90 p95 p99 p999 sd,
    summary_of pow_half d self = Ok s
    /\ success_rate_of (_metrics self) = Ok sr
    /\ connection_success_rate_of (connection_metrics (_metrics self)) = Ok cr
    /\ response_time_stats pow_half (response_times (_metrics self))
       = Ok (avg, mn, mx, (p50, p90, p95, p99, p999), sd)
    /\ s_success_rate s = sr
    /\ cs_connection_success_rate (s_connection_metrics s) = cr
    /\ s_avg_response_time s = avg /\ s_min_response_time s = mn
    /\ s_max_response_time s = mx /\ s_p50_response_time s = p50
    /\ s_total_requests s = total_requests (_metrics self)
    /\ s_successful_requests s = successful_requests (_metrics self)
    /\ s_failed_requests s = failed_requests (_metrics self)
    /\ s_test_duration s = d
    /\ s_max_concurrent_users s = concurrent_users (_metrics self)
    /\ s_status_codes_distribution s = status_codes (_metrics self)
    /\ s_errors_distribution s = errors (_metrics self).
Proof.
  unfold summary_of.
  destruct (average_rates_ok d (_metrics self)) as [[[rps srps] frps] ->].
  destruct (response_time_stats_parts (response_times (_metrics self)))
    as (avg & mn & mx & p50 & p90 & p95 & p99 & p999 & sd & E & _).
  rewrite E.
  destruct (success_rate_of_ok (_metrics self)) as [sr ->].
  destruct (_calculate_throughput_variation_ok pow_half self) as [tv ->].
  destruct (second_stats_ok (per_second (fun _ => true) (throughput_data (_metrics self))))
    as [[[[a1 a2] a3] a4] ->].
  destruct (second_max_avg_ok (per_second tp_success (throughput_data (_metrics self))))
    as [[b1 b2] ->].
  destruct (second_max_avg_ok
              (per_second (fun p => negb (tp_success p)) (throughput_data (_metrics self))))
    as [[c1 c2] ->].
  destruct (latency_stats_of_ok (latency_breakdown_samples (_metrics self))) as [ls ->].
  destruct (connection_success_rate_of_ok (connection_metrics (_metrics self))) as [cr ->].
  do 12 eexists. split; [reflexivity|]. cbn. repeat split.
Qed.

(** X5. Whatever has been called on a collector since it was created, the
    success rate and the connection success rate of its summary lie
    between 0 and 100, and [get_requests_summary] returns the same three
    counters and the same success rate as [get_summary_metrics]. *)
Theorem X5_rates_between_0_and_100 :
  forall (t : Q) (cs : list Call),
    let self := calls pow_half cs (init t) in
    exists (s : Summary) (rs : RequestsSummary),
      (get_summary_metrics pow_half self).1 = Ok s
      /\ get_requests_summary self = Ok rs
      /\ (0 <= s_success_rate s)%Q /\ (s_success_rate s <= 100)%Q
      /\ (0 <= cs_connection_success_rate (s_connection_metrics s))%Q
      /\ (cs_connection_success_rate (s_connection_metrics s) <= 100)%Q
      /\ rs_success_rate rs = s_success_rate s
      /\ rs_total_requests rs = s_total_requests s
      /\ rs_successful_requests rs = s_successful_requests s
      /\ rs_failed_requests rs = s_failed_requests s.
Proof.
  intros t cs self.
  assert (Hc : counts_ok self).
  { apply calls_keep; [apply counts_ok_call|].
    unfold counts_ok. simpl. unfold len. simpl. lia. }
  destruct Hc as (H1 & H2 & H3 & H4 & H5 & H6 & H7 & H8).
  pose proof (len_nonneg (response_times (_metrics self))) as Hl.
  unfold get_summary_metrics.
  destruct (_calculate_test_duration_ok self) as [d ->]. cbn [fst].
  destruct (summary_of_parts d (sort_response_times self))
    as (s & sr & cr & avg & mn & mx & p50 & p90 & p95 & p99 & p999 & sd & Es & Esr
        & Ecr & _ & F1 & F2 & _ & _ & _ & _ & F3 & F4 & F5 & _).
  change (_metrics (sort_response_times self))
    with (_metrics (sort_response_times self)) in *.
  destruct (success_rate_of_bounds (_metrics self)) as (r & Er & B1 & B2); [lia|].
  destruct (connection_success_rate_of_bounds (connection_metrics (_metrics self)))
    as (r' & Er' & B1' & B2'); [lia|].
  change (success_rate_of (_metrics (sort_response_times self)))
    with (success_rate_of (_metrics self)) in Esr.
  change (connection_metrics (_metrics (sort_response_times self)))
    with (connection_metrics (_metrics self)) in Ecr.
  assert (Hsr : sr = r) by congruence. assert (Hcr : cr = r') by congruence.
  rewrite Hsr in F1. rewrite Hcr in F2.
  exists s. eexists. split; [exact Es|].
  unfold get_requests_summary. fold (success_rate_of (_metrics self)). rewrite Er.
  cbn [mbind res_bind]. split; [reflexivity|]. cbn.
  rewrite F1, F2, F3, F4, F5. repeat split; assumption.
Qed.

(** X6. For every collector, whatever samples it holds, in the summary
    the minimum and the maximum response time bound every sample, and the
    median (p50) is not below the minimum; when there is a sample, the
    minimum, the maximum and the median are samples themselves (a
    percentile is not interpolated). *)
Theorem X6_extremes_bound_the_samples :
  forall (self : MetricsCollector),
  exists s : Summary,
    (get_summary_metrics pow_half self).1 = Ok s
    /\ (s_min_response_time s <= s_p50_response_time s)%Q
    /\ (forall y, In y (response_times (_metrics self)) ->
          (s_min_response_time s <= y)%Q /\ (y <= s_max_response_time s)%Q)
    /\ (response_times (_metrics self) <> [] ->
        In (s_min_response_time s) (response_times (_metrics self))
        /\ In (s_max_response_time s) (response_times (_metrics self))
        /\ In (s_p50_response_time s) (response_times (_metrics self))).
Proof.
  intros self. unfold get_summary_metrics.
  destruct (_calculate_test_duration_ok self) as [d ->]. cbn [fst].
  destruct (summary_of_parts d (sort_response_times self))
    as (s & sr & cr & avg & mn & mx & p50 & p90 & p95 & p99 & p999 & sd & Es & _
        & _ & Est & _ & _ & F1 & F2 & F3 & F4 & _).
  destruct (response_time_stats_parts
              (response_times (_metrics (sort_response_times self))))
    as (avg' & mn' & mx' & p50' & p90' & p95' & p99' & p999' & sd' & Est' & B1 & B2
        & B3).
  rewrite Est in Est'. injection Est' as <- <- <- <- <- <- <- <- <-.
  change (response_times (_metrics (sort_response_times self)))
    with (py_sorted Qleb (response_times (_metrics self))) in B2, B3.
  pose proof (py_sorted_perm Qleb (response_times (_metrics self))) as Hp.
  exists s. rewrite F2, F3, F4. split; [exact Es|]. split; [exact B1|]. split.
  - intros y Hy. apply B3. eapply Permutation_in; [symmetry; exact Hp|exact Hy].
  - intros Hne. destruct B2 as (I1 & I2 & I3).
    + intros E. apply Hne. apply Permutation_nil. rewrite <- E. exact Hp.
    + repeat split; eapply Permutation_in; eauto.
Qed.

End Summary.

(** *** Error keys *)

Lemma ascii_lower_idem c : ascii_lower (ascii_lower c) = ascii_lower c.
Proof. destruct c as [[] [] [] [] [] [] [] []]; reflexivity. Qed.

Lemma is_prefix_chars p s :
  is_prefix p s = true ->
  forall a, In a (list_ascii_of_string p) -> In a (list_ascii_of_string s).
Proof.
  revert s. induction p as [|b p IH]; intros s H a Ha; [destruct Ha|].
  destruct s as [|c s]; simpl in H; [discriminate|].
  apply andb_true_iff in H. destruct H as [Hb Hp].
  apply Ascii.eqb_eq in Hb. subst c. destruct Ha as [<-|Ha]; [now left|].
  right. now apply (IH s).
Qed.

Lemma str_in_chars p s :
  str_in p s = true ->
  forall a, In a (list_ascii_of_string p) -> In a (list_ascii_of_string s).
Proof.
  induction s as [|c s IH]; intros H a Ha.
  - simpl in H. rewrite orb_false_r in H. now apply (is_prefix_chars p "").
  - simpl in H. apply orb_true_iff in H. destruct H as [H|H].
    + now apply (is_prefix_chars p (String c s)).
    + right. now apply IH.
Qed.

Lemma lower_chars s a :
  In a (list_ascii_of_string (lower s)) -> ascii_lower a = a.
Proof.
  induction s as [|c s IH]; simpl; [tauto|].
  intros [<-|H]; [apply ascii_lower_idem|now apply IH].
Qed.

Lemma lower_fixed p :
  (forall a, In a (list_ascii_of_string p) -> ascii_lower a = a) -> lower p = p.
Proof.
  induction p as [|b p IH]; intros H; simpl; [reflexivity|].
  rewrite (H b) by now left. f_equal. apply IH. intros a Ha. apply H. now right.
Qed.

(** What occurs in a lower-cased text is in lower case. *)
Lemma str_in_lower p s : str_in p (lower s) = true -> lower p = p.
Proof.
  intros H. apply lower_fixed. intros a Ha.
  apply (lower_chars s), (str_in_chars p (lower s) H a Ha).
Qed.

Lemma find_filter {A} (f g : A -> bool) l :
  (forall x, In x l -> f x = true -> g x = true) ->
  List.find f (List.filter g l) = List.find f l.
Proof.
  induction l as [|x l IH]; intros H; simpl; [reflexivity|].
  destruct (g x) eqn:Eg; simpl.
  - destruct (f x); [reflexivity|]. apply IH. intros y Hy. apply H. now right.
  - destruct (f x) eqn:Ef.
    + rewrite (H x (or_introl eq_refl) Ef) in Eg. discriminate.
    + apply IH. intros y Hy. apply H. now right.
Qed.

(** X7. [_simplify_error] searches its patterns in the lower-cased message,
    so a pattern that is not itself in lower case never matches: the
    function returns what it would return without the patterns
    ['Connection refused'], ['Connection reset'] and ['Name or service not
    known'], which match no message at all. *)
Theorem X7_capitalised_patterns_never_match :
  forall error : string,
    _simplify_error error = simplify_with lower_case_patterns error
    /\ forall pattern,
         In pattern ["Connection refused"; "Connection reset";
                     "Name or service not known"] ->
         str_in pattern (lower error) = false
         /\ ~ In pattern (map fst lower_case_patterns).
Proof.
  intros error. split.
  - unfold _simplify_error, simplify_with, lower_case_patterns.
    rewrite find_filter; [reflexivity|].
    intros p _ Hp. apply String.eqb_eq. now apply (str_in_lower _ error).
  - intros pattern Hp. split.
    + destruct (str_in pattern (lower error)) eqn:E; [|reflexivity].
      apply str_in_lower in E.
      simpl in Hp. destruct Hp as [<-|[<-|[<-|[]]]]; vm_compute in E; discriminate.
    + simpl in Hp. destruct Hp as [<-|[<-|[<-|[]]]]; vm_compute; intros H;
        repeat (destruct H as [H|H]; [discriminate|]); exact H.
Qed.

(** *** The distributions and the peak of concurrency *)

Section Reachable.
Variable pow_half : Q -> Q.

(** X8. Whatever has been called on a collector since it was created: the
    status-code distribution has no entry for the code 0 (nor for a missing
    code), every count in it is at least 1 and the counts add up to at most
    [successful_requests]; every key of the error distribution is a value
    of [_simplify_error], every count in it is at least 1 and the counts add
    up to at most [failed_requests]. *)
Theorem X8_distributions_within_counters :
  forall (t : Q) (cs : list Call),
    let self := calls pow_half cs (init t) in
    get_status_code_distribution self !! 0 = None
    /\ (forall code n, get_status_code_distribution self !! code = Some n -> 1 <= n)
    /\ sum_values (get_status_code_distribution self)
       <= successful_requests (_metrics self)
    /\ (forall key n, get_error_distribution self !! key = Some n ->
          1 <= n /\ exists error, key = _simplify_error error)
    /\ sum_values (get_error_distribution self) <= failed_requests (_metrics self).
Proof.
  intros t cs self.
  assert (Hd : distributions_ok self).
  { apply calls_keep; [apply distributions_ok_call|].
    unfold distributions_ok. simpl.
    split; [apply map_Forall_empty|]. split; [now rewrite sum_values_empty|].
    split; [apply map_Forall_empty|]. split; [now rewrite sum_values_empty|].
    split; reflexivity. }
  destruct Hd as (H1 & H2 & H3 & H4 & _).
  unfold get_status_code_distribution, get_error_distribution. repeat split.
  - destruct (status_codes (_metrics self) !! 0) as [n|] eqn:E; [|reflexivity].
    destruct (H1 0 n E) as [H _]. now contradiction H.
  - intros code n E. now destruct (H1 code n E).
  - exact H2.
  - now destruct (H3 key n H).
  - now destruct (H3 key n H).
  - exact H4.
Qed.

Lemma concurrent_users_call c self :
  concurrent_users (_metrics (call pow_half c self))
  = match c with
    | CallUpdateConcurrentUsers n => Z.max (concurrent_users (_metrics self)) n
    | CallReset _ => 0
    | _ => concurrent_users (_metrics self)
    end.
Proof.
  destruct c as [rq|n|config|now|now| |];
    try rewrite call_summary_state; try reflexivity.
  simpl. destruct (concurrent_users (_metrics self) <? n) eqn:E; lia.
Qed.

(** X9. The concurrency a collector reports is a running maximum: after
    any calls without [reset], [max_concurrent_users] in the summary is
    the greatest of the value before and the values passed to
    [update_concurrent_users]; no other call changes it. *)
Theorem X9_concurrent_users_is_a_running_maximum :
  forall (cs : list Call) (self : MetricsCollector),
    forallb (fun c => negb (is_reset c)) cs = true ->
    let after := calls pow_half cs self in
    exists s : Summary,
      (get_summary_metrics pow_half after).1 = Ok s
      /\ concurrent_users (_metrics self) <= s_max_concurrent_users s
      /\ (forall n, In (CallUpdateConcurrentUsers n) cs -> n <= s_max_concurrent_users s)
      /\ (s_max_concurrent_users s = concurrent_users (_metrics self)
          \/ In (CallUpdateConcurrentUsers (s_max_concurrent_users s)) cs).
Proof.
  intros cs self Hcs after.
  assert (H : concurrent_users (_metrics self) <= concurrent_users (_metrics after)
              /\ (forall n, In (CallUpdateConcurrentUsers n) cs ->
                    n <= concurrent_users (_metrics after))
              /\ (concurrent_users (_metrics after) = concurrent_users (_metrics self)
                  \/ In (CallUpdateConcurrentUsers (concurrent_users (_metrics after)))
                        cs)).
  { subst after. revert self. induction cs as [|c cs IH]; intros self.
    - simpl. split; [lia|]. split; [tauto|now left].
    - simpl in Hcs. apply andb_true_iff in Hcs. destruct Hcs as [Hc Hcs].
      destruct (IH Hcs (call pow_half c self)) as (I1 & I2 & I3).
      change (calls pow_half (c :: cs) self)
        with (calls pow_half cs (call pow_half c self)).
      rewrite concurrent_users_call in I1, I3.
      set (peak := concurrent_users (_metrics (calls pow_half cs (call pow_half c self))))
        in *.
      destruct c as [rq|n|config|now|now| |]; try discriminate Hc;
        (split; [lia|]; split;
         [intros m [Hm|Hm]; [try discriminate Hm|now apply I2]
         |destruct I3 as [I3|I3]; [|right; now right]]);
        try (left; exact I3).
      + injection Hm as <-. lia.
      + destruct (Z.max_spec (concurrent_users (_metrics self)) n) as [[_ E]|[_ E]].
        * right. left. congruence.
        * left. congruence. }
  unfold get_summary_metrics.
  destruct (_calculate_test_duration_ok after) as [d ->]. cbn [fst].
  destruct (summary_of_parts pow_half d (sort_response_times after))
    as (s & sr & cr & avg & mn & mx & p50 & p90 & p95 & p99 & p999 & sd & Es & _
        & _ & _ & _ & _ & _ & _ & _ & _ & _ & _ & _ & _ & F & _).
  exists s. split; [exact Es|].
  change (concurrent_users (_metrics (sort_response_times after)))
    with (concurrent_users (_metrics after)) in F.
  rewrite F. exact H.
Qed.

End Reachable.

Lemma X9_concurrent_users_is_a_running_maximum_witness :
  exists s : Summary,
    (get_summary_metrics (fun x => x)
       (calls (fun x => x)
          [CallUpdateConcurrentUsers 3; CallRecordRequest (sample 1);
           CallUpdateConcurrentUsers 7; CallUpdateConcurrentUsers 5]
          (init 0))).1 = Ok s
    /\ 7 <= s_max_concurrent_users s.
Proof.
  destruct (X9_concurrent_users_is_a_running_maximum (fun x => x)
              [CallUpdateConcurrentUsers 3; CallRecordRequest (sample 1);
               CallUpdateConcurrentUsers 7; CallUpdateConcurrentUsers 5]
              (init 0)) as (s & Hs & _ & H & _).
  - reflexivity.
  - exists s. split; [exact Hs|]. apply H. simpl. tauto.
Defined.

(** *** Transactions *)

Lemma tx_summary_spec (tx : TxData) :
  tx_ok tx ->
  StronglySorted (fun a b => Qleb a b = true) (tx_response_times tx) ->
  exists s, tx_summary tx = Ok s /\ tx_summary_ok s.
Proof.
  intros (T1 & T2 & T3 & T4) Hs. unfold tx_summary.
  destruct (tx_response_times tx) as [|x l] eqn:E.
  - eexists. split; [reflexivity|]. unfold tx_summary_ok. cbn.
    repeat split; try lia; try discriminate.
  - assert (Hpos : (0 <? tx_total_requests tx) = true) by lia. rewrite Hpos.
    rewrite (pydiv_ok (inject_Z (tx_successful_requests tx))
               (inject_Z (tx_total_requests tx)))
      by (apply Qeq_bool_inject_pos; lia).
    cbn [mbind res_bind]. rewrite pydiv_len.
    destruct (py_min_spec x l) as (mn & Emn & _ & Hmn).
    destruct (py_max_spec x l) as (mx & Emx & Imx & Hmx).
    destruct (percentile_ok 0%Q (x :: l) 50) as [p50 E50]; [discriminate|].
    destruct (percentile_ok 0%Q (x :: l) 90) as [p90 E90]; [discriminate|].
    destruct (percentile_ok 0%Q (x :: l) 95) as [p95 E95]; [discriminate|].
    destruct (percentile_ok 0%Q (x :: l) 99) as [p99 E99]; [discriminate|].
    cbn [mbind res_bind]. rewrite Emn, Emx, E50, E90, E95, E99.
    cbn [mbind res_bind]. eexists. split; [reflexivity|].
    unfold tx_summary_ok. cbn.
    destruct (percent_bounds (tx_successful_requests tx) (tx_total_requests tx))
      as [B1 B2]; [unfold len in *; lia|lia|].
    assert (H50 : In p50 (x :: l)).
    { pose proof E50 as E'. rewrite _calculate_percentile_nth in E' by discriminate.
      assert (Hp : nth (Z.to_nat (percentile_index (x :: l) 50)) (x :: l) 0%Q = p50)
        by congruence.
      rewrite <- Hp. apply nth_In.
      assert (H5 : (0 <= 50)%Q) by discriminate.
      pose proof (percentile_index_range x l 50 H5) as H. unfold len in H. lia. }
    assert (H99 : In p99 (x :: l)).
    { pose proof E99 as E'. rewrite _calculate_percentile_nth in E' by discriminate.
      assert (Hp : nth (Z.to_nat (percentile_index (x :: l) 99)) (x :: l) 0%Q = p99)
        by congruence.
      rewrite <- Hp. apply nth_In.
      assert (H9 : (0 <= 99)%Q) by discriminate.
      pose proof (percentile_index_range x l 99 H9) as H. unfold len in H. lia. }
    split; [exact T1|]. split; [exact T4|]. split; [exact B1|]. split; [exact B2|].
    split; [now apply Hmn|].
    split; [eapply (percentile_mono x l 50 90); eauto; discriminate|].
    split; [eapply (percentile_mono x l 90 95); eauto; discriminate|].
    split; [eapply (percentile_mono x l 95 99); eauto; discriminate|].
    now apply Hmx.
Qed.

Lemma tx_sort_sorted tx :
  StronglySorted (fun a b => Qleb a b = true) (tx_response_times (tx_sort tx)).
Proof. apply (py_sorted_sorted Qleb Qleb_total Qleb_trans). Qed.

Section Transactions.
Variable pow_half : Q -> Q.

(** X10. Whatever has been called on a collector since it was created,
    [_get_transaction_metrics] returns, and for every transaction in its
    result: the counters add up and count at least one request, the success
    rate lies between 0 and 100, and
    min <= p50 <= p90 <= p95 <= p99 <= max. *)
Theorem X10_transaction_metrics_consistent :
  forall (t : Q) (cs : list Call),
    let self := calls pow_half cs (init t) in
    exists txs : gmap string TxSummary,
      (_get_transaction_metrics self).1 = Ok txs
      /\ forall name s, txs !! name = Some s -> tx_summary_ok s.
Proof.
  intros t cs self.
  assert (Ht : map_Forall (fun _ tx => tx_ok tx) (transaction_metrics (_metrics self))).
  { apply (calls_keep pow_half
             (fun self => map_Forall (fun _ tx => tx_ok tx)
                            (transaction_metrics (_metrics self)))).
    - apply transactions_ok_call.
    - apply map_Forall_empty. }
  unfold _get_transaction_metrics. cbn [fst].
  change (transaction_metrics (_metrics (sort_transactions self)))
    with (tx_sort <$> transaction_metrics (_metrics self)).
  set (sorted := tx_sort <$> transaction_metrics (_metrics self)).
  assert (Hs : forall name tx, sorted !! name = Some tx ->
                 exists s, tx_summary tx = Ok s /\ tx_summary_ok s).
  { intros name tx H. unfold sorted in H. rewrite lookup_fmap in H.
    destruct (transaction_metrics (_metrics self) !! name) as [tx0|] eqn:E;
      [|discriminate]. injection H as <-.
    apply tx_summary_spec; [apply tx_sort_ok, (Ht name tx0 E)|apply tx_sort_sorted]. }
  destruct (mapM_ok_in
              (fun kv : string * TxData => s ← tx_summary kv.2; Ok (kv.1, s))
              (map_to_list sorted)) as [kvs Hk].
  { intros [name tx] Hin. apply list_elem_of_In, elem_of_map_to_list in Hin.
    destruct (Hs name tx Hin) as (s & Es & _). cbn [snd fst].
    rewrite Es. now eexists. }
  rewrite Hk. cbn [mbind res_bind]. eexists. split; [reflexivity|].
  intros name s H. apply elem_of_list_to_map_2 in H.
  apply mapM_Forall2 in Hk.
  apply list_elem_of_In in H.
  assert (Hex : exists kv, In kv (map_to_list sorted)
                           /\ (s' ← tx_summary kv.2; Ok (kv.1, s')) = Ok (name, s)).
  { clear -Hk H. induction Hk as [|kv kv' l l' Hkv Hk IH]; [destruct H|].
    destruct H as [->|H]; [exists kv; split; [now left|exact Hkv]|].
    destruct (IH H) as (kv0 & Hin & E). exists kv0. split; [now right|exact E]. }
  destruct Hex as ([name' tx] & Hin & E).
  apply list_elem_of_In, elem_of_map_to_list in Hin.
  destruct (Hs name' tx Hin) as (s' & Es & Hok).
  simpl in E. rewrite Es in E. simpl in E. injection E as <- <-. exact Hok.
Qed.

End Transactions.

(** *** All metrics at once *)

Lemma tx_summary_returns tx : exists s, tx_summary tx = Ok s.
Proof.
  unfold tx_summary. destruct (tx_response_times tx) as [|x l]; [now eexists|].
  assert (Hr : exists r,
             (if 0 <? tx_total_requests tx
              then r ← pydiv (inject_Z (tx_successful_requests tx))
                             (inject_Z (tx_total_requests tx));
                   Ok (r * 100)%Q
              else Ok 0%Q) = Ok r).
  { destruct (0 <? tx_total_requests tx) eqn:E; [|now eexists].
    rewrite pydiv_ok by (apply Qeq_bool_inject_pos; lia). now eexists. }
  destruct Hr as [r ->]. cbn [mbind res_bind]. rewrite pydiv_len.
  rewrite !_calculate_percentile_nth by discriminate.
  cbn [py_min py_max mbind res_bind]. now eexists.
Qed.

Lemma _get_transaction_metrics_returns self :
  exists txs, (_get_transaction_metrics self).1 = Ok txs.
Proof.
  unfold _get_transaction_metrics. cbn [fst].
  destruct (mapM_ok (fun kv : string * TxData => s ← tx_summary kv.2; Ok (kv.1, s))
              (map_to_list (transaction_metrics (_metrics (sort_transactions self)))))
    as [kvs ->].
  - intros [name tx]. destruct (tx_summary_returns tx) as [s Hs].
    cbn [fst snd]. rewrite Hs. now eexists.
  - now eexists.
Qed.

Lemma get_requests_summary_returns self : exists rs, get_requests_summary self = Ok rs.
Proof.
  unfold get_requests_summary. fold (success_rate_of (_metrics self)).
  destruct (success_rate_of_ok (_metrics self)) as [r ->]. now eexists.
Qed.

Section AllMetrics.
Variable pow_half : Q -> Q.
Variable local_datetime : Z -> Res string.
Variable str_float : Q -> string.
Variable format_2f : Q -> string.

Lemma get_time_series_metrics_returns self :
  datable local_datetime self ->
  exists l, get_time_series_metrics local_datetime 1 self = Ok l.
Proof.
  intros Hd. unfold get_time_series_metrics.
  destruct (time_series (_metrics self)) as [|r0 l0] eqn:E; [now eexists|].
  apply mapM_ok_in. intros r Hr.
  destruct (Hd r) as [s Hs].
  - rewrite E. eapply Permutation_in; [apply py_sorted_perm|exact Hr].
  - destruct (time_series_entry_ok local_datetime 1 r s eq_refl Hs) as (e & He & _).
    eauto.
Qed.

Lemma get_response_time_distribution_returns self :
  exists d, get_response_time_distribution str_float format_2f 10 self = Ok d.
Proof.
  unfold get_response_time_distribution.
  destruct (response_times (_metrics self)) as [|x l]; [now eexists|].
  cbn [py_min py_max mbind res_bind].
  destruct (Qeq_bool _ 0); [now eexists|].
  rewrite pydiv_ok by reflexivity. now eexists.
Qed.

Lemma sorted_twice self :
  sort_response_times (sort_transactions (sort_response_times self))
  = sort_transactions (sort_response_times self).
Proof.
  unfold sort_response_times, sort_transactions, set_metrics. simpl.
  now rewrite Qleb_sorted_idem.
Qed.

(** X11. While the time stamps of the time series are displayable,
    [get_all_metrics] returns; its ['summary'] is what [get_summary_metrics]
    returns, and its ['test_duration'], ['status_code_distribution'] and
    ['error_distribution'] repeat entries of that summary.  It leaves the
    collector with the response times, and those of every transaction,
    sorted; calling it (or its alias [get_metrics]) again returns the same
    dictionary and changes nothing more. *)
Theorem X11_all_metrics_is_repeatable :
  forall (self : MetricsCollector),
    datable local_datetime self ->
    let first := get_all_metrics pow_half local_datetime str_float format_2f self in
    exists (a : AllMetrics) (s : Summary),
      first.1 = Ok a
      /\ (get_summary_metrics pow_half self).1 = Ok s
      /\ am_summary a = s
      /\ am_test_duration a = s_test_duration s
      /\ am_status_code_distribution a = s_status_codes_distribution s
      /\ am_error_distribution a = s_errors_distribution s
      /\ first.2 = sort_transactions (sort_response_times self)
      /\ get_metrics pow_half local_datetime str_float format_2f first.2 = first.
Proof.
  intros self Hd first. subst first.
  set (X := sort_response_times self).
  set (S2 := sort_transactions X).
  destruct (_calculate_test_duration_ok self) as [d Ed].
  assert (G1 : get_summary_metrics pow_half self = (summary_of pow_half d X, X)).
  { unfold get_summary_metrics. now rewrite Ed. }
  assert (G2 : get_summary_metrics pow_half S2 = (summary_of pow_half d X, S2)).
  { unfold get_summary_metrics.
    change (_calculate_test_duration S2) with (_calculate_test_duration self).
    rewrite Ed. unfold S2, X. rewrite sorted_twice. reflexivity. }
  destruct (summary_of_parts pow_half d X)
    as (s & sr & cr & avg & mn & mx & p50 & p90 & p95 & p99 & p999 & sd & Es & _
        & _ & _ & _ & _ & _ & _ & _ & _ & _ & _ & _ & F1 & _ & F2 & F3).
  destruct (get_requests_summary_returns X) as [rs Ers].
  assert (HdX : datable local_datetime X) by exact Hd.
  destruct (get_time_series_metrics_returns X HdX) as [ts Ets].
  destruct (get_response_time_distribution_returns X) as [dist Edist].
  destruct (_get_transaction_metrics_returns X) as [txs Etx].
  assert (T1 : _get_transaction_metrics X = (Ok txs, S2)).
  { rewrite (surjective_pairing (_get_transaction_metrics X)), Etx. reflexivity. }
  assert (T2 : _get_transaction_metrics S2 = (Ok txs, S2)).
  { rewrite <- T1. unfold S2, _get_transaction_metrics. cbv zeta.
    now rewrite sort_transactions_idem. }
  assert (A1 : get_all_metrics pow_half local_datetime str_float format_2f self
               = (Ok {| am_summary := s;
                        am_requests_info := rs;
                        am_time_series := ts;
                        am_response_time_distribution := dist;
                        am_status_code_distribution := get_status_code_distribution X;
                        am_error_distribution := get_error_distribution X;
                        am_test_duration := d;
                        am_transaction_metrics := txs |}, S2)).
  { unfold get_all_metrics. rewrite G1, Es. cbn [mbind res_bind].
    rewrite Ers. cbn [mbind res_bind]. rewrite Ets. cbn [mbind res_bind].
    rewrite Edist. cbn [mbind res_bind].
    change (_calculate_test_duration X) with (_calculate_test_duration self).
    rewrite Ed. cbn [mbind res_bind]. rewrite T1. reflexivity. }
  assert (A2 : get_all_metrics pow_half local_datetime str_float format_2f S2
               = get_all_metrics pow_half local_datetime str_float format_2f self).
  { rewrite A1. unfold get_all_metrics. rewrite G2, Es. cbn [mbind res_bind].
    change (get_requests_summary S2) with (get_requests_summary X).
    rewrite Ers. cbn [mbind res_bind].
    change (get_time_series_metrics local_datetime 1 S2)
      with (get_time_series_metrics local_datetime 1 X).
    rewrite Ets. cbn [mbind res_bind].
    change (get_response_time_distribution str_float format_2f 10 S2)
      with (get_response_time_distribution str_float format_2f 10 X).
    rewrite Edist. cbn [mbind res_bind].
    change (_calculate_test_duration S2) with (_calculate_test_duration self).
    rewrite Ed. cbn [mbind res_bind]. rewrite T2. reflexivity. }
  rewrite A1. cbn [fst snd]. do 2 eexists. split; [reflexivity|].
  split; [rewrite G1; exact Es|]. cbn [am_summary am_test_duration
    am_status_code_distribution am_error_distribution].
  rewrite F1, F2, F3. repeat split. unfold get_metrics. rewrite A2. exact A1.
Qed.

End AllMetrics.

Lemma X11_all_metrics_is_repeatable_witness :
  exists a : AllMetrics,
    (get_all_metrics (fun x => x) (fun _ => Ok "") (fun _ => "") (fun _ => "")
       two_samples).1 = Ok a
    /\ s_total_requests (am_summary a) = 2.
Proof.
  destruct (X11_all_metrics_is_repeatable (fun x => x) (fun _ => Ok "")
              (fun _ => "") (fun _ => "") two_samples)
    as (a & s & Ha & Hs & Hsum & _).
  - intros r _. now eexists.
  - exists a. split; [exact Ha|]. rewrite Hsum.
    vm_compute in Hs. injection Hs as <-. reflexivity.
Defined.

(** *** Requests per second *)

Lemma per_second_fold_spec (keep : ThroughputPoint -> bool)
    (points : list ThroughputPoint) (d : gmap Z Z) :
  map_Forall (fun _ v => 1 <= v) d ->
  let d' := fold_left (fun (d : gmap Z Z) (p : ThroughputPoint) =>
                         if keep p then incr (py_int (tp_timestamp p)) d else d)
                      points d in
  map_Forall (fun _ v => 1 <= v) d'
  /\ sum_values d' = sum_values d + len (List.filter keep points).
Proof.
  revert d. induction points as [|p ps IH]; intros d Hd; simpl.
  - split; [exact Hd|]. unfold len. simpl. lia.
  - destruct (keep p) eqn:E.
    + assert (Hd' : map_Forall (fun _ v => 1 <= v) (incr (py_int (tp_timestamp p)) d)).
      { pose proof (incr_positive (fun _ => True) (py_int (tp_timestamp p)) d I) as H.
        intros k v Hkv. apply (H (fun k v Hkv => conj I (Hd k v Hkv)) k v Hkv). }
      destruct (IH _ Hd') as [I1 I2]. split; [exact I1|].
      rewrite I2, sum_values_incr. unfold len. simpl. lia.
    + apply IH, Hd.
Qed.

Lemma fold_maxZ_spec l m :
  let r := fold_left Z.max l m in
  m <= r /\ (forall y, In y l -> y <= r) /\ (r = m \/ In r l).
Proof.
  revert m. induction l as [|x l IH]; intros m; simpl.
  - split; [lia|]. split; [tauto|now left].
  - destruct (IH (Z.max m x)) as (I1 & I2 & I3). split; [lia|]. split.
    + intros y [<-|Hy]; [lia|now apply I2].
    + destruct I3 as [I3|I3]; [|right; now right].
      rewrite I3. destruct (Z.max_spec m x) as [[_ E]|[_ E]]; rewrite E.
      * right. now left.
      * now left.
Qed.

Lemma fold_minZ_spec l m :
  let r := fold_left Z.min l m in
  r <= m /\ (forall y, In y l -> r <= y) /\ (r = m \/ In r l).
Proof.
  revert m. induction l as [|x l IH]; intros m; simpl.
  - split; [lia|]. split; [tauto|now left].
  - destruct (IH (Z.min m x)) as (I1 & I2 & I3). split; [lia|]. split.
    + intros y [<-|Hy]; [lia|now apply I2].
    + destruct I3 as [I3|I3]; [|right; now right].
      rewrite I3. destruct (Z.min_spec m x) as [[_ E]|[_ E]]; rewrite E.
      * now left.
      * right. now left.
Qed.

Lemma elem_le_sum l m :
  (forall y, In y l -> 0 <= y) -> In m l -> m <= py_sumZ l.
Proof.
  induction l as [|x l IH]; intros H Hm; [destruct Hm|].
  rewrite py_sumZ_cons.
  assert (Hl : 0 <= py_sumZ l).
  { clear -H. induction l as [|y l IH]; [unfold py_sumZ; simpl; lia|].
    rewrite py_sumZ_cons.
    assert (0 <= y) by (apply H; right; now left).
    assert (0 <= py_sumZ l).
    { apply IH. intros z [Hz|Hz]; apply H; [now left|right; now right]. }
    lia. }
  destruct Hm as [<-|Hm]; [lia|].
  assert (0 <= x) by (apply H; now left).
  assert (m <= py_sumZ l) by (apply IH; [intros y Hy; apply H; now right|exact Hm]).
  lia.
Qed.

Lemma filter_all {A} (l : list A) : List.filter (fun _ => true) l = l.
Proof. induction l as [|x l IH]; simpl; congruence. Qed.

Lemma second_stats_spec (d : gmap Z Z) :
  map_Forall (fun _ v => 1 <= v) d ->
  exists mx mn avg p95,
    second_stats d = Ok (mx, mn, avg, p95)
    /\ mn <= p95 /\ p95 <= mx /\ mx <= sum_values d
    /\ (d <> ∅ -> 1 <= mn).
Proof.
  intros Hd. unfold second_stats. case_bool_decide as He.
  - do 4 eexists. split; [reflexivity|]. subst d.
    pose proof (sum_values_empty (K := Z)) as Hz.
    split; [lia|]. split; [lia|]. split; [lia|]. intros H. now contradiction H.
  - unfold sum_values.
    assert (Hv : forall y, In y (dict_values d) -> 1 <= y).
    { intros y Hy. unfold dict_values in Hy. apply in_map_iff in Hy.
      destruct Hy as ([k v] & <- & Hkv).
      apply list_elem_of_In, elem_of_map_to_list in Hkv. apply (Hd k v Hkv). }
    destruct (dict_values_nonempty d He) as (v & vs & E). rewrite E in *.
    rewrite pydiv_len. cbn [py_maxZ py_minZ mbind res_bind].
    destruct (fold_maxZ_spec vs v) as (X1 & X2 & X3).
    destruct (fold_minZ_spec vs v) as (N1 & N2 & N3).
    set (mx := fold_left Z.max vs v) in *. set (mn := fold_left Z.min vs v) in *.
    assert (Hmx : In mx (v :: vs)) by (destruct X3 as [->|X3]; [now left|now right]).
    assert (Hmn : In mn (v :: vs)) by (destruct N3 as [->|N3]; [now left|now right]).
    assert (Hp : Permutation (py_sorted Z.leb (v :: vs)) (v :: vs))
      by apply py_sorted_perm.
    destruct (py_sorted Z.leb (v :: vs)) as [|x l] eqn:Es.
    { apply Permutation_nil in Hp. discriminate. }
    rewrite _calculate_percentile_nth by discriminate. cbn [mbind res_bind].
    do 4 eexists. split; [reflexivity|].
    assert (Hin : In (nth (Z.to_nat (percentile_index (x :: l) 95)) (x :: l) 0)
                     (v :: vs)).
    { eapply Permutation_in; [exact Hp|]. apply nth_In.
      assert (H9 : (0 <= 95)%Q) by discriminate.
      pose proof (percentile_index_range x l 95 H9) as H. unfold len in H. lia. }
    split; [destruct Hin as [<-|Hin]; [exact N1|now apply N2]|].
    split; [destruct Hin as [<-|Hin]; [exact X1|now apply X2]|].
    split.
    + apply elem_le_sum; [|exact Hmx]. intros y Hy. specialize (Hv y Hy). lia.
    + intros _. now apply Hv.
Qed.

Section PerSecond.
Variable pow_half : Q -> Q.

Lemma summary_of_per_second d self :
  exists s mx mn avg p95,
    summary_of pow_half d self = Ok s
    /\ second_stats (per_second (fun _ => true) (throughput_data (_metrics self)))
       = Ok (mx, mn, avg, p95)
    /\ s_max_rps s = mx /\ s_min_rps s = mn /\ s_p95_rps s = p95
    /\ s_total_requests s = total_requests (_metrics self).
Proof.
  unfold summary_of.
  destruct (average_rates_ok d (_metrics self)) as [[[rps srps] frps] ->].
  destruct (response_time_stats_parts pow_half (response_times (_metrics self)))
    as (avg & mn & mx & p50 & p90 & p95 & p99 & p999 & sd & -> & _).
  destruct (success_rate_of_ok (_metrics self)) as [sr ->].
  destruct (_calculate_throughput_variation_ok pow_half self) as [tv ->].
  destruct (second_stats_ok (per_second (fun _ => true) (throughput_data (_metrics self))))
    as [[[[a1 a2] a3] a4] E].
  rewrite E.
  destruct (second_max_avg_ok (per_second tp_success (throughput_data (_metrics self))))
    as [[b1 b2] ->].
  destruct (second_max_avg_ok
              (per_second (fun p => negb (tp_success p)) (throughput_data (_metrics self))))
    as [[c1 c2] ->].
  destruct (latency_stats_of_ok (latency_breakdown_samples (_metrics self))) as [ls ->].
  destruct (connection_success_rate_of_ok (connection_metrics (_metrics self))) as [cr ->].
  do 5 eexists. split; [reflexivity|]. cbn. repeat split.
Qed.

(** X12. Whatever has been called on a collector since it was created, the
    per-second request rates of its summary are ordered,
    min_rps <= p95_rps <= max_rps <= total_requests, and min_rps is at least
    1 once a request has been recorded (a second without requests is not
    counted as a second with rate 0). *)
Theorem X12_per_second_rates_ordered :
  forall (t : Q) (cs : list Call),
    let self := calls pow_half cs (init t) in
    exists s : Summary,
      (get_summary_metrics pow_half self).1 = Ok s
      /\ s_min_rps s <= s_p95_rps s
      /\ s_p95_rps s <= s_max_rps s
      /\ s_max_rps s <= s_total_requests s
      /\ (0 < s_total_requests s -> 1 <= s_min_rps s).
Proof.
  intros t cs self.
  assert (Hc : counts_ok self).
  { apply calls_keep; [apply counts_ok_call|].
    unfold counts_ok. simpl. unfold len. simpl. lia. }
  destruct Hc as (_ & _ & _ & _ & H5 & _).
  unfold get_summary_metrics.
  destruct (_calculate_test_duration_ok self) as [d ->]. cbn [fst].
  destruct (summary_of_per_second d (sort_response_times self))
    as (s & mx & mn & avg & p95 & Es & E2 & F1 & F2 & F3 & F4).
  change (throughput_data (_metrics (sort_response_times self)))
    with (throughput_data (_metrics self)) in E2.
  change (total_requests (_metrics (sort_response_times self)))
    with (total_requests (_metrics self)) in F4.
  destruct (per_second_fold_spec (fun _ => true) (throughput_data (_metrics self)) ∅)
    as [P1 P2]; [apply map_Forall_empty|].
  fold (per_second (fun _ => true) (throughput_data (_metrics self))) in P1, P2.
  destruct (second_stats_spec _ P1) as (mx' & mn' & avg' & p95' & E2' & B1 & B2 & B3 & B4).
  rewrite E2 in E2'. injection E2' as <- <- <- <-.
  pose proof (sum_values_empty (K := Z)) as Hz.
  rewrite filter_all in P2.
  exists s. split; [exact Es|]. rewrite F1, F2, F3, F4.
  split; [exact B1|]. split; [exact B2|]. split; [lia|].
  intros Hpos. apply B4.
  destruct (throughput_data (_metrics self)) as [|p ps] eqn:Et.
  - unfold len in H5. simpl in H5. lia.
  - apply per_second_all_nonempty.
Qed.

End PerSecond.

End Metrics_extras.

(** ** The load generator: thresholds, retries, phases *)

Module Load_extras.
Import Load_generator Load_statements Load_properties Load_facts.

(** Case analysis on the condition of the outermost [if] of the goal. *)
Ltac case_if E :=
  match goal with
  | |- context [if ?b then _ else _] => destruct b eqn:E; cbv beta iota
  end.

Lemma set_stop_event_same w : _stop_event w = true -> set_stop_event true w = w.
Proof. intros H. rewrite <- H. reflexivity. Qed.

(** How [_check_error_threshold] ends. *)
Lemma _check_error_threshold_cases :
  forall (cfg : TestConfig) (w : World),
  exists r,
    _check_error_threshold cfg w
    = Done r (match r with Ok true => set_stop_event true w | _ => w end)
    /\ match r with
       | Ok true => True
       | Ok false =>
           _stop_event w = false /\ is_Some (consecutive_error_threshold cfg)
       | Raise e =>
           e = no_ge /\ _stop_event w = false
           /\ consecutive_error_threshold cfg = None
       end.
Proof.
  intros cfg w.
  cbv beta iota delta [_check_error_threshold mbind M_bind gets modify mret M_ret
    raise].
  case_if Es.
  { exists (Ok true). rewrite (set_stop_event_same w Es). split; [reflexivity|exact I]. }
  case_if Et.
  { exists (Ok true). split; [reflexivity|exact I]. }
  case_if Ee.
  { exists (Ok true). split; [reflexivity|exact I]. }
  case_if Er.
  { exists (Ok true). split; [reflexivity|exact I]. }
  unfold _consecutive_error_threshold.
  destruct (consecutive_error_threshold cfg) as [threshold|]; cbv beta iota.
  - case_if Ec.
    { exists (Ok true). split; [reflexivity|exact I]. }
    case_if Ed.
    { exists (Ok true). split; [reflexivity|exact I]. }
    exists (Ok false). split; [reflexivity|]. split; [exact Es|]. now eexists.
  - exists (Raise no_ge). split; [reflexivity|]. repeat split. exact Es.
Qed.

(** [_check_error_threshold], test by test. *)
Lemma _check_error_threshold_tests (cfg : TestConfig) (w : World) :
  _check_error_threshold cfg w
  = if _stop_event w || other_threshold_reached cfg w
    then Done (Ok true) (set_stop_event true w)
    else match consecutive_error_threshold cfg with
         | None => Done (Raise no_ge) w
         | Some threshold =>
             if consecutive_reached threshold w
             then Done (Ok true) (set_stop_event true w)
             else Done (Ok false) w
         end.
Proof.
  match goal with |- _ = ?R => remember R as rhs eqn:Hrhs end.
  unfold other_threshold_reached in Hrhs.
  cbv beta iota delta [_check_error_threshold mbind M_bind gets modify mret M_ret
    raise _error_threshold _error_rate_threshold _consecutive_error_threshold].
  case_if Es.
  { assert (Es' : _stop_event w = true) by exact Es.
    try rewrite Es' in Hrhs. cbn [orb] in Hrhs. subst rhs.
    rewrite (set_stop_event_same w Es'). reflexivity. }
  assert (Es' : _stop_event w = false) by exact Es.
  try rewrite Es' in Hrhs. cbn [orb] in Hrhs.
  case_if Et.
  { assert (Et' : type_threshold_met cfg w = true) by exact Et.
    try rewrite Et' in Hrhs. cbn [orb] in Hrhs. subst rhs. reflexivity. }
  assert (Et' : type_threshold_met cfg w = false) by exact Et.
  try rewrite Et' in Hrhs. cbn [orb] in Hrhs.
  case_if Ee.
  { assert (Ee' : match error_threshold cfg with
                  | Some threshold => threshold <=? _total_errors w
                  | None => false
                  end = true) by exact Ee.
    try rewrite Ee' in Hrhs. cbn [orb] in Hrhs. subst rhs. reflexivity. }
  assert (Ee' : match error_threshold cfg with
                | Some threshold => threshold <=? _total_errors w
                | None => false
                end = false) by exact Ee.
  try rewrite Ee' in Hrhs. cbn [orb] in Hrhs.
  case_if Er.
  { assert (Er' : match error_rate_threshold cfg with
                  | Some threshold =>
                      (0 <? _completed_tasks w)
                      && Qle_bool threshold
                           (inject_Z (_total_errors w) / inject_Z (_completed_tasks w))
                  | None => false
                  end = true) by exact Er.
    try rewrite Er' in Hrhs. subst rhs. reflexivity. }
  assert (Er' : match error_rate_threshold cfg with
                | Some threshold =>
                    (0 <? _completed_tasks w)
                    && Qle_bool threshold
                         (inject_Z (_total_errors w) / inject_Z (_completed_tasks w))
                | None => false
                end = false) by exact Er.
  try rewrite Er' in Hrhs. unfold consecutive_reached in Hrhs.
  destruct (consecutive_error_threshold cfg) as [threshold|]; cbv beta iota;
    [|subst rhs; reflexivity].
  case_if Ec.
  { assert (Ec' : (threshold <=? _consecutive_errors w) = true) by exact Ec.
    try rewrite Ec' in Hrhs. cbn [orb] in Hrhs. subst rhs. reflexivity. }
  assert (Ec' : (threshold <=? _consecutive_errors w) = false) by exact Ec.
  try rewrite Ec' in Hrhs. cbn [orb] in Hrhs.
  case_if Ed.
  { assert (Ed' : (threshold <=? _consecutive_error_count w) = true) by exact Ed.
    try rewrite Ed' in Hrhs. subst rhs. reflexivity. }
  assert (Ed' : (threshold <=? _consecutive_error_count w) = false) by exact Ed.
  try rewrite Ed' in Hrhs. subst rhs. reflexivity.
Qed.

(** X13. [_check_error_threshold] always ends, in one of three ways, and
    each has its exact condition.  It returns [True], setting the stop
    event and changing nothing else, exactly when the stop event is set
    already or a threshold is reached (of a type of error, of the number
    or of the rate of errors, or the configured threshold of consecutive
    errors).  It returns [False], changing nothing, exactly when none of
    this holds and a [consecutive_error_threshold] is configured.  It
    raises [TypeError] ('>=' between an int and None), changing nothing,
    exactly when the stop event is not set, no other threshold is reached
    and [consecutive_error_threshold] is [None], its default. *)
Theorem X13_check_error_threshold_outcomes :
  forall (cfg : TestConfig) (w : World),
  exists r,
    _check_error_threshold cfg w
    = Done r (match r with Ok true => set_stop_event true w | _ => w end)
    /\ (r = Ok true <->
        _stop_event w = true \/ other_threshold_reached cfg w = true
        \/ exists threshold,
             consecutive_error_threshold cfg = Some threshold
             /\ consecutive_reached threshold w = true)
    /\ (r = Ok false <->
        _stop_event w = false /\ other_threshold_reached cfg w = false
        /\ exists threshold,
             consecutive_error_threshold cfg = Some threshold
             /\ consecutive_reached threshold w = false)
    /\ ((exists e, r = Raise e) <->
        _stop_event w = false /\ other_threshold_reached cfg w = false
        /\ consecutive_error_threshold cfg = None)
    /\ (forall e, r = Raise e -> e = no_ge).
Proof.
  intros cfg w. rewrite _check_error_threshold_tests.
  destruct (_stop_event w) eqn:Es; cbn [orb].
  { exists (Ok true). split; [reflexivity|]. split; [tauto|].
    split; [split; [discriminate|intros (H & _); discriminate]|].
    split; [split; [intros [e H]; discriminate|intros (H & _); discriminate]|].
    discriminate. }
  destruct (other_threshold_reached cfg w) eqn:Eo.
  { exists (Ok true). split; [reflexivity|]. split; [tauto|].
    split; [split; [discriminate|intros (_ & H & _); discriminate]|].
    split; [split; [intros [e H]; discriminate|intros (_ & H & _); discriminate]|].
    discriminate. }
  destruct (consecutive_error_threshold cfg) as [threshold|] eqn:Et.
  - destruct (consecutive_reached threshold w) eqn:Ec.
    + exists (Ok true). split; [reflexivity|].
      split; [split; [intros _; right; right; now exists threshold|reflexivity]|].
      split; [split; [discriminate|]|].
      { intros (_ & _ & t & Ht & Hc). congruence. }
      split; [split; [intros [e H]; discriminate|intros (_ & _ & H); discriminate]|].
      discriminate.
    + exists (Ok false). split; [reflexivity|].
      split; [split; [discriminate|]|].
      { intros [H|[H|(t & Ht & Hc)]]; congruence. }
      split; [split; [intros _; repeat split; now exists threshold|reflexivity]|].
      split; [split; [intros [e H]; discriminate|intros (_ & _ & H); discriminate]|].
      discriminate.
  - exists (Raise no_ge). split; [reflexivity|].
    split; [split; [discriminate|]|].
    { intros [H|[H|(t & Ht & Hc)]]; congruence. }
    split; [split; [discriminate|]|].
    { intros (_ & _ & t & Ht & _). discriminate. }
    split; [split; [intros _; repeat split|intros _; now eexists]|].
    intros e [= <-]. reflexivity.
Qed.

(** *** The retry executor *)

Section RetryTrace.
Variable tick : positive.
Variable cfg : TestConfig.

Lemma call_task_cases task w :
  exists w0,
    call_task tick task w = Done (returns (task (task_calls w))) w0
    /\ task_calls w0 = S (task_calls w)
    /\ (now w <= now w0)%Q.
Proof.
  unfold call_task. eexists. split; [reflexivity|].
  pose proof (steady_apply_effect tick (task (task_calls w))
                (set_task_calls (S (task_calls w)) w)) as (_ & _ & H).
  split; [|exact H]. unfold apply_effect. destruct (calls_stop _); reflexivity.
Qed.

Lemma handled_now e w : (now w <= now (handled e w))%Q.
Proof.
  unfold handled. cbn.
  destruct (safe__record_error (_classify_error_type e) (exc_str e) w)
    as (r & w' & E & (_ & _ & H)).
  unfold recorded. now rewrite E.
Qed.

(** The attempts of an execution, one by one: [k] invocations of the task,
    all but the last of which raised an error that was retried, with a
    sleep after each of them. *)
Lemma retry_attempts_trace task n attempt w :
  (0 <= retry_retry_delay cfg)%Q ->
  exists v w' k,
    retry_attempts cfg (call_task tick task) n attempt w = Done (Ok v) w'
    /\ task_calls w' = (task_calls w + k)%nat
    /\ (k <= n)%nat
    /\ (forall j, (S j < k)%nat ->
          exists e, returns (task (task_calls w + j)%nat) = Raise e
                    /\ retried cfg (attempt + Z.of_nat j) e = true)
    /\ (now w + slept cfg attempt (k - 1) <= now w')%Q
    /\ match k with
       | O => v = VNone /\ n = 0%nat
       | S k' =>
           match returns (task (task_calls w + k')%nat) with
           | Ok r =>
               v = wrap_result r
               /\ _consecutive_errors w' = 0 /\ _consecutive_error_count w' = 0
           | Raise e =>
               v = VNone /\ (retried cfg (attempt + Z.of_nat k') e = false \/ k = n)
           end
       end.
Proof.
  intros Hd. revert attempt w. induction n as [|n IH]; intros attempt w.
  - exists VNone, w, 0%nat. split; [reflexivity|]. split; [lia|]. split; [lia|].
    split; [intros j Hj; lia|]. split; [cbn; lra|]. now split.
  - rewrite retry_attempts_step.
    destruct (call_task_cases task w) as (w0 & -> & Hc & Ht).
    destruct (returns (task (task_calls w))) as [r|e] eqn:Er.
    + exists (wrap_result r), (set_consecutive_errors 0 (set_consecutive_error_count 0 w0)),
        1%nat.
      split; [reflexivity|].
      split; [change (task_calls w0 = (task_calls w + 1)%nat); lia|].
      split; [lia|]. split; [intros j Hj; lia|].
      split; [change (now w + 0 <= now w0)%Q; lra|].
      rewrite Nat.add_0_r, Er. repeat split.
    + rewrite retry_handler_cases.
      pose proof (handled_now e w0) as Hh.
      assert (Hcalls : task_calls (handled e w0) = S (task_calls w)).
      { rewrite handled_task_calls. exact Hc. }
      destruct (retried cfg attempt e) eqn:Eretry.
      * rewrite (retry_delay_nonneg cfg attempt Hd).
        set (w2 := set_now _ (handled e w0)).
        assert (Hw2 : task_calls w2 = S (task_calls w)) by exact Hcalls.
        assert (Hn2 : (now w + retry_delay_of cfg attempt <= now w2)%Q).
        { change (now w + retry_delay_of cfg attempt
                  <= now (handled e w0) + retry_delay_of cfg attempt)%Q. lra. }
        destruct (IH (attempt + 1) w2) as (v & w' & k & -> & Hk & Hle & Hall & Hnow & Hlast).
        exists v, w', (S k). split; [reflexivity|].
        split; [lia|]. split; [lia|]. split; [|split].
        -- intros [|j] Hj.
           ++ exists e. rewrite Nat.add_0_r, Z.add_0_r. now split.
           ++ destruct (Hall j) as (e' & He' & Hr'); [lia|]. exists e'.
              rewrite Hw2 in He'.
              replace (task_calls w + S j)%nat with (S (task_calls w) + j)%nat by lia.
              split; [exact He'|].
              replace (attempt + Z.of_nat (S j)) with (attempt + 1 + Z.of_nat j) by lia.
              exact Hr'.
        -- destruct k as [|k].
           ++ cbn [slept Nat.sub] in *. unfold retry_delay_of in Hn2.
              assert (0 <= retry_retry_delay cfg * 2 ^ attempt)%Q.
              { apply Qmult_le_0_compat; [exact Hd|]. apply Qpower_0_le. discriminate. }
              lra.
           ++ replace (S (S k) - 1)%nat with (S k) by lia.
              replace (S k - 1)%nat with k in Hnow by lia.
              cbn [slept]. unfold retry_delay_of in Hn2. lra.
        -- destruct k as [|k].
           ++ destruct Hlast as [-> ->]. rewrite Nat.add_0_r, Er. split; [reflexivity|].
              now right.
           ++ rewrite Hw2 in Hlast.
              replace (task_calls w + S k)%nat with (S (task_calls w) + k)%nat by lia.
              destruct (returns (task (S (task_calls w) + k)%nat)) as [r|e'].
              ** exact Hlast.
              ** destruct Hlast as [-> Hlast]. split; [reflexivity|].
                 replace (attempt + Z.of_nat (S k)) with (attempt + 1 + Z.of_nat k) by lia.
                 destruct Hlast as [Hlast|Hlast]; [now left|right; lia].
      * exists VNone, (handled e w0), 1%nat. split; [reflexivity|].
        split; [lia|]. split; [lia|]. split; [intros j Hj; lia|].
        split; [cbn [slept Nat.sub]; lra|].
        rewrite Nat.add_0_r, Er. split; [reflexivity|]. left.
        now rewrite Z.add_0_r.
Qed.

Lemma slept_closed attempt retries :
  0 <= attempt ->
  (slept cfg attempt retries
   == retry_retry_delay cfg * 2 ^ attempt * (2 ^ Z.of_nat retries - 1))%Q.
Proof.
  revert attempt. induction retries as [|r IH]; intros attempt Ha.
  - cbn [slept]. change (2 ^ Z.of_nat 0)%Q with 1%Q. ring.
  - cbn [slept]. rewrite (IH (attempt + 1)) by lia.
    rewrite Nat2Z.inj_succ, <- Z.add_1_r.
    rewrite !Qpower_plus by discriminate.
    change (2 ^ 1)%Q with 2%Q. ring.
Qed.
End RetryTrace.

(** X14. [_execute_with_retry] (with a retry delay that is not negative)
    invokes the task at most [max_retries + 1] times and returns; every
    invocation but the last raised an error that is retryable (its type is
    in [retryable_errors], or it is a timeout).  When the last invocation
    returns, the execution returns its value, made a successful result
    (also when the task returned a dict with ['success'] false); when it
    raises, the execution returns [None], and then the error is not
    retryable or the invocation was the last one allowed. *)
Theorem X14_retry_stops_at_first_return :
  forall (tick : positive) (cfg : TestConfig) (task : UserFn) (w : World),
    (0 <= retry_retry_delay cfg)%Q ->
    exists v w' k,
      _execute_with_retry cfg (call_task tick task) w = Done (Ok v) w'
      /\ task_calls w' = (task_calls w + k)%nat
      /\ (k <= Z.to_nat (retry_max_retries cfg + 1))%nat
      /\ (forall j, (S j < k)%nat ->
            exists e, returns (task (task_calls w + j)%nat) = Raise e
                      /\ retryable cfg e = true)
      /\ match k with
         | O => v = VNone /\ retry_max_retries cfg < 0
         | S k' =>
             match returns (task (task_calls w + k')%nat) with
             | Ok r => v = wrap_result r /\ get_success v = Ok true
             | Raise e =>
                 v = VNone
                 /\ (retryable cfg e = false \/ Z.of_nat k' = retry_max_retries cfg)
             end
         end.
Proof.
  intros tick cfg task w Hd. unfold _execute_with_retry.
  set (w1 := set_consecutive_errors 0 (set_consecutive_error_count 0 w)).
  destruct (retry_attempts_trace tick cfg task
              (Z.to_nat (retry_max_retries cfg + 1)) 0 w1 Hd)
    as (v & w' & k & Hrun & Hcalls & Hle & Hall & _ & Hlast).
  change (task_calls w1) with (task_calls w) in *.
  exists v, w', k. split; [exact Hrun|]. split; [exact Hcalls|]. split; [exact Hle|].
  split.
  - intros j Hj. destruct (Hall j Hj) as (e & He & Hr). exists e. split; [exact He|].
    unfold retried in Hr. apply andb_true_iff in Hr as [Hr _]. exact Hr.
  - destruct k as [|k'].
    + destruct Hlast as [-> Hn]. split; [reflexivity|lia].
    + destruct (returns (task (task_calls w + k')%nat)) as [r|e].
      * destruct Hlast as (-> & _ & _). split; [reflexivity|apply wrap_result_success].
      * destruct Hlast as [-> Hlast]. split; [reflexivity|].
        destruct Hlast as [Hlast|Hlast]; [|right; lia].
        unfold retried in Hlast. apply andb_false_iff in Hlast as [Hlast|Hlast].
        -- left. exact Hlast.
        -- right. apply Z.ltb_ge in Hlast. lia.
Qed.

Lemma X14_retry_stops_at_first_return_witness :
  exists v w' k,
    _execute_with_retry one_retry_config (call_task 1000 refused) (__init__ 0)
    = Done (Ok v) w'
    /\ task_calls w' = (task_calls (__init__ 0) + k)%nat
    /\ (k <= Z.to_nat (retry_max_retries one_retry_config + 1))%nat
    /\ (forall j, (S j < k)%nat ->
          exists e, returns (refused (task_calls (__init__ 0) + j)%nat) = Raise e
                    /\ retryable one_retry_config e = true)
    /\ match k with
       | O => v = VNone /\ retry_max_retries one_retry_config < 0
       | S k' =>
           match returns (refused (task_calls (__init__ 0) + k')%nat) with
           | Ok r => v = wrap_result r /\ get_success v = Ok true
           | Raise e =>
               v = VNone
               /\ (retryable one_retry_config e = false
                   \/ Z.of_nat k' = retry_max_retries one_retry_config)
           end
       end.
Proof.
  apply (X14_retry_stops_at_first_return 1000 one_retry_config refused (__init__ 0)).
  discriminate.
Defined.

(** X15. The waits of [_execute_with_retry] double from one retry to the
    next: an execution that invoked the task [k] times has slept
    [retry_delay * (2 ^ (k - 1) - 1)] seconds in all, so it ends no sooner
    than that after it started. *)
Theorem X15_retries_back_off_exponentially :
  forall (tick : positive) (cfg : TestConfig) (task : UserFn) (w : World),
    (0 <= retry_retry_delay cfg)%Q ->
    exists r w',
      _execute_with_retry cfg (call_task tick task) w = Done r w'
      /\ (task_calls w <= task_calls w')%nat
      /\ (now w
          + retry_retry_delay cfg
            * (2 ^ Z.of_nat (task_calls w' - task_calls w - 1) - 1)
          <= now w')%Q.
Proof.
  intros tick cfg task w Hd. unfold _execute_with_retry.
  set (w1 := set_consecutive_errors 0 (set_consecutive_error_count 0 w)).
  destruct (retry_attempts_trace tick cfg task
              (Z.to_nat (retry_max_retries cfg + 1)) 0 w1 Hd)
    as (v & w' & k & Hrun & Hcalls & _ & _ & Hnow & _).
  change (task_calls w1) with (task_calls w) in *.
  change (now w1) with (now w) in *.
  exists (Ok v), w'. split; [exact Hrun|]. split; [lia|].
  replace (task_calls w' - task_calls w - 1)%nat with (k - 1)%nat by lia.
  rewrite (slept_closed cfg 0 (k - 1)) in Hnow by lia.
  change (2 ^ 0)%Q with 1%Q in Hnow. lra.
Qed.

Lemma X15_retries_back_off_exponentially_witness :
  exists r w',
    _execute_with_retry one_retry_config (call_task 1000 refused) (__init__ 0)
    = Done r w'
    /\ (task_calls (__init__ 0) <= task_calls w')%nat
    /\ (now (__init__ 0)
        + retry_retry_delay one_retry_config
          * (2 ^ Z.of_nat (task_calls w' - task_calls (__init__ 0) - 1) - 1)
        <= now w')%Q.
Proof.
  apply (X15_retries_back_off_exponentially 1000 one_retry_config refused (__init__ 0)).
  discriminate.
Defined.

(** X16. With a negative [retry_delay], an attempt that fails with a
    retryable error while a retry is left makes [_execute_with_retry]
    raise [ValueError] (from [time.sleep]) instead of retrying: the task
    has been invoked once and is not invoked again. *)
Theorem X16_negative_retry_delay_raises :
  forall (tick : positive) (cfg : TestConfig) (task : UserFn) (w : World)
         (e : PyExc),
    (retry_retry_delay cfg < 0)%Q ->
    1 <= retry_max_retries cfg ->
    returns (task (task_calls w)) = Raise e ->
    retryable cfg e = true ->
    exists w',
      _execute_with_retry cfg (call_task tick task) w
      = Done (Raise (ValueError "sleep length must be non-negative")) w'
      /\ task_calls w' = S (task_calls w).
Proof.
  intros tick cfg task w e Hd Hm He Hr. unfold _execute_with_retry.
  set (w1 := set_consecutive_errors 0 (set_consecutive_error_count 0 w)).
  change ((modify (set_consecutive_error_count 0);;
           modify (set_consecutive_errors 0);;
           retry_attempts cfg (call_task tick task)
             (Z.to_nat (retry_max_retries cfg + 1)) 0) w)
    with (retry_attempts cfg (call_task tick task)
            (Z.to_nat (retry_max_retries cfg + 1)) 0 w1).
  destruct (Z.to_nat (retry_max_retries cfg + 1)) as [|n] eqn:En; [lia|].
  rewrite retry_attempts_step.
  destruct (call_task_cases tick task w1) as (w0 & -> & Hc & _).
  change (task_calls w1) with (task_calls w) in *. rewrite He.
  rewrite retry_handler_cases.
  assert (Hretried : retried cfg 0 e = true).
  { unfold retried. apply andb_true_iff. split; [exact Hr|]. apply Z.ltb_lt. lia. }
  rewrite Hretried.
  assert (Hneg : Qltb (retry_delay_of cfg 0) 0 = true).
  { unfold Qltb, retry_delay_of. apply negb_true_iff.
    destruct (Qle_bool 0 (retry_retry_delay cfg * 2 ^ 0)) eqn:E; [|reflexivity].
    apply Qle_bool_iff in E. change (2 ^ 0)%Q with 1%Q in E. lra. }
  rewrite Hneg. eexists. split; [reflexivity|].
  rewrite handled_task_calls. exact Hc.
Qed.

Lemma X16_negative_retry_delay_raises_witness :
  exists w',
    _execute_with_retry negative_delay_config (call_task 1000 refused) (__init__ 0)
    = Done (Raise (ValueError "sleep length must be non-negative")) w'
    /\ task_calls w' = S (task_calls (__init__ 0)).
Proof.
  apply (X16_negative_retry_delay_raises 1000 negative_delay_config refused
           (__init__ 0) connection_refused).
  - reflexivity.
  - vm_compute. discriminate.
  - reflexivity.
  - reflexivity.
Defined.

(** *** What a computation keeps *)

Lemma quiet_refl w : quiet w w.
Proof. repeat split. lia. Qed.

Lemma quiet_trans w1 w2 w3 : quiet w1 w2 -> quiet w2 w3 -> quiet w1 w3.
Proof.
  intros (A1 & B1 & C1 & D1) (A2 & B2 & C2 & D2). repeat split; try congruence. lia.
Qed.

Section Keeps.
Variable R : World -> World -> Prop.
Hypothesis R_refl : forall w, R w w.
Hypothesis R_trans : forall w1 w2 w3, R w1 w2 -> R w2 w3 -> R w1 w3.

Lemma keeps_ret {A} (a : A) : keeps R (mret a).
Proof. intros w r w' [= <- <-]. apply R_refl. Qed.

Lemma keeps_raise {A} e : keeps R (@raise A e).
Proof. intros w r w' [= <- <-]. apply R_refl. Qed.

Lemma keeps_lift {A} (x : Res A) : keeps R (lift x).
Proof. intros w r w' [= <- <-]. apply R_refl. Qed.

Lemma keeps_gets {A} (f : World -> A) : keeps R (gets f).
Proof. intros w r w' [= <- <-]. apply R_refl. Qed.

Lemma keeps_modify (f : World -> World) : (forall w, R w (f w)) -> keeps R (modify f).
Proof. intros H w r w' [= <- <-]. apply H. Qed.

Lemma keeps_bind {A B} (m : M A) (k : A -> M B) :
  keeps R m -> (forall a, keeps R (k a)) -> keeps R (m ≫= k).
Proof.
  intros Hm Hk w r w' H.
  apply bind_inv in H as [(a & w1 & H1 & H2)|(e & H1 & _)].
  - eapply R_trans; [exact (Hm _ _ _ H1)|exact (Hk _ _ _ _ H2)].
  - exact (Hm _ _ _ H1).
Qed.

Lemma keeps_try_except {A} (m : M A) (h : PyExc -> M A) :
  keeps R m -> (forall e, keeps R (h e)) -> keeps R (try_except m h).
Proof.
  intros Hm Hh w r w'. unfold try_except.
  destruct (m w) as [[a|e] w1|] eqn:E; [| |discriminate].
  - intros [= <- <-]. exact (Hm _ _ _ E).
  - intros H. eapply R_trans; [exact (Hm _ _ _ E)|exact (Hh _ _ _ _ H)].
Qed.

Lemma keeps_for_each {A B} (l : list A) (body : A -> M (Flow B)) :
  (forall x, keeps R (body x)) -> keeps R (for_each l body).
Proof.
  intros Hb. induction l as [|x l IH]; cbn [for_each]; [apply keeps_ret|].
  apply keeps_bind; [apply Hb|]. intros [| |r]; [exact IH|apply keeps_ret..].
Qed.

Lemma keeps_submit (m : M PyVal) : keeps R m -> keeps R (submit m).
Proof.
  intros Hm w r w'. unfold submit.
  destruct (m w) as [x w1|] eqn:E; [|discriminate].
  intros [= <- <-]. exact (Hm _ _ _ E).
Qed.

Lemma keeps_while_fuel {B} fuel (cond : M bool) (body : M (Flow B)) :
  keeps R cond -> keeps R body -> keeps R (while_fuel fuel cond body).
Proof.
  intros Hc Hb. induction fuel as [|fuel IH]; cbn [while_fuel].
  - intros w r w'. discriminate.
  - apply keeps_bind; [exact Hc|]. intros [|]; [|apply keeps_ret].
    apply keeps_bind; [exact Hb|]. intros [| |r]; [exact IH|apply keeps_ret..].
Qed.

Lemma keeps_while_until {B} tick deadline (cond : M bool) (body : M (Flow B)) :
  keeps R cond -> keeps R body -> keeps R (while_until tick deadline cond body).
Proof.
  intros Hc Hb w r w'. unfold while_until.
  apply (keeps_while_fuel _ cond body Hc Hb).
Qed.
End Keeps.

(** A step of a proof that a computation is quiet; [leaf] proves that a
    store update is. *)
Ltac quiet_leaf :=
  let w := fresh "w" in
  intros w; destruct w; repeat split; cbn; first [reflexivity|lia].

Ltac keeps_step :=
  lazymatch goal with
  | |- keeps _ (mbind _ _) =>
      apply (keeps_bind _ quiet_trans); [|intros ?]
  | |- keeps _ (mret _) => apply (keeps_ret _ quiet_refl)
  | |- keeps _ (raise _) => apply (keeps_raise _ quiet_refl)
  | |- keeps _ (unbound_name _) => apply (keeps_raise _ quiet_refl)
  | |- keeps _ (lift _) => apply (keeps_lift _ quiet_refl)
  | |- keeps _ (gets _) => apply (keeps_gets _ quiet_refl)
  | |- keeps _ (modify _) => apply keeps_modify; quiet_leaf
  | |- keeps _ (try_except _ _) =>
      apply (keeps_try_except _ quiet_trans); [|intros ?]
  | |- keeps _ (for_each _ _) =>
      apply (keeps_for_each _ quiet_refl quiet_trans); intros ?
  | |- keeps _ (submit _) => apply keeps_submit
  | |- keeps _ (while_until _ _ _ _) =>
      apply (keeps_while_until _ quiet_refl quiet_trans)
  | |- keeps _ (if ?b then _ else _) => destruct b
  | |- keeps _ (match ?x with _ => _ end) => destruct x
  | |- _ => solve [auto with quiet]
  end.

Ltac keeps_tac := cbv zeta; repeat (keeps_step; cbv beta zeta).

Create HintDb quiet discriminated.

Section QuietParts.
Variable tick : positive.
Variable cfg : TestConfig.

Lemma quiet_apply_effect eff w : quiet w (apply_effect tick eff w).
Proof.
  unfold apply_effect. destruct (calls_stop eff); destruct w; repeat split; cbn; first [reflexivity|lia].
Qed.

Lemma quiet_time_time : keeps quiet (time_time tick).
Proof. intros w r w' [= <- <-]. destruct w; repeat split; cbn; first [reflexivity|lia]. Qed.

Lemma quiet_time_sleep d : keeps quiet (time_sleep d).
Proof. unfold time_sleep. keeps_tac. Qed.

Lemma quiet_stop : keeps quiet stop.
Proof. unfold stop. keeps_tac. Qed.

Lemma quiet_call_before f : keeps quiet (call_before tick f).
Proof.
  intros w r w' [= <- <-].
  eapply quiet_trans; [|apply quiet_apply_effect]. destruct w; repeat split; cbn; first [reflexivity|lia].
Qed.

Lemma quiet_call_task f : keeps quiet (call_task tick f).
Proof.
  intros w r w' [= <- <-].
  eapply quiet_trans; [|apply quiet_apply_effect]. destruct w; repeat split; cbn; first [reflexivity|lia].
Qed.

Lemma quiet_call_after f : keeps quiet (call_after tick f).
Proof.
  intros w r w' [= <- <-].
  eapply quiet_trans; [|apply quiet_apply_effect]. destruct w; repeat split; cbn; first [reflexivity|lia].
Qed.

Lemma quiet_run_callback cb v : keeps quiet (run_callback tick cb v).
Proof.
  destruct cb as [cb|]; [|apply (keeps_ret _ quiet_refl)].
  intros w r w' [= <- <-].
  eapply quiet_trans; [|apply quiet_apply_effect]. destruct w; repeat split; cbn; first [reflexivity|lia].
Qed.

Lemma quiet_attr {T} name (field : option T) : keeps quiet (attr cfg name field).
Proof. unfold attr. keeps_tac. Qed.

Lemma quiet_ThreadPoolExecutor n : keeps quiet (ThreadPoolExecutor n).
Proof. unfold ThreadPoolExecutor. keeps_tac. Qed.

Lemma quiet_future_result fut : keeps quiet (future_result fut).
Proof. apply (keeps_lift _ quiet_refl). Qed.

Lemma quiet_future_result_timeout fut t : keeps quiet (future_result_timeout fut t).
Proof. unfold future_result_timeout. keeps_tac. Qed.

Lemma quiet__record_error ty msg : keeps quiet (_record_error ty msg).
Proof. unfold _record_error. keeps_tac. Qed.

Lemma quiet__check_error_threshold : keeps quiet (_check_error_threshold cfg).
Proof. unfold _check_error_threshold. keeps_tac. Qed.
End QuietParts.

#[export] Hint Resolve quiet_time_time quiet_time_sleep quiet_stop quiet_call_before
  quiet_call_task quiet_call_after quiet_run_callback quiet_attr
  quiet_ThreadPoolExecutor quiet_future_result quiet_future_result_timeout
  quiet__record_error quiet__check_error_threshold : quiet.

Section QuietLoads.
Variable tick : positive.
Variable cfg : TestConfig.

Lemma quiet_must_stop b : keeps quiet (must_stop cfg b).
Proof. unfold must_stop. keeps_tac. Qed.

Lemma quiet_rate a b : keeps quiet (rate a b).
Proof. unfold rate. keeps_tac. Qed.

Lemma quiet_pace a b : keeps quiet (pace tick a b).
Proof. unfold pace. keeps_tac. Qed.

Lemma quiet_before_deadline t : keeps quiet (before_deadline tick t).
Proof. unfold before_deadline. keeps_tac. Qed.

Lemma quiet__check_stability_threshold r :
  keeps quiet (_check_stability_threshold cfg r).
Proof. unfold _check_stability_threshold. keeps_tac. Qed.

Lemma quiet_retry_handler attempt e : keeps quiet (retry_handler cfg attempt e).
Proof. unfold retry_handler. keeps_tac. Qed.

Lemma quiet_retry_attempts (m : M PyVal) n attempt :
  keeps quiet m -> keeps quiet (retry_attempts cfg m n attempt).
Proof.
  intros Hm. revert attempt. induction n as [|n IH]; intros attempt;
    cbn [retry_attempts]; [apply (keeps_ret _ quiet_refl)|].
  apply (keeps_bind _ quiet_trans).
  - apply (keeps_try_except _ quiet_trans); [|intros e; apply quiet_retry_handler].
    keeps_tac.
  - intros [| |r]; [apply IH|apply (keeps_ret _ quiet_refl)..].
Qed.

Lemma quiet__execute_with_retry (m : M PyVal) :
  keeps quiet m -> keeps quiet (_execute_with_retry cfg m).
Proof.
  intros Hm. unfold _execute_with_retry.
  apply (keeps_bind _ quiet_trans); [keeps_tac|intros _].
  apply (keeps_bind _ quiet_trans); [keeps_tac|intros _].
  now apply quiet_retry_attempts.
Qed.
End QuietLoads.

#[export] Hint Resolve quiet_must_stop quiet_rate quiet_pace quiet_before_deadline
  quiet__check_stability_threshold quiet_retry_handler quiet__execute_with_retry
  : quiet.

Lemma quiet_submit (m : M PyVal) : keeps quiet m -> keeps quiet (submit m).
Proof. apply keeps_submit. Qed.

#[export] Hint Resolve quiet_submit : quiet.

Section QuietPhases.
Variable tick : positive.
Variable cfg : TestConfig.

Lemma quiet__execute_before_tasks f : keeps quiet (_execute_before_tasks tick cfg f).
Proof. unfold _execute_before_tasks. keeps_tac. Qed.

Lemma quiet__execute_after_tasks f : keeps quiet (_execute_after_tasks tick cfg f).
Proof. unfold _execute_after_tasks. keeps_tac. Qed.

Lemma quiet_generate_load_finally f : keeps quiet (generate_load_finally tick cfg f).
Proof.
  unfold generate_load_finally. keeps_tac; apply quiet__execute_after_tasks.
Qed.
End QuietPhases.

#[export] Hint Resolve quiet__execute_before_tasks quiet__execute_after_tasks
  quiet_generate_load_finally : quiet.

(** *** Preconditions and postconditions *)

Lemma hoare_weaken {A} (P P' : World -> Prop) (m : M A)
    (Q Q' : Res A -> World -> Prop) :
  hoare P' m Q' -> (forall w, P w -> P' w) -> (forall r w, Q' r w -> Q r w) ->
  hoare P m Q.
Proof. intros H HP HQ w r w' Hw E. apply HQ. exact (H w r w' (HP w Hw) E). Qed.

Lemma hoare_false {A} (m : M A) (Q : Res A -> World -> Prop) :
  hoare (fun _ => False) m Q.
Proof. intros w r w' []. Qed.

Lemma hoare_ret {A} (P : World -> Prop) (a : A) (Q : Res A -> World -> Prop) :
  (forall w, P w -> Q (Ok a) w) -> hoare P (mret a) Q.
Proof. intros H w r w' Hw [= <- <-]. now apply H. Qed.

Lemma hoare_raise {A} (P : World -> Prop) e (Q : Res A -> World -> Prop) :
  (forall w, P w -> Q (Raise e) w) -> hoare P (raise e) Q.
Proof. intros H w r w' Hw [= <- <-]. now apply H. Qed.

Lemma hoare_modify (P : World -> Prop) (f : World -> World)
    (Q : Res unit -> World -> Prop) :
  (forall w, P w -> Q (Ok tt) (f w)) -> hoare P (modify f) Q.
Proof. intros H w r w' Hw [= <- <-]. now apply H. Qed.

Lemma hoare_gets {A} (P : World -> Prop) (f : World -> A)
    (Q : Res A -> World -> Prop) :
  (forall w, P w -> Q (Ok (f w)) w) -> hoare P (gets f) Q.
Proof. intros H w r w' Hw [= <- <-]. now apply H. Qed.

Lemma hoare_bind {A B} (P : World -> Prop) (m : M A) (k : A -> M B)
    (Q1 : Res A -> World -> Prop) (Q : Res B -> World -> Prop) :
  hoare P m Q1 ->
  (forall a, hoare (Q1 (Ok a)) (k a) Q) ->
  (forall e w, Q1 (Raise e) w -> Q (Raise e) w) ->
  hoare P (m ≫= k) Q.
Proof.
  intros Hm Hk He w r w' Hw E.
  apply bind_inv in E as [(a & w1 & E1 & E2)|(e & E1 & ->)].
  - exact (Hk a w1 r w' (Hm w _ w1 Hw E1) E2).
  - apply He. exact (Hm w _ w' Hw E1).
Qed.

Lemma hoare_try_except {A} (P : World -> Prop) (m : M A) (h : PyExc -> M A)
    (Q1 Q : Res A -> World -> Prop) :
  hoare P m Q1 ->
  (forall a w, Q1 (Ok a) w -> Q (Ok a) w) ->
  (forall e, hoare (Q1 (Raise e)) (h e) Q) ->
  hoare P (try_except m h) Q.
Proof.
  intros Hm Ha Hh w r w' Hw. unfold try_except.
  destruct (m w) as [[a|e] w1|] eqn:E; [| |discriminate].
  - intros [= <- <-]. apply Ha. exact (Hm w _ w1 Hw E).
  - intros E2. exact (Hh e w1 r w' (Hm w _ w1 Hw E) E2).
Qed.

Lemma hoare_while_fuel {B} (I J : World -> Prop) fuel (cond : M bool)
    (body : M (Flow B)) :
  inv I cond -> hoare I body (flow_post I J) -> (forall w, I w -> J w) ->
  hoare I (while_fuel fuel cond body) (fun _ => J).
Proof.
  intros Hc Hb HIJ. induction fuel as [|fuel IH]; cbn [while_fuel].
  - intros w r w' _. discriminate.
  - apply (hoare_bind _ _ _ (fun _ => I)); [exact Hc| |intros e w; apply HIJ].
    intros [|]; [|apply hoare_ret; intros w; apply HIJ].
    apply (hoare_bind _ _ _ (flow_post I J)); [exact Hb| |intros e w H; exact H].
    intros [| |r]; [exact IH|apply hoare_ret; intros w H; exact H..].
Qed.

Lemma hoare_while_until {B} (I J : World -> Prop) tick deadline (cond : M bool)
    (body : M (Flow B)) :
  inv I cond -> hoare I body (flow_post I J) -> (forall w, I w -> J w) ->
  hoare I (while_until tick deadline cond body) (fun _ => J).
Proof.
  intros Hc Hb HIJ w r w'. unfold while_until.
  apply (hoare_while_fuel I J _ cond body Hc Hb HIJ).
Qed.

Section Inv.
Variable I : World -> Prop.

Lemma inv_ret {A} (a : A) : inv I (mret a).
Proof. apply hoare_ret. auto. Qed.

Lemma inv_raise {A} e : inv I (@raise A e).
Proof. apply hoare_raise. auto. Qed.

Lemma inv_lift {A} (x : Res A) : inv I (lift x).
Proof. intros w r w' H [= <- <-]. exact H. Qed.

Lemma inv_gets {A} (f : World -> A) : inv I (gets f).
Proof. apply hoare_gets. auto. Qed.

Lemma inv_modify (f : World -> World) : (forall w, I w -> I (f w)) -> inv I (modify f).
Proof. intros H. apply hoare_modify. exact H. Qed.

Lemma inv_bind {A B} (m : M A) (k : A -> M B) :
  inv I m -> (forall a, inv I (k a)) -> inv I (m ≫= k).
Proof. intros Hm Hk. apply (hoare_bind _ _ _ (fun _ => I)); auto. Qed.

(** Two store updates in a row, the first of which breaks the invariant
    that the second restores. *)
Lemma inv_fuse {A} (f g : World -> World) (k : M A) :
  inv I (modify (fun w => g (f w));; k) -> inv I (modify f;; modify g;; k).
Proof. intros H w r w' Hw E. exact (H w r w' Hw E). Qed.

Lemma inv_try_except {A} (m : M A) (h : PyExc -> M A) :
  inv I m -> (forall e, inv I (h e)) -> inv I (try_except m h).
Proof. intros Hm Hh. apply (hoare_try_except _ _ _ (fun _ => I)); auto. Qed.

Lemma inv_for_each {A B} (l : list A) (body : A -> M (Flow B)) :
  (forall x, inv I (body x)) -> inv I (for_each l body).
Proof.
  intros Hb. induction l as [|x l IH]; cbn [for_each]; [apply inv_ret|].
  apply inv_bind; [apply Hb|]. intros [| |r]; [exact IH|apply inv_ret..].
Qed.

Lemma inv_submit (m : M PyVal) : inv I m -> inv I (submit m).
Proof.
  intros Hm w r w' Hw. unfold submit.
  destruct (m w) as [x w1|] eqn:E; [|discriminate].
  intros [= <- <-]. exact (Hm w x w1 Hw E).
Qed.

Lemma inv_while_until {B} tick deadline (cond : M bool) (body : M (Flow B)) :
  inv I cond -> inv I body -> inv I (while_until tick deadline cond body).
Proof.
  intros Hc Hb. apply (hoare_while_until I I); [exact Hc| |auto].
  eapply hoare_weaken; [exact Hb|auto|]. intros [[| |]|] w H; exact H.
Qed.

Lemma keeps_inv {A} (m : M A) : counting I -> keeps quiet m -> inv I m.
Proof. intros HI Hm w r w' Hw E. exact (HI w w' (Hm w r w' E) Hw). Qed.

Lemma inv_post {A} (m : M A) (Q : Res A -> World -> Prop) :
  inv I m -> (forall r w, I w -> Q r w) -> hoare I m Q.
Proof. intros Hm HQ w r w' Hw E. apply HQ. exact (Hm w r w' Hw E). Qed.

(** The head of a computation keeps the invariant; what it returns does
    not matter to the rest. *)
Lemma hoare_bind_inv {A B} (m : M A) (k : A -> M B) (Q : Res B -> World -> Prop) :
  inv I m -> (forall a, hoare I (k a) Q) -> (forall e w, I w -> Q (Raise e) w) ->
  hoare I (m ≫= k) Q.
Proof. intros Hm Hk He. apply (hoare_bind _ _ _ (fun _ => I)); auto. Qed.
End Inv.

(** A step of a proof that a computation keeps the invariant, which only
    depends on what [quiet] speaks of ([HI]); [leaf] proves that a store
    update keeps it. *)
Ltac inv_step HI leaf :=
  lazymatch goal with
  | |- inv _ (modify _ ≫= _) =>
      first [ apply inv_bind; [apply inv_modify; leaf|intros ?]
            | apply inv_fuse ]
  | |- inv _ (count_completed ≫= _) => unfold count_completed at 1
  | |- inv _ (reset_errors ≫= _) => unfold reset_errors at 1
  | |- inv _ count_completed => unfold count_completed
  | |- inv _ reset_errors => unfold reset_errors
  | |- inv _ (mbind _ _) => apply inv_bind; [|intros ?]
  | |- inv _ (mret _) => apply inv_ret
  | |- inv _ (raise _) => apply inv_raise
  | |- inv _ (unbound_name _) => apply inv_raise
  | |- inv _ (lift _) => apply inv_lift
  | |- inv _ (gets _) => apply inv_gets
  | |- inv _ (modify _) => apply inv_modify; leaf
  | |- inv _ (try_except _ _) => apply inv_try_except; [|intros ?]
  | |- inv _ (for_each _ _) => apply inv_for_each; intros ?
  | |- inv _ (submit _) => apply inv_submit
  | |- inv _ (while_until _ _ _ _) => apply inv_while_until
  | |- inv _ (if ?b then _ else _) => destruct b
  | |- inv _ (match ?x with _ => _ end) => destruct x
  | |- _ => solve [apply (keeps_inv _ _ HI); auto with quiet]
  end.

Ltac inv_tac HI leaf := cbv zeta; repeat (inv_step HI leaf; cbv beta zeta).

(** The head of a computation keeps the invariant: on with the rest. *)
Ltac peel HI leaf :=
  apply hoare_bind_inv; [inv_tac HI leaf|intros ?|intros; exact Logic.I];
  cbv beta zeta.

(** *** The run always ends *)

Lemma safe_ends {A} (m : M A) : safe m -> ends m.
Proof. intros H w. destruct (H w) as (r & w' & E & _). eauto. Qed.

Lemma ends_bind {A B} (m : M A) (k : A -> M B) :
  ends m -> (forall a, ends (k a)) -> ends (m ≫= k).
Proof.
  intros Hm Hk w. destruct (Hm w) as ([a|e] & w1 & E); unfold mbind, M_bind; rewrite E.
  - apply Hk.
  - eauto.
Qed.

Lemma hoare_try_finally {A} (P : World -> Prop) (m : M A) (fin : M unit)
    (Q1 Q : Res A -> World -> Prop) :
  hoare P m Q1 ->
  (forall r, hoare (Q1 r) fin
               (fun r' w => match r' with Ok _ => Q r w | Raise e => Q (Raise e) w end)) ->
  hoare P (try_finally m fin) Q.
Proof.
  intros Hm Hf w r w' Hw. unfold try_finally.
  destruct (m w) as [r1 w1|] eqn:E; [|discriminate].
  destruct (fin w1) as [[[]|e] w2|] eqn:E2; [| |discriminate].
  - intros [= <- <-]. exact (Hf r1 w1 _ w2 (Hm w r1 w1 Hw E) E2).
  - intros [= <- <-]. exact (Hf r1 w1 _ w2 (Hm w r1 w1 Hw E) E2).
Qed.

Section RunEnds.
Variable tick : positive.
Variable cfg : TestConfig.

Lemma _execute_after_tasks_ends f : ends (_execute_after_tasks tick cfg f).
Proof.
  intros w.
  destruct (Z_le_gt_dec 1 (pool_size (lookup (after_concurrent cfg) 1)
                                     (lookup (max_thread_pool_size cfg) 0)))
    as [Hpool|Hpool].
  - destruct (_execute_after_tasks_runs tick cfg f w Hpool) as (w' & E & _). eauto.
  - unfold _execute_after_tasks, ThreadPoolExecutor.
    destruct (pool_size _ _ <=? 0) eqn:E; [|lia]. do 2 eexists. reflexivity.
Qed.

Lemma generate_load_try_always_ends task cb before after_func :
  ends (generate_load_try tick cfg task cb before after_func).
Proof.
  unfold generate_load_try. apply ends_bind.
  - apply safe_ends. destruct before; safe_tac.
  - intros [|]; [apply safe_ends, safe_ret|].
    apply ends_bind; [apply safe_ends, safe_run_test_type|intros test_result].
    apply ends_bind.
    + destruct after_func; [apply _execute_after_tasks_ends|apply safe_ends, safe_ret].
    + intros _. apply safe_ends. safe_tac.
Qed.

(** The [finally] block returns, with the running flag lowered. *)
Lemma generate_load_finally_ends after_func w :
  exists w', generate_load_finally tick cfg after_func w = Done (Ok tt) w'
             /\ _running w' = false.
Proof.
  destruct after_func as [f|].
  - rewrite generate_load_finally_cases. destruct (negb _ && negb _).
    + destruct (_execute_after_tasks_ends f w) as (r & w' & ->).
      eexists. split; reflexivity.
    + eexists. split; reflexivity.
  - eexists. split; reflexivity.
Qed.

Lemma generate_load_ends task cb before after_func w :
  exists r w',
    generate_load tick cfg task cb before after_func w = Done r w'
    /\ _running w' = false.
Proof.
  unfold generate_load, mbind, M_bind, modify, try_finally.
  destruct (generate_load_try_always_ends task cb before after_func (start_run w))
    as (r & w1 & ->).
  destruct (generate_load_finally_ends after_func w1) as (w2 & -> & H).
  exists r, w2. split; [reflexivity|exact H].
Qed.
End RunEnds.

(** X17. Whatever the configuration and the user functions are,
    [generate_load] ends, by returning or by raising, and the generator is
    not running afterwards: [is_running()] returns [False]. *)
Theorem X17_generate_load_ends_not_running :
  forall (tick : positive) (cfg : TestConfig) (task : UserFn)
         (cb : option Callback) (before after_func : option UserFn) (w : World),
    exists r w',
      generate_load tick cfg task cb before after_func w = Done r w'
      /\ is_running w' = Done (Ok false) w'.
Proof.
  intros tick cfg task cb before after_func w.
  destruct (generate_load_ends tick cfg task cb before after_func w)
    as (r & w' & E & H).
  exists r, w'. split; [exact E|]. unfold is_running, gets.
  do 2 f_equal. exact H.
Qed.

(** *** The counter of completed tasks *)

Lemma counting_completed_is c : counting (completed_is c).
Proof. intros w w' (H & _ & _). unfold completed_is. congruence. Qed.

Lemma counting_completed_are_results : counting completed_are_results.
Proof. intros w w' (H1 & H2 & _). unfold completed_are_results. congruence. Qed.

Lemma counting_results_are_errors slack : counting (results_are_errors slack).
Proof.
  intros w w' (_ & H2 & H3 & _). unfold results_are_errors. rewrite H2. lia.
Qed.

Ltac completed_leaf :=
  let w := fresh "w" in
  let H := fresh "H" in
  intros w H; unfold completed_is, completed_are_results, len in *;
  destruct w; cbn in *;
  rewrite ?length_app in *; cbn in *; lia.

Section Completed.
Variable tick : positive.
Variable cfg : TestConfig.

Lemma _generate_qps_load_completed c task cb :
  inv (completed_is c) (_generate_qps_load tick cfg task cb).
Proof.
  unfold _generate_qps_load.
  inv_tac (counting_completed_is c) completed_leaf.
Qed.

Lemma _generate_concurrent_load_counts task cb :
  hoare (completed_is 0) (_generate_concurrent_load tick cfg task cb)
        (profile_post counts_match).
Proof.
  unfold _generate_concurrent_load. cbv zeta.
  apply (hoare_bind _ _ _ (fun _ => completed_are_results));
    [apply hoare_modify; completed_leaf|intros _|intros; exact Logic.I].
  do 6 peel counting_completed_are_results completed_leaf.
  intros w r w' H [= <- <-]. exact H.
Qed.

Lemma _generate_tps_load_counts task cb :
  hoare (completed_is 0) (_generate_tps_load tick cfg task cb) (profile_post counts_match).
Proof.
  unfold _generate_tps_load. cbv zeta.
  peel (counting_completed_is 0) completed_leaf.
  apply (hoare_bind _ _ _ (fun _ => completed_are_results));
    [apply hoare_modify; completed_leaf|intros _|intros; exact Logic.I].
  do 8 peel counting_completed_are_results completed_leaf.
  intros w r w' H [= <- <-]. exact H.
Qed.

(** The end of the ramp-up and stability functions: the counter is read
    before the results are, with nothing in between that changes them. *)
Lemma report_counts {A} (rest : Z -> M A) (Q : Res A -> World -> Prop) :
  (forall c, hoare (fun w => completed_is c w /\ completed_are_results w)
                   (rest c) Q) ->
  hoare completed_are_results (completed_tasks ← gets _completed_tasks; rest completed_tasks) Q.
Proof.
  intros H w r w' Hw E. unfold mbind, M_bind, gets in E.
  exact (H _ w r w' (conj eq_refl Hw) E).
Qed.

Lemma counting_both c :
  counting (fun w => completed_is c w /\ completed_are_results w).
Proof.
  intros w w' Hq [H1 H2]. split.
  - exact (counting_completed_is c w w' Hq H1).
  - exact (counting_completed_are_results w w' Hq H2).
Qed.

Lemma _generate_stability_load_counts task cb :
  hoare (completed_is 0) (_generate_stability_load tick cfg task cb)
        (profile_post counts_match).
Proof.
  unfold _generate_stability_load. cbv zeta.
  do 3 peel (counting_completed_is 0) completed_leaf.
  apply (hoare_bind _ _ _ (fun _ => completed_are_results));
    [apply hoare_modify; completed_leaf|intros _|intros; exact Logic.I].
  do 10 peel counting_completed_are_results completed_leaf.
  apply report_counts. intros c.
  do 4 peel (counting_both c) completed_leaf.
  intros w r w' [H1 H2] [= <- <-]. unfold completed_is in H1.
  unfold completed_are_results in H2. cbn. congruence.
Qed.

Lemma _generate_ramp_up_load_counts task cb :
  hoare (completed_is 0) (_generate_ramp_up_load tick cfg task cb)
        (profile_post counts_match).
Proof.
  unfold _generate_ramp_up_load. cbv zeta.
  do 2 peel (counting_completed_is 0) completed_leaf.
  apply (hoare_bind _ _ _ (fun _ => completed_are_results));
    [apply hoare_modify; completed_leaf|intros _|intros; exact Logic.I].
  do 8 peel counting_completed_are_results completed_leaf.
  apply report_counts. intros c.
  do 4 peel (counting_both c) completed_leaf.
  intros w r w' [H1 H2] [= <- <-]. unfold completed_is in H1.
  unfold completed_are_results in H2. cbn. congruence.
Qed.
End Completed.

(** *** From the load function to the run *)

Lemma inv_const (C : Prop) {A} (m : M A) : inv (fun _ => C) m.
Proof. intros w r w' H _. exact H. Qed.

Section RunLifts.
Variable tick : positive.
Variable cfg : TestConfig.

(** What holds of the dictionary of the load function holds of the one
    [generate_load] returns. *)
Lemma generate_load_try_lifts (C : ProfileResult -> Prop) task cb before after_func :
  hoare (completed_is 0) (run_test_type tick cfg task cb) (profile_post C) ->
  hoare (completed_is 0) (generate_load_try tick cfg task cb before after_func)
        (run_post C).
Proof.
  intros Hrun. unfold generate_load_try.
  apply hoare_bind_inv; [|intros stopped|intros; exact Logic.I].
  { destruct before; inv_tac (counting_completed_is 0) completed_leaf. }
  destruct stopped; [apply hoare_ret; intros w _; exact Logic.I|].
  apply (hoare_bind _ _ _ (profile_post C));
    [exact Hrun|intros test_result|intros; exact Logic.I].
  change (profile_post C (Ok test_result)) with (fun _ : World => C test_result).
  do 5 (apply hoare_bind_inv; [apply inv_const|intros ?|intros; exact Logic.I]).
  apply hoare_ret. intros w H. exact H.
Qed.

Lemma generate_load_lifts (C : ProfileResult -> Prop) task cb before after_func :
  hoare (completed_is 0) (run_test_type tick cfg task cb) (profile_post C) ->
  hoare (fun _ => True) (generate_load tick cfg task cb before after_func)
        (run_post C).
Proof.
  intros Hrun. unfold generate_load.
  apply (hoare_bind _ _ _ (fun _ => completed_is 0));
    [apply hoare_modify; intros w _; reflexivity|intros _|intros; exact Logic.I].
  apply (hoare_try_finally _ _ _ (run_post C));
    [apply generate_load_try_lifts, Hrun|].
  intros r w [[]|e] w' H _; [exact H|exact Logic.I].
Qed.

Lemma _generate_qps_load_counts task cb :
  hoare (completed_is 0) (_generate_qps_load tick cfg task cb)
        (profile_post counts_match).
Proof.
  unfold _generate_qps_load. cbv zeta.
  do 12 peel (counting_completed_is 0) completed_leaf.
  apply hoare_ret. intros w _. exact Logic.I.
Qed.

Lemma run_test_type_counts task cb :
  hoare (completed_is 0) (run_test_type tick cfg task cb)
        (profile_post counts_match).
Proof.
  unfold run_test_type. cbv zeta.
  destruct (String.eqb _ "concurrent"); [apply _generate_concurrent_load_counts|].
  destruct (String.eqb _ "tps"); [apply _generate_tps_load_counts|].
  destruct (String.eqb _ "qps"); [apply _generate_qps_load_counts|].
  destruct (String.eqb _ "ramp_up"); [apply _generate_ramp_up_load_counts|].
  destruct (String.eqb _ "stability"); [apply _generate_stability_load_counts|].
  apply hoare_raise. intros w _. exact Logic.I.
Qed.

Lemma run_test_type_qps task cb :
  test_type cfg = Some "qps" ->
  run_test_type tick cfg task cb = _generate_qps_load tick cfg task cb.
Proof. intros H. unfold run_test_type, lookup. rewrite H. reflexivity. Qed.

(** A QPS run leaves the counter of completed tasks at 0. *)
Lemma generate_load_qps_completed task cb before after_func :
  test_type cfg = Some "qps" ->
  hoare (fun _ => True) (generate_load tick cfg task cb before after_func)
        (fun _ => completed_is 0).
Proof.
  intros Hqps. unfold generate_load.
  apply (hoare_bind _ _ _ (fun _ => completed_is 0));
    [apply hoare_modify; intros w _; reflexivity|intros _|intros e w H; exact H].
  apply (hoare_try_finally _ _ _ (fun _ => completed_is 0)).
  - unfold generate_load_try. rewrite (run_test_type_qps task cb Hqps).
    change (inv (completed_is 0)
              (stopped ←
                 match before with
                 | Some before_func =>
                     _execute_before_tasks tick cfg before_func;; gets _stop_event
                 | None => mret false
                 end;
               if (stopped : bool) then mret Stopped else
               test_result ← _generate_qps_load tick cfg task cb;
               match after_func with
               | Some after_func => _execute_after_tasks tick cfg after_func
               | None => mret tt
               end;;
               before_tasks_completed ← gets _before_tasks_completed;
               after_tasks_completed ← gets _after_tasks_completed;
               before_results ← gets _before_results;
               after_results ← gets _after_results;
               mret (Completed test_result before_tasks_completed
                       after_tasks_completed before_results after_results))).
    apply inv_bind; [destruct before; inv_tac (counting_completed_is 0) completed_leaf|].
    intros [|]; [apply inv_ret|].
    apply inv_bind; [apply _generate_qps_load_completed|intros test_result].
    destruct after_func; inv_tac (counting_completed_is 0) completed_leaf.
  - intros r w r' w' H E.
    pose proof (keeps_inv _ _ (counting_completed_is 0)
                  (quiet_generate_load_finally tick cfg after_func) w r' w' H E) as H'.
    destruct r'; exact H'.
Qed.
End RunLifts.

(** X18. In the dictionary [generate_load] returns for a concurrent, TPS,
    ramp-up or stability run, ['completed_tasks'] is the number of entries
    of ['results'], whatever the tasks, the callbacks and the before and
    after functions did: every result is counted once, also one that is an
    error entry. *)
Theorem X18_completed_tasks_count_the_results :
  forall (tick : positive) (cfg : TestConfig) (task : UserFn)
         (cb : option Callback) (before after_func : option UserFn) (w : World),
    exists r w',
      generate_load tick cfg task cb before after_func w = Done r w'
      /\ match r with
         | Ok (Completed test_result _ _ _ _) => counts_match test_result
         | _ => True
         end.
Proof.
  intros tick cfg task cb before after_func w.
  destruct (generate_load_ends tick cfg task cb before after_func w)
    as (r & w' & E & _).
  exists r, w'. split; [exact E|].
  exact (generate_load_lifts tick cfg counts_match task cb before after_func
           (run_test_type_counts tick cfg task cb) w r w' Logic.I E).
Qed.

(** X19. A QPS run counts no task as completed: after [generate_load] with
    the test type ['qps'], however it ended and however many requests it
    made, [get_completed_tasks()] returns 0. *)
Theorem X19_qps_run_completes_no_task :
  forall (tick : positive) (cfg : TestConfig) (task : UserFn)
         (cb : option Callback) (before after_func : option UserFn) (w : World),
    test_type cfg = Some "qps" ->
    exists r w',
      generate_load tick cfg task cb before after_func w = Done r w'
      /\ get_completed_tasks w' = Done (Ok 0) w'.
Proof.
  intros tick cfg task cb before after_func w Hqps.
  destruct (generate_load_ends tick cfg task cb before after_func w)
    as (r & w' & E & _).
  exists r, w'. split; [exact E|].
  pose proof (generate_load_qps_completed tick cfg task cb before after_func Hqps
                w r w' Logic.I E) as H.
  unfold get_completed_tasks, gets. do 2 f_equal. exact H.
Qed.

Lemma X19_qps_run_completes_no_task_witness :
  exists r w',
    generate_load 10 qps_config always_succeeds None None None (__init__ 0)
    = Done r w'
    /\ get_completed_tasks w' = Done (Ok 0) w'.
Proof.
  apply (X19_qps_run_completes_no_task 10 qps_config always_succeeds None None None
           (__init__ 0)).
  reflexivity.
Defined.

(** *** The QPS run *)

Ltac errors_leaf :=
  let w := fresh "w" in
  let H := fresh "H" in
  intros w H; unfold results_are_errors, len in *;
  destruct w; cbn in *;
  rewrite ?length_app in *; cbn in *; lia.

Section Qps.
Variable tick : positive.
Variable cfg : TestConfig.
Hypothesis no_threshold : consecutive_error_threshold cfg = None.

(** Without a [consecutive_error_threshold], the threshold check does not
    return [False]. *)
Lemma _check_error_threshold_not_False (I : World -> Prop) :
  counting I ->
  hoare I (_check_error_threshold cfg) (fun r w => I w /\ r <> Ok false).
Proof.
  intros HI w r w' Hw E. split.
  - exact (keeps_inv I _ HI (quiet__check_error_threshold cfg) w r w' Hw E).
  - destruct (_check_error_threshold_cases cfg w) as (r0 & E0 & H0).
    rewrite E0 in E. injection E as <- _. intros ->.
    destruct H0 as (_ & [x Hx]). congruence.
Qed.

(** One request of the QPS loop: appended to the results, and then
    counted as an error unless the loop is left. *)
Lemma qps_request (cb : option Callback) (stop_on_error : bool) (future : Future) :
  hoare (results_are_errors 0)
    (try_except
       (timeout ← attr cfg "timeout" (timeout cfg);
        result ← future_result_timeout future timeout;
        modify (fun w => set_results (results w ++ [result]) w);;
        run_callback tick cb result;;
        b ← _check_error_threshold cfg;
        if (b : bool) then modify (set_stop_event true);; mret Break
        else mret Next)
       (fun e =>
          let key := if isinstance e "concurrent.futures.TimeoutError"
                     then "timeout" else "other_error" in
          modify (fun w => set_error_count (_error_count w + 1) w);;
          modify (fun w =>
            set_error_statistics (bump key (_error_statistics w)) w);;
          modify (fun w =>
            set_error_statistics (bump "total_errors" (_error_statistics w)) w);;
          if stop_on_error then modify (set_stop_event true);; mret Break
          else mret (Next (R := unit))))
    (flow_post (results_are_errors 0) (results_are_errors 1)).
Proof.
  apply (hoare_try_except _ _ _
           (fun r w => match r with
                       | Ok Next => False
                       | _ => results_are_errors 1 w
                       end)).
  - apply (hoare_bind _ _ _ (fun _ => results_are_errors 0)).
    + apply (keeps_inv _ _ (counting_results_are_errors 0)). auto with quiet.
    + intros timeout.
      apply (hoare_bind _ _ _ (fun _ => results_are_errors 0)).
      * apply (keeps_inv _ _ (counting_results_are_errors 0)). auto with quiet.
      * intros result.
        apply (hoare_bind _ _ _ (fun _ => results_are_errors 1));
          [apply hoare_modify; errors_leaf| |intros e w H; exact H].
        intros _.
        apply (hoare_bind _ _ _ (fun _ => results_are_errors 1));
          [apply (keeps_inv _ _ (counting_results_are_errors 1)); auto with quiet
          | |intros e w H; exact H].
        intros _.
        apply (hoare_bind _ _ _ (fun r w => results_are_errors 1 w /\ r <> Ok false));
          [apply _check_error_threshold_not_False, counting_results_are_errors
          | |intros e w [H _]; exact H].
        intros [|].
        -- apply (hoare_bind _ _ _ (fun _ => results_are_errors 1));
             [apply hoare_modify; intros w [H _]; revert w H; errors_leaf
             |intros _; apply hoare_ret; intros w H; exact H
             |intros e w H; exact H].
        -- intros w r w' [_ H]. now destruct H.
      * intros e w H. revert w H. errors_leaf.
    + intros e w H. revert w H. errors_leaf.
  - intros [| |r] w H; [destruct H|exact H..].
  - intros e. cbv zeta.
    apply (hoare_bind _ _ _ (fun _ => results_are_errors 0));
      [apply hoare_modify; errors_leaf| |intros e' w H; revert w H; errors_leaf].
    intros _.
    apply inv_post.
    + inv_tac (counting_results_are_errors 0) errors_leaf.
    + intros [[| |r]|e'] w H; try exact H; revert w H; errors_leaf.
Qed.

Lemma _generate_qps_load_errors task cb :
  hoare (fun _ => True) (_generate_qps_load tick cfg task cb)
    (profile_post errors_cover_requests).
Proof.
  unfold _generate_qps_load. cbv zeta.
  apply (hoare_bind _ _ _ (fun _ _ => True));
    [intros w r w' _ _; exact Logic.I|intros qps|intros; exact Logic.I].
  apply (hoare_bind _ _ _ (fun _ w => len (results w) = 0));
    [apply hoare_modify; intros w _; reflexivity|intros _|intros; exact Logic.I].
  apply (hoare_bind _ _ _ (fun _ w => len (results w) = 0));
    [|intros start_time|intros; exact Logic.I].
  { intros w r w' H [= <- <-]. exact H. }
  apply (hoare_bind _ _ _ (fun _ w => len (results w) = 0));
    [|intros duration|intros; exact Logic.I].
  { intros w r w' H E.
    destruct (quiet_attr cfg "duration" (Load_generator.duration cfg) w r w' E)
      as (_ & -> & _). exact H. }
  apply (hoare_bind _ _ _ (fun _ => results_are_errors 0));
    [|intros _|intros; exact Logic.I].
  { intros w r w' H [= <- <-]. unfold results_are_errors.
    change (len (results w) <= 0 + 0). lia. }
  peel (counting_results_are_errors 0) errors_leaf.
  apply (hoare_bind _ _ _ (fun _ => results_are_errors 1));
    [|intros _|intros; exact Logic.I].
  { apply hoare_while_until.
    - apply (keeps_inv _ _ (counting_results_are_errors 0)). auto with quiet.
    - apply hoare_bind_inv;
        [apply (keeps_inv _ _ (counting_results_are_errors 0)); auto with quiet
        |intros loop_start_time|intros e w H; revert w H; errors_leaf].
      apply hoare_bind_inv;
        [apply (keeps_inv _ _ (counting_results_are_errors 0)); auto with quiet
        |intros future|intros e w H; revert w H; errors_leaf].
      apply (hoare_bind _ _ _
               (flow_post (results_are_errors 0) (results_are_errors 1)));
        [apply qps_request| |intros e w H; exact H].
      intros [| |r].
      + apply inv_post.
        * apply (keeps_inv _ _ (counting_results_are_errors 0)). auto with quiet.
        * intros [[| |r]|e'] w H; try exact H; revert w H; errors_leaf.
      + apply hoare_ret. intros w H. exact H.
      + apply hoare_ret. intros w H. exact H.
    - errors_leaf. }
  peel (counting_results_are_errors 1) errors_leaf.
  intros w r w' H. unfold mbind, M_bind, gets, mret, M_ret, lift.
  destruct (Qltb 0 _); [destruct (pydiv _ _)|]; intros [= <- <-];
    try exact H; exact Logic.I.
Qed.
End Qps.

(** X20. In a QPS run with no [consecutive_error_threshold] configured
    (the runner's configuration has none), the threshold check made after
    each request raises [TypeError] unless it stops the run, and the
    handler counts that as an error of the request: in the dictionary
    [generate_load] returns, [total_requests <= error_count + 1], also
    when every task succeeded. *)
Theorem X20_qps_requests_counted_as_errors :
  forall (tick : positive) (cfg : TestConfig) (task : UserFn)
         (cb : option Callback) (before after_func : option UserFn) (w : World),
    test_type cfg = Some "qps" ->
    consecutive_error_threshold cfg = None ->
    exists r w',
      generate_load tick cfg task cb before after_func w = Done r w'
      /\ match r with
         | Ok (Completed test_result _ _ _ _) => errors_cover_requests test_result
         | _ => True
         end.
Proof.
  intros tick cfg task cb before after_func w Hqps Hnone.
  destruct (generate_load_ends tick cfg task cb before after_func w)
    as (r & w' & E & _).
  exists r, w'. split; [exact E|].
  refine (generate_load_lifts tick cfg errors_cover_requests task cb before
            after_func _ w r w' Logic.I E).
  rewrite (run_test_type_qps tick cfg task cb Hqps).
  eapply hoare_weaken;
    [apply (_generate_qps_load_errors tick cfg Hnone task cb)
    |intros w0 _; exact Logic.I|intros r0 w0 H; exact H].
Qed.

Lemma X20_qps_requests_counted_as_errors_witness :
  exists r w',
    generate_load 10 qps_config always_succeeds None None None (__init__ 0)
    = Done r w'
    /\ match r with
       | Ok (Completed test_result _ _ _ _) => errors_cover_requests test_result
       | _ => True
       end.
Proof.
  apply (X20_qps_requests_counted_as_errors 10 qps_config always_succeeds None None
           None (__init__ 0)); reflexivity.
Defined.

(** *** A before function that fails *)

Section FailingBefore.
Variable tick : positive.
Variable cfg : TestConfig.

Lemma call_before_untouched f w :
  exists w0,
    call_before tick f w = Done (returns (f (before_calls w))) w0
    /\ task_calls w0 = task_calls w
    /\ _before_results w0 = _before_results w
    /\ _before_tasks_completed w0 = _before_tasks_completed w.
Proof.
  unfold call_before. eexists. split; [reflexivity|].
  unfold apply_effect. destruct (calls_stop _); repeat split.
Qed.

(** The retry executor on a before function that raises at every
    invocation returns [None]. *)
Lemma retry_attempts_before_fails f n attempt w :
  (0 <= retry_retry_delay cfg)%Q ->
  always_raises f ->
  exists w',
    retry_attempts cfg (call_before tick f) n attempt w = Done (Ok VNone) w'
    /\ task_calls w' = task_calls w
    /\ _before_results w' = _before_results w
    /\ _before_tasks_completed w' = _before_tasks_completed w.
Proof.
  intros Hd Hf. revert attempt w. induction n as [|n IH]; intros attempt w.
  - exists w. repeat split.
  - rewrite retry_attempts_step.
    destruct (call_before_untouched f w) as (w0 & -> & T0 & R0 & C0).
    destruct (Hf (before_calls w)) as [e ->].
    rewrite retry_handler_cases, (retry_delay_nonneg cfg attempt Hd).
    pose proof (handled_task_calls e w0) as T1.
    destruct (handled_before_frame e w0) as (_ & R1 & C1).
    destruct (retried cfg attempt e).
    + set (w2 := set_now _ (handled e w0)).
      destruct (IH (attempt + 1) w2) as (w' & -> & T2 & R2 & C2).
      exists w'. split; [reflexivity|].
      change (task_calls w2) with (task_calls (handled e w0)) in T2.
      change (_before_results w2) with (_before_results (handled e w0)) in R2.
      change (_before_tasks_completed w2)
        with (_before_tasks_completed (handled e w0)) in C2.
      repeat split; congruence.
    + exists (handled e w0). split; [reflexivity|]. repeat split; congruence.
Qed.

Lemma _execute_before_tasks_fails f w :
  (0 <= retry_retry_delay cfg)%Q ->
  always_raises f ->
  1 <= pool_size (lookup (before_concurrent cfg) 1)
                 (lookup (max_thread_pool_size cfg) 0) ->
  exists w',
    _execute_before_tasks tick cfg f w = Done (Raise (no_get "NoneType")) w'
    /\ task_calls w' = task_calls w
    /\ _before_results w' = _before_results w ++ [VNone]
    /\ _before_tasks_completed w' = _before_tasks_completed w.
Proof.
  intros Hd Hf Hpool. unfold _execute_before_tasks, ThreadPoolExecutor.
  destruct (pool_size _ _ <=? 0) eqn:E; [lia|clear E].
  unfold mbind at 1, M_bind at 1, mret at 1, M_ret at 1.
  unfold mbind at 1, M_bind at 1, submit.
  destruct (call_before_untouched f w) as (w0 & -> & T0 & R0 & C0).
  cbn [for_each]. unfold mbind at 1, M_bind at 1. unfold mbind at 1, M_bind at 1.
  unfold mbind at 1, M_bind at 1. unfold _execute_with_retry.
  set (w1 := set_consecutive_errors 0 (set_consecutive_error_count 0 w0)).
  change ((modify (set_consecutive_error_count 0);;
           modify (set_consecutive_errors 0);;
           retry_attempts cfg (call_before tick f)
             (Z.to_nat (retry_max_retries cfg + 1)) 0) w0)
    with (retry_attempts cfg (call_before tick f)
            (Z.to_nat (retry_max_retries cfg + 1)) 0 w1).
  destruct (retry_attempts_before_fails f (Z.to_nat (retry_max_retries cfg + 1)) 0 w1
              Hd Hf) as (w2 & -> & T2 & R2 & C2).
  change (task_calls w1) with (task_calls w0) in T2.
  change (_before_results w1) with (_before_results w0) in R2.
  change (_before_tasks_completed w1) with (_before_tasks_completed w0) in C2.
  unfold mbind at 1, M_bind at 1, modify.
  eexists. split; [reflexivity|].
  repeat split; cbn; congruence.
Qed.

Lemma _execute_after_tasks_frame f w r w' :
  _execute_after_tasks tick cfg f w = Done r w' ->
  task_calls w' = task_calls w
  /\ _before_results w' = _before_results w
  /\ _before_tasks_completed w' = _before_tasks_completed w.
Proof.
  unfold _execute_after_tasks, ThreadPoolExecutor.
  destruct (pool_size _ _ <=? 0).
  - intros [= <- <-]. repeat split.
  - unfold mbind, M_bind, mret, M_ret, submit, call_after, try_except,
      future_result, lift, modify. cbn [for_each fut_outcome].
    unfold mbind, M_bind, mret, M_ret, try_except, lift, modify.
    destruct (returns (f (after_calls w))) as [v|e]; cbn;
      intros [= <- <-]; unfold apply_effect; destruct (calls_stop _);
      repeat split.
Qed.

Lemma generate_load_finally_frame after_func w :
  exists w',
    generate_load_finally tick cfg after_func w = Done (Ok tt) w'
    /\ task_calls w' = task_calls w
    /\ _before_results w' = _before_results w
    /\ _before_tasks_completed w' = _before_tasks_completed w.
Proof.
  destruct after_func as [f|].
  - rewrite generate_load_finally_cases. destruct (negb _ && negb _).
    + destruct (_execute_after_tasks_ends tick cfg f w) as (r & w' & E).
      rewrite E. destruct (_execute_after_tasks_frame f w r w' E) as (T & R & C).
      eexists. split; [reflexivity|]. repeat split; assumption.
    + eexists. split; [reflexivity|]. repeat split.
  - eexists. split; [reflexivity|]. repeat split.
Qed.
End FailingBefore.

(** X21. A before function that raises at every invocation does not make
    [generate_load] return a stopped run: the retry executor returns [None]
    for it, which the before phase reads as a dictionary, so that
    [generate_load] raises [AttributeError] ('NoneType' object has no
    attribute 'get') in place of the error of the before function.  The
    task function is never invoked, and [None] is the only before result.
    (The retry delay is not negative and the before pool has at least one
    thread.) *)
Theorem X21_failing_before_function_raises_AttributeError :
  forall (tick : positive) (cfg : TestConfig) (task : UserFn)
         (cb : option Callback) (before_func : UserFn)
         (after_func : option UserFn) (w : World),
    always_raises before_func ->
    (0 <= retry_retry_delay cfg)%Q ->
    1 <= pool_size (lookup (before_concurrent cfg) 1)
                   (lookup (max_thread_pool_size cfg) 0) ->
    exists w',
      generate_load tick cfg task cb (Some before_func) after_func w
      = Done (Raise (no_get "NoneType")) w'
      /\ task_calls w' = task_calls w
      /\ _before_results w' = [VNone]
      /\ _before_tasks_completed w' = false.
Proof.
  intros tick cfg task cb before_func after_func w Hf Hd Hpool.
  unfold generate_load. unfold mbind at 1, M_bind at 1, modify, try_finally.
  destruct (_execute_before_tasks_fails tick cfg before_func (start_run w) Hd Hf Hpool)
    as (w1 & E1 & T1 & R1 & C1).
  assert (Etry : generate_load_try tick cfg task cb (Some before_func) after_func
                   (start_run w) = Done (Raise (no_get "NoneType")) w1).
  { unfold generate_load_try. unfold mbind at 1, M_bind at 1.
    unfold mbind at 1, M_bind at 1. rewrite E1. reflexivity. }
  rewrite Etry.
  destruct (generate_load_finally_frame tick cfg after_func w1)
    as (w2 & -> & T2 & R2 & C2).
  exists w2. split; [reflexivity|]. split; [|split].
  - rewrite T2, T1. reflexivity.
  - rewrite R2, R1. reflexivity.
  - rewrite C2, C1. reflexivity.
Qed.

Lemma X21_failing_before_function_raises_AttributeError_witness :
  exists w',
    generate_load 1000 one_retry_config always_succeeds None (Some refused) None
      (__init__ 0)
    = Done (Raise (no_get "NoneType")) w'
    /\ task_calls w' = task_calls (__init__ 0)
    /\ _before_results w' = [VNone]
    /\ _before_tasks_completed w' = false.
Proof.
  apply (X21_failing_before_function_raises_AttributeError 1000 one_retry_config
           always_succeeds None refused None (__init__ 0)).
  - intros n. eexists. reflexivity.
  - discriminate.
  - vm_compute. discriminate.
Defined.


(** X22. The after phase.  With a pool of no thread ([after_concurrent], cut
    down to [max_thread_pool_size], is 0 or less) [_execute_after_tasks]
    raises [ValueError] and does nothing.  Otherwise, whatever the after
    concurrency is, it invokes the after function exactly once, with no
    retry, appends to the after results what the function returned, as it
    is, or [{'success': False, 'error': str(e)}] for the exception it
    raised, and completes the phase; a failure of the after function is not
    recorded as an error. *)
Theorem X22_after_function_runs_once :
  forall (tick : positive) (cfg : TestConfig) (after_func : UserFn) (w : World),
    exists r w',
      _execute_after_tasks tick cfg after_func w = Done r w'
      /\ if pool_size (lookup (after_concurrent cfg) 1)
                      (lookup (max_thread_pool_size cfg) 0) <=? 0
         then r = Raise (ValueError "max_workers must be greater than 0")
              /\ w' = w
         else r = Ok tt
              /\ after_calls w' = S (after_calls w)
              /\ _after_results w'
                 = _after_results w
                   ++ [match returns (after_func (after_calls w)) with
                       | Ok v => v
                       | Raise e => error_result (exc_str e) None
                       end]
              /\ _after_tasks_completed w' = true
              /\ _error_count w' = _error_count w
              /\ _error_statistics w' = _error_statistics w.
Proof.
  intros tick cfg after_func w. unfold _execute_after_tasks, ThreadPoolExecutor.
  destruct (pool_size _ _ <=? 0).
  - do 2 eexists. split; [reflexivity|]. split; reflexivity.
  - unfold mbind, M_bind, mret, M_ret, submit, call_after, try_except,
      future_result, lift, modify. cbn [for_each fut_outcome].
    unfold mbind, M_bind, mret, M_ret, try_except, lift, modify.
    destruct (returns (after_func (after_calls w))) as [v|e]; cbn;
      (do 2 eexists; split; [reflexivity|]);
      unfold apply_effect; destruct (calls_stop _); repeat split.
Qed.

(** *** The analysis of a stability interval *)

Lemma get_success_dict v : is_dict_value v = true -> exists b, get_success v = Ok b.
Proof. destruct v; try discriminate. intros _. now eexists. Qed.

Lemma get_duration_dict v : is_dict_value v = true -> exists d, get_duration v = Ok d.
Proof. destruct v; try discriminate. intros _. now eexists. Qed.

Lemma get_success_not_dict v :
  is_dict_value v = false -> exists ty, get_success v = Raise (no_get ty).
Proof. destruct v; try discriminate; intros _; now eexists. Qed.

Lemma mapM_get_success_raises l :
  forallb is_dict_value l = false -> exists ty, mapM get_success l = Raise (no_get ty).
Proof.
  induction l as [|v l IH]; [discriminate|]. cbn [forallb]. intros H.
  destruct (is_dict_value v) eqn:Ev.
  - destruct (get_success_dict v Ev) as [b Hb]. destruct (IH H) as [ty Hty].
    exists ty. cbn. rewrite Hb. cbn. rewrite Hty. reflexivity.
  - destruct (get_success_not_dict v Ev) as [ty Hty]. exists ty. cbn.
    rewrite Hty. reflexivity.
Qed.

Lemma mapM_length {A B} (f : A -> Res B) l ys : mapM f l = Ok ys -> length ys = length l.
Proof.
  intros H. apply Metrics_extras.mapM_Forall2 in H.
  induction H; cbn; congruence.
Qed.

Lemma filter_length_le {A} (f : A -> bool) l : (length (List.filter f l) <= length l)%nat.
Proof. induction l as [|x l IH]; cbn; [lia|]. destruct (f x); cbn; lia. Qed.

Lemma In_filter_combine {A B} (l : list A) (l' : list B) (f : A * B -> bool) x :
  In x (map fst (List.filter f (combine l l'))) -> In x l.
Proof.
  intros H. apply in_map_iff in H as ([a b] & <- & H).
  apply List.filter_In in H as [H _]. now apply in_combine_l in H.
Qed.

(** An index [int(len(l) * p)] with [0 <= p < 1] is in range. *)
Lemma fraction_index (l : list Q) (p : Q) :
  l <> [] -> (0 <= p)%Q -> (p < 1)%Q ->
  0 <= py_int (inject_Z (len l) * p) < len l.
Proof.
  intros Hl Hp0 Hp1.
  assert (Hn : 0 < len l).
  { unfold len. destruct l; [congruence|]. cbn [length]. lia. }
  assert (HnQ : (0 < inject_Z (len l))%Q).
  { change 0%Q with (inject_Z 0). now rewrite <- Zlt_Qlt. }
  assert (Hx0 : (0 <= inject_Z (len l) * p)%Q) by nra.
  assert (Hx1 : (inject_Z (len l) * p < inject_Z (len l))%Q) by nra.
  split; [now apply py_int_nonneg|].
  rewrite py_int_floor by exact Hx0.
  pose proof (Qfloor_le (inject_Z (len l) * p)) as Hf.
  rewrite Zlt_Qlt. lra.
Qed.

Lemma fraction_index_mono (l : list Q) (p q : Q) :
  (0 <= p)%Q -> (p <= q)%Q ->
  py_int (inject_Z (len l) * p) <= py_int (inject_Z (len l) * q).
Proof.
  intros Hp Hpq.
  assert (HnQ : (0 <= inject_Z (len l))%Q).
  { change 0%Q with (inject_Z 0). rewrite <- Zle_Qle. apply len_nonneg. }
  apply py_int_mono; nra.
Qed.

(** In a sorted list, the element at [int(len * p)] is below the one at
    [int(len * q)] when [p <= q]. *)
Lemma fraction_sorted (l : list Q) (p q : Q) :
  l <> [] -> (0 <= p)%Q -> (p <= q)%Q -> (q < 1)%Q ->
  exists x y,
    py_getitem (py_sorted Metrics_collector.Qleb l)
      (py_int (inject_Z (len (py_sorted Metrics_collector.Qleb l)) * p)) = Ok x
    /\ py_getitem (py_sorted Metrics_collector.Qleb l)
         (py_int (inject_Z (len (py_sorted Metrics_collector.Qleb l)) * q)) = Ok y
    /\ (x <= y)%Q.
Proof.
  intros Hl Hp Hpq Hq.
  set (s := py_sorted Metrics_collector.Qleb l).
  assert (Hs : s <> []).
  { intros E. apply Hl. apply length_zero_iff_nil.
    rewrite <- (Metrics_extras.py_sorted_length Metrics_collector.Qleb l).
    fold s. now rewrite E. }
  assert (Hsorted : StronglySorted (fun x y => Metrics_collector.Qleb x y = true) s).
  { apply py_sorted_sorted; [exact Qleb_total|exact Qleb_trans]. }
  clearbody s.
  assert (Hp1 : (p < 1)%Q) by lra. assert (Hq0 : (0 <= q)%Q) by lra.
  pose proof (fraction_index s p Hs Hp Hp1) as Ip.
  pose proof (fraction_index s q Hs Hq0 Hq) as Iq.
  pose proof (fraction_index_mono s p q Hp Hpq) as Ipq.
  rewrite (py_getitem_in_range s _ 0%Q Ip), (py_getitem_in_range s _ 0%Q Iq).
  do 2 eexists. split; [reflexivity|]. split; [reflexivity|].
  apply Qle_bool_iff.
  apply (sorted_nth_le Metrics_collector.Qleb Qleb_total s 0%Q).
  - exact Hsorted.
  - lia.
  - unfold len in *. lia.
Qed.

Lemma error_rate_bounds (oks : list bool) (n : Z) :
  len oks = n -> 0 < n ->
  exists rate,
    pydiv (inject_Z (len (List.filter negb oks))) (inject_Z n) = Ok rate
    /\ (0 <= rate)%Q /\ (rate <= 1)%Q.
Proof.
  intros Hlen Hn.
  rewrite Metrics_facts.pydiv_ok by (apply Metrics_facts.Qeq_bool_inject_pos; exact Hn).
  eexists. split; [reflexivity|].
  assert (H0 : 0 <= len (List.filter negb oks)) by apply len_nonneg.
  assert (H1 : len (List.filter negb oks) <= n).
  { rewrite <- Hlen. unfold len. pose proof (filter_length_le negb oks). lia. }
  assert (Q0 : (0 <= inject_Z (len (List.filter negb oks)))%Q).
  { change 0%Q with (inject_Z 0). now rewrite <- Zle_Qle. }
  assert (Q1 : (inject_Z (len (List.filter negb oks)) <= inject_Z n)%Q)
    by now rewrite <- Zle_Qle.
  assert (Qn : (0 < inject_Z n)%Q).
  { change 0%Q with (inject_Z 0). now rewrite <- Zlt_Qlt. }
  split.
  - apply Qle_shift_div_l; [exact Qn|]. lra.
  - apply Qle_shift_div_r; [exact Qn|]. lra.
Qed.

(** X23. [_analyze_stability_interval] reads every result as a dict.  On
    results that are all dicts it returns an analysis in which the error
    rate lies between 0 and 1, p50 <= p95 <= p99 and [total_count] is the
    number of results.  As soon as one result is not a dict (such as the
    [None] the retry executor returns for a task that failed) it raises
    [AttributeError]. *)
Theorem X23_stability_interval_analysis :
  forall interval_results : list PyVal,
    if forallb is_dict_value interval_results
    then exists a,
           _analyze_stability_interval interval_results = Ok a
           /\ (0 <= ir_error_rate a)%Q /\ (ir_error_rate a <= 1)%Q
           /\ (ir_p50 a <= ir_p95 a)%Q /\ (ir_p95 a <= ir_p99 a)%Q
           /\ ir_total_count a = len interval_results
    else exists ty,
           _analyze_stability_interval interval_results = Raise (no_get ty).
Proof.
  intros rs. destruct (forallb is_dict_value rs) eqn:Hall.
  - destruct rs as [|v l].
    { eexists. split; [reflexivity|]. cbn. repeat split; lra. }
    assert (Hdict : forall x, In x (v :: l) -> is_dict_value x = true).
    { apply forallb_forall. exact Hall. }
    destruct (Metrics_extras.mapM_ok_in get_success (v :: l)) as [oks Hoks].
    { intros x Hx. apply get_success_dict, Hdict, Hx. }
    destruct (Metrics_extras.mapM_ok_in get_duration
                (map fst (List.filter snd (combine (v :: l) oks)))) as [ds Hds].
    { intros x Hx. apply get_duration_dict, Hdict.
      exact (In_filter_combine (v :: l) oks snd x Hx). }
    assert (Hlen : len oks = len (v :: l)).
    { unfold len. now rewrite (mapM_length _ _ _ Hoks). }
    destruct (error_rate_bounds oks (len (v :: l)) Hlen) as (rate & Hrate & R0 & R1).
    { apply len_cons_pos. }
    destruct ds as [|d ds].
    + eexists. split.
      { unfold _analyze_stability_interval.
        rewrite Hoks. cbn [mbind res_bind]. rewrite Hrate. cbn [mbind res_bind].
        rewrite Hds. cbn [mbind res_bind].
        reflexivity. }
      cbn. repeat split; try assumption; lra.
    + set (durations := d :: ds) in *.
      assert (Hne : durations <> []) by discriminate.
      destruct (fraction_sorted durations (1 # 2) (95 # 100) Hne)
        as (p50 & p95 & E50 & E95 & L1); [lra..|].
      destruct (fraction_sorted durations (95 # 100) (99 # 100) Hne)
        as (p95' & p99 & E95' & E99 & L2); [lra..|].
      assert (p95' = p95) by congruence. subst p95'.
      eexists. split.
      { unfold _analyze_stability_interval.
        rewrite Hoks. cbn [mbind res_bind]. rewrite Hrate. cbn [mbind res_bind].
        rewrite Hds. cbn [mbind res_bind].
        subst durations.
        rewrite (Metrics_facts.pydiv_ok _
                   (inject_Z (len (py_sorted Metrics_collector.Qleb (d :: ds))))).
        2:{ apply Metrics_facts.Qeq_bool_inject_pos.
            rewrite Metrics_extras.len_py_sorted. apply len_cons_pos. }
        cbn [mbind res_bind]. rewrite E50. cbn [mbind res_bind].
        rewrite E95. cbn [mbind res_bind]. rewrite E99. cbn [mbind res_bind].
        reflexivity. }
      cbn [ir_error_rate ir_p50 ir_p95 ir_p99 ir_total_count].
      repeat split; assumption.
  - destruct rs as [|v l]; [discriminate|].
    destruct (mapM_get_success_raises (v :: l) Hall) as [ty Hty].
    exists ty. unfold _analyze_stability_interval. rewrite Hty. reflexivity.
Qed.

(** *** The stability run *)




Section Stability.
Variable tick : positive.
Variable cfg : TestConfig.

End Stability.




(** X28. A [stop()] issued before a run is forgotten: [generate_load]
    clears the stop event and raises the running flag before anything
    else, so the run after a [stop()] is the same, with the same result
    and the same final state, as the run without it. *)
Theorem X28_stop_before_run_is_forgotten :
  forall (tick : positive) (cfg : TestConfig) (task : UserFn)
         (cb : option Callback) (before after_func : option UserFn) (w : World),
    (stop;; generate_load tick cfg task cb before after_func) w
    = generate_load tick cfg task cb before after_func w.
Proof.
  intros tick cfg task cb before after_func w.
  change (try_finally
            (generate_load_try tick cfg task cb before after_func)
            (generate_load_finally tick cfg after_func)
            (start_run (set_running false (set_stop_event true w)))
          = try_finally
              (generate_load_try tick cfg task cb before after_func)
              (generate_load_finally tick cfg after_func)
              (start_run w)).
  reflexivity.
Qed.

(** *** The simulated task of [generate_concurrent_load] *)

Lemma counting_results_succeeded : counting results_succeeded.
Proof. intros w w' (_ & H & _). unfold results_succeeded. now rewrite H. Qed.

Lemma counting_run_succeeded : counting run_succeeded.
Proof.
  intros w w' (_ & H & _ & H'). unfold run_succeeded. now rewrite H, H'.
Qed.

Ltac succeeded_leaf :=
  let w := fresh "w" in
  let H := fresh "H" in
  intros w H;
  unfold run_succeeded, results_succeeded, all_succeeded, futures_succeeded in *;
  destruct w; cbn in *; rewrite ?Forall_app; intuition.

Lemma inv_for_each_Forall {A B} (I : World -> Prop) (P : A -> Prop) (l : list A)
    (body : A -> M (Flow B)) :
  Forall P l -> (forall x, P x -> inv I (body x)) -> inv I (for_each l body).
Proof.
  intros Hl Hb. induction Hl as [|x l Hx Hl IH]; cbn [for_each]; [apply inv_ret|].
  apply inv_bind; [apply Hb, Hx|]. intros [| |r]; [exact IH|apply inv_ret..].
Qed.

Section Simulated.
Variable tick : positive.
Variable centi : positive.
Variable stops : nat -> bool.
Variable cfg : TestConfig.
Hypothesis retries : 0 <= retry_max_retries cfg.

Lemma simulated_execution w :
  exists w',
    _execute_with_retry cfg (call_task tick (simulated_task centi stops)) w
    = Done (Ok success_dict) w'.
Proof.
  unfold _execute_with_retry.
  set (w1 := set_consecutive_errors 0 (set_consecutive_error_count 0 w)).
  change ((modify (set_consecutive_error_count 0);;
           modify (set_consecutive_errors 0);;
           retry_attempts cfg (call_task tick (simulated_task centi stops))
             (Z.to_nat (retry_max_retries cfg + 1)) 0) w)
    with (retry_attempts cfg (call_task tick (simulated_task centi stops))
            (Z.to_nat (retry_max_retries cfg + 1)) 0 w1).
  destruct (Z.to_nat (retry_max_retries cfg + 1)) as [|n] eqn:En; [lia|].
  rewrite retry_attempts_step. unfold call_task, simulated_task. cbn.
  eexists. reflexivity.
Qed.

Lemma submit_simulated :
  hoare run_succeeded
    (submit (_execute_with_retry cfg (call_task tick (simulated_task centi stops))))
    (fun r w => run_succeeded w
                /\ exists f, r = Ok f /\ fut_outcome f = Ok success_dict).
Proof.
  intros w r w' HI E.
  assert (Hq : quiet w w').
  { apply (quiet_submit _ (quiet__execute_with_retry cfg _ (quiet_call_task tick _))
             w r w' E). }
  split; [exact (counting_run_succeeded w w' Hq HI)|].
  unfold submit in E. destruct (simulated_execution w) as [w1 E1].
  rewrite E1 in E. injection E as <- _. eexists. split; reflexivity.
Qed.

(** A task is submitted. *)
Lemma submit_one :
  inv run_succeeded
    (stopped ← gets _stop_event;
     if (stopped : bool) then mret Break else
     future ← submit (_execute_with_retry cfg
                        (call_task tick (simulated_task centi stops)));
     modify (fun w => set_futures (futures w ++ [future]) w);;
     mret (Next (R := unit))).
Proof.
  apply inv_bind; [apply inv_gets|]. intros [|]; [apply inv_ret|].
  apply (hoare_bind _ _ _
           (fun r w => run_succeeded w
                       /\ exists f, r = Ok f /\ fut_outcome f = Ok success_dict));
    [apply submit_simulated| |intros e w [H _]; exact H].
  intros future w r w' [HI (f & [= <-] & Hf)] E.
  unfold mbind, M_bind, modify, mret, M_ret in E. injection E as <- <-.
  destruct HI as [H1 H2]. split; [exact H1|].
  unfold futures_succeeded in *.
  change (Forall (fun f => fut_outcome f = Ok success_dict) (futures w ++ [future])).
  apply Forall_app. split; [exact H2|]. constructor; [exact Hf|constructor].
Qed.

(** The result of a future is processed. *)
Lemma process_one (stop_on_error : bool) (future : Future) :
  fut_outcome future = Ok success_dict ->
  inv run_succeeded
    (stopped ← gets _stop_event;
     if (stopped : bool) then mret Break else
     try_except
       (result ← future_result future;
        modify (fun w => set_results (results w ++ [result]) w);;
        count_completed;;
        run_callback tick None result;;
        ok ← lift (get_success result);
        if negb ok then
          error_type ← lift (get_error_type result);
          error_message ← lift (get_error result);
          _record_error error_type error_message;;
          b ← must_stop cfg stop_on_error;
          if (b : bool) then stop;; mret Break else mret Next
        else mret Next)
       (fun e =>
          let error_result := error_result (exc_str e) (Some "unexpected_error") in
          modify (fun w => set_results (results w ++ [error_result]) w);;
          count_completed;;
          _record_error "unexpected_error" (exc_str e);;
          run_callback tick None error_result;;
          b ← must_stop cfg stop_on_error;
          if (b : bool) then stop;; mret Break else mret (Next (R := unit)))).
Proof.
  intros Hf. apply inv_bind; [apply inv_gets|]. intros [|]; [apply inv_ret|].
  apply (hoare_try_except _ _ _
           (fun r w => match r with
                       | Ok _ => run_succeeded w
                       | Raise _ => False
                       end)).
  - apply (hoare_bind _ _ _ (fun r w => run_succeeded w /\ r = Ok success_dict)).
    + intros w r w' HI E. unfold future_result, lift in E. rewrite Hf in E.
      injection E as <- <-. now split.
    + intros result w r w' [HI [= ->]] E.
      cbv beta iota delta [mbind M_bind modify count_completed run_callback mret
        M_ret lift get_success success_dict default negb] in E.
      injection E as <- <-. destruct HI as [H1 H2]. split.
      * unfold all_succeeded in *.
        change (Forall (fun v => v = success_dict) (results w ++ [success_dict])).
        apply Forall_app. split; [exact H1|]. repeat constructor.
      * exact H2.
    + intros e w [_ H]. discriminate H.
  - intros a w H. exact H.
  - intros e. apply hoare_false.
Qed.

Variable concurrent_users : Z.
Variable duration : Q.
Hypothesis users_set : Load_generator.concurrent_users cfg = Some concurrent_users.
Hypothesis duration_set : Load_generator.duration cfg = Some duration.

Lemma _generate_concurrent_load_simulated :
  hoare (fun _ => True)
    (_generate_concurrent_load tick cfg (simulated_task centi stops) None)
    (profile_post (simulated_run concurrent_users duration)).
Proof.
  unfold _generate_concurrent_load, lookup. rewrite users_set, duration_set.
  cbn [default]. cbv zeta.
  apply (hoare_bind _ _ _ (fun _ => results_succeeded));
    [apply hoare_modify; intros w _; constructor|intros _|intros; exact Logic.I].
  do 3 peel counting_results_succeeded succeeded_leaf.
  apply hoare_bind_inv; [|intros ?|intros; exact Logic.I].
  { apply inv_while_until.
    - apply (keeps_inv _ _ counting_results_succeeded). auto with quiet.
    - apply inv_bind;
        [apply (keeps_inv _ _ counting_results_succeeded); auto with quiet|].
      intros t. destruct (Qle_bool _ 0); [apply inv_ret|].
      apply inv_bind;
        [apply (keeps_inv _ _ counting_results_succeeded); auto with quiet|].
      intros _.
      apply (hoare_bind _ _ _ (fun _ => run_succeeded));
        [apply hoare_modify; intros w H; split; [exact H|constructor]
        | |intros e w [H _]; exact H].
      intros _.
      apply (hoare_weaken run_succeeded run_succeeded _ _ (fun _ => run_succeeded));
        [|intros w H; exact H|intros r w [H _]; exact H].
      apply inv_bind; [apply inv_for_each; intros i; apply submit_one|intros _].
      apply (hoare_bind _ _ _
               (fun r w => run_succeeded w
                           /\ exists fs, r = Ok fs /\ futures_succeeded fs));
        [| |intros e w [H _]; exact H].
      + intros w r w' HI [= <- <-]. split; [exact HI|].
        eexists. split; [reflexivity|]. exact (proj2 HI).
      + intros fs w r w' [HI (fs' & [= <-] & Hfs)].
        revert w r w' HI. change (inv run_succeeded
          (for_each fs
             (fun future =>
                stopped ← gets _stop_event;
                if (stopped : bool) then mret Break else
                try_except
                  (result ← future_result future;
                   modify (fun w => set_results (results w ++ [result]) w);;
                   count_completed;;
                   run_callback tick None result;;
                   ok ← lift (get_success result);
                   if negb ok then
                     error_type ← lift (get_error_type result);
                     error_message ← lift (get_error result);
                     _record_error error_type error_message;;
                     b ← must_stop cfg (default false (stop_on_error cfg));
                     if (b : bool) then stop;; mret Break else mret Next
                   else mret Next)
                  (fun e =>
                     let error_result :=
                       error_result (exc_str e) (Some "unexpected_error") in
                     modify (fun w => set_results (results w ++ [error_result]) w);;
                     count_completed;;
                     _record_error "unexpected_error" (exc_str e);;
                     run_callback tick None error_result;;
                     b ← must_stop cfg (default false (stop_on_error cfg));
                     if (b : bool) then stop;; mret Break
                     else mret (Next (R := unit))));;
           stopped ← gets _stop_event;
           if (stopped : bool) then mret Break else mret (Next (R := unit)))).
        apply inv_bind.
        * apply (inv_for_each_Forall _ _ _ _ Hfs). intros future Hfuture.
          apply process_one, Hfuture.
        * intros _. inv_tac counting_run_succeeded succeeded_leaf. }
  do 2 peel counting_results_succeeded succeeded_leaf.
  intros w r w' H. unfold mbind, M_bind, gets, mret, M_ret. intros [= <- <-].
  split; [reflexivity|]. split; [reflexivity|]. exact H.
Qed.
End Simulated.

(** X29. [generate_concurrent_load] runs no task of the user: it sets the
    test type to ['concurrent'] with the users and the duration it is
    given and runs a task of its own, which sleeps 10 ms and returns
    [{"success": True}].  Hence (with [max_retries >= 0], so that the task
    is attempted) it ends, and the dictionary it returns is that of a
    concurrent run for these users and this duration in which every
    result is [{"success": True}], whatever the before and after functions
    do and whenever the run is stopped. *)
Theorem X29_generate_concurrent_load_runs_a_simulated_task :
  forall (centi : positive) (stops : nat -> bool) (cfg : TestConfig)
         (concurrent_users : Z) (duration : Q)
         (before after_func : option UserFn) (w : World),
    0 <= retry_max_retries cfg ->
    exists r w',
      generate_concurrent_load centi stops cfg concurrent_users duration
        before after_func w = Done r w'
      /\ match r with
         | Ok (Completed test_result _ _ _ _) =>
             simulated_run concurrent_users duration test_result
         | _ => True
         end.
Proof.
  intros centi stops cfg users duration before after_func w Hretry.
  unfold generate_concurrent_load.
  set (cfg' := with_concurrent users duration cfg).
  destruct (generate_load_ends (100 * centi) cfg' (simulated_task centi stops) None
              before after_func w) as (r & w' & E & _).
  exists r, w'. split; [exact E|].
  refine (generate_load_lifts (100 * centi) cfg' (simulated_run users duration)
            (simulated_task centi stops) None before after_func _ w r w' Logic.I E).
  assert (Hrun : run_test_type (100 * centi) cfg' (simulated_task centi stops) None
                 = _generate_concurrent_load (100 * centi) cfg'
                     (simulated_task centi stops) None) by reflexivity.
  rewrite Hrun.
  eapply hoare_weaken;
    [apply (_generate_concurrent_load_simulated (100 * centi) centi stops cfg'
              Hretry users duration eq_refl eq_refl)
    |intros w0 _; exact Logic.I|intros r0 w0 H; exact H].
Qed.

Lemma X29_generate_concurrent_load_runs_a_simulated_task_witness :
  exists r w',
    generate_concurrent_load 1 (fun _ => false) concurrent_config 2 1 None None
      (__init__ 0) = Done r w'
    /\ match r with
       | Ok (Completed test_result _ _ _ _) => simulated_run 2 1 test_result
       | _ => True
       end.
Proof.
  apply (X29_generate_concurrent_load_runs_a_simulated_task 1 (fun _ => false)
           concurrent_config 2 1 None None (__init__ 0)).
  vm_compute. discriminate.
Defined.

End Load_extras.

(** ** The runner: the configuration it builds, and [run] *)

Module Runner_extras.
Import Performance_runner Runner_properties.

Lemma built_default : built default_config.
Proof.
  unfold built, default_config. cbn -[thresholds_ok].
  split; [now left|]. do 3 (split; [lia|]). do 2 (split; [reflexivity|]).
  split; [|repeat split].
  unfold thresholds_ok.
  split; [|split]; intros v H; vm_compute in H; injection H as <-;
    try split; discriminate.
Qed.

Lemma Qlt_bool_false x y : Qlt_bool x y = false -> (y <= x)%Q.
Proof. unfold Qlt_bool. intros H. apply negb_false_iff in H. now apply Qle_bool_iff. Qed.

Lemma Qle_bool_false x y : Qle_bool x y = false -> (y < x)%Q.
Proof.
  intros H. destruct (Qlt_le_dec y x) as [L|L]; [exact L|].
  apply Qle_bool_iff in L. congruence.
Qed.

(** What a call of [stability] that returns leaves. *)
Lemma stability_accepts d u i th c c' :
  stability d u i th c = (Ok tt, c') ->
  (0 < d)%Q /\ (0 < i)%Q
  /\ thresholds_ok (th ∪ c_stability_threshold c)
  /\ c' = set_stability_threshold (th ∪ c_stability_threshold c) (half_stability d u i c).
Proof.
  unfold stability, reject, assign, accept.
  destruct (Qle_bool d 0) eqn:Ed; [discriminate|].
  destruct (u <=? 0); [discriminate|].
  destruct (Qle_bool i 0) eqn:Ei; [discriminate|].
  cbv zeta.
  change (c_stability_threshold
            (set_stability_check_interval i
               (set_concurrent_users u
                  (set_stability_duration d (set_test_type "stability" c)))))
    with (c_stability_threshold c) || (destruct c; cbn [c_stability_threshold
      set_stability_check_interval set_concurrent_users set_stability_duration
      set_test_type]).
  all: set (tc := th ∪ _).
  all: destruct (tc !! "error_rate") as [v1|] eqn:E1;
    [destruct (Qlt_bool v1 0 || Qlt_bool 1 v1) eqn:B1; [discriminate|]|];
    (destruct (tc !! "response_time_p95") as [v2|] eqn:E2;
     [destruct (Qlt_bool v2 0) eqn:B2; [discriminate|]|]);
    (destruct (tc !! "response_time_p99") as [v3|] eqn:E3;
     [destruct (Qlt_bool v3 0) eqn:B3; [discriminate|]|]);
    intros [= <-];
    (split; [now apply Qle_bool_false|]);
    (split; [now apply Qle_bool_false|]);
    (split; [|reflexivity]);
    unfold thresholds_ok; rewrite E1, E2, E3;
    (split; [|split]); intros v0 Hv; try discriminate; injection Hv as <-;
    try (apply orb_false_iff in B1 as [B1 B1']; split);
    now apply Qlt_bool_false.
Qed.

Ltac built_now :=
  match goal with
  | H : built ?c |- built _ =>
      destruct c; unfold built in *; cbn in *; intuition (auto with zarith)
  end.

Lemma built_configure call c : built c -> built (configure call c).2.
Proof.
  intros H. destruct call; cbn [configure];
    unfold test_type, duration, concurrent, concurrent_users, ramp_up, target_tps,
      tps, target_qps, qps, timeout, think_time, stop_on_error, ramp_up_steps,
      ramp_up_time, collect_metrics, set_before_concurrent, set_after_concurrent,
      set_max_thread_pool_size, reject, assign, accept;
    try (repeat match goal with
                | |- context [if ?b then _ else _] => destruct b eqn:?
                end; cbn [snd]; try exact H; built_now; fail).
  - (* test_type *)
    destruct (negb _) eqn:E; cbn [snd]; [exact H|].
    apply negb_false_iff, existsb_exists in E as (x & Hx & Ex).
    apply String.eqb_eq in Ex. subst x.
    destruct c; unfold built in *; cbn in *. intuition.
  - (* stability *)
    destruct (stability duration0 concurrent_users0 check_interval thresholds c)
      as [[[]|e] c'] eqn:E.
    + apply stability_accepts in E as (Hd & Hi & Hth & ->). cbn [snd].
      unfold half_stability. destruct c; unfold built in *; cbn in *.
      intuition.
    + cbn [snd]. revert E. unfold stability, reject, assign, accept.
      repeat match goal with
             | |- context [if ?b then _ else _] => destruct b eqn:?
             end; intros [= _ <-]; try exact H.
      all: destruct c; unfold built in *; cbn in *; intuition;
        solve [now apply Qle_bool_false].
Qed.

Lemma built_chain calls c : built c -> built (chain calls c).2.
Proof.
  revert c. induction calls as [|call calls IH]; intros c H; [exact H|].
  cbn [chain]. pose proof (built_configure call c H) as H'.
  destruct (configure call c) as [[[]|e] c']; [apply IH; exact H'|exact H'].
Qed.

Lemma pool_size_ge_1 wanted mx :
  1 <= wanted -> 1 <= mx -> 1 <= Load_generator.pool_size wanted mx.
Proof. intros H1 H2. unfold Load_generator.pool_size. destruct (0 <? mx); lia. Qed.

(** X25. Whatever configuring methods are called on a new runner, with
    whatever arguments, and whether or not one of the calls raises, the
    configuration of the runner keeps: a test type among the five the load
    generator knows; before and after concurrencies and a maximal pool size
    of at least 1, so that the pools of the before and after phases have at
    least one thread; a positive stability duration and check interval;
    stability thresholds within their ranges (error rate within 0..1,
    response times not negative); and [max_retries = 0] with no error
    threshold and no error rate threshold, which no method of the runner
    sets. *)
Theorem X25_runner_configuration_invariants :
  forall calls : list Configure,
    let c := (chain calls default_config).2 in
    let cfg := as_load_config c in
    built c
    /\ 1 <= Load_generator.pool_size
              (Load_generator.lookup (Load_generator.before_concurrent cfg) 1)
              (Load_generator.lookup (Load_generator.max_thread_pool_size cfg) 0)
    /\ 1 <= Load_generator.pool_size
              (Load_generator.lookup (Load_generator.after_concurrent cfg) 1)
              (Load_generator.lookup (Load_generator.max_thread_pool_size cfg) 0)
    /\ Load_generator.retry_max_retries cfg = 0.
Proof.
  intros calls c cfg.
  assert (H : built c) by apply built_chain, built_default.
  split; [exact H|].
  destruct H as (_ & Hb & Ha & Hm & _ & _ & _ & Hr & _).
  split; [|split].
  - apply pool_size_ge_1; assumption.
  - apply pool_size_ge_1; assumption.
  - exact Hr.
Qed.

(** X26. A configuring call that raises raises [ValueError], and leaves the
    configuration as it was, with one exception: [stability], when its
    three basic parameters are valid and it rejects a threshold, has
    already set the test type to ['stability'] and assigned the stability
    duration, the concurrent users and the check interval. *)
Theorem X26_rejected_call_leaves_configuration :
  forall (call : Configure) (c : TestConfig) (e : PyExc),
    (configure call c).1 = Raise e ->
    isinstance e "ValueError" = true
    /\ ((configure call c).2 = c
        \/ exists d u i th,
             call = CallStability d u i th
             /\ (0 < d)%Q /\ 0 < u /\ (0 < i)%Q
             /\ ~ thresholds_ok (th ∪ c_stability_threshold c)
             /\ (configure call c).2 = half_stability d u i c).
Proof.
  intros call c e.
  destruct call as [?|?|? ? ?|?|? ?|?|? ? ? ?|?|? ? ? ?|d0 u0 i0 th0
                   |?|?|?|?|?|?|?|?|?]; cbn [configure];
    unfold test_type, duration, concurrent, concurrent_users, ramp_up, target_tps,
      tps, target_qps, qps, timeout, think_time, stop_on_error, ramp_up_steps,
      ramp_up_time, collect_metrics, set_before_concurrent, set_after_concurrent,
      set_max_thread_pool_size, reject, assign, accept;
    try (repeat match goal with
                | |- context [if ?b then _ else _] => destruct b eqn:?
                end; cbn [fst snd]; intros E;
         first [discriminate E
               |injection E as <-; split; [reflexivity|left; reflexivity]]; fail).
  unfold stability, reject, assign, accept.
  destruct (Qle_bool d0 0) eqn:Ed;
    [cbn; intros [= <-]; split; [reflexivity|left; reflexivity]|].
  destruct (u0 <=? 0) eqn:Eu;
    [cbn; intros [= <-]; split; [reflexivity|left; reflexivity]|].
  destruct (Qle_bool i0 0) eqn:Ei;
    [cbn; intros [= <-]; split; [reflexivity|left; reflexivity]|].
  cbv zeta.
  assert (Hth : c_stability_threshold
                  (set_stability_check_interval i0
                     (set_concurrent_users u0
                        (set_stability_duration d0
                           (set_test_type "stability" c))))
                = c_stability_threshold c) by (destruct c; reflexivity).
  rewrite Hth. set (tc := th0 ∪ c_stability_threshold c).
  assert (Hhalf : ~ thresholds_ok tc ->
            exists d u i th,
              CallStability d0 u0 i0 th0
              = CallStability d u i th
              /\ (0 < d)%Q /\ 0 < u /\ (0 < i)%Q
              /\ ~ thresholds_ok (th ∪ c_stability_threshold c)
              /\ half_stability d0 u0 i0 c
                 = half_stability d u i c).
  { intros Hbad. exists d0, u0, i0, th0.
    split; [reflexivity|]. split; [now apply Qle_bool_false|].
    split; [apply Z.leb_gt in Eu; lia|]. split; [now apply Qle_bool_false|].
    split; [exact Hbad|reflexivity]. }
  destruct (tc !! "error_rate") as [v1|] eqn:E1;
    [destruct (Qlt_bool v1 0 || Qlt_bool 1 v1) eqn:B1|].
  - cbn. intros [= <-]. split; [reflexivity|]. right. apply Hhalf.
    intros (H & _ & _). destruct (H v1 E1) as [H0 H1].
    apply orb_true_iff in B1 as [B1|B1]; unfold Qlt_bool in B1;
      apply negb_true_iff in B1.
    + apply Qle_bool_iff in H0. congruence.
    + apply Qle_bool_iff in H1. congruence.
  - destruct (tc !! "response_time_p95") as [v2|] eqn:E2;
      [destruct (Qlt_bool v2 0) eqn:B2|].
    + cbn. intros [= <-]. split; [reflexivity|]. right. apply Hhalf.
      intros (_ & H & _). specialize (H v2 E2).
      unfold Qlt_bool in B2. apply negb_true_iff in B2.
      apply Qle_bool_iff in H. congruence.
    + destruct (tc !! "response_time_p99") as [v3|] eqn:E3;
        [destruct (Qlt_bool v3 0) eqn:B3|]; [|discriminate..].
      cbn. intros [= <-]. split; [reflexivity|]. right. apply Hhalf.
      intros (_ & _ & H). specialize (H v3 E3).
      unfold Qlt_bool in B3. apply negb_true_iff in B3.
      apply Qle_bool_iff in H. congruence.
    + destruct (tc !! "response_time_p99") as [v3|] eqn:E3;
        [destruct (Qlt_bool v3 0) eqn:B3|]; [|discriminate..].
      cbn. intros [= <-]. split; [reflexivity|]. right. apply Hhalf.
      intros (_ & _ & H). specialize (H v3 E3).
      unfold Qlt_bool in B3. apply negb_true_iff in B3.
      apply Qle_bool_iff in H. congruence.
  - destruct (tc !! "response_time_p95") as [v2|] eqn:E2;
      [destruct (Qlt_bool v2 0) eqn:B2|].
    + cbn. intros [= <-]. split; [reflexivity|]. right. apply Hhalf.
      intros (_ & H & _). specialize (H v2 E2).
      unfold Qlt_bool in B2. apply negb_true_iff in B2.
      apply Qle_bool_iff in H. congruence.
    + destruct (tc !! "response_time_p99") as [v3|] eqn:E3;
        [destruct (Qlt_bool v3 0) eqn:B3|]; [|discriminate..].
      cbn. intros [= <-]. split; [reflexivity|]. right. apply Hhalf.
      intros (_ & _ & H). specialize (H v3 E3).
      unfold Qlt_bool in B3. apply negb_true_iff in B3.
      apply Qle_bool_iff in H. congruence.
    + destruct (tc !! "response_time_p99") as [v3|] eqn:E3;
        [destruct (Qlt_bool v3 0) eqn:B3|]; [|discriminate..].
      cbn. intros [= <-]. split; [reflexivity|]. right. apply Hhalf.
      intros (_ & _ & H). specialize (H v3 E3).
      unfold Qlt_bool in B3. apply negb_true_iff in B3.
      apply Qle_bool_iff in H. congruence.
Qed.

Lemma X26_rejected_call_leaves_configuration_witness :
  isinstance (ValueError "错误率阈值必须在0到1之间") "ValueError" = true
  /\ ((configure bad_stability default_config).2 = default_config
      \/ exists d u i th,
           bad_stability = CallStability d u i th
           /\ (0 < d)%Q /\ 0 < u /\ (0 < i)%Q
           /\ ~ thresholds_ok (th ∪ c_stability_threshold default_config)
           /\ (configure bad_stability default_config).2
              = half_stability d u i default_config).
Proof.
  apply (X26_rejected_call_leaves_configuration bad_stability default_config
           (ValueError "错误率阈值必须在0到1之间")).
  vm_compute. reflexivity.
Defined.

Section RunRaises.
Variable Results : Type.
Variable Report : Type.
Variable load_and_calculate : Runner Results Report -> Res Results * Runner Results Report.
Variable make_report :
  Results -> Runner Results Report -> Res Report * Runner Results Report.

(** None of the five calls of the load generator binds its arguments: the
    method raises [TypeError] and leaves the runner as it is. *)
Lemma dispatch_raises_TypeError (r : Runner Results Report) :
  exists e,
    (if String.eqb (c_test_type (r_test_config r)) "ramp_up"
     then _run_ramp_up_test load_and_calculate r
     else if String.eqb (c_test_type (r_test_config r)) "tps"
     then _run_tps_test load_and_calculate r
     else if String.eqb (c_test_type (r_test_config r)) "qps"
     then _run_qps_test load_and_calculate r
     else if String.eqb (c_test_type (r_test_config r)) "stability"
     then _run_stability_test load_and_calculate r
     else _run_concurrent_test load_and_calculate r) = (Raise e, r)
    /\ isinstance e "TypeError" = true.
Proof.
  destruct (String.eqb _ "ramp_up"); [eexists; split; reflexivity|].
  destruct (String.eqb _ "tps"); [eexists; split; reflexivity|].
  destruct (String.eqb _ "qps"); [eexists; split; reflexivity|].
  destruct (String.eqb _ "stability"); eexists; split; reflexivity.
Qed.

Lemma run_test_raises_TypeError (r : Runner Results Report) :
  exists e,
    run_test load_and_calculate make_report r = (Raise e, with_running true r)
    /\ isinstance e "TypeError" = true.
Proof.
  unfold run_test.
  destruct (dispatch_raises_TypeError (with_running true r)) as (e & He & HT).
  cbv zeta. rewrite He. now exists e.
Qed.
End RunRaises.

(** X27. [run] never returns a result.  When [_test_case] was never
    assigned (neither [test_function] nor [test_case] was called) it raises
    [AttributeError], whether or not an adapter was given.  Otherwise, with
    nothing to run, it raises the [ValueError] that asks for one of
    [api_call], [test_function] and [test_case]; and with something to run
    it raises [TypeError] for every test type, because each of the five
    [_run_..._test] methods calls the load generator with keyword arguments
    that [generate_load] and [generate_concurrent_load] do not have.  The
    runner is not running afterwards and has neither results nor a report
    generator assigned; when [run] got past its first check (there is an
    adapter, a test function or a test case) the runner holds a new
    metrics collector and a new load generator, and otherwise it is as it
    was. *)
Theorem X27_run_never_returns :
  forall (Results Report : Type)
         (load_and_calculate :
            Runner Results Report -> Res Results * Runner Results Report)
         (make_report :
            Results -> Runner Results Report -> Res Report * Runner Results Report)
         (now : Q) (r : Runner Results Report),
    r_running r = false ->
    exists e,
      run load_and_calculate make_report now r
      = (Raise e, if has_subject r then equipped now r else r)
      /\ match r_test_case r with
         | None => e = no_test_case
         | Some test_case =>
             if r_api_adapter r || r_test_func r || test_case
             then isinstance e "TypeError" = true
             else e = ValueError "必须设置api_call、test_function或test_case"
         end.
Proof.
  intros Results Report load_and_calculate make_report now
    [c adapter func tc collector generator report results running] Hrun.
  cbn in Hrun. subst running. unfold run, get_test_case, has_subject, equipped.
  cbn [r_api_adapter r_test_func r_test_case r_test_config r_running
       r_metrics_collector r_load_generator r_report_generator r_results
       with_metrics_collector with_load_generator].
  set (r1 := mkRunner c adapter func tc (Some (Metrics_collector.init now))
               (Some (Load_generator.__init__ now)) report results false).
  destruct (run_test_raises_TypeError Results Report load_and_calculate make_report r1)
    as (e & He & HT).
  assert (Hr1 : with_load_generator (Some (Load_generator.__init__ now))
                  (with_metrics_collector (Some (Metrics_collector.init now))
                     (mkRunner c adapter func tc collector generator report results
                        false)) = r1) by reflexivity.
  destruct tc as [[|]|], adapter, func;
    cbn [mbind res_bind negb orb default from_option id];
    rewrite ?Hr1, ?He; eexists; (split; [reflexivity|]);
    first [exact HT|reflexivity].
Qed.

Lemma X27_run_never_returns_witness :
  exists e,
    run (fun r : Runner unit unit => (Ok tt, r)) (fun _ r => (Ok tt, r)) 0
      (test_function new_runner)
    = (Raise e,
       if has_subject (test_function (@new_runner unit unit))
       then equipped 0 (test_function new_runner)
       else test_function new_runner)
    /\ match r_test_case (test_function (@new_runner unit unit)) with
       | None => e = no_test_case
       | Some test_case =>
           if r_api_adapter (test_function (@new_runner unit unit))
              || r_test_func (test_function (@new_runner unit unit)) || test_case
           then isinstance e "TypeError" = true
           else e = ValueError "必须设置api_call、test_function或test_case"
       end.
Proof.
  apply (X27_run_never_returns unit unit (fun r => (Ok tt, r)) (fun _ r => (Ok tt, r))
           0 (test_function new_runner)).
  reflexivity.
Defined.

End Runner_extras.
